(* ===== verification/_CoqProject ===== *)
-Q . S2P
Prelude.v
Binary64.v
Stations.v
Fare.v
Validation.v
Trip.v
Race.v
JsDate.v
Format.v
Notifications.v
Booking.v
TripViews.v
Chat.v
Auth.v
Routing.v
Reviews.v
BookingViews.v
TripWidgets.v
Admin.v
Messaging.v
Profile.v
Monitoring.v
TripForm.v
BookingScreens.v
TripScreens.v
Maps.v
Pages.v
Forms.v
Share.v
FirebaseUtils.v
AuthForms.v
Layout.v
SearchPages.v
