(* ===== verification/Prelude.v ===== *)
(** * A verification development for the CoTaxiage ride-sharing application

    CoTaxiage ([src/src]) is a React single-page application on a hosted
    document store: users search routes between Paris stations and the
    two airports, book rides, create shared taxi trips that others join,
    chat, rate drivers, and receive notifications.  All state lives in
    the store's collections ([trips], [bookings], [users], [reviews],
    [chats], [messages], [notifications]) and in three client stores
    (zustand); the components are event handlers that validate their
    input with early returns, write documents, and subscribe to
    snapshots.  This development models those handlers as Rocq functions
    (state passing, [result] for early returns, a list of toasts and an
    optional navigation for their effects), the document store as stdpp
    finite maps, and the places where the code interleaves asynchronous
    steps as step relations.

    ** Files, in dependency order

    - [Prelude.v] (this file): the [result] type with its [when]/[let?]
      notations, toasts and [Effects], the JavaScript built-ins the code
      calls ([toLowerCase], [includes], [parseInt], [trim], [endsWith], [startsWith],
      [arrayUnion], percent-encoding and [decodeURIComponent] with its
      UTF-8 check), splitting a character list ([break_at], [split_on]),
      [effects_app] for effects in sequence, hint databases [cotax]/[cotax_rw], [rtc_preserves]
      and the periodic sweep used by the calendar proofs.
    - [Binary64.v]: rounding to the nearest double ([round_double]) on
      exact rationals, and which rationals are doubles ([binary64]).
    - [Stations.v]: [data/stations.ts], the catalog and [find_station].
    - [Fare.v]: [utils/fareCalculator.ts]; [calculateFare] refines the
      specification's rate table, [calculatePerPersonFare] is ceiling
      division; how handlers turn catalog stations into locations; the
      bank test agrees with JavaScript's on every double.
    - [Validation.v]: [utils/validation.ts] (routes, passengers, payment
      details) and how the fare relates to route validity.
    - [Trip.v]: [types/trip.ts], [hooks/useJoinTrip.ts] (the join checks
      and the update the store applies), [hooks/useCreateTrip.ts]; the
      trip invariant and serialised joins as a step relation.
    - [Race.v]: joins interleaved between check and write; overbooking
      and its bound.
    - [JsDate.v]: ECMAScript's [Date] (day numbers, civil dates,
      [getMonth]/[setMonth] with a time-zone offset) and
      [validateDateTime], the booking window.
    - [Format.v]: the library formatters the screens call,
      [Number.prototype.toFixed(2)] and date-fns' [format(d, 'PPp')] in
      the [fr] and [en-US] locales (which throws on an Invalid Date),
      [toLocaleDateString] and [toISOString], with the read-back of the
      printed amounts.
    - [Notifications.v]: [stores/notificationStore.ts],
      [hooks/useNotifications.ts], the list, the bell, notification
      constructors; the unread counter as an invariant of a step relation.
    - [Booking.v]: the booking store, [SearchForm], [BookingForm],
      [RideSelection], the booking and payment steps and [useBooking];
      the statuses the [bookings] collection can hold.
    - [TripViews.v]: [useTrip] and [TripDetails] (the join path that
      runs, refined to [useJoinTrip]'s), [useTrips], [useUserTrips], the
      trip cards, lists and [CreateTripForm].
    - [Chat.v]: the chat store and subscriptions, [createChat],
      [sendMessage] serial and interleaved (its [lastMessage] is stamped
      with the server's time of the update).
    - [Auth.v]: [AuthContext] and the [users] documents (set, merge and
      update writes), login and registration handlers, Google sign-in
      interleaved with the auth observer, the settings panel, the profile
      page and header (a stored time is read back as a [Timestamp], not a
      [Date]), [AdminGuard].
    - [Routing.v]: [App]'s routes with React Router's matching, a
      target's way there ([parsePath], the browser's URL parser,
      [decodePath]), the descendant routes of [BookingPage] and
      [BookingFlow], guards, the navigation targets of the components and
      [Navbar].
    - [Reviews.v]: [ReviewForm], [DriverRating] (handlers and
      renders), the [reviews] collection, [useReviews] and [ReviewList].
    - [BookingViews.v]: [useBookings] and [BookingHistory], the chats
      created by [ConfirmationStep] and [BookingConfirmation],
      [PaymentForm] over the payment provider's answers, [PopularRoutes].
    - [TripWidgets.v]: JavaScript objects built by spreading (keys in
      insertion order, [undefined] values kept), [AdvancedTripSearch],
      [TripSearch], [TripFilters], [TripSorting], [TripList],
      [useParticipants] and [ParticipantsList].
    - [Admin.v]: the admin bootstrap ([AdminPage], [CreateAdminButton],
      [DatabaseInitializer] and [initializeFirestore], [InitializeButton]
      and [initializeCollections], [initializeAdmin],
      [createAdminAccount]) in a state, toast and exception monad over
      the collections and the provider's accounts.
    - [Messaging.v]: what the chat lists, windows and message lists of
      [components/chat/] and [components/messaging/] render, [useChats]'
      query, and the panels of [ChatButton] and [MessagingCenter] as
      state machines.
    - [Profile.v]: [ProfileTabs], the settings panel's render and
      [ProfilePage] as a state machine over navigations, sign-ins and
      tab clicks.
    - [Monitoring.v]: the health check and [SystemStatus] (whose
      authentication probe replaces the session), the error tracker
      with its arrays in a heap, the navigation timings.
    - [TripForm.v]: [CreateTripForm]'s inputs and render (the stations
      each select offers), in [Module CreateTripForm].

    - [BookingScreens.v]: what [BookingStep], [PaymentStep],
      [ConfirmationStep], [BookingConfirmation] and [PaymentForm] render,
      and the payment page as a step relation over its fetch, its
      failure, the card inputs, the submit and other writers.
    - [TripScreens.v]: the text [TripDetails], [TripCard] and
      [UserTripList] print for a trip (names, dates, passengers and
      per-person prices).
    - [Maps.v]: [useStations] over the [stations] collection and
      [initializeTaxiStations]; [InteractiveMap] as a step relation under
      the map library's [maxBounds] contract, [StationMarker], [MapView],
      [TripMap] and [BookingMap].
    - [Forms.v]: [BookingForm]'s render: the passenger select, the
      date-time input (shown through [toISOString], read back through
      [new Date]) and the estimate.
    - [Pages.v]: [HomePage]'s button, [CreateTripPage]'s render-time
      redirect and [TripDetailsPage]'s parameter check.
    - [Share.v]: [utils/social-share.ts]: [shareTrip] over the browser's
      answers, [encodeURIComponent], the URL standard's query parser
      that reads the Twitter fallback back, [TripDetails.handleShare],
      and [shareTrip] composed with [useJoinTrip]'s share gate.
    - [FirebaseUtils.v]: [utils/firebase.ts] over the SDK's
      [Timestamp.toDate], whose [seconds * 1000 + nanoseconds / 1e6] is
      computed in binary64 ([Binary64.round_double]) before [new Date]
      truncates, and [Timestamp.fromMillis].
    - [AuthForms.v]: [LoginForm] and [RegisterForm] as one asynchronous
      submit form ([Section SubmitForm]): the inputs' value sanitization
      and constraint validation, the handler split at its [await] with
      the request in flight, the button; refined to [Auth.loginSubmit].
    - [Layout.v]: [Layout] (bar, page, toaster), [App]'s [Suspense]
      over the lazily loaded pages, [LoginPage], [RegisterPage],
      [NoTripsFound].
    - [SearchPages.v]: [useTrips]' listener as events (snapshots, its
      failure, a failed query), [TripsPage]'s render over it, and
      [TripSearch]'s render and inputs.

    ** What the theorems show

    Invariants of step relations by rule induction: the trip invariant
    under serialised joins, the unread counter, booking statuses, the
    ratings stored, the last message of a chat, and a Google sign-in's
    profile.  Races as explicit interleavings: concurrent joins overbook
    a trip (bounded by the joins in flight), duplicate joins desync the
    counter, out-of-order [sendMessage] writes leave the older message
    as the chat's last one, stamped as the newest, and the auth
    observer's merge can erase a first profile.
    Refinements: [calculateFare] against the rate table, the page's join
    against [useJoinTrip]'s, the login form against its handler.  Round
    trips: civil dates and day numbers, built paths, and route
    parameters through [navigate] and the URL parser (for ids without an
    escape to decode; [?], [#], [%41] and [..] are shown not to).  Errors and divergences: the first
    failing check of each handler, a refused join announced as a
    success, card checks skipped, unreachable routes and dead links,
    admin access by e-mail suffix, settings reset on save, chats no
    one else can see, the per-person share charged as the payment (a
    fractional number of cents), a profile header that never shows the
    join date, a
    "Clear filters" button shown with no filter set, an admin setup
    that a failed write blocks for good, a database initializer that can
    never run, seed trips that break the trip invariant or price an
    invalid route, a chat panel that cannot return to its list and one
    that throws when a chat is opened, a profile page that keeps showing
    the previous profile, a health check that signs the admin out.
    Screens: the payment page shows the fare [BookingStep] recorded and
    spins for ever without a booking id or user, its card fields stay
    short digit strings, the booking screens throw exactly on a missing
    or invalid date, "My trips" prints another per-person price than the
    trip page, the map can never select an airport, [useStations] lists
    the seeded ranks of a district, the trip page always has its id,
    and [BookingForm]'s date input moves the booking by the time-zone
    offset at each edit.  Sharing and stored times: the Twitter
    fallback's query reads back as exactly the share text and the trip
    URL, the share gate of a join refuses only when a Web Share sheet is
    rejected, a stored timestamp reads back within one millisecond
    (binary64 can round it up), and every whole-millisecond [Date] of
    the years 1 to 9999 survives a store and a read.  Forms and pages:
    the login form, split at its [await], has exactly the effects of
    its handler on the submitted fields and starts one sign-in at a
    time on fields the browser and the schema accept; the trips page
    stays on its error once its listener has failed; the rating forms'
    "select a rating" prompt can never show.

    ** Bounds and fuel

    One definition uses fuel: [Fmt.digits_rev], the decimal printer,
    runs [N.size n + 1] steps, enough since each step divides by 10 and
    [n < 2 ^ N.size n] ([Fmt.decimal_read] proves the digits read back
    as [n]).  Every other recursion is structural.  Money and times are
    [Z]; the code's numbers are doubles.  Sums and products of small
    integers are exact in binary64 and are computed on [Z].  The
    fractions the code computes are rounded as binary64 rounds them
    ([Binary64.round_double], proved to stay between the floor and the
    ceiling of the exact value below [2 ^ 53]): [RideSelection]'s
    per-person share, [PaymentForm]'s amount in cents and
    [Timestamp.toDate]'s millisecond sum.  Two places keep the exact
    value, with a proof of why that is the code's answer: the bank test
    compares a latitude with the exact 48.8566, which on every double
    is JavaScript's comparison with the literal's double
    ([isLeftBank_binary64]); [UserTripList]'s [fare / currentPassengers]
    is printed by [toFixed(2)] from the exact quotient, which differs
    from printing the double only when the exact value is a tie, and is
    proved within half a cent of it.  The
    calendar facts are proved for all times by a 400-year periodicity
    argument ([periodic_sweep]): a check over one cycle of 146097 days,
    evaluated by the kernel, covers every date.

    ** Not modelled

    The hosted services themselves (authentication, the store's security
    rules, the payment provider, popups and redirects): their answers are
    inputs of the handlers.  The map library: only its [maxBounds]
    contract (the visible area stays inside the bounds) is assumed, as
    the guard of a marker click.  Rendering details (class names, icons,
    the CSS layout of the pages), [console] logging (which the build's
    [drop_console] strips anyway) and the build configuration
    ([vite.config.ts]).  [components/AuthGuard],
    [components/common/LoadingSpinner] and [lib/firebase] are imported but
    not in the sources; AuthGuard's decision is a parameter.  Strings are
    byte strings (JavaScript counts UTF-16 units; only ASCII inputs
    behave identically); [zod]'s e-mail check is a parameter.  The
    sources do not pin React Router's version; routing follows 6.30
    (optional segments need 6.5 or later), and a navigation target with
    an empty or relative path, which no component uses, is not
    resolved against the current location. *)

From Stdlib Require Export ZArith QArith Qround Lia.
From stdpp Require Export base list gmap strings.
From stdpp Require Import sorting.

(** ** Results of fallible handlers

    The application's handlers validate their input with a sequence of
    early returns ([if (bad) { toast.error(..); return ...; }]).  We model
    such a handler as a function into [result A E]: [Ok a] when the handler
    goes through, [Err e] with the error that stopped it. *)

Inductive result (A E : Type) : Type :=
  | Ok (a : A)
  | Err (e : E).
Arguments Ok {A E} a.
Arguments Err {A E} e.

Declare Scope cotax_scope.
Delimit Scope cotax_scope with cotax.

Notation "'when' c 'fail' e ; k" := (if c then Err e else k)
  (at level 10, c at level 100, e at level 100, k at level 200,
   format "'[v' 'when'  c  'fail'  e ; '/' k ']'") : cotax_scope.

Notation "'let?' x ':=' m 'in' k" :=
  (match m with Ok x => k | Err e => Err e end)
  (at level 10, x name, m at level 100, k at level 200,
   format "'[v' 'let?'  x  ':='  m  'in' '/' k ']'") : cotax_scope.

Open Scope cotax_scope.

Definition is_ok {A E} (r : result A E) : bool :=
  match r with Ok _ => true | Err _ => false end.

(** ** User feedback

    [toast.success(msg)] and [toast.error(msg)] are the only output of
    most handlers besides their writes; handlers that need it return the
    toasts they raise, in order. *)

Inductive Toast :=
  | ToastSuccess (msg : string)
  | ToastError (msg : string).

(** What a handler does besides changing state: the toasts it raises,
    in order, and the path it [navigate]s to, if any. *)
Record Effects := mkEffects {
  toasts : list Toast;
  navigateTo : option string
}.

Definition no_effects : Effects := mkEffects [] None.
Definition toast_error (msg : string) : Effects := mkEffects [ToastError msg] None.

(** The effects of two steps in sequence: the toasts of both in order,
    and the later navigation (a later [navigate] replaces an earlier). *)
Definition effects_app (e1 e2 : Effects) : Effects :=
  mkEffects (toasts e1 ++ toasts e2)
    (match navigateTo e2 with Some p => Some p | None => navigateTo e1 end).

(** ** JavaScript built-ins used by the sources

    These are the semantics of the ECMAScript library functions the code
    calls, restricted to what the code needs.  Strings are byte strings;
    [toLowerCase] lowers the ASCII letters, which is all the station ids
    of the catalog contain. *)

Module Js.

Definition lower_ascii (c : Ascii.ascii) : Ascii.ascii :=
  let n := Ascii.nat_of_ascii c in
  if (65 <=? n)%nat && (n <=? 90)%nat then Ascii.ascii_of_nat (n + 32) else c.

(** [String.prototype.toLowerCase] *)
Fixpoint toLowerCase (s : string) : string :=
  match s with
  | EmptyString => EmptyString
  | String c s' => String (lower_ascii c) (toLowerCase s')
  end.

(** [String.prototype.includes]: [sub] occurs in [s] at some position. *)
Fixpoint includes (s sub : string) : bool :=
  String.prefix sub s ||
  match s with
  | EmptyString => false
  | String _ s' => includes s' sub
  end.

(** [Array.prototype.includes] on an array of strings ([===]). *)
Definition array_includes (l : list string) (x : string) : bool :=
  existsb (String.eqb x) l.

(** The [arrayUnion(x)] field transform of the document store: the
    element is appended when it is not already present. *)
Definition arrayUnion (l : list string) (x : string) : list string :=
  if array_includes l x then l else l ++ [x].

Definition is_digit (c : Ascii.ascii) : bool :=
  let n := Ascii.nat_of_ascii c in (48 <=? n)%nat && (n <=? 57)%nat.

(** An ASCII letter or digit. *)
Definition is_alnum (c : Ascii.ascii) : bool :=
  let n := Ascii.nat_of_ascii c in
  (((48 <=? n) && (n <=? 57)) || ((65 <=? n) && (n <=? 90)) || ((97 <=? n) && (n <=? 122)))%nat.

Definition digit_value (c : Ascii.ascii) : Z :=
  Z.of_nat (Ascii.nat_of_ascii c) - 48.

(** [/^\d{n}$/.test(s)]: exactly [n] ASCII digits. *)
Definition test_digits (n : nat) (s : string) : bool :=
  (String.length s =? n)%nat && forallb is_digit (String.list_ascii_of_string s).

(** [s.substring(start, end)] for [start <= end]. *)
Definition substring (s : string) (start stop : nat) : string :=
  String.substring start (stop - start) s.

Fixpoint digit_prefix (s : string) : string :=
  match s with
  | EmptyString => EmptyString
  | String c s' => if is_digit c then String c (digit_prefix s') else EmptyString
  end.

Fixpoint digits_to_Z (s : string) (acc : Z) : Z :=
  match s with
  | EmptyString => acc
  | String c s' => digits_to_Z s' (acc * 10 + digit_value c)
  end.

(** [parseInt(s)] on unsigned decimal input: the value of the leading
    digits, [None] (that is [NaN]) when there are none. *)
Definition parseInt (s : string) : option Z :=
  match digit_prefix s with
  | EmptyString => None
  | p => Some (digits_to_Z p 0)
  end.

(** [String.prototype.trim], on the ASCII white space characters. *)
Definition is_space (c : Ascii.ascii) : bool :=
  let n := Ascii.nat_of_ascii c in (n =? 32)%nat || ((9 <=? n)%nat && (n <=? 13)%nat).

Fixpoint drop_spaces (l : list Ascii.ascii) : list Ascii.ascii :=
  match l with
  | [] => []
  | c :: l' => if is_space c then drop_spaces l' else l
  end.

Definition trim (s : string) : string :=
  String.string_of_list_ascii
    (rev (drop_spaces (rev (drop_spaces (String.list_ascii_of_string s))))).

(** [String.prototype.endsWith(suf)]: [suf] is a suffix of [s]. *)
Definition endsWith (s suf : string) : bool :=
  bool_decide (suffix (String.list_ascii_of_string suf) (String.list_ascii_of_string s)).

(** [String.prototype.startsWith(pre)]: [pre] is a prefix of [s]. *)
Definition startsWith (s pre : string) : bool :=
  bool_decide (prefix (String.list_ascii_of_string pre) (String.list_ascii_of_string s)).

(** ** Percent-encoding and [decodeURIComponent]

    A string is the sequence of the UTF-8 bytes of the JavaScript string
    it stands for. *)

(** The value of a hexadecimal digit, either case. *)
Definition hex_value (c : Ascii.ascii) : option N :=
  let n := Ascii.N_of_ascii c in
  if ((48 <=? n) && (n <=? 57))%N then Some (n - 48)%N
  else if ((65 <=? n) && (n <=? 70))%N then Some (n - 55)%N
  else if ((97 <=? n) && (n <=? 102))%N then Some (n - 87)%N
  else None.

(** An upper-case hexadecimal digit, as percent-encoding writes it. *)
Definition hex_digit (n : N) : Ascii.ascii :=
  Ascii.ascii_of_N (if (n <? 10)%N then n + 48 else n + 55)%N.

(** The character [%]. *)
Definition percent_sign : Ascii.ascii := Ascii.ascii_of_nat 37.

(** The escape [%XY] of a byte. *)
Definition percent_encode (c : Ascii.ascii) : list Ascii.ascii :=
  [percent_sign; hex_digit (Ascii.N_of_ascii c / 16); hex_digit (Ascii.N_of_ascii c mod 16)].

(** The escapes [%XY] replaced by their bytes; [None] when a [%] is not
    followed by two hexadecimal digits. *)
Fixpoint percent_decode (l : list Ascii.ascii) : option (list Ascii.ascii) :=
  match l with
  | [] => Some []
  | c :: l' =>
      if Ascii.eqb c percent_sign then
        match l' with
        | h1 :: h2 :: l'' =>
            match hex_value h1, hex_value h2 with
            | Some a, Some b => cons (Ascii.ascii_of_N (16 * a + b)) <$> percent_decode l''
            | _, _ => None
            end
        | _ => None
        end
      else cons c <$> percent_decode l'
  end.

Definition byte_in (c : Ascii.ascii) (lo hi : N) : bool :=
  let n := Ascii.N_of_ascii c in ((lo <=? n) && (n <=? hi))%N.

(** Well-formed UTF-8 (the Unicode standard's table 3-7): no overlong
    form, no surrogate, nothing above U+10FFFF. *)
Fixpoint utf8_valid (l : list Ascii.ascii) : bool :=
  match l with
  | [] => true
  | c :: r =>
      let n := Ascii.N_of_ascii c in
      if (n <? 128)%N then utf8_valid r else
      match r with
      | [] => false
      | c1 :: r1 =>
          if ((194 <=? n) && (n <=? 223))%N then byte_in c1 128 191 && utf8_valid r1 else
          match r1 with
          | [] => false
          | c2 :: r2 =>
              if (n =? 224)%N then byte_in c1 160 191 && byte_in c2 128 191 && utf8_valid r2
              else if ((225 <=? n) && (n <=? 236) || (238 <=? n) && (n <=? 239))%N then
                byte_in c1 128 191 && byte_in c2 128 191 && utf8_valid r2
              else if (n =? 237)%N then byte_in c1 128 159 && byte_in c2 128 191 && utf8_valid r2
              else
              match r2 with
              | [] => false
              | c3 :: r3 =>
                  let tail_ok := byte_in c2 128 191 && byte_in c3 128 191 && utf8_valid r3 in
                  if (n =? 240)%N then byte_in c1 144 191 && tail_ok
                  else if ((241 <=? n) && (n <=? 243))%N then byte_in c1 128 191 && tail_ok
                  else if (n =? 244)%N then byte_in c1 128 143 && tail_ok
                  else false
              end
          end
      end
  end.

(** [decodeURIComponent(s)]: [None] where it throws a [URIError] (a
    malformed escape, or escaped bytes that are not UTF-8).  The bytes
    outside escapes are those of whole characters of [s], so checking
    the whole result is checking the escapes. *)
Definition decodeURIComponent (s : string) : option string :=
  percent_decode (String.list_ascii_of_string s) ≫= fun b =>
  if utf8_valid b then Some (String.string_of_list_ascii b) else None.

End Js.

(** ** Splitting a character list

    [break_at sep l] is [l] cut at the first [sep] (which is dropped);
    [split_on sep l] cuts [l] at every [sep], as [String.prototype.split]
    does with a one-character separator. *)
Fixpoint break_at (sep : Ascii.ascii) (l : list Ascii.ascii) : list Ascii.ascii * list Ascii.ascii :=
  match l with
  | [] => ([], [])
  | c :: l' => if Ascii.eqb c sep then ([], l') else
      let '(a, b) := break_at sep l' in (c :: a, b)
  end.

Fixpoint split_on (sep : Ascii.ascii) (l : list Ascii.ascii) : list (list Ascii.ascii) :=
  match l with
  | [] => [[]]
  | c :: l' => if Ascii.eqb c sep then [] :: split_on sep l' else
      match split_on sep l' with
      | s :: ss => (c :: s) :: ss
      | [] => [[c]]
      end
  end.

(** ** Generic lemmas shared by the components *)

Create HintDb cotax discriminated.
Create Rewrite HintDb cotax_rw.

Lemma list_ascii_of_string_app (a b : string) :
  String.list_ascii_of_string (a +:+ b) =
  String.list_ascii_of_string a ++ String.list_ascii_of_string b.
Proof. induction a as [|c a IH]; [done |]. cbn. rewrite <- IH. reflexivity. Qed.

Lemma break_at_app_free (sep : Ascii.ascii) (l1 l2 : list Ascii.ascii) :
  ~ In sep l1 -> break_at sep (l1 ++ l2) = (l1 ++ fst (break_at sep l2), snd (break_at sep l2)).
Proof.
  induction l1 as [|c l1 IH]; intros Hn; cbn; [by destruct (break_at sep l2) |].
  destruct (Ascii.eqb_spec c sep) as [->|_]; [cbn in Hn; tauto |].
  rewrite IH by (cbn in Hn; tauto). reflexivity.
Qed.

Lemma break_at_free (sep : Ascii.ascii) (l : list Ascii.ascii) : ~ In sep l -> break_at sep l = (l, []).
Proof. intros H. pose proof (break_at_app_free sep l [] H) as E. by rewrite !app_nil_r in E. Qed.

Lemma break_at_app_sep (sep : Ascii.ascii) (l1 l2 : list Ascii.ascii) :
  ~ In sep l1 -> break_at sep (l1 ++ sep :: l2) = (l1, l2).
Proof.
  intros H. rewrite break_at_app_free by done. cbn. rewrite Ascii.eqb_refl. by rewrite app_nil_r.
Qed.

Lemma split_on_app_sep (sep : Ascii.ascii) (l1 l2 : list Ascii.ascii) :
  ~ In sep l1 -> split_on sep (l1 ++ sep :: l2) = l1 :: split_on sep l2.
Proof.
  induction l1 as [|c l1 IH]; intros Hn; cbn; [by rewrite Ascii.eqb_refl |].
  destruct (Ascii.eqb_spec c sep) as [->|_]; [cbn in Hn; tauto |].
  rewrite IH by (cbn in Hn; tauto). reflexivity.
Qed.

Lemma split_on_free (sep : Ascii.ascii) (l : list Ascii.ascii) : ~ In sep l -> split_on sep l = [l].
Proof.
  induction l as [|c l IH]; intros Hn; cbn; [done |].
  destruct (Ascii.eqb_spec c sep) as [->|_]; [cbn in Hn; tauto |].
  rewrite IH by (cbn in Hn; tauto). reflexivity.
Qed.

Lemma not_in_app (x : Ascii.ascii) (l1 l2 : list Ascii.ascii) : ~ In x l1 -> ~ In x l2 -> ~ In x (l1 ++ l2).
Proof. rewrite in_app_iff. tauto. Qed.

Lemma not_in_cons (x c : Ascii.ascii) (l : list Ascii.ascii) : x <> c -> ~ In x l -> ~ In x (c :: l).
Proof. intros ? ? [|]; auto. Qed.

Lemma endsWith_app (p suf : string) : Js.endsWith (p +:+ suf) suf = true.
Proof.
  unfold Js.endsWith. apply bool_decide_true.
  rewrite list_ascii_of_string_app. by exists (String.list_ascii_of_string p).
Qed.

(** An invariant of a step relation holds all along its runs. *)
Lemma rtc_preserves {A} (R : relation A) (P : A -> Prop) :
  (forall x y, R x y -> P x -> P y) -> forall x y, rtc R x y -> P x -> P y.
Proof. intros Hs x y Hr. induction Hr; eauto. Qed.

(** A query [where(p).orderBy(R)] of a collection returns exactly the
    documents satisfying [p]. *)
Lemma In_sorted_query {K V} `{Countable K} (R : relation (K * V)) `{!RelDecision R}
    (p : K * V -> bool) (m : gmap K V) (kv : K * V) :
  In kv (merge_sort R (List.filter p (map_to_list m))) <-> m !! fst kv = Some (snd kv) /\ p kv = true.
Proof.
  assert (E : forall l, In kv (merge_sort R l) <-> In kv l).
  { intros l. split; apply Permutation_in; [| symmetry]; apply merge_sort_Permutation. }
  rewrite E, filter_In, <- list_elem_of_In. destruct kv. by rewrite elem_of_map_to_list.
Qed.

(** Sortedness carries over through [map] when the map preserves the
    order. *)
Lemma Sorted_map {A B} (f : A -> B) (R1 : relation A) (R2 : relation B) (l : list A) :
  (forall x y, R1 x y -> R2 (f x) (f y)) -> Sorted R1 l -> Sorted R2 (map f l).
Proof.
  intros Hf Hs. induction Hs as [| x l Hs IH Hd]; simpl; constructor; [done |].
  destruct Hd; constructor; auto.
Qed.

Lemma array_includes_In (l : list string) (x : string) :
  Js.array_includes l x = true <-> In x l.
Proof.
  unfold Js.array_includes. rewrite existsb_exists. split.
  - intros (y & Hy & Heq). apply String.eqb_eq in Heq. by subst.
  - intros H. exists x. split; [done | apply String.eqb_refl].
Qed.

Lemma array_includes_false (l : list string) (x : string) :
  Js.array_includes l x = false <-> ~ In x l.
Proof.
  rewrite <- array_includes_In. destruct (Js.array_includes l x); split; congruence.
Qed.

Lemma arrayUnion_In (l : list string) (x y : string) :
  In y (Js.arrayUnion l x) <-> In y l \/ y = x.
Proof.
  unfold Js.arrayUnion. destruct (Js.array_includes l x) eqn:E.
  - apply array_includes_In in E. split; [by left | intros [H | ->]; done].
  - rewrite in_app_iff. simpl. intuition.
Qed.

Lemma arrayUnion_NoDup (l : list string) (x : string) :
  NoDup l -> NoDup (Js.arrayUnion l x).
Proof.
  unfold Js.arrayUnion. destruct (Js.array_includes l x) eqn:E; [done |].
  apply array_includes_false in E. intros Hl.
  apply NoDup_app. repeat split; [done | | apply NoDup_singleton].
  intros y Hy Hy'. apply list_elem_of_singleton in Hy'. subst.
  apply E. by apply list_elem_of_In.
Qed.

Lemma arrayUnion_length (l : list string) (x : string) :
  length (Js.arrayUnion l x) = if Js.array_includes l x then length l else S (length l).
Proof.
  unfold Js.arrayUnion. destruct (Js.array_includes l x); [done |].
  rewrite length_app. simpl. lia.
Qed.

#[export] Hint Resolve arrayUnion_NoDup : cotax.
#[export] Hint Rewrite array_includes_In arrayUnion_In : cotax_rw.

(** Case analysis on the boolean tests of a handler, keeping the equation. *)
Ltac case_test t := let E := fresh "E" in destruct t eqn:E.

Ltac invc H := inversion H; subst; clear H.

(** ** Checking a periodic property by one sweep

    Calendar arithmetic repeats every 400 years.  A property [f] of the
    integers with period [P] holds everywhere once it has been checked on
    [0 .. P-1]; [check_block f p z] checks [z .. z+p-1], splitting [p] by
    its binary digits so that the evaluation stays linear in [p]. *)

Section PeriodicSweep.
Local Open Scope Z_scope.

Fixpoint check_block (f : Z -> bool) (p : positive) (z : Z) : bool :=
  match p with
  | xH => f z
  | xO p' => check_block f p' z && check_block f p' (z + Zpos p')
  | xI p' => f z && check_block f p' (z + 1) && check_block f p' (z + 1 + Zpos p')
  end.

Lemma check_block_spec (f : Z -> bool) (p : positive) (z : Z) :
  check_block f p z = true -> forall x, z <= x < z + Zpos p -> f x = true.
Proof.
  revert z. induction p as [p IH | p IH |]; intros z Hc x Hx; simpl in Hc.
  - apply andb_prop in Hc as [Hc H2]. apply andb_prop in Hc as [H0 H1].
    rewrite Pos2Z.inj_xI in Hx.
    destruct (Z.eq_dec x z) as [-> | Hne]; [done |].
    destruct (Z_lt_dec x (z + 1 + Zpos p)); [apply (IH (z + 1)) | apply (IH (z + 1 + Zpos p))];
      auto; lia.
  - apply andb_prop in Hc as [H0 H1]. rewrite Pos2Z.inj_xO in Hx.
    destruct (Z_lt_dec x (z + Zpos p)); [apply (IH z) | apply (IH (z + Zpos p))]; auto; lia.
  - assert (x = z) as -> by lia. exact Hc.
Qed.

Lemma periodic_shift (f : Z -> bool) (P : Z) :
  (forall x, f (x + P) = f x) -> forall k x, f (x + k * P) = f x.
Proof.
  intros Hp k. induction k as [| k IH | k IH] using Z.peano_ind; intros x.
  - f_equal. lia.
  - rewrite <- (IH x), <- (Hp (x + k * P)). f_equal. lia.
  - rewrite <- (IH x), <- (Hp (x + Z.pred k * P)). f_equal. lia.
Qed.

Lemma periodic_sweep (f : Z -> bool) (P : positive) :
  (forall x, f (x + Zpos P) = f x) -> check_block f P 0 = true -> forall x, f x = true.
Proof.
  intros Hp Hc x.
  rewrite (Z.div_mod x (Zpos P)) by lia. rewrite Z.add_comm, Z.mul_comm.
  rewrite (periodic_shift f (Zpos P) Hp). apply (check_block_spec f P 0 Hc).
  pose proof (Z.mod_pos_bound x (Zpos P)). lia.
Qed.

End PeriodicSweep.
