(* ===== verification/Binary64.v ===== *)
(** * Binary64 arithmetic

    JavaScript numbers are IEEE 754 doubles.  Where the sources compute
    with fractions ([RideSelection]'s [baseFare / totalPassengers],
    [PaymentForm]'s [fare * 100], [Timestamp.toDate]'s millisecond sum)
    each operation's exact result is rounded to the nearest double,
    ties to even.  [round_double] writes that rounding out on exact
    rationals over the finite range (every value of the sources stays
    far below the largest double), and [binary64] says which rationals
    are doubles. *)

From Stdlib Require Import Qabs Lqa Qfield.
From S2P Require Import Prelude.

Open Scope Z_scope.

(** ** Rounding to the nearest double *)

(** The exponent [e] with [2 ^ e <= a < 2 ^ (e + 1)], for [a > 0]. *)
Definition Qexp2 (a : Q) : Z :=
  if Qle_bool 1%Q a then Z.log2 (Qfloor a) else - Z.log2_up (Qceiling (/ a)%Q).

(** The integer nearest to [x], ties to the even one. *)
Definition round_even (x : Q) : Z :=
  let f := Qfloor x in
  match Qcompare (x - inject_Z f)%Q (1 # 2) with
  | Lt => f
  | Gt => f + 1
  | Eq => if Z.even f then f else f + 1
  end.

(** [q] rounded to binary64: 53 significant bits, so the unit of the
    last place is [2 ^ (e - 52)], and never below the subnormals'
    [2 ^ -1074]. *)
Definition round_double (q : Q) : Q :=
  if Qeq_bool q 0%Q then 0%Q else
  let a := Qabs q in
  let u := Z.max (Qexp2 a - 52) (-1074) in
  let m := if 0 <? u then inject_Z (round_even (a / inject_Z (2 ^ u))%Q * 2 ^ u)
           else (inject_Z (round_even (a * inject_Z (2 ^ (- u)))) / inject_Z (2 ^ (- u)))%Q in
  if Qle_bool 0%Q q then m else (- m)%Q.

(** ** Rounding stays between the floor and the ceiling *)

Lemma round_even_between (x : Q) :
  (inject_Z (Qfloor x) <= inject_Z (round_even x) <= inject_Z (Qceiling x))%Q.
Proof.
  pose proof (Qfloor_le x). pose proof (Qle_ceiling x). pose proof (Qle_floor_ceiling x).
  unfold round_even. set (f := Qfloor x) in *.
  assert (Hc : (inject_Z f < x)%Q -> (inject_Z (f + 1) <= inject_Z (Qceiling x))%Q).
  { intros Hx. rewrite <- Zle_Qle. apply Zlt_le_succ. rewrite Zlt_Qlt. lra. }
  assert (Hf : (inject_Z f <= inject_Z (f + 1))%Q) by (rewrite <- Zle_Qle; lia).
  destruct (Qcompare _ _) eqn:E; [apply Qeq_alt in E | apply Qlt_alt in E | apply Qgt_alt in E].
  - destruct (Z.even f); split; try lra; apply Hc; lra.
  - lra.
  - split; [lra | apply Hc; lra].
Qed.

(** Scaling by a positive integer [K], rounding, and scaling back lands
    between the floor and the ceiling. *)
Lemma scaled_between (a : Q) (K : Z) : (0 < K)%Z ->
  (inject_Z (Qfloor a) <= inject_Z (round_even (a * inject_Z K)) / inject_Z K <=
   inject_Z (Qceiling a))%Q.
Proof.
  intros HK. assert (HKq : (0 < inject_Z K)%Q) by (change 0%Q with (inject_Z 0); rewrite <- Zlt_Qlt; lia).
  destruct (round_even_between (a * inject_Z K)) as [H1 H2].
  assert (Hf : (inject_Z (Qfloor a) * inject_Z K <= inject_Z (Qfloor (a * inject_Z K)))%Q).
  { rewrite <- inject_Z_mult, <- Zle_Qle, <- (Qfloor_Z (Qfloor a * K)).
    apply Qfloor_resp_le. rewrite inject_Z_mult.
    apply Qmult_le_compat_r; [apply Qfloor_le | lra]. }
  assert (Hc : (inject_Z (Qceiling (a * inject_Z K)) <= inject_Z (Qceiling a) * inject_Z K)%Q).
  { rewrite <- inject_Z_mult, <- Zle_Qle, <- (Qceiling_Z (Qceiling a * K)).
    apply Qceiling_resp_le. rewrite inject_Z_mult.
    apply Qmult_le_compat_r; [apply Qle_ceiling | lra]. }
  split; [apply Qle_shift_div_l | apply Qle_shift_div_r]; try exact HKq.
  - eapply Qle_trans; [exact Hf | exact H1].
  - eapply Qle_trans; [exact H2 | exact Hc].
Qed.

(** Below [2 ^ 53] the unit of the last place is at most 1. *)
Lemma Qexp2_small (a : Q) : (0 < a)%Q -> (a < inject_Z (2 ^ 53))%Q -> (Qexp2 a - 52 <= 0)%Z.
Proof.
  intros Ha Hb. unfold Qexp2. destruct (Qle_bool 1 a) eqn:E.
  - apply Qle_bool_iff in E.
    assert (1 <= Qfloor a)%Z by (rewrite <- (Qfloor_Z 1); by apply Qfloor_resp_le).
    assert (Qfloor a < 2 ^ 53)%Z by (rewrite Zlt_Qlt; eapply Qle_lt_trans; [apply Qfloor_le | exact Hb]).
    assert (Z.log2 (Qfloor a) < 53)%Z by (apply Z.log2_lt_pow2; lia). lia.
  - pose proof (Z.log2_up_nonneg (Qceiling (/ a))). lia.
Qed.

(** Below [2 ^ 53] rounding to binary64 never crosses an integer: the
    double lies between the floor and the ceiling of the exact value. *)
Lemma round_double_between (q : Q) : (Qabs q < inject_Z (2 ^ 53))%Q ->
  (inject_Z (Qfloor q) <= round_double q <= inject_Z (Qceiling q))%Q.
Proof.
  intros Hq. unfold round_double. destruct (Qeq_bool q 0) eqn:E0.
  { apply Qeq_bool_eq in E0. rewrite E0. split; apply Qle_refl. }
  assert (Hnz : ~ (q == 0)%Q) by (intros E; apply Qeq_bool_iff in E; congruence).
  set (a := Qabs q) in *.
  assert (Ha : (0 < a)%Q).
  { unfold a. destruct (Qlt_le_dec 0 q) as [Hp|Hn]; [rewrite Qabs_pos by lra; lra |].
    rewrite Qabs_neg by lra. destruct (Qle_lt_or_eq _ _ Hn) as [|E]; [lra | by destruct Hnz]. }
  set (u := Z.max (Qexp2 a - 52) (-1074)).
  assert (Hu : (u <= 0)%Z) by (pose proof (Qexp2_small a Ha Hq); lia).
  replace (0 <? u)%Z with false by (symmetry; apply Z.ltb_ge; lia).
  destruct (scaled_between a (2 ^ (- u))) as [H1 H2]; [apply Z.pow_pos_nonneg; lia |].
  set (m := (inject_Z (round_even (a * inject_Z (2 ^ (- u)))) / inject_Z (2 ^ (- u)))%Q) in *.
  destruct (Qle_bool 0 q) eqn:Es.
  - apply Qle_bool_iff in Es. assert (Eq : (a == q)%Q) by (apply Qabs_pos; lra).
    by rewrite <- Eq.
  - assert (q < 0)%Q by (apply Qnot_le_lt; intros ?%Qle_bool_iff; congruence).
    assert (Eq : (a == - q)%Q) by (apply Qabs_neg; lra).
    unfold Qceiling. rewrite <- Eq, inject_Z_opp.
    assert (Ef : Qfloor q = (- Qceiling a)%Z).
    { unfold Qceiling. rewrite Eq, Qopp_involutive. lia. }
    rewrite Ef, inject_Z_opp. lra.
Qed.

(** A value equal to an integer below [2 ^ 53] is a double. *)
Lemma round_double_exact (q : Q) (k : Z) :
  (q == inject_Z k)%Q -> (- 2 ^ 53 < k < 2 ^ 53)%Z -> (round_double q == inject_Z k)%Q.
Proof.
  intros E Hk. destruct (round_double_between q) as [H1 H2].
  - apply Qabs_Qlt_condition. rewrite E, <- inject_Z_opp, <- !Zlt_Qlt. lia.
  - rewrite (Qfloor_comp _ _ E), Qfloor_Z in H1. rewrite (Qceiling_comp _ _ E), Qceiling_Z in H2.
    by apply Qle_antisym.
Qed.

(** The finite doubles (without the exponent's bounds): [m * 2 ^ k] or
    [m / 2 ^ k] for a significand [|m| < 2 ^ 53]. *)
Definition binary64 (q : Q) : Prop :=
  exists m k, (Z.abs m < 2 ^ 53)%Z /\
    ((0 <= k)%Z /\ (q == inject_Z (m * 2 ^ k))%Q \/ (0 < k)%Z /\ (q == inject_Z m / inject_Z (2 ^ k))%Q).

(** A double at least [2 ^ p] is a multiple of [2 ^ (p - 52)]. *)
Lemma binary64_grid (q : Q) (p : Z) :
  (0 <= p <= 52)%Z -> binary64 q -> (inject_Z (2 ^ p) <= q)%Q ->
  exists K, (q * inject_Z (2 ^ (52 - p)) == inject_Z K)%Q.
Proof.
  intros Hp (m & k & Hm & [[Hk E] | [Hk E]]) Hq.
  - exists (m * 2 ^ k * 2 ^ (52 - p))%Z. by rewrite E, inject_Z_mult.
  - assert (H2k : (0 < 2 ^ k)%Z) by (apply Z.pow_pos_nonneg; lia).
    assert (H2kq : ~ (inject_Z (2 ^ k) == 0)%Q).
    { change 0%Q with (inject_Z 0). rewrite inject_Z_injective. lia. }
    destruct (Z_le_gt_dec k (52 - p)) as [Hle | Hgt].
    + exists (m * 2 ^ (52 - p - k))%Z.
      replace (52 - p)%Z with (52 - p - k + k)%Z at 1 by lia.
      rewrite E, Z.pow_add_r, !inject_Z_mult by lia. field. exact H2kq.
    + exfalso. rewrite E in Hq.
      assert (Hq' : (inject_Z (2 ^ p) * inject_Z (2 ^ k) <= inject_Z m)%Q).
      { assert (Ee : (inject_Z m / inject_Z (2 ^ k) * inject_Z (2 ^ k) == inject_Z m)%Q)
          by (field; exact H2kq).
        rewrite <- Ee. apply Qmult_le_compat_r; [exact Hq |]. change 0%Q with (inject_Z 0). rewrite <- Zle_Qle. lia. }
      rewrite <- inject_Z_mult, <- Zle_Qle, <- Z.pow_add_r in Hq' by lia.
      assert (2 ^ 53 <= 2 ^ (p + k))%Z by (apply Z.pow_le_mono_r; lia). lia.
Qed.
