(* ===== verification/Stations.v ===== *)
(** * The station catalog ([src/src/data/stations.ts])

    The static reference data of the application: the Paris train
    stations, the two airports and the taxi ranks of the right and left
    banks, concatenated into [ALL_STATIONS] in the order of the source.
    [find_station] is the lookup [ALL_STATIONS.find(s => s.id === id)]
    that every handler performs.  Latitudes and longitudes are the
    source's decimal literals read as exact rationals. *)

From S2P Require Import Prelude.

Module Station.

(** [type: 'train' | 'airport' | 'taxi'] *)
Inductive StationType := train | airport | taxi.

(** [location: { lat: number; lng: number }] *)
Record Coord := mkCoord { lat : Q; lng : Q }.

(** One entry of the [as const] arrays.  [terminals] is present on the
    airports and [district] on the taxi ranks only. *)
Record t := mk {
  id : string;
  name : string;
  type : StationType;
  location : Coord;
  address : string;
  terminals : list string;
  district : option string
}.

End Station.

#[export] Instance StationType_eq_dec : EqDecision Station.StationType.
Proof. solve_decision. Defined.

Import Station.

Definition TRAIN_STATIONS : list Station.t := [
  mk "gare-de-lyon" "Gare de Lyon" train
     (mkCoord 48.84414213061917 2.3768609563012624)
     "20 Boulevard Diderot, 75012 Paris" [] None;
  mk "gare-austerlitz" "Gare d'Austerlitz" train
     (mkCoord 48.842782176737195 2.366443239664965)
     "85 Quai d'Austerlitz, 75013 Paris" [] None;
  mk "gare-montparnasse" "Gare Montparnasse" train
     (mkCoord 48.841098835106344 2.317884809279539)
     "17 Boulevard de Vaugirard, 75015 Paris" [] None
].

Definition AIRPORTS : list Station.t := [
  mk "cdg" "Charles de Gaulle Airport" airport
     (mkCoord 49.009691 2.547925)
     "95700 Roissy-en-France" ["Terminal 1"; "Terminal 2"; "Terminal 3"] None;
  mk "orly" "Paris Orly Airport" airport
     (mkCoord 48.725278 2.359444)
     "94390 Orly" ["Terminal 1"; "Terminal 2"; "Terminal 3"; "Terminal 4"] None
].

Definition RIGHT_BANK_STATIONS : list Station.t := [
  mk "haussmann-chaussee-antin" "Haussmann / Chaussée d'Antin" taxi
     (mkCoord 48.872837984471694 2.3335711538224615)
     "23 Boulevard Haussmann" [] (Some "right-bank");
  mk "opera" "Opéra" taxi
     (mkCoord 48.86802072101611 2.3336487113910276)
     "30 Avenue de l'Opéra" [] (Some "right-bank")
].

Definition LEFT_BANK_STATIONS : list Station.t := [
  mk "saint-antoine" "Rue Saint Antoine" taxi
     (mkCoord 48.85336439015277 2.3667863819295443)
     "13 Rue Saint-Antoine" [] (Some "left-bank");
  mk "breteuil-hauy" "Place de Breteuil / Valentin Hauy" taxi
     (mkCoord 48.84718552920911 2.3110011131633645)
     "4 Place de Breteuil" [] (Some "left-bank")
].

Definition TAXI_STATIONS : list Station.t := RIGHT_BANK_STATIONS ++ LEFT_BANK_STATIONS.

Definition ALL_STATIONS : list Station.t := TRAIN_STATIONS ++ AIRPORTS ++ TAXI_STATIONS.

(** [ALL_STATIONS.find(s => s.id === stationId)] *)
Definition find_station (stationId : string) : option Station.t :=
  List.find (fun s => String.eqb (Station.id s) stationId) ALL_STATIONS.

(** ** Properties of the catalog *)

Lemma find_station_Some (sid : string) (s : Station.t) :
  find_station sid = Some s -> In s ALL_STATIONS /\ Station.id s = sid.
Proof.
  unfold find_station. intros H. split.
  - by eapply find_some.
  - apply find_some in H as [_ H]. by apply String.eqb_eq.
Qed.

Lemma find_station_None (sid : string) :
  find_station sid = None -> forall s, In s ALL_STATIONS -> Station.id s <> sid.
Proof.
  unfold find_station. intros H s Hin Heq.
  eapply find_none in H; [| exact Hin]. simpl in H.
  rewrite Heq, String.eqb_refl in H. discriminate.
Qed.

#[export] Hint Resolve find_station_Some find_station_None : cotax.

(** The ids of the catalog are pairwise distinct. *)
Lemma ALL_STATIONS_ids_NoDup : NoDup (map Station.id ALL_STATIONS).
Proof. apply (bool_decide_unpack _). vm_compute. reflexivity. Qed.

Lemma find_station_of_catalog (s : Station.t) :
  In s ALL_STATIONS -> find_station (Station.id s) = Some s.
Proof.
  intros Hin. unfold find_station, ALL_STATIONS in *.
  simpl in Hin. repeat destruct Hin as [<- | Hin]; [vm_compute; reflexivity ..|].
  destruct Hin.
Qed.

(** (C: catalog round trip) Looking a catalog station up by its own id
    returns that very station, and an id is found exactly when some
    catalog station carries it. *)
Theorem find_station_id (s : Station.t) (sid : string) :
  In s ALL_STATIONS -> Station.id s = sid -> find_station sid = Some s.
Proof. intros Hin <-. by apply find_station_of_catalog. Qed.

(** ** Witnesses *)

Lemma find_station_id_witness :
  exists s, find_station "orly" = Some s /\ Station.type s = Station.airport.
Proof.
  eexists. split.
  - apply (find_station_id _ "orly"); [simpl; do 4 right; left |]; reflexivity.
  - reflexivity.
Defined.
