(* ===== verification/Fare.v ===== *)
(** * Fare computation ([src/src/utils/fareCalculator.ts])

    The fixed-rate table, the airport test by substring of the id, the
    bank test by latitude and the two exported functions
    [calculateFare] and [calculatePerPersonFare].  [Location] is the
    interface of [src/src/types/booking.ts]; since the handlers pass both
    genuine [Location]s (built by [SearchForm]/[PopularRoutes]) and raw
    catalog stations (in [useCreateTrip], [CreateTripForm], [SearchForm]),
    the model keeps the runtime shape of the object: a catalog station
    has no top-level [lat], so reading it yields [undefined]. *)

From S2P Require Import Prelude Binary64 Stations.

Open Scope Z_scope.

Module Location.

(** [interface Location { lat: number; lng: number; address: string;
    id?: string; name?: string }], with [None] for a missing field. *)
Record t := mk {
  lat : option Q;
  lng : option Q;
  address : string;
  id : option string;
  name : option string
}.

End Location.

(** [const FIXED_RATES = { CDG: {...}, ORLY: {...} } as const] and
    [type Airport = keyof typeof FIXED_RATES]. *)
Inductive Airport := CDG | ORLY.

#[export] Instance Airport_eq_dec : EqDecision Airport.
Proof. solve_decision. Defined.

Record Rates := mkRates { rightBank : Z; leftBank : Z }.

Definition FIXED_RATES (a : Airport) : Rates :=
  match a with
  | CDG => mkRates 56 65
  | ORLY => mkRates 44 36
  end.

(** [function isAirport(stationId: string): Airport | null] *)
Definition isAirport (stationId : string) : option Airport :=
  if Js.includes (Js.toLowerCase stationId) "cdg" then Some CDG
  else if Js.includes (Js.toLowerCase stationId) "orly" then Some ORLY
  else None.

(** [location.lat < 48.8566]: a comparison with [undefined] is [false].
    The comparison is with the exact decimal; [isLeftBank_binary64]
    shows it is JavaScript's comparison with the double the literal
    denotes on every latitude that is a double. *)
Definition isLeftBank (location : Location.t) : bool :=
  match Location.lat location with
  | Some l => negb (Qle_bool 48.8566 l)
  | None => false
  end.

(** [FIXED_RATES[airport][isLeft ? 'leftBank' : 'rightBank']] *)
Definition rate (airport : Airport) (isLeft : bool) : Z :=
  if isLeft then leftBank (FIXED_RATES airport) else rightBank (FIXED_RATES airport).

(** [export function calculateFare(pickup, dropoff): number].  The guard
    [(!p && !d) || (p && d)] returns [0]; otherwise [airport = p || d]
    and the non-airport endpoint is [p ? dropoff : pickup]. *)
Definition calculateFare (pickup dropoff : Location.t) : Z :=
  let pickupAirport := isAirport (default "" (Location.id pickup)) in
  let dropoffAirport := isAirport (default "" (Location.id dropoff)) in
  match pickupAirport, dropoffAirport with
  | None, None => 0
  | Some _, Some _ => 0
  | Some airport, None => rate airport (isLeftBank dropoff)
  | None, Some airport => rate airport (isLeftBank pickup)
  end.

(** [Math.ceil(totalFare / Math.max(1, passengers))], over the exact
    rationals: every amount the callers pass is an integer. *)
Definition calculatePerPersonFare (totalFare passengers : Z) : Z :=
  Qceiling (inject_Z totalFare / inject_Z (Z.max 1 passengers)).

(** ** How the handlers turn a catalog station into a [Location] *)

(** [SearchForm.handleSubmit] and [PopularRoutes.handleRouteClick] build
    [{ id, name, address, lat: s.location.lat, lng: s.location.lng }]. *)
Definition toLocation (s : Station.t) : Location.t :=
  Location.mk (Some (Station.lat (Station.location s)))
              (Some (Station.lng (Station.location s)))
              (Station.address s) (Some (Station.id s)) (Some (Station.name s)).

(** [useCreateTrip], [CreateTripForm] and [SearchForm]'s fare effect pass
    the catalog entry itself to [calculateFare]: read as a [Location] it
    has [id], [name] and [address] but no top-level [lat]/[lng]. *)
Definition stationAsLocation (s : Station.t) : Location.t :=
  Location.mk None None (Station.address s) (Some (Station.id s)) (Some (Station.name s)).

(** ** Abstract specification of the fare

    The spec's contract: the fare of a route is the rate of its airport
    for the bank of its other endpoint, and [0] when the route does not
    join exactly one airport.  Banks are decided by latitude. *)

Inductive Bank := LeftBank | RightBank.

Definition bank_of_lat (l : Q) : Bank :=
  if Qle_bool 48.8566 l then RightBank else LeftBank.

Definition fare_table (a : Airport) (b : Bank) : Z :=
  match a, b with
  | CDG, RightBank => 56 | CDG, LeftBank => 65
  | ORLY, RightBank => 44 | ORLY, LeftBank => 36
  end.

(** [FareSpec p d amount]: [amount] is the fare the spec assigns to a
    journey between the located endpoints [p] and [d]. *)
Inductive FareSpec : Location.t -> Location.t -> Z -> Prop :=
  | fare_from_airport p d a l :
      isAirport (default "" (Location.id p)) = Some a ->
      isAirport (default "" (Location.id d)) = None ->
      Location.lat d = Some l ->
      FareSpec p d (fare_table a (bank_of_lat l))
  | fare_to_airport p d a l :
      isAirport (default "" (Location.id p)) = None ->
      isAirport (default "" (Location.id d)) = Some a ->
      Location.lat p = Some l ->
      FareSpec p d (fare_table a (bank_of_lat l))
  | fare_not_applicable p d :
      (isAirport (default "" (Location.id p)) = None <->
       isAirport (default "" (Location.id d)) = None) ->
      FareSpec p d 0.

(** ** Properties of [calculateFare] *)

Lemma rate_fare_table (a : Airport) (l : Q) :
  rate a (negb (Qle_bool 48.8566 l)) = fare_table a (bank_of_lat l).
Proof. unfold rate, bank_of_lat. destruct a, (Qle_bool _ _); reflexivity. Qed.

Lemma FareSpec_functional (p d : Location.t) (x y : Z) :
  FareSpec p d x -> FareSpec p d y -> x = y.
Proof.
  intros H1 H2. destruct H1; inversion H2; subst; try congruence;
    match goal with Hi : _ <-> _ |- _ => destruct Hi end; intuition congruence.
Qed.

Lemma calculateFare_FareSpec (p d : Location.t) :
  is_Some (Location.lat p) -> is_Some (Location.lat d) ->
  FareSpec p d (calculateFare p d).
Proof.
  intros [lp Hp] [ld Hd]. unfold calculateFare.
  destruct (isAirport (default "" (Location.id p))) as [a|] eqn:Ep;
    destruct (isAirport (default "" (Location.id d))) as [b|] eqn:Ed.
  - apply fare_not_applicable. rewrite Ep, Ed. split; discriminate.
  - unfold isLeftBank. rewrite Hd, rate_fare_table. by eapply fare_from_airport.
  - unfold isLeftBank. rewrite Hp, rate_fare_table. by eapply fare_to_airport.
  - apply fare_not_applicable. rewrite Ep, Ed. tauto.
Qed.

(** (C8: fare refinement) On endpoints that carry a latitude,
    [calculateFare] implements the specification: it returns a fare the
    specification assigns to the route (the rate of its airport for the
    bank of its other endpoint, or [0] when the route does not join
    exactly one airport), and that fare is the only one. *)
Theorem calculateFare_refines (p d : Location.t) :
  is_Some (Location.lat p) -> is_Some (Location.lat d) ->
  FareSpec p d (calculateFare p d) /\
  forall x, FareSpec p d x -> x = calculateFare p d.
Proof.
  intros Hp Hd. pose proof (calculateFare_FareSpec p d Hp Hd) as Hs.
  split; [done |]. intros x Hx. by eapply FareSpec_functional.
Qed.

(** (C: the bank test is JavaScript's on every double) JavaScript
    compares a latitude with [round_double 48.8566], the double the
    literal denotes, which lies just above 48.8566.  No double lies in
    between, so on every latitude that is a double the exact comparison
    of [isLeftBank] and JavaScript's agree. *)
Theorem isLeftBank_binary64 (l : Q) :
  binary64 l -> (l < 48.8566)%Q <-> (l < round_double 48.8566)%Q.
Proof.
  intros Hl.
  assert (Efl : (round_double 48.8566 == inject_Z 6875955173580918 / inject_Z (2 ^ 47))%Q)
    by (vm_compute; reflexivity).
  assert (Hlt : (48.8566 < round_double 48.8566)%Q) by (vm_compute; reflexivity).
  split; [intros H; eapply Qlt_trans; eassumption |].
  intros H. apply Qnot_le_lt. intros Hge.
  destruct (binary64_grid l 5) as [K HK]; [lia | done | eapply Qle_trans; [| exact Hge]; by vm_compute |].
  assert (Hc : (6875955173580918 <= K)%Z).
  { rewrite <- (Qceiling_Z K).
    change 6875955173580918%Z with (Qceiling (48.8566 * inject_Z (2 ^ (52 - 5)))).
    apply Qceiling_resp_le. rewrite <- HK. apply Qmult_le_compat_r; [exact Hge | by vm_compute]. }
  apply (Qlt_not_le _ _ H). rewrite Efl. apply Qle_shift_div_r; [reflexivity |].
  change (2 ^ 47)%Z with (2 ^ (52 - 5))%Z. rewrite HK, <- Zle_Qle. exact Hc.
Qed.

(** (C: fare range) Whatever the endpoints, the fare is [0] or one of
    the four entries of [FIXED_RATES]. *)
Theorem calculateFare_range (p d : Location.t) :
  In (calculateFare p d) [0; 56; 65; 44; 36].
Proof.
  unfold calculateFare, rate.
  destruct (isAirport _) as [[]|], (isAirport _) as [[]|],
    (isLeftBank p), (isLeftBank d); simpl; tauto.
Qed.

(** (C: direction independence) Going to the airport costs what coming
    from it costs: swapping pickup and dropoff leaves the fare unchanged. *)
Theorem calculateFare_sym (p d : Location.t) :
  calculateFare p d = calculateFare d p.
Proof.
  unfold calculateFare.
  destruct (isAirport (default "" (Location.id p))), (isAirport (default "" (Location.id d)));
    reflexivity.
Qed.

Lemma calculateFare_station_objects (p d : Station.t) :
  calculateFare (stationAsLocation p) (stationAsLocation d) =
  match isAirport (Station.id p), isAirport (Station.id d) with
  | Some a, None | None, Some a => rightBank (FIXED_RATES a)
  | _, _ => 0
  end.
Proof.
  unfold calculateFare, stationAsLocation, isLeftBank, rate. simpl.
  destruct (isAirport (Station.id p)), (isAirport (Station.id d)); reflexivity.
Qed.

(** (C: station objects are priced as right bank) When a handler passes
    raw catalog stations, [isLeftBank] reads [undefined] and the fare is
    the right-bank rate of the route's airport: a left-bank rate is never
    produced, whatever the latitude of the other endpoint. *)
Theorem calculateFare_stationAsLocation (p d : Station.t) :
  calculateFare (stationAsLocation p) (stationAsLocation d) <> leftBank (FIXED_RATES CDG) /\
  calculateFare (stationAsLocation p) (stationAsLocation d) <> leftBank (FIXED_RATES ORLY) /\
  In (calculateFare (stationAsLocation p) (stationAsLocation d))
     [0; rightBank (FIXED_RATES CDG); rightBank (FIXED_RATES ORLY)].
Proof.
  rewrite calculateFare_station_objects.
  destruct (isAirport (Station.id p)) as [[]|], (isAirport (Station.id d)) as [[]|];
    simpl; repeat split; try discriminate; tauto.
Qed.

(** ** The catalog and [isAirport]

    The source identifies airports by a substring of the id, not by the
    [type] field; on the catalog the two agree. *)
Lemma isAirport_catalog (s : Station.t) :
  In s ALL_STATIONS ->
  (isAirport (Station.id s) = None <-> Station.type s <> Station.airport).
Proof.
  intros Hin. simpl in Hin.
  repeat destruct Hin as [<- | Hin]; [vm_compute; split; congruence ..|].
  destruct Hin.
Qed.

(** ** Properties of [calculatePerPersonFare] *)

Lemma perPerson_ceil_div (t n : Z) :
  calculatePerPersonFare t n = (t + Z.max 1 n - 1) / Z.max 1 n.
Proof.
  unfold calculatePerPersonFare.
  assert (Hd : 0 < Z.max 1 n) by lia.
  destruct (Z.max 1 n) as [|d|d] eqn:E; try lia.
  unfold Qceiling, Qfloor, Qdiv, Qmult, Qinv, inject_Z. simpl.
  rewrite Z.mul_1_r, Pos.mul_1_l.
  Z.div_mod_to_equations. nia.
Qed.

(** (C: per-person fare is integer ceiling division) [Math.ceil] of the
    exact quotient by [max(1, n)] is the integer ceiling division. *)
Theorem calculatePerPersonFare_ceil (t n : Z) :
  calculatePerPersonFare t n = (t + Z.max 1 n - 1) / Z.max 1 n.
Proof. apply perPerson_ceil_div. Qed.

(** (C: clamping) A passenger count of zero or less is treated as one. *)
Theorem calculatePerPersonFare_nonpos (t n : Z) :
  n <= 0 -> calculatePerPersonFare t n = t.
Proof.
  intros Hn. rewrite perPerson_ceil_div.
  replace (Z.max 1 n) with 1 by lia. rewrite Z.div_1_r. lia.
Qed.

(** (C: the shares cover the fare) With [n > 0] riders each paying the
    per-person fare, the total collected covers the fare and exceeds it
    by less than one euro per rider. *)
Theorem calculatePerPersonFare_bounds (t n : Z) :
  0 < n -> t <= n * calculatePerPersonFare t n < t + n.
Proof.
  intros Hn. rewrite perPerson_ceil_div.
  replace (Z.max 1 n) with n by lia.
  Z.div_mod_to_equations. nia.
Qed.

Example calculatePerPersonFare_120_3 : calculatePerPersonFare 120 3 = 40.
Proof. reflexivity. Qed.

Example calculatePerPersonFare_100_3 : calculatePerPersonFare 100 3 = 34.
Proof. reflexivity. Qed.

(** ** Witnesses *)

Definition cdg_location : Location.t :=
  Location.mk (Some 49.009691%Q) (Some 2.547925%Q) "95700 Roissy-en-France"
    (Some "cdg") (Some "Charles de Gaulle Airport").

Definition saint_antoine_location : Location.t :=
  Location.mk (Some 48.85336439015277%Q) (Some 2.3667863819295443%Q) "13 Rue Saint-Antoine"
    (Some "saint-antoine") (Some "Rue Saint Antoine").

Lemma calculateFare_refines_witness :
  FareSpec cdg_location saint_antoine_location
    (calculateFare cdg_location saint_antoine_location) /\
  (forall x, FareSpec cdg_location saint_antoine_location x ->
     x = calculateFare cdg_location saint_antoine_location) /\
  calculateFare cdg_location saint_antoine_location = 65.
Proof.
  split; [| split; [| reflexivity]];
    apply (calculateFare_refines cdg_location saint_antoine_location);
    eexists; reflexivity.
Defined.

(** At the double just above 48.8566 both comparisons answer "not left
    bank". *)
Lemma isLeftBank_binary64_witness :
  binary64 (inject_Z 6875955173580918 / inject_Z (2 ^ 47)) /\
  ((inject_Z 6875955173580918 / inject_Z (2 ^ 47) < 48.8566)%Q <->
   (inject_Z 6875955173580918 / inject_Z (2 ^ 47) < round_double 48.8566)%Q).
Proof.
  assert (Hb : binary64 (inject_Z 6875955173580918 / inject_Z (2 ^ 47))).
  { exists 6875955173580918%Z, 47%Z. split; [reflexivity |]. right. split; [lia | reflexivity]. }
  split; [exact Hb | exact (isLeftBank_binary64 _ Hb)].
Defined.

Lemma calculatePerPersonFare_nonpos_witness : calculatePerPersonFare 56 0 = 56.
Proof. apply calculatePerPersonFare_nonpos. lia. Defined.

Lemma calculatePerPersonFare_bounds_witness :
  100 <= 3 * calculatePerPersonFare 100 3 < 100 + 3.
Proof. apply calculatePerPersonFare_bounds. lia. Defined.
