(* ===== verification/Validation.v ===== *)
(** * Input validation ([src/src/utils/validation.ts])

    The validators of the application return [{ valid: true }] or
    [{ valid: false, error }]; here they return [Ok tt] or [Err e] with
    [e] one constructor per error message of the source.  The clock the
    date validators read ([new Date()]) is an explicit argument.
    [validateDateTime] is modelled in [JsDate.v], on top of its model of
    the ECMAScript calendar. *)

From S2P Require Import Prelude Stations Fare.

Set Warnings "-clear-no-such-hyp".

Open Scope Z_scope.

Inductive ValidationError :=
  | InvalidEndpoint
  | NotAirportRoute
  | TooManyPassengers (maxPassengers : Z) (isCreator : bool)
  | InvalidCardNumber
  | InvalidExpiryDate
  | InvalidCvc.

(** The text shown to the user ([toast.error(result.error)]). *)
Definition error_message (e : ValidationError) : string :=
  match e with
  | InvalidEndpoint => "Point de départ ou d'arrivée invalide"
  | NotAirportRoute => "Les trajets doivent être entre un aéroport et une gare/station"
  | TooManyPassengers _ true => "Maximum 4 passagers autorisés (vous inclus)"
  | TooManyPassengers _ false => "Maximum 3 passagers autorisés"
  | InvalidCardNumber => "Numéro de carte invalide"
  | InvalidExpiryDate => "Date d'expiration invalide"
  | InvalidCvc => "CVC invalide"
  end.

Definition has_type (s : Station.t) (ty : Station.StationType) : bool :=
  bool_decide (Station.type s = ty).

(** [export function validateRoute(pickupId, dropoffId)] *)
Definition validateRoute (pickupId dropoffId : string) : result unit ValidationError :=
  match find_station pickupId, find_station dropoffId with
  | Some pickup, Some dropoff =>
      let isValidRoute :=
        (has_type pickup Station.airport &&
           (has_type dropoff Station.train || has_type dropoff Station.taxi)) ||
        ((has_type pickup Station.train || has_type pickup Station.taxi) &&
           has_type dropoff Station.airport) in
      when negb isValidRoute fail NotAirportRoute ;
      Ok tt
  | _, _ => Err InvalidEndpoint
  end.

(** [export function validatePassengers(count, isCreator = false)] *)
Definition validatePassengers (count : Z) (isCreator : bool) : result unit ValidationError :=
  let maxPassengers := if isCreator then 4 else 3 in
  when (count <? 1) || (maxPassengers <? count)
    fail TooManyPassengers maxPassengers isCreator ;
  Ok tt.

(** [export function validatePaymentDetails(cardNumber, expiryDate, cvc)]
    with [nowYear = now.getFullYear()] and [nowMonth = now.getMonth()]
    (zero-based, as in JavaScript). *)
Definition validatePaymentDetails (nowYear nowMonth : Z)
    (cardNumber expiryDate cvc : string) : result unit ValidationError :=
  when negb (Js.test_digits 16 cardNumber) fail InvalidCardNumber ;
  when negb (Js.test_digits 4 expiryDate) fail InvalidExpiryDate ;
  match Js.parseInt (Js.substring expiryDate 0 2),
        Js.parseInt ("20" +:+ Js.substring expiryDate 2 4) with
  | Some month, Some year =>
      when (month <? 1) || (12 <? month) || (year <? nowYear) ||
           ((year =? nowYear) && (month <? nowMonth + 1))
        fail InvalidExpiryDate ;
      when negb (Js.test_digits 3 cvc) fail InvalidCvc ;
      Ok tt
  | _, _ =>
      when negb (Js.test_digits 3 cvc) fail InvalidCvc ;
      Ok tt
  end.

(** ** Properties of [validateRoute] *)

Definition is_airport_route (pickup dropoff : Station.t) : Prop :=
  (Station.type pickup = Station.airport /\ Station.type dropoff <> Station.airport) \/
  (Station.type pickup <> Station.airport /\ Station.type dropoff = Station.airport).

Lemma validateRoute_Ok_iff (pickupId dropoffId : string) :
  validateRoute pickupId dropoffId = Ok tt <->
  exists pickup dropoff,
    find_station pickupId = Some pickup /\ find_station dropoffId = Some dropoff /\
    is_airport_route pickup dropoff.
Proof.
  unfold validateRoute.
  destruct (find_station pickupId) as [p|], (find_station dropoffId) as [d|];
    [| split; [discriminate | intros (? & ? & ? & ? & _); congruence] ..].
  transitivity (is_airport_route p d);
    [| split; [eauto | intros (? & ? & [= <-] & [= <-] & H); exact H]].
  unfold is_airport_route, has_type.
  destruct (Station.type p), (Station.type d); simpl; intuition congruence.
Qed.

(** (C9: route validity) A route is accepted exactly when both ids are in
    the catalog and exactly one endpoint is an airport (the other one is
    then a train station or a taxi rank). *)
Theorem validateRoute_valid (pickupId dropoffId : string) :
  validateRoute pickupId dropoffId = Ok tt <->
  exists pickup dropoff,
    find_station pickupId = Some pickup /\ find_station dropoffId = Some dropoff /\
    is_airport_route pickup dropoff.
Proof. apply validateRoute_Ok_iff. Qed.

(** (C: unknown station) The route is rejected with the
    invalid-endpoint message exactly when one of the ids is not in the
    catalog. *)
Theorem validateRoute_unknown (pickupId dropoffId : string) :
  validateRoute pickupId dropoffId = Err InvalidEndpoint <->
  find_station pickupId = None \/ find_station dropoffId = None.
Proof.
  unfold validateRoute.
  destruct (find_station pickupId) as [p|], (find_station dropoffId) as [d|];
    [| naive_solver ..].
  split; [| naive_solver]. by destruct (negb _).
Qed.

Lemma rate_nonzero (a : Airport) (b : bool) : rate a b <> 0.
Proof. by destruct a, b. Qed.

Lemma calculateFare_toLocation (p d : Station.t) :
  calculateFare (toLocation p) (toLocation d) =
  match isAirport (Station.id p), isAirport (Station.id d) with
  | Some a, None => rate a (isLeftBank (toLocation d))
  | None, Some a => rate a (isLeftBank (toLocation p))
  | _, _ => 0
  end.
Proof. unfold calculateFare. simpl. by destruct (isAirport _), (isAirport _). Qed.

(** (C: fares exist exactly on valid routes) For two catalog stations
    located as [SearchForm] locates them, the fare is non-zero exactly
    when [validateRoute] accepts the route: the [0] sentinel of
    [calculateFare] never hides a valid route. *)
Theorem calculateFare_nonzero_iff_valid (p d : Station.t) :
  In p ALL_STATIONS -> In d ALL_STATIONS ->
  calculateFare (toLocation p) (toLocation d) <> 0 <->
  validateRoute (Station.id p) (Station.id d) = Ok tt.
Proof.
  intros Hp Hd. rewrite validateRoute_Ok_iff, calculateFare_toLocation.
  pose proof (isAirport_catalog p Hp) as Ap. pose proof (isAirport_catalog d Hd) as Ad.
  split.
  - intros Hne. exists p, d. rewrite !find_station_of_catalog by done.
    split; [done | split; [done |]]. unfold is_airport_route.
    destruct (isAirport (Station.id p)), (isAirport (Station.id d)); naive_solver.
  - intros (p' & d' & Hfp & Hfd & Hr).
    rewrite find_station_of_catalog in Hfp, Hfd by done. injection Hfp as <-. injection Hfd as <-.
    unfold is_airport_route in Hr.
    destruct (isAirport (Station.id p)), (isAirport (Station.id d));
      try apply rate_nonzero; naive_solver.
Qed.

(** ** Properties of [validatePassengers] *)

(** (C: passenger bounds) A count is accepted exactly when it lies
    between one and three, or four for the trip's creator. *)
Theorem validatePassengers_ok (count : Z) (isCreator : bool) :
  validatePassengers count isCreator = Ok tt <->
  1 <= count <= (if isCreator then 4 else 3).
Proof.
  unfold validatePassengers.
  destruct isCreator; simpl; destruct (count <? 1) eqn:E1, (_ <? count) eqn:E2; simpl;
    rewrite ?Z.ltb_lt, ?Z.ltb_ge in *; split; intros; first [reflexivity | lia | discriminate].
Qed.

(** ** Witnesses *)

Lemma calculateFare_nonzero_iff_valid_witness :
  exists p d, In p ALL_STATIONS /\ In d ALL_STATIONS /\
    Station.id p = "saint-antoine" /\ Station.id d = "orly" /\
    (calculateFare (toLocation p) (toLocation d) <> 0 <->
     validateRoute (Station.id p) (Station.id d) = Ok tt).
Proof.
  eexists _, _.
  assert (Hp : In (nth 7 ALL_STATIONS (hd (Station.mk "" "" Station.taxi
                 (Station.mkCoord 0 0) "" [] None) ALL_STATIONS)) ALL_STATIONS)
    by (apply nth_In; simpl; lia).
  assert (Hd : In (nth 4 ALL_STATIONS (hd (Station.mk "" "" Station.taxi
                 (Station.mkCoord 0 0) "" [] None) ALL_STATIONS)) ALL_STATIONS)
    by (apply nth_In; simpl; lia).
  split; [exact Hp | split; [exact Hd | split; [reflexivity | split; [reflexivity |]]]].
  exact (calculateFare_nonzero_iff_valid _ _ Hp Hd).
Defined.
