(* ===== verification/Trip.v ===== *)
(** * Shared trips: creation, joining and capacity

    The trip document of [src/src/types/trip.ts], the store interface
    the hooks write through, the join handler of
    [src/src/hooks/useJoinTrip.ts] with the update it sends to the
    document store, and trip creation in [src/src/hooks/useCreateTrip.ts].

    A join is two events in the running system: the client checks its
    snapshot of the trip and, if the checks pass, sends an update made of
    field transforms ([arrayUnion(uid)], [increment(1)]) and of a status
    computed from the snapshot; the store applies the transforms to the
    document as it is when the write lands.  [joinTrip] is the client
    half, [applyJoinUpdate] the store half; [Race.v] interleaves them. *)

From S2P Require Import Prelude Stations Fare Validation.

Set Warnings "-clear-no-such-hyp".
Open Scope Z_scope.

(** [status: 'open' | 'full' | 'cancelled' | 'completed'] *)
Inductive TripStatus := open | full | cancelled | completed.

#[export] Instance TripStatus_eq_dec : EqDecision TripStatus.
Proof. solve_decision. Defined.

Module Trip.

(** [export interface Trip].  Times are milliseconds since the epoch;
    [pickup]/[dropoff] are the denormalised endpoint objects. *)
Record t := mk {
  id : string;
  creatorId : string;
  participants : list string;
  pickup : Location.t;
  dropoff : Location.t;
  scheduledFor : Z;
  maxPassengers : Z;
  currentPassengers : Z;
  availableSeats : Z;
  status : TripStatus;
  fare : Z;
  perPersonFare : option Z;
  createdAt : Z;
  updatedAt : Z
}.

End Trip.

(** ** The document store

    What the hooks need of the [trips] collection: read a document by id
    and write one.  The client theorems are proved against this
    interface; [gmap] implements it. *)

Class DocStore (Db : Type) := {
  get_doc : Db -> string -> option Trip.t;
  set_doc : Db -> string -> Trip.t -> Db
}.

Class DocStoreLaws (Db : Type) `{DocStore Db} := {
  get_set_eq : forall s k t, get_doc (set_doc s k t) k = Some t;
  get_set_ne : forall s k k' t, k <> k' -> get_doc (set_doc s k t) k' = get_doc s k'
}.

#[export] Instance gmap_DocStore : DocStore (gmap string Trip.t) := {
  get_doc s k := s !! k;
  set_doc s k t := <[k := t]> s
}.

#[export] Instance gmap_DocStoreLaws : DocStoreLaws (gmap string Trip.t).
Proof.
  split; intros; simpl.
  - apply lookup_insert_eq.
  - by apply lookup_insert_ne.
Qed.

(** ** Joining a trip ([useJoinTrip]) *)

Inductive JoinError :=
  | NotLoggedIn
  | OwnTrip
  | AlreadyJoined
  | TripIsFull
  | NotShared
  | JoinFailed.

Definition join_error_message (e : JoinError) : string :=
  match e with
  | NotLoggedIn => "You must be logged in to join a trip"
  | OwnTrip => "You cannot join your own trip"
  | AlreadyJoined => "You have already joined this trip"
  | TripIsFull => "This trip is full"
  | NotShared => "Please share the trip to join"
  | JoinFailed => "Failed to join trip"
  end.

(** The object passed to [updateDoc]: the user to add with [arrayUnion]
    and the status the client computed; [currentPassengers: increment(1)]
    and [updatedAt: serverTimestamp()] carry no client data. *)
Record JoinUpdate := mkJoinUpdate {
  upd_participant : string;
  upd_status : TripStatus
}.

(** The store applies the update to the document as it is when the write
    lands; [serverTime] is the server's clock at that moment. *)
Definition applyJoinUpdate (serverTime : Z) (u : JoinUpdate) (t : Trip.t) : Trip.t :=
  Trip.mk (Trip.id t) (Trip.creatorId t)
    (Js.arrayUnion (Trip.participants t) (upd_participant u))
    (Trip.pickup t) (Trip.dropoff t) (Trip.scheduledFor t) (Trip.maxPassengers t)
    (Trip.currentPassengers t + 1) (Trip.availableSeats t) (upd_status u)
    (Trip.fare t) (Trip.perPersonFare t) (Trip.createdAt t) serverTime.

(** The checks of [joinTrip(trip)] on the client's snapshot, in the order
    of the source, and the update it sends.  [user] is [useAuth().user]'s
    uid and [shared] the answer of [await shareTrip(trip)]. *)
Definition joinTrip (user : option string) (shared : bool) (trip : Trip.t)
    : result JoinUpdate JoinError :=
  match user with
  | None => Err NotLoggedIn
  | Some uid =>
      when String.eqb (Trip.creatorId trip) uid fail OwnTrip ;
      when Js.array_includes (Trip.participants trip) uid fail AlreadyJoined ;
      when Trip.maxPassengers trip <=? Trip.currentPassengers trip fail TripIsFull ;
      when negb shared fail NotShared ;
      Ok (mkJoinUpdate uid
            (if Trip.maxPassengers trip <=? Trip.currentPassengers trip + 1
             then full else open))
  end.

(** [updateDoc(doc(db, 'trips', tripId), ...)]: the write is rejected
    when the document does not exist. *)
Definition updateDocJoin `{DocStore Db} (db : Db) (tripId : string) (serverTime : Z)
    (u : JoinUpdate) : option Db :=
  match get_doc db tripId with
  | Some t => Some (set_doc db tripId (applyJoinUpdate serverTime u t))
  | None => None
  end.

(** The whole handler when nothing else writes the trip between the read
    of the snapshot and the write: [Ok db'] is [return true]. *)
Definition useJoinTrip `{DocStore Db} (db : Db) (tripId : string) (user : option string)
    (shared : bool) (trip : Trip.t) (serverTime : Z) : result Db JoinError :=
  let? u := joinTrip user shared trip in
  match updateDocJoin db tripId serverTime u with
  | Some db' => Ok db'
  | None => Err JoinFailed
  end.

(** The toasts raised by [joinTrip]: one error with the message of the
    failed check, or the success message. *)
Definition useJoinTrip_toasts {Db : Type} (r : result Db JoinError) : list Toast :=
  match r with
  | Ok _ => [ToastSuccess "Successfully joined the trip!"]
  | Err e => [ToastError (join_error_message e)]
  end.

(** ** The trip invariant

    What every trip written by the application satisfies: the counter
    counts the participants, who are distinct and include the creator,
    the trip is not over capacity, and the status is [full] exactly when
    the trip is at capacity (no handler writes [cancelled] or
    [completed]). *)
Definition trip_inv (t : Trip.t) : Prop :=
  Trip.currentPassengers t = Z.of_nat (length (Trip.participants t)) /\
  NoDup (Trip.participants t) /\
  In (Trip.creatorId t) (Trip.participants t) /\
  Trip.currentPassengers t <= Trip.maxPassengers t /\
  (Trip.status t = open \/ Trip.status t = full) /\
  (Trip.status t = full <-> Trip.currentPassengers t = Trip.maxPassengers t).

(** What a successful [joinTrip] tells about the snapshot and the update. *)
Lemma joinTrip_Ok (user : option string) (shared : bool) (t : Trip.t) (u : JoinUpdate) :
  joinTrip user shared t = Ok u ->
  exists uid, user = Some uid /\ Trip.creatorId t <> uid /\
    ~ In uid (Trip.participants t) /\
    Trip.currentPassengers t < Trip.maxPassengers t /\ shared = true /\
    u = mkJoinUpdate uid (if Trip.maxPassengers t <=? Trip.currentPassengers t + 1
                          then full else open).
Proof.
  unfold joinTrip. destruct user as [uid|]; [| discriminate].
  destruct (String.eqb _ _) eqn:E1; [discriminate |].
  destruct (Js.array_includes _ _) eqn:E2; [discriminate |].
  destruct (_ <=? _) eqn:E3; [discriminate |].
  destruct shared; [| discriminate]. intros [= <-].
  apply String.eqb_neq in E1. apply array_includes_false in E2. apply Z.leb_gt in E3.
  exists uid. auto 10.
Qed.

(** A new user joining a trip with a free seat passes every check. *)
Lemma joinTrip_new_user (t : Trip.t) (uid : string) :
  Trip.creatorId t <> uid -> ~ In uid (Trip.participants t) ->
  Trip.currentPassengers t < Trip.maxPassengers t ->
  joinTrip (Some uid) true t =
  Ok (mkJoinUpdate uid (if Trip.maxPassengers t <=? Trip.currentPassengers t + 1
                        then full else open)).
Proof.
  intros Hne Hnin Hlt. unfold joinTrip.
  rewrite (proj2 (String.eqb_neq _ _) Hne), (proj2 (array_includes_false _ _) Hnin).
  by rewrite (proj2 (Z.leb_gt _ _) Hlt).
Qed.

(** Adding a user who is not yet a participant appends it. *)
Lemma applyJoinUpdate_participants (ts : Z) (u : JoinUpdate) (t : Trip.t) :
  ~ In (upd_participant u) (Trip.participants t) ->
  Trip.participants (applyJoinUpdate ts u t) = Trip.participants t ++ [upd_participant u].
Proof.
  intros Hnin. simpl. unfold Js.arrayUnion.
  by rewrite (proj2 (array_includes_false _ _) Hnin).
Qed.

(** Adding a user who is already a participant leaves the list as is. *)
Lemma applyJoinUpdate_participants_present (ts : Z) (u : JoinUpdate) (t : Trip.t) :
  In (upd_participant u) (Trip.participants t) ->
  Trip.participants (applyJoinUpdate ts u t) = Trip.participants t.
Proof.
  intros Hin. simpl. unfold Js.arrayUnion.
  by rewrite (proj2 (array_includes_In _ _) Hin).
Qed.

(** (C4: join checks and their order) A join by a logged-in user fails
    with the first failing check of the source: own trip, then already a
    participant, then full, then not shared. *)
Theorem joinTrip_errors (uid : string) (shared : bool) (t : Trip.t) :
  (joinTrip (Some uid) shared t = Err OwnTrip <-> Trip.creatorId t = uid) /\
  (joinTrip (Some uid) shared t = Err AlreadyJoined <->
     Trip.creatorId t <> uid /\ In uid (Trip.participants t)) /\
  (joinTrip (Some uid) shared t = Err TripIsFull <->
     Trip.creatorId t <> uid /\ ~ In uid (Trip.participants t) /\
     Trip.maxPassengers t <= Trip.currentPassengers t) /\
  (joinTrip (Some uid) shared t = Err NotShared <->
     Trip.creatorId t <> uid /\ ~ In uid (Trip.participants t) /\
     Trip.currentPassengers t < Trip.maxPassengers t /\ shared = false).
Proof.
  unfold joinTrip.
  destruct (String.eqb (Trip.creatorId t) uid) eqn:E1;
    [apply String.eqb_eq in E1 | apply String.eqb_neq in E1];
  (destruct (Js.array_includes (Trip.participants t) uid) eqn:E2;
    [apply array_includes_In in E2 | apply array_includes_false in E2]);
  (destruct (Trip.maxPassengers t <=? Trip.currentPassengers t) eqn:E3;
    [apply Z.leb_le in E3 | apply Z.leb_gt in E3]);
  destruct shared; simpl; repeat split; intros; try congruence; try tauto; try lia;
  naive_solver lia.
Qed.

Lemma join_inv (t : Trip.t) (uid : string) (shared : bool) (ts : Z)
    (u : JoinUpdate) :
  trip_inv t -> joinTrip (Some uid) shared t = Ok u ->
  trip_inv (applyJoinUpdate ts u t).
Proof.
  intros (Hcnt & Hnd & Hcr & Hcap & Hst & Hfull) Hj.
  apply joinTrip_Ok in Hj as (uid' & [= <-] & Hne & Hnin & Hlt & _ & ->).
  unfold trip_inv, applyJoinUpdate; simpl.
  rewrite arrayUnion_length. apply array_includes_false in Hnin as Hnin'. rewrite Hnin'.
  repeat split.
  - lia.
  - by apply arrayUnion_NoDup.
  - apply arrayUnion_In. by left.
  - lia.
  - destruct (_ <=? _); auto.
  - destruct (_ <=? _) eqn:E; [apply Z.leb_le in E | discriminate]. lia.
  - intros Heq. assert (E : (Trip.maxPassengers t <=? Trip.currentPassengers t + 1) = true)
      by (apply Z.leb_le; lia). by rewrite E.
Qed.

(** (C3: a join preserves the trip invariant) When the update is applied
    to the very snapshot the client checked, the trip stays consistent:
    one more distinct participant, one more passenger, never over
    capacity, and [full] exactly at capacity. *)
Theorem join_preserves_inv (t : Trip.t) (uid : string) (shared : bool) (ts : Z)
    (u : JoinUpdate) :
  trip_inv t -> joinTrip (Some uid) shared t = Ok u ->
  trip_inv (applyJoinUpdate ts u t).
Proof. apply join_inv. Qed.

(** (C32: joining a cancelled trip reopens it) The source never looks at
    [status] before joining: a cancelled trip with free seats accepts the
    join, and the update overwrites [cancelled] with [open] (or [full]). *)
Theorem join_reopens_cancelled (t : Trip.t) (uid : string) (ts : Z) :
  Trip.status t = cancelled ->
  Trip.creatorId t <> uid -> ~ In uid (Trip.participants t) ->
  Trip.currentPassengers t + 1 < Trip.maxPassengers t ->
  exists u, joinTrip (Some uid) true t = Ok u /\
    Trip.status (applyJoinUpdate ts u t) = open.
Proof.
  intros _ Hne Hnin Hlt. rewrite joinTrip_new_user by (done || lia).
  eexists. split; [reflexivity |]. simpl.
  by rewrite (proj2 (Z.leb_gt _ _)) by lia.
Qed.

(** ** The handler against the store interface *)

Section WithStore.
Context `{DocStoreLaws Db}.

(** (C: the join handler's write) When the checked snapshot is the
    stored document, a successful [useJoinTrip] rewrites that document
    only, into a consistent trip with the user added and one more
    passenger. *)
Theorem useJoinTrip_effect (db db' : Db) (tripId uid : string) (shared : bool)
    (t : Trip.t) (ts : Z) :
  get_doc db tripId = Some t -> trip_inv t ->
  useJoinTrip db tripId (Some uid) shared t ts = Ok db' ->
  (forall k, k <> tripId -> get_doc db' k = get_doc db k) /\
  exists t', get_doc db' tripId = Some t' /\ trip_inv t' /\
    Trip.currentPassengers t' = Trip.currentPassengers t + 1 /\
    In uid (Trip.participants t').
Proof.
  intros Hget Hinv Hrun. unfold useJoinTrip, updateDocJoin in Hrun.
  destruct (joinTrip _ _ _) as [u|] eqn:Hj; [| discriminate].
  rewrite Hget in Hrun. injection Hrun as <-. split.
  - intros k Hk. by apply get_set_ne.
  - eexists. rewrite get_set_eq. split; [reflexivity |].
    split; [by eapply join_inv |].
    apply joinTrip_Ok in Hj as (? & [= <-] & _ & _ & _ & _ & ->).
    split; [reflexivity |]. apply arrayUnion_In. by right.
Qed.

End WithStore.

(** ** Creating a trip ([useCreateTrip]) *)

(** [interface CreateTripData]; [date] is the time value of
    [new Date(data.date)]. *)
Record CreateTripData := mkCreateTripData {
  ct_pickup : string;
  ct_dropoff : string;
  ct_date : Z;
  ct_availableSeats : Z
}.

Inductive CreateError :=
  | CreateNotLoggedIn
  | CreateInvalidRoute (e : ValidationError)
  | CreateInvalidLocation.

Definition create_error_message (e : CreateError) : string :=
  match e with
  | CreateNotLoggedIn => "You must be logged in to create a trip"
  | CreateInvalidRoute e => error_message e
  | CreateInvalidLocation => "Invalid pickup or dropoff location"
  end.

(** [const tripData = {...}] as stored by [addDoc], read back with the
    document id.  The endpoints are the catalog entries themselves, and
    so is the argument of [calculateFare]. *)
Definition newTrip (tripId uid : string) (data : CreateTripData)
    (pickupStation dropoffStation : Station.t) (serverTime : Z) : Trip.t :=
  Trip.mk tripId uid [uid]
    (stationAsLocation pickupStation) (stationAsLocation dropoffStation)
    (ct_date data) 4 1 (ct_availableSeats data) open
    (calculateFare (stationAsLocation pickupStation) (stationAsLocation dropoffStation))
    None serverTime serverTime.

(** [createTrip(data)]: [newId] is the id [addDoc] allocates. *)
Definition createTrip `{DocStore Db} (db : Db) (user : option string)
    (data : CreateTripData) (newId : string) (serverTime : Z)
    : result (string * Db) CreateError :=
  match user with
  | None => Err CreateNotLoggedIn
  | Some uid =>
      match validateRoute (ct_pickup data) (ct_dropoff data) with
      | Err e => Err (CreateInvalidRoute e)
      | Ok _ =>
          match find_station (ct_pickup data), find_station (ct_dropoff data) with
          | Some p, Some d =>
              Ok (newId, set_doc db newId (newTrip newId uid data p d serverTime))
          | _, _ => Err CreateInvalidLocation
          end
      end
  end.

Section Creation.
Context `{DocStoreLaws Db}.

Lemma createTrip_Ok (db db' : Db) (uid : string) (data : CreateTripData)
    (newId tid : string) (ts : Z) :
  createTrip db (Some uid) data newId ts = Ok (tid, db') ->
  tid = newId /\
  exists p d, find_station (ct_pickup data) = Some p /\
    find_station (ct_dropoff data) = Some d /\
    validateRoute (ct_pickup data) (ct_dropoff data) = Ok tt /\
    db' = set_doc db newId (newTrip newId uid data p d ts).
Proof.
  unfold createTrip. destruct (validateRoute _ _) as [[]|] eqn:Hv; [| discriminate].
  destruct (find_station (ct_pickup data)) as [p|],
    (find_station (ct_dropoff data)) as [d|]; try discriminate.
  intros [= <- <-]. eauto 10.
Qed.

(** (C6: a created trip is consistent) A trip created by [createTrip] is
    open, has its creator as sole participant and one passenger out of
    four, and satisfies the trip invariant. *)
Theorem createTrip_inv (db db' : Db) (uid : string) (data : CreateTripData)
    (newId tid : string) (ts : Z) :
  createTrip db (Some uid) data newId ts = Ok (tid, db') ->
  exists t, get_doc db' tid = Some t /\ trip_inv t /\
    Trip.status t = open /\ Trip.participants t = [uid] /\
    Trip.currentPassengers t = 1 /\ Trip.maxPassengers t = 4.
Proof.
  intros Hc. apply createTrip_Ok in Hc as (-> & p & d & _ & _ & _ & ->).
  eexists. rewrite get_set_eq. split; [reflexivity |].
  unfold trip_inv; simpl. repeat split; try (by left); try lia; try discriminate.
  apply NoDup_singleton.
Qed.

(** (C7: created trips are priced as right bank) [useCreateTrip] prices
    the trip from the catalog entries, which have no top-level [lat]:
    the stored fare is the right-bank rate of the route's airport,
    whatever the bank of the other endpoint. *)
Theorem createTrip_fare (db db' : Db) (uid : string) (data : CreateTripData)
    (newId tid : string) (ts : Z) :
  createTrip db (Some uid) data newId ts = Ok (tid, db') ->
  exists t a, get_doc db' tid = Some t /\
    (isAirport (ct_pickup data) = Some a \/ isAirport (ct_dropoff data) = Some a) /\
    Trip.fare t = rightBank (FIXED_RATES a).
Proof.
  intros Hc. apply createTrip_Ok in Hc as (-> & p & d & Hp & Hd & Hv & ->).
  apply find_station_Some in Hp as [Hpin Hpid], Hd as [Hdin Hdid].
  apply validateRoute_Ok_iff in Hv as (p' & d' & Hp' & Hd' & Hr).
  rewrite <- Hpid in Hp'. rewrite <- Hdid in Hd'.
  rewrite find_station_of_catalog in Hp', Hd' by done.
  injection Hp' as <-. injection Hd' as <-.
  pose proof (isAirport_catalog p Hpin) as Ap. pose proof (isAirport_catalog d Hdin) as Ad.
  set (t := newTrip newId uid data p d ts).
  assert (Hf : Trip.fare t = calculateFare (stationAsLocation p) (stationAsLocation d))
    by reflexivity.
  rewrite calculateFare_station_objects in Hf. rewrite get_set_eq.
  unfold is_airport_route in Hr. rewrite <- Hpid, <- Hdid.
  destruct (isAirport (Station.id p)) as [a|], (isAirport (Station.id d)) as [b|];
    [naive_solver | exists t, a | exists t, b | naive_solver]; auto.
Qed.

End Creation.

(** (C: creation checks) Creation fails first on a missing user, then
    with the route validator's error; the branch for stations missing
    from the catalog is dead, since a valid route has both. *)
Theorem createTrip_errors `{DocStore Db} (db : Db) (user : option string)
    (data : CreateTripData) (newId : string) (ts : Z) (e : CreateError) :
  createTrip db user data newId ts = Err e ->
  (user = None /\ e = CreateNotLoggedIn) \/
  (exists uid ve, user = Some uid /\
     validateRoute (ct_pickup data) (ct_dropoff data) = Err ve /\ e = CreateInvalidRoute ve).
Proof.
  unfold createTrip. destruct user as [uid|]; [| intros [= <-]; by left].
  destruct (validateRoute _ _) as [[]|ve] eqn:Hv; [| intros [= <-]; right; eauto].
  destruct (find_station (ct_pickup data)) as [p|] eqn:Hp,
    (find_station (ct_dropoff data)) as [d|] eqn:Hd; [intros [=] | ..]; intros _; exfalso;
    apply validateRoute_Ok_iff in Hv as (? & ? & ? & ? & _); congruence.
Qed.

(** ** The life of a trip document

    With joins applied one at a time (each to the snapshot it was checked
    on), a trip moves by [trip_step]; [Race.v] drops that assumption. *)

Inductive trip_step : Trip.t -> Trip.t -> Prop :=
  | step_join (t : Trip.t) (uid : string) (ts : Z) (u : JoinUpdate) :
      joinTrip (Some uid) true t = Ok u ->
      trip_step t (applyJoinUpdate ts u t).

(** (C5: invariant of reachable trips) Every trip reached from a
    consistent trip by serialised joins is consistent; with
    [createTrip_inv] this covers every trip the application creates. *)
Theorem reachable_inv (t0 t : Trip.t) :
  trip_inv t0 -> rtc trip_step t0 t -> trip_inv t.
Proof.
  intros Hinv Hrtc. induction Hrtc as [|x y z Hxy _ IH]; [done |].
  apply IH. destruct Hxy. by eapply join_inv.
Qed.

Lemma trip_step_counts (t t' : Trip.t) :
  trip_step t t' ->
  Trip.currentPassengers t' = Trip.currentPassengers t + 1 /\
  Trip.currentPassengers t < Trip.maxPassengers t /\
  Trip.maxPassengers t' = Trip.maxPassengers t.
Proof.
  intros [t0 uid ts u Hj]. apply joinTrip_Ok in Hj as (? & _ & _ & _ & Hlt & _ & _).
  simpl. lia.
Qed.

(** (C39: joins stop at capacity) A chain of [n] serialised joins from a
    consistent trip has [n <= maxPassengers - currentPassengers]: a trip
    accepts at most as many joins as it has free seats. *)
Theorem join_chain_bounded (n : nat) (t0 t : Trip.t) :
  trip_inv t0 -> nsteps trip_step n t0 t ->
  Z.of_nat n <= Trip.maxPassengers t0 - Trip.currentPassengers t0.
Proof.
  intros Hinv Hn. revert Hinv. induction Hn as [|n x y z Hxy _ IH]; intros Hinv.
  - destruct Hinv as (_ & _ & _ & Hcap & _). lia.
  - pose proof (trip_step_counts _ _ Hxy) as (Hc & Hlt & Hm).
    assert (Hy : trip_inv y) by (destruct Hxy; by eapply join_inv).
    specialize (IH Hy). lia.
Qed.

(** (C: distinct users fill a trip) From a consistent trip, as many new
    distinct users as there are free seats, each sharing the trip, join
    one after the other; the trip ends [full] with them appended to the
    participants in order. *)
Theorem joins_fill_trip (us : list string) (t : Trip.t) (ts : Z) :
  trip_inv t -> NoDup us ->
  (forall u, In u us -> u <> Trip.creatorId t /\ ~ In u (Trip.participants t)) ->
  Z.of_nat (length us) = Trip.maxPassengers t - Trip.currentPassengers t ->
  exists t', rtc trip_step t t' /\ Trip.status t' = full /\
    Trip.participants t' = Trip.participants t ++ us.
Proof.
  revert t. induction us as [|u us IH]; intros t Hinv Hnd Hnew Hlen.
  - exists t. split; [done |]. rewrite app_nil_r. split; [| done].
    apply Hinv. simpl in Hlen. lia.
  - destruct (Hnew u (or_introl eq_refl)) as [Hcr Hnin].
    apply NoDup_cons in Hnd as [Hu Hnd]. simpl in Hlen.
    assert (Hj := joinTrip_new_user t u ltac:(congruence) Hnin ltac:(lia)).
    set (t1 := applyJoinUpdate ts (mkJoinUpdate u (if Trip.maxPassengers t <=? Trip.currentPassengers t + 1
                          then full else open)) t).
    assert (Hp1 : Trip.participants t1 = Trip.participants t ++ [u])
      by (by apply applyJoinUpdate_participants).
    destruct (IH t1) as (t' & Hrtc & Hfull & Hp').
    + by eapply join_inv.
    + done.
    + intros v Hv. rewrite Hp1, in_app_iff. simpl.
      destruct (Hnew v (or_intror Hv)). split; [done |].
      intros [? | [-> | []]]; [done | by apply Hu, list_elem_of_In].
    + simpl. lia.
    + exists t'. split; [eapply rtc_l; [exact (step_join t u ts _ Hj) | exact Hrtc] |].
      split; [done |]. rewrite Hp', Hp1, <- app_assoc. reflexivity.
Qed.

(** (C: a full trip accepts nobody) On a consistent trip whose status is
    [full], no join succeeds. *)
Theorem full_trip_rejects_join (t : Trip.t) (user : option string) (shared : bool) :
  trip_inv t -> Trip.status t = full -> is_ok (joinTrip user shared t) = false.
Proof.
  intros (_ & _ & _ & _ & _ & Hfull) Hst.
  destruct (joinTrip user shared t) eqn:Hj; [| done].
  apply joinTrip_Ok in Hj as (_ & _ & _ & _ & Hlt & _). apply Hfull in Hst. lia.
Qed.

(** ** Witnesses *)

(** A trip from Gare de Lyon to Charles de Gaulle, created by "alice",
    with the given status, counter and participants. *)
Definition sample_trip (st : TripStatus) (current : Z) (riders : list string) : Trip.t :=
  Trip.mk "trip-1" "alice" riders
    (stationAsLocation (Station.mk "gare-de-lyon" "Gare de Lyon" Station.train
       (Station.mkCoord 48.84414213061917 2.3768609563012624)
       "20 Boulevard Diderot, 75012 Paris" [] None))
    (stationAsLocation (Station.mk "cdg" "Charles de Gaulle Airport" Station.airport
       (Station.mkCoord 49.009691 2.547925) "95700 Roissy-en-France" [] None))
    0 4 current 3 st 56 None 0 0.

Ltac solve_trip_inv :=
  unfold trip_inv; cbn; repeat split;
  first [ lia | reflexivity | by left | by right | discriminate
        | intros; discriminate | intros; lia | intros; reflexivity
        | apply (bool_decide_unpack _); vm_compute; reflexivity | tauto ].

Definition sample_join : JoinUpdate := mkJoinUpdate "bob" open.

Lemma join_preserves_inv_witness :
  trip_inv (sample_trip open 1 ["alice"]) /\
  joinTrip (Some "bob") true (sample_trip open 1 ["alice"]) = Ok sample_join /\
  trip_inv (applyJoinUpdate 7 sample_join (sample_trip open 1 ["alice"])).
Proof.
  assert (Hi : trip_inv (sample_trip open 1 ["alice"])) by solve_trip_inv.
  assert (Hj : joinTrip (Some "bob") true (sample_trip open 1 ["alice"]) = Ok sample_join)
    by reflexivity.
  split; [exact Hi | split; [exact Hj |]].
  exact (join_preserves_inv _ "bob" true 7 sample_join Hi Hj).
Defined.

Lemma join_reopens_cancelled_witness :
  exists u, joinTrip (Some "bob") true (sample_trip cancelled 1 ["alice"]) = Ok u /\
    Trip.status (applyJoinUpdate 7 u (sample_trip cancelled 1 ["alice"])) = open.
Proof.
  apply (join_reopens_cancelled (sample_trip cancelled 1 ["alice"]) "bob" 7);
    simpl; first [reflexivity | discriminate | lia | intuition discriminate].
Defined.

Lemma useJoinTrip_effect_witness :
  let db : gmap string Trip.t := {["trip-1" := sample_trip open 1 ["alice"]]} in
  useJoinTrip db "trip-1" (Some "bob") true (sample_trip open 1 ["alice"]) 7 =
    Ok (<["trip-1" := applyJoinUpdate 7 sample_join (sample_trip open 1 ["alice"])]> db) /\
  (forall k, k <> "trip-1" ->
     get_doc (<["trip-1" := applyJoinUpdate 7 sample_join (sample_trip open 1 ["alice"])]> db) k
     = get_doc db k) /\
  exists t', get_doc (<["trip-1" := applyJoinUpdate 7 sample_join
                                      (sample_trip open 1 ["alice"])]> db) "trip-1" = Some t' /\
    trip_inv t' /\ Trip.currentPassengers t' = 1 + 1 /\ In "bob" (Trip.participants t').
Proof.
  intros db.
  assert (Hrun : useJoinTrip db "trip-1" (Some "bob") true (sample_trip open 1 ["alice"]) 7 =
    Ok (<["trip-1" := applyJoinUpdate 7 sample_join (sample_trip open 1 ["alice"])]> db))
    by reflexivity.
  split; [exact Hrun |].
  exact (useJoinTrip_effect db _ "trip-1" "bob" true (sample_trip open 1 ["alice"]) 7
           (lookup_insert_eq _ _ _) ltac:(solve_trip_inv) Hrun).
Defined.

Definition sample_data : CreateTripData := mkCreateTripData "saint-antoine" "orly" 0 3.

Lemma createTrip_inv_witness :
  exists db', createTrip (∅ : gmap string Trip.t) (Some "alice") sample_data "trip-1" 0 =
    Ok ("trip-1", db') /\
  exists t, get_doc db' "trip-1" = Some t /\ trip_inv t /\
    Trip.status t = open /\ Trip.participants t = ["alice"] /\
    Trip.currentPassengers t = 1 /\ Trip.maxPassengers t = 4.
Proof.
  eexists. split; [reflexivity |].
  apply (createTrip_inv (∅ : gmap string Trip.t) _ "alice" sample_data "trip-1" "trip-1" 0).
  reflexivity.
Defined.

Lemma createTrip_fare_witness :
  exists db', createTrip (∅ : gmap string Trip.t) (Some "alice") sample_data "trip-1" 0 =
    Ok ("trip-1", db') /\
  exists t a, get_doc db' "trip-1" = Some t /\
    (isAirport "saint-antoine" = Some a \/ isAirport "orly" = Some a) /\
    Trip.fare t = rightBank (FIXED_RATES a).
Proof.
  eexists. split; [reflexivity |].
  apply (createTrip_fare (∅ : gmap string Trip.t) _ "alice" sample_data "trip-1" "trip-1" 0).
  reflexivity.
Defined.

(** Rue Saint-Antoine lies south of the threshold: the specification's
    fare to Orly is the left-bank [36], the stored fare is [44]. *)
Example createTrip_saint_antoine_orly :
  match createTrip (∅ : gmap string Trip.t) (Some "alice") sample_data "trip-1" 0 with
  | Ok (_, db') => option_map Trip.fare (db' !! "trip-1")
  | Err _ => None
  end = Some 44.
Proof. reflexivity. Qed.

Lemma createTrip_errors_witness :
  (None = @None string /\ CreateNotLoggedIn = CreateNotLoggedIn) \/
  (exists uid ve, @None string = Some uid /\
     validateRoute (ct_pickup sample_data) (ct_dropoff sample_data) = Err ve /\
     CreateNotLoggedIn = CreateInvalidRoute ve).
Proof.
  apply (createTrip_errors (∅ : gmap string Trip.t) None sample_data "trip-1" 0).
  reflexivity.
Defined.

Lemma reachable_inv_witness : trip_inv (sample_trip open 2 ["alice"; "bob"]).
Proof.
  apply (reachable_inv (sample_trip open 2 ["alice"; "bob"])); [solve_trip_inv | reflexivity].
Defined.

Lemma join_chain_bounded_witness :
  Z.of_nat 0 <= Trip.maxPassengers (sample_trip open 2 ["alice"; "bob"]) -
                Trip.currentPassengers (sample_trip open 2 ["alice"; "bob"]).
Proof.
  apply (join_chain_bounded 0 _ (sample_trip open 2 ["alice"; "bob"]));
    [solve_trip_inv | constructor].
Defined.

Lemma joins_fill_trip_witness :
  exists t', rtc trip_step (sample_trip open 1 ["alice"]) t' /\ Trip.status t' = full /\
    Trip.participants t' = ["alice"] ++ ["bob"; "carol"; "dave"].
Proof.
  apply (joins_fill_trip ["bob"; "carol"; "dave"] (sample_trip open 1 ["alice"]) 0).
  - solve_trip_inv.
  - apply (bool_decide_unpack _). vm_compute. reflexivity.
  - intros u Hu. simpl in Hu. simpl.
    repeat destruct Hu as [<- | Hu]; [split; [discriminate | intuition discriminate] ..|].
    destruct Hu.
  - reflexivity.
Defined.

Lemma full_trip_rejects_join_witness :
  is_ok (joinTrip (Some "erin") true (sample_trip full 4 ["alice"; "bob"; "carol"; "dave"]))
  = false.
Proof.
  apply full_trip_rejects_join; [solve_trip_inv | reflexivity].
Defined.
