(* ===== verification/Race.v ===== *)
(** * Concurrent joins on one trip ([useJoinTrip] under interleaving)

    [useJoinTrip] checks the capacity on the client's snapshot and then
    sends an update whose [increment(1)] and [arrayUnion] the store
    applies later, to whatever the document has become.  Nothing makes
    the check and the write atomic (spec, section 5).  A [World] is the
    trip document together with the updates that passed their checks but
    have not landed yet; [race_check] and [race_land] interleave freely.
    [w_peak] is ghost state: the largest number of updates ever in flight
    at once, used to state how far the trip can be overbooked. *)

From S2P Require Import Prelude Stations Fare Validation Trip.

Set Warnings "-clear-no-such-hyp".
Open Scope Z_scope.

Record World := mkWorld {
  w_trip : Trip.t;
  w_inflight : list JoinUpdate;
  w_peak : nat
}.

Inductive race_step : World -> World -> Prop :=
  | race_check (w : World) (uid : string) (u : JoinUpdate) :
      joinTrip (Some uid) true (w_trip w) = Ok u ->
      race_step w (mkWorld (w_trip w) (w_inflight w ++ [u])
                           (Nat.max (w_peak w) (S (length (w_inflight w)))))
  | race_land (w : World) (pre post : list JoinUpdate) (u : JoinUpdate) (ts : Z) :
      w_inflight w = pre ++ u :: post ->
      race_step w (mkWorld (applyJoinUpdate ts u (w_trip w)) (pre ++ post) (w_peak w)).

(** ** Serialised joins are runs of the race model *)

(** (C: the serial model is an instance of the race model) A join
    checked and applied with nothing in between is a check immediately
    followed by its landing. *)
Theorem trip_step_race (t t' : Trip.t) (p : nat) :
  trip_step t t' -> rtc race_step (mkWorld t [] p) (mkWorld t' [] (Nat.max p 1)).
Proof.
  intros [t0 uid ts u Hj].
  eapply rtc_l; [exact (race_check (mkWorld t0 [] p) uid u Hj) |]. simpl.
  eapply rtc_l; [exact (race_land (mkWorld t0 [u] (Nat.max p 1)) [] [] u ts eq_refl) |].
  reflexivity.
Qed.

(** ** How far a trip can be overbooked *)

Definition race_inv (w : World) : Prop :=
  Trip.currentPassengers (w_trip w) + Z.of_nat (length (w_inflight w)) <=
    Trip.maxPassengers (w_trip w) + Z.of_nat (Nat.pred (w_peak w)) /\
  (length (w_inflight w) <= w_peak w)%nat.

Lemma race_step_inv (w w' : World) : race_inv w -> race_step w w' -> race_inv w'.
Proof.
  intros [Hb Hp] Hs. destruct Hs as [w uid u Hj | w pre post u ts Hin]; unfold race_inv; simpl.
  - apply joinTrip_Ok in Hj as (_ & _ & _ & _ & Hlt & _). rewrite length_app. simpl. lia.
  - rewrite Hin, length_app in *. simpl in *. lia.
Qed.

Lemma race_inv_reachable (t0 : Trip.t) (w : World) :
  Trip.currentPassengers t0 <= Trip.maxPassengers t0 ->
  rtc race_step (mkWorld t0 [] 0) w -> race_inv w.
Proof.
  intros Hcap Hrtc.
  assert (H0 : race_inv (mkWorld t0 [] 0)) by (split; simpl; lia).
  induction Hrtc as [x | x y z Hxy _ IH]; [done |].
  apply IH. by eapply race_step_inv.
Qed.

(** (C2: overbooking is bounded by the concurrency) In every interleaving
    from a trip within capacity, the passengers counted plus the joins in
    flight never exceed the capacity by more than [peak - 1], where
    [peak] is the largest number of joins ever in flight at once. *)
Theorem race_bound (t0 : Trip.t) (w : World) :
  Trip.currentPassengers t0 <= Trip.maxPassengers t0 ->
  rtc race_step (mkWorld t0 [] 0) w ->
  Trip.currentPassengers (w_trip w) + Z.of_nat (length (w_inflight w)) <=
    Trip.maxPassengers (w_trip w) + Z.of_nat (Nat.pred (w_peak w)).
Proof.
  intros Hcap Hrtc. by apply (race_inv_reachable t0).
Qed.

(** (C: one join at a time never overbooks) If no two joins of the trip
    are ever in flight together, the trip stays within capacity. *)
Corollary race_serial_safe (t0 : Trip.t) (w : World) :
  Trip.currentPassengers t0 <= Trip.maxPassengers t0 ->
  rtc race_step (mkWorld t0 [] 0) w -> (w_peak w <= 1)%nat ->
  Trip.currentPassengers (w_trip w) <= Trip.maxPassengers (w_trip w).
Proof.
  intros Hcap Hrtc Hpk. pose proof (race_inv_reachable t0 w Hcap Hrtc) as [Hb _]. lia.
Qed.

(** ** The race the source does not prevent *)

(** (C1: two concurrent joins overbook a trip) On a trip with one free
    seat, two new users whose checks both read the trip before either
    update lands both pass, and the two [increment(1)] updates leave the
    trip one passenger over capacity with both users listed: the spec's
    "exactly one success and one TripFull" is not what the code does. *)
Theorem race_overbooks (t : Trip.t) (u1 u2 : string) (ts : Z) :
  Trip.currentPassengers t + 1 = Trip.maxPassengers t ->
  u1 <> u2 -> Trip.creatorId t <> u1 -> Trip.creatorId t <> u2 ->
  ~ In u1 (Trip.participants t) -> ~ In u2 (Trip.participants t) ->
  exists w, rtc race_step (mkWorld t [] 0) w /\ w_inflight w = [] /\
    Trip.currentPassengers (w_trip w) = Trip.maxPassengers t + 1 /\
    Trip.participants (w_trip w) = Trip.participants t ++ [u1; u2].
Proof.
  intros Hseat Hne Hc1 Hc2 Hn1 Hn2.
  pose proof (joinTrip_new_user t u1 Hc1 Hn1 ltac:(lia)) as J1.
  pose proof (joinTrip_new_user t u2 Hc2 Hn2 ltac:(lia)) as J2.
  set (U1 := mkJoinUpdate u1 _) in J1. set (U2 := mkJoinUpdate u2 _) in J2.
  set (t1 := applyJoinUpdate ts U1 t).
  exists (mkWorld (applyJoinUpdate ts U2 t1) [] 2). split; [| split; [done |]].
  - eapply rtc_l; [exact (race_check (mkWorld t [] 0) u1 U1 J1) |]. simpl.
    eapply rtc_l; [exact (race_check (mkWorld t [U1] 1) u2 U2 J2) |]. simpl.
    eapply rtc_l; [exact (race_land (mkWorld t [U1; U2] 2) [] [U2] U1 ts eq_refl) |].
    eapply rtc_l; [exact (race_land (mkWorld t1 [U2] 2) [] [] U2 ts eq_refl) |].
    reflexivity.
  - cbn [w_trip]. split; [simpl; lia |].
    assert (Hp1 : Trip.participants t1 = Trip.participants t ++ [u1])
      by (by apply applyJoinUpdate_participants).
    rewrite applyJoinUpdate_participants; change (upd_participant U2) with u2.
    + by rewrite Hp1, <- app_assoc.
    + rewrite Hp1, in_app_iff. simpl. intuition.
Qed.

(** (C33: a double join desynchronises the counter) The same user joining
    from two tabs passes both checks; [arrayUnion] adds the user once but
    [increment(1)] counts them twice, so the counter no longer equals the
    number of participants. *)
Theorem race_double_join_desync (t : Trip.t) (uid : string) (ts : Z) :
  trip_inv t -> Trip.creatorId t <> uid -> ~ In uid (Trip.participants t) ->
  Trip.currentPassengers t < Trip.maxPassengers t ->
  exists w, rtc race_step (mkWorld t [] 0) w /\ w_inflight w = [] /\
    Trip.currentPassengers (w_trip w) =
      Z.of_nat (length (Trip.participants (w_trip w))) + 1.
Proof.
  intros (Hcnt & _) Hc Hn Hlt.
  pose proof (joinTrip_new_user t uid Hc Hn Hlt) as J.
  set (U := mkJoinUpdate uid _) in J.
  set (t1 := applyJoinUpdate ts U t).
  exists (mkWorld (applyJoinUpdate ts U t1) [] 2). split; [| split; [done |]].
  - eapply rtc_l; [exact (race_check (mkWorld t [] 0) uid U J) |]. simpl.
    eapply rtc_l; [exact (race_check (mkWorld t [U] 1) uid U J) |]. simpl.
    eapply rtc_l; [exact (race_land (mkWorld t [U; U] 2) [] [U] U ts eq_refl) |].
    eapply rtc_l; [exact (race_land (mkWorld t1 [U] 2) [] [] U ts eq_refl) |].
    reflexivity.
  - assert (Hp1 : Trip.participants t1 = Trip.participants t ++ [uid])
      by (by apply applyJoinUpdate_participants).
    cbn [w_trip]. rewrite applyJoinUpdate_participants_present, Hp1, length_app.
    + simpl. lia.
    + change (upd_participant U) with uid. rewrite Hp1, in_app_iff. simpl. tauto.
Qed.

(** ** Witnesses on a concrete trip *)

Lemma race_overbooks_witness :
  exists w, rtc race_step (mkWorld (sample_trip open 3 ["alice"; "bob"; "carol"]) [] 0) w /\
    w_inflight w = [] /\ Trip.currentPassengers (w_trip w) = 5 /\
    Trip.participants (w_trip w) = ["alice"; "bob"; "carol"; "dave"; "erin"].
Proof.
  apply (race_overbooks (sample_trip open 3 ["alice"; "bob"; "carol"]) "dave" "erin" 0);
    simpl; first [reflexivity | discriminate | intuition discriminate].
Defined.

Lemma race_double_join_desync_witness :
  exists w, rtc race_step (mkWorld (sample_trip open 2 ["alice"; "bob"]) [] 0) w /\
    w_inflight w = [] /\
    Trip.currentPassengers (w_trip w) =
      Z.of_nat (length (Trip.participants (w_trip w))) + 1.
Proof.
  apply (race_double_join_desync (sample_trip open 2 ["alice"; "bob"]) "dave" 0).
  - solve_trip_inv.
  - discriminate.
  - simpl. intuition discriminate.
  - simpl. lia.
Defined.

Lemma trip_step_race_witness :
  rtc race_step (mkWorld (sample_trip open 1 ["alice"]) [] 0)
    (mkWorld (applyJoinUpdate 7 sample_join (sample_trip open 1 ["alice"])) [] (Nat.max 0 1)).
Proof.
  apply trip_step_race. exact (step_join (sample_trip open 1 ["alice"]) "bob" 7 sample_join eq_refl).
Defined.

Lemma race_bound_witness :
  Trip.currentPassengers (w_trip (mkWorld (sample_trip open 3 ["alice"; "bob"; "carol"]) [] 0)) +
    Z.of_nat (length (w_inflight (mkWorld (sample_trip open 3 ["alice"; "bob"; "carol"]) [] 0)))
  <= Trip.maxPassengers (w_trip (mkWorld (sample_trip open 3 ["alice"; "bob"; "carol"]) [] 0)) +
     Z.of_nat (Nat.pred (w_peak (mkWorld (sample_trip open 3 ["alice"; "bob"; "carol"]) [] 0))).
Proof.
  apply (race_bound (sample_trip open 3 ["alice"; "bob"; "carol"])); [simpl; lia | reflexivity].
Defined.

Lemma race_serial_safe_witness :
  Trip.currentPassengers (w_trip (mkWorld (applyJoinUpdate 7 sample_join
      (sample_trip open 1 ["alice"])) [] (Nat.max 0 1))) <=
  Trip.maxPassengers (w_trip (mkWorld (applyJoinUpdate 7 sample_join
      (sample_trip open 1 ["alice"])) [] (Nat.max 0 1))).
Proof.
  apply (race_serial_safe (sample_trip open 1 ["alice"])).
  - simpl. lia.
  - apply trip_step_race. exact (step_join (sample_trip open 1 ["alice"]) "bob" 7 sample_join eq_refl).
  - simpl. lia.
Defined.
