(* ===== verification/JsDate.v ===== *)
(** * JavaScript dates and the booking window

    ECMAScript's [Date] is a time value: milliseconds since the epoch.
    The calendar fields (year, month, day of month) come from the
    proleptic Gregorian calendar of the local time zone, which is taken
    to have a constant offset [tz] (daylight saving time is not
    modelled).  [days_from_civil] and [civil_from_days] convert between
    day numbers and calendar dates; [MakeDay], [MakeDate] and [setMonth]
    follow the ECMAScript definitions, including the overflow of a day of
    month past the end of the target month (30 November plus three months
    is 2 March).  Time values are not clipped to the +/-8.64e15 range.

    On top of it, [validateDateTime] of [src/src/utils/validation.ts].
    Both reads of the clock ([new Date()] twice) are taken at the same
    instant [now]. *)

From S2P Require Import Prelude.
From Stdlib Require Import Ascii.

Set Warnings "-clear-no-such-hyp".
Open Scope Z_scope.

Definition msPerDay : Z := 86400000.
Definition msPerMinute : Z := 60000.

(** Day number (days since 1970-01-01) of the civil date [y-m-d], with
    [m] from 1 to 12. *)
Definition days_from_civil (y m d : Z) : Z :=
  let y' := if m <=? 2 then y - 1 else y in
  let era := y' / 400 in
  let yoe := y' - era * 400 in
  let mp := (m + 9) mod 12 in
  let doy := (153 * mp + 2) / 5 + d - 1 in
  let doe := yoe * 365 + yoe / 4 - yoe / 100 + doy in
  era * 146097 + doe - 719468.

(** The civil date [(y, m, d)] of a day number. *)
Definition civil_from_days (z : Z) : Z * Z * Z :=
  let z' := z + 719468 in
  let era := z' / 146097 in
  let doe := z' - era * 146097 in
  let yoe := (doe - doe / 1460 + doe / 36524 - doe / 146096) / 365 in
  let doy := doe - (365 * yoe + yoe / 4 - yoe / 100) in
  let mp := (5 * doy + 2) / 153 in
  let d := doy - (153 * mp + 2) / 5 + 1 in
  let m := if mp <? 10 then mp + 3 else mp - 9 in
  let y := yoe + era * 400 in
  (if m <=? 2 then y + 1 else y, m, d).

(** [Day(t)] and [TimeWithinDay(t)] *)
Definition Day (t : Z) : Z := t / msPerDay.
Definition TimeWithinDay (t : Z) : Z := t mod msPerDay.

(** [YearFromTime], [MonthFromTime] (0-based) and [DateFromTime]. *)
Definition YearFromTime (t : Z) : Z := fst (fst (civil_from_days (Day t))).
Definition MonthFromTime (t : Z) : Z := snd (fst (civil_from_days (Day t))) - 1.
Definition DateFromTime (t : Z) : Z := snd (civil_from_days (Day t)).

(** [MakeDay(year, month, date)]: the month may be out of [0..11] and the
    date past the end of the month; both overflow into the next units. *)
Definition MakeDay (year month date : Z) : Z :=
  days_from_civil (year + month / 12) (month mod 12 + 1) 1 + date - 1.

Definition MakeDate (day time : Z) : Z := day * msPerDay + time.

(** [LocalTime(t)] and [UTC(t)] for a constant offset. *)
Definition LocalTime (tz t : Z) : Z := t + tz.
Definition UTC (tz t : Z) : Z := t - tz.

(** [Date.prototype.getMonth] *)
Definition getMonth (tz t : Z) : Z := MonthFromTime (LocalTime tz t).

(** [Date.prototype.setMonth(month)]: the new time value. *)
Definition setMonth (tz t month : Z) : Z :=
  let l := LocalTime tz t in
  UTC tz (MakeDate (MakeDay (YearFromTime l) month (DateFromTime l)) (TimeWithinDay l)).

(** ** [validateDateTime] *)

Inductive DateError := TooSoon | TooFarAhead.

Definition date_error_message (e : DateError) : string :=
  match e with
  | TooSoon => "La réservation doit être faite au moins 30 minutes à l'avance"
  | TooFarAhead => "La réservation ne peut pas être faite plus de 3 mois à l'avance"
  end.

(** [const maxDate = new Date(); maxDate.setMonth(maxDate.getMonth() + 3)] *)
Definition maxBookingDate (tz now : Z) : Z := setMonth tz now (getMonth tz now + 3).

(** [validateDateTime(date)]; [date < minTime] and [date > maxDate]
    compare time values. *)
Definition validateDateTime (tz now date : Z) : result unit DateError :=
  let minTime := now + 30 * msPerMinute in
  when date <? minTime fail TooSoon ;
  let maxDate := maxBookingDate tz now in
  when maxDate <? date fail TooFarAhead ;
  Ok tt.

(** A valid civil date: the Gregorian leap-year rule and month lengths. *)
Definition leap_year (y : Z) : bool :=
  ((y mod 4 =? 0) && negb (y mod 100 =? 0)) || (y mod 400 =? 0).

Definition days_in_month (y m : Z) : Z :=
  if m =? 2 then (if leap_year y then 29 else 28)
  else if (m =? 4) || (m =? 6) || (m =? 9) || (m =? 11) then 30 else 31.

Definition valid_date (y m d : Z) : bool :=
  (1 <=? m) && (m <=? 12) && (1 <=? d) && (d <=? days_in_month y m).

(** ** [Date] objects and [new Date(string)]

    A [Date] object holds a time value or [NaN] ("Invalid Date"); every
    comparison with [NaN] is false. *)
Inductive JsDateObj := ValidDate (t : Z) | InvalidDate.

(** [date < t] and [date > t] on a [Date] object. *)
Definition date_lt (d : JsDateObj) (t : Z) : bool :=
  match d with ValidDate x => x <? t | InvalidDate => false end.
Definition date_gt (d : JsDateObj) (t : Z) : bool :=
  match d with ValidDate x => t <? x | InvalidDate => false end.

(** The digits of [s] from [a] to [b], when they are all digits. *)
Definition digits_at (s : string) (a b : nat) : option Z :=
  let sub := Js.substring s a b in
  if Js.test_digits (b - a) sub then Some (Js.digits_to_Z sub 0) else None.

Definition char_at_is (s : string) (i : nat) (c : Ascii.ascii) : bool :=
  match String.get i s with Some c' => Ascii.eqb c c' | None => false end.

(** [new Date(s)] on the value of an [<input type="datetime-local">],
    ["YYYY-MM-DDTHH:mm"]: a date-time without offset is local time.  Any
    other string, or out-of-range fields, give an Invalid Date. *)
Definition parse_datetime_local (tz : Z) (s : string) : JsDateObj :=
  if (String.length s =? 16)%nat && char_at_is s 4 "-"%char && char_at_is s 7 "-"%char &&
     char_at_is s 10 "T"%char && char_at_is s 13 ":"%char then
    match digits_at s 0 4, digits_at s 5 7, digits_at s 8 10,
          digits_at s 11 13, digits_at s 14 16 with
    | Some y, Some mo, Some d, Some h, Some mi =>
        if valid_date y mo d && (h <=? 23) && (mi <=? 59) then
          ValidDate (UTC tz (MakeDate (MakeDay y (mo - 1) d) ((h * 60 + mi) * msPerMinute)))
        else InvalidDate
    | _, _, _, _, _ => InvalidDate
    end
  else InvalidDate.

(** [validateDateTime] on a [Date] object: an Invalid Date fails both
    comparisons and is accepted. *)
Definition validateDateTimeObj (tz now : Z) (date : JsDateObj) : result unit DateError :=
  let minTime := now + 30 * msPerMinute in
  when date_lt date minTime fail TooSoon ;
  let maxDate := maxBookingDate tz now in
  when date_gt date maxDate fail TooFarAhead ;
  Ok tt.

(** ** Calendar arithmetic repeats every 400 years *)

(** The number of days [setMonth] moves a date by when it adds [k]
    months to the date of day number [D]. *)
Definition month_shift_days (k D : Z) : Z :=
  let '(y, m, d) := civil_from_days D in MakeDay y (m - 1 + k) d - D.

Lemma days_from_civil_400 (y m d : Z) :
  days_from_civil (y + 400) m d = days_from_civil y m d + 146097.
Proof.
  unfold days_from_civil. cbv zeta.
  assert (Hs : forall a, a + 1 * 400 - (a / 400 + 1) * 400 = a - a / 400 * 400) by lia.
  destruct (m <=? 2);
  [replace (y + 400 - 1) with ((y - 1) + 1 * 400) by lia
  | replace (y + 400) with (y + 1 * 400) by lia];
  rewrite Z.div_add, Hs by lia; lia.
Qed.

Lemma civil_from_days_146097 (z : Z) :
  civil_from_days (z + 146097) =
  let '(y, m, d) := civil_from_days z in (y + 400, m, d).
Proof.
  unfold civil_from_days. cbv zeta.
  replace (z + 146097 + 719468) with ((z + 719468) + 1 * 146097) by lia.
  rewrite Z.div_add by lia.
  replace (z + 719468 + 1 * 146097 - ((z + 719468) / 146097 + 1) * 146097)
    with (z + 719468 - (z + 719468) / 146097 * 146097) by lia.
  destruct (_ <? 10); destruct (_ <=? 2); f_equal; f_equal; lia.
Qed.

Lemma MakeDay_400 (y month date : Z) :
  MakeDay (y + 400) month date = MakeDay y month date + 146097.
Proof.
  unfold MakeDay. replace (y + 400 + month / 12) with (y + month / 12 + 400) by lia.
  rewrite days_from_civil_400. lia.
Qed.

Lemma leap_year_400 (y : Z) : leap_year (y + 400) = leap_year y.
Proof.
  unfold leap_year.
  replace (y + 400) with (y + 100 * 4) by lia. rewrite Z_mod_plus_full.
  replace (y + 100 * 4) with (y + 4 * 100) by lia. rewrite Z_mod_plus_full.
  replace (y + 4 * 100) with (y + 1 * 400) by lia. by rewrite Z_mod_plus_full.
Qed.

Lemma valid_date_400 (y m d : Z) : valid_date (y + 400) m d = valid_date y m d.
Proof. unfold valid_date, days_in_month. by rewrite leap_year_400. Qed.

Lemma month_shift_periodic (k D : Z) :
  month_shift_days k (D + 146097) = month_shift_days k D.
Proof.
  unfold month_shift_days. rewrite civil_from_days_146097.
  destruct (civil_from_days D) as [[y m] d]. rewrite MakeDay_400. lia.
Qed.

(** [setMonth] keeps the time of day: adding [k] months to the month of
    [t] moves [t] by a whole number of days. *)
Lemma setMonth_shift (tz t k : Z) :
  setMonth tz t (getMonth tz t + k) - t =
  month_shift_days k (Day (LocalTime tz t)) * msPerDay.
Proof.
  unfold setMonth, getMonth, MonthFromTime, YearFromTime, DateFromTime, month_shift_days.
  destruct (civil_from_days (Day (LocalTime tz t))) as [[y m] d]. simpl.
  unfold MakeDate, UTC, LocalTime, Day, TimeWithinDay.
  pose proof (Z.div_mod (t + tz) msPerDay ltac:(discriminate)). lia.
Qed.

(** The facts checked on one 400-year cycle of days: the day number of
    the civil date of [D] is [D], that date is valid, three months after
    it are 89 to 92 days later, and four months are more than three. *)
Definition calendar_check (D : Z) : bool :=
  let '(y, m, d) := civil_from_days D in
  let w3 := MakeDay y (m - 1 + 3) d - D in
  let w4 := MakeDay y (m - 1 + 4) d - D in
  (days_from_civil y m d =? D) && valid_date y m d &&
  (89 <=? w3) && (w3 <=? 92) && (w3 <? w4).

Lemma calendar_check_periodic (D : Z) : calendar_check (D + 146097) = calendar_check D.
Proof.
  unfold calendar_check. rewrite civil_from_days_146097.
  destruct (civil_from_days D) as [[y m] d].
  rewrite days_from_civil_400, valid_date_400, !MakeDay_400.
  replace (days_from_civil y m d + 146097 =? D + 146097) with (days_from_civil y m d =? D)
    by (destruct (Z.eqb_spec (days_from_civil y m d) D),
          (Z.eqb_spec (days_from_civil y m d + 146097) (D + 146097)); lia).
  replace (MakeDay y (m - 1 + 3) d + 146097 - (D + 146097))
    with (MakeDay y (m - 1 + 3) d - D) by lia.
  replace (MakeDay y (m - 1 + 4) d + 146097 - (D + 146097))
    with (MakeDay y (m - 1 + 4) d - D) by lia.
  reflexivity.
Qed.

Lemma calendar_sweep : check_block calendar_check 146097 0 = true.
Proof. exact (eq_refl true <: check_block calendar_check 146097 0 = true). Qed.

Lemma calendar_check_all (D : Z) : calendar_check D = true.
Proof. exact (periodic_sweep calendar_check 146097 calendar_check_periodic calendar_sweep D). Qed.

Lemma calendar_facts (D : Z) :
  let '(y, m, d) := civil_from_days D in
  days_from_civil y m d = D /\ valid_date y m d = true /\
  89 <= month_shift_days 3 D <= 92 /\ month_shift_days 3 D < month_shift_days 4 D.
Proof.
  pose proof (calendar_check_all D) as H. unfold calendar_check, month_shift_days in *.
  destruct (civil_from_days D) as [[y m] d].
  repeat match goal with H : _ && _ = true |- _ => apply andb_prop in H as [? ?] end.
  rewrite Z.eqb_eq in *. rewrite Z.leb_le in *. rewrite Z.ltb_lt in *. tauto.
Qed.

Lemma month_shift_bounds (D : Z) :
  89 <= month_shift_days 3 D <= 92 /\ month_shift_days 3 D < month_shift_days 4 D.
Proof.
  pose proof (calendar_facts D) as H. destruct (civil_from_days D) as [[y m] d]. tauto.
Qed.

(** ** The calendar *)

(** (C: day numbers and civil dates) Every day number is the day number
    of its civil date, and that date is a valid Gregorian date: the
    conversion behind [getMonth], [getDate] and [setMonth] loses nothing. *)
Theorem civil_from_days_roundtrip (z : Z) :
  let '(y, m, d) := civil_from_days z in
  valid_date y m d = true /\ days_from_civil y m d = z.
Proof.
  pose proof (calendar_facts z) as H. destruct (civil_from_days z) as [[y m] d]. tauto.
Qed.

(** ** The booking window *)

(** (C13: three calendar months) The latest accepted date,
    [setMonth(getMonth() + 3)] of the current time, is between 89 and 92
    days ahead, at the same time of day, whatever the current time and
    time-zone offset. *)
Theorem maxBookingDate_bounds (tz now : Z) :
  now + 89 * msPerDay <= maxBookingDate tz now <= now + 92 * msPerDay.
Proof.
  pose proof (setMonth_shift tz now 3) as E. pose proof (month_shift_bounds (Day (LocalTime tz now))).
  unfold maxBookingDate. unfold msPerDay in *. lia.
Qed.

Lemma validateDateTime_cases (tz now date : Z) :
  (validateDateTime tz now date = Ok tt <->
     now + 30 * msPerMinute <= date <= maxBookingDate tz now) /\
  (validateDateTime tz now date = Err TooSoon <-> date < now + 30 * msPerMinute) /\
  (validateDateTime tz now date = Err TooFarAhead <->
     now + 30 * msPerMinute <= date /\ maxBookingDate tz now < date).
Proof.
  unfold validateDateTime.
  destruct (date <? now + 30 * msPerMinute) eqn:E1;
    [apply Z.ltb_lt in E1 | apply Z.ltb_ge in E1];
  [| destruct (maxBookingDate tz now <? date) eqn:E2;
     [apply Z.ltb_lt in E2 | apply Z.ltb_ge in E2]];
  repeat split; intros; try discriminate; try reflexivity; lia.
Qed.

(** (C12: the booking window) A date is accepted exactly when it is at
    least 30 minutes after now and not after the date three calendar
    months ahead; it is rejected as too soon before, as too far after. *)
Theorem validateDateTime_window (tz now date : Z) :
  (validateDateTime tz now date = Ok tt <->
     now + 30 * msPerMinute <= date <= maxBookingDate tz now) /\
  (validateDateTime tz now date = Err TooSoon <-> date < now + 30 * msPerMinute) /\
  (validateDateTime tz now date = Err TooFarAhead <->
     now + 30 * msPerMinute <= date /\ maxBookingDate tz now < date).
Proof. apply validateDateTime_cases. Qed.

(** (C: the specification's booking-window scenarios) 29 minutes ahead is
    too soon, 31 minutes ahead is accepted, and four calendar months
    ahead is too far, for every current time and time-zone offset. *)
Theorem validateDateTime_scenarios (tz now : Z) :
  validateDateTime tz now (now + 29 * msPerMinute) = Err TooSoon /\
  validateDateTime tz now (now + 31 * msPerMinute) = Ok tt /\
  validateDateTime tz now (setMonth tz now (getMonth tz now + 4)) = Err TooFarAhead.
Proof.
  pose proof (month_shift_bounds (Day (LocalTime tz now))) as M.
  pose proof (setMonth_shift tz now 3) as E3. pose proof (setMonth_shift tz now 4) as E4.
  unfold msPerDay in E3, E4. split; [| split].
  - apply (proj2 (proj1 (proj2 (validateDateTime_cases tz now _)))). unfold msPerMinute. lia.
  - apply (proj2 (proj1 (validateDateTime_cases tz now _))).
    unfold maxBookingDate, msPerMinute. lia.
  - apply (proj2 (proj2 (proj2 (validateDateTime_cases tz now _)))).
    unfold maxBookingDate, msPerMinute. lia.
Qed.

(** [setMonth] overflows the day of month: three months after
    30 November 2025, noon, is 2 March 2026, noon, not the end of
    February. *)
Example maxBookingDate_overflow :
  let now := days_from_civil 2025 11 30 * msPerDay + 43200000 in
  civil_from_days (Day (maxBookingDate 0 now)) = (2026, 3, 2) /\
  maxBookingDate 0 now = now + 92 * msPerDay.
Proof. vm_compute. split; reflexivity. Qed.
