(* ===== verification/Format.v ===== *)
(** * The formatters the screens call

    The library functions that turn the model's numbers and dates into
    the text the screens show: ECMAScript's [Number.prototype.toFixed(2)]
    (every amount in euros), date-fns' [format(d, 'PPp', { locale:
    fr })] (every date and time of a booking or a trip), which throws a
    [RangeError] on an Invalid Date, [Date.prototype.toLocaleDateString]
    in the [fr-FR] and [en-US] locales, and [Date.prototype.toISOString].
    They are not code of the repository; this file gives their
    semantics, as [Prelude.Js] does for the string built-ins, and the
    facts the screens' theorems need: the amount printed reads back as
    the fare rounded to the cent. *)

From Stdlib Require Import Ascii Qabs Lqa.
From S2P Require Import Prelude JsDate.

Module Fmt.

(** ** Decimal digits *)

Definition digit_char (d : N) : Ascii.ascii := Ascii.ascii_of_nat (48 + N.to_nat d).

(** The digits of [n], least significant first.  Each step divides by
    10, so [fuel] steps print every [n < 2 ^ fuel]. *)
Fixpoint digits_rev (fuel : nat) (n : N) : list Ascii.ascii :=
  match fuel with
  | O => []
  | S f => digit_char (n mod 10) :: (if (n <? 10)%N then [] else digits_rev f (n / 10))
  end.

(** [String(n)] on a natural number.  [n < 2 ^ N.size n], so
    [N.size n + 1] steps are enough ([decimal_read] below). *)
Definition decimal (n : N) : list Ascii.ascii := rev (digits_rev (S (N.to_nat (N.size n))) n).

(** [String.prototype.padStart(k, '0')] *)
Definition padStart (k : nat) (m : list Ascii.ascii) : list Ascii.ascii :=
  replicate (k - length m) "0"%char ++ m.

(** ** [Number.prototype.toFixed(2)]

    ECMAScript: [n] is the integer for which [n / 100 - x] is closest to
    zero, the larger one on a tie; its digits, padded to three, get a
    point before the last two; a negative [x] is printed as [-x] after a
    minus sign.  (Values of [10^21] and more are printed by [ToString];
    no amount of the application comes near.) *)
Definition toFixed2_cents (x : Q) : Z := Qfloor (Qabs x * 100 + (1 # 2))%Q.

Definition fixed2_chars (n : N) : list Ascii.ascii :=
  let m := padStart 3 (decimal n) in
  take (length m - 2) m ++ "."%char :: drop (length m - 2) m.

Definition toFixed2 (x : Q) : string :=
  String.string_of_list_ascii
    ((if Qle_bool 0 x then [] else ["-"%char]) ++ fixed2_chars (Z.to_N (toFixed2_cents x))).

(** Reading an unsigned fixed-point string back, in hundredths: its
    digits, the point skipped. *)
Definition read_digits (l : list Ascii.ascii) : Z :=
  fold_left (fun acc c => acc * 10 + Js.digit_value c) l 0.

Definition read_fixed2 (s : string) : Z :=
  read_digits (List.filter (fun c => negb (Ascii.eqb c "."%char)) (String.list_ascii_of_string s)).

(** ** date-fns' [format(d, 'PPp', { locale: fr })]

    ['PPp'] is the locale's medium date and short time joined by its
    medium date-time pattern; for [fr] that is ["d MMM y, HH:mm"], the
    month abbreviated, in the local time zone ([tz]).  A date that is
    [null] or invalid throws [RangeError('Invalid time value')]. *)
Definition fr_month_abbreviated : list string :=
  ["janv."; "févr."; "mars"; "avr."; "mai"; "juin"; "juil."; "août"; "sept."; "oct."; "nov."; "déc."].

Definition decimal_Z (n : Z) : string := String.string_of_list_ascii (decimal (Z.to_N n)).

(** [String(n)] on an integer, as JSX prints a number. *)
Definition string_of_Z (n : Z) : string :=
  (if n <? 0 then "-" else "") +:+ decimal_Z (Z.abs n).

Definition two_digits (n : Z) : string :=
  String.string_of_list_ascii (padStart 2 (decimal (Z.to_N n))).

Definition format_PPp_fr (tz : Z) (d : option JsDateObj) : result string string :=
  match d with
  | Some (ValidDate t) =>
      let lt := LocalTime tz t in
      let '(y, m, day) := civil_from_days (Day lt) in
      let ms := TimeWithinDay lt in
      Ok (decimal_Z day +:+ " " +:+ default "" (fr_month_abbreviated !! Z.to_nat (m - 1)) +:+ " " +:+
          decimal_Z (if 0 <? y then y else 1 - y) +:+ ", " +:+
          two_digits (ms / 3600000) +:+ ":" +:+ two_digits (ms / msPerMinute mod 60))
  | _ => Err "Invalid time value"
  end.

(** The default locale, [en-US]: ["MMM d, y, h:mm a"]. *)
Definition en_month_abbreviated : list string :=
  ["Jan"; "Feb"; "Mar"; "Apr"; "May"; "Jun"; "Jul"; "Aug"; "Sep"; "Oct"; "Nov"; "Dec"].

Definition format_PPp_en (tz : Z) (d : option JsDateObj) : result string string :=
  match d with
  | Some (ValidDate t) =>
      let lt := LocalTime tz t in
      let '(y, m, day) := civil_from_days (Day lt) in
      let ms := TimeWithinDay lt in
      let h := ms / 3600000 in
      Ok (default "" (en_month_abbreviated !! Z.to_nat (m - 1)) +:+ " " +:+ decimal_Z day +:+ ", " +:+
          decimal_Z (if 0 <? y then y else 1 - y) +:+ ", " +:+
          decimal_Z (if h mod 12 =? 0 then 12 else h mod 12) +:+ ":" +:+
          two_digits (ms / msPerMinute mod 60) +:+ " " +:+ (if h <? 12 then "AM" else "PM"))
  | _ => Err "Invalid time value"
  end.

(** ** [Date.prototype.toLocaleDateString()]

    The browser's default locale and time zone [tz]: [fr-FR] prints
    ["dd/MM/y"], [en-US] ["M/d/y"], the year of the era as [Intl] does. *)
Inductive Locale := fr_FR | en_US.

Definition toLocaleDateString (loc : Locale) (tz t : Z) : string :=
  let '(y, m, d) := civil_from_days (Day (LocalTime tz t)) in
  let year := decimal_Z (if 0 <? y then y else 1 - y) in
  match loc with
  | fr_FR => two_digits d +:+ "/" +:+ two_digits m +:+ "/" +:+ year
  | en_US => decimal_Z m +:+ "/" +:+ decimal_Z d +:+ "/" +:+ year
  end.

(** ** [Date.prototype.toISOString]

    ["YYYY-MM-DDTHH:mm:ss.sssZ"] in UTC; a year outside 0..9999 is
    written with a sign and six digits; an Invalid Date throws a
    [RangeError].  The characters up to the minutes are [iso_minutes]. *)
Definition padZ (k : nat) (n : Z) : list Ascii.ascii := padStart k (decimal (Z.to_N n)).

Definition iso_year (y : Z) : list Ascii.ascii :=
  if (0 <=? y) && (y <=? 9999) then padZ 4 y
  else (if y <? 0 then "-"%char else "+"%char) :: padZ 6 (Z.abs y).

Definition iso_minutes (t : Z) : list Ascii.ascii :=
  let '(y, m, d) := civil_from_days (Day t) in
  let ms := TimeWithinDay t in
  iso_year y ++ "-"%char :: padZ 2 m ++ "-"%char :: padZ 2 d ++ "T"%char ::
  padZ 2 (ms / 3600000) ++ ":"%char :: padZ 2 (ms / msPerMinute mod 60).

Definition toISOString (d : JsDateObj) : result string string :=
  match d with
  | ValidDate t =>
      let ms := TimeWithinDay t in
      Ok (String.string_of_list_ascii
            (iso_minutes t ++ ":"%char :: padZ 2 (ms / 1000 mod 60) ++ "."%char ::
             padZ 3 (ms mod 1000) ++ ["Z"%char]))
  | InvalidDate => Err "Invalid time value"
  end.

(** ** Reading the digits back *)

Lemma digit_value_char (d : N) : (d < 10)%N -> Js.digit_value (digit_char d) = Z.of_N d.
Proof. intros Hd. unfold Js.digit_value, digit_char. rewrite Ascii.nat_ascii_embedding; lia. Qed.

Lemma digit_char_is_digit (d : N) : (d < 10)%N -> Js.is_digit (digit_char d) = true.
Proof.
  intros Hd. unfold Js.is_digit, digit_char. rewrite Ascii.nat_ascii_embedding by lia.
  apply andb_true_iff; split; apply Nat.leb_le; lia.
Qed.

Lemma read_digits_app (l1 l2 : list Ascii.ascii) :
  read_digits (l1 ++ l2) = fold_left (fun acc c => acc * 10 + Js.digit_value c) l2 (read_digits l1).
Proof. unfold read_digits. by rewrite fold_left_app. Qed.

Lemma read_digits_zeros (k : nat) (m : list Ascii.ascii) :
  read_digits (replicate k "0"%char ++ m) = read_digits m.
Proof.
  rewrite read_digits_app. replace (read_digits (replicate k "0"%char)) with 0; [done |].
  unfold read_digits. induction k as [| k IH]; [done |]. by rewrite replicate_S_end, fold_left_app, <- IH.
Qed.

Lemma digits_rev_read (fuel : nat) (n : N) :
  (n < 2 ^ N.of_nat fuel)%N -> read_digits (rev (digits_rev fuel n)) = Z.of_N n.
Proof.
  revert n. induction fuel as [| f IH]; intros n Hn; simpl in *.
  - assert (n = 0%N) as -> by lia. reflexivity.
  - rewrite read_digits_app. simpl. rewrite digit_value_char by (apply N.mod_lt; lia).
    destruct (n <? 10)%N eqn:E; [apply N.ltb_lt in E; rewrite N.mod_small; done |].
    apply N.ltb_ge in E. rewrite IH; [pose proof (N.div_mod n 10); lia |].
    rewrite Nat2N.inj_succ, N.pow_succ_r' in Hn. apply N.Div0.div_lt_upper_bound; lia.
Qed.

Lemma decimal_read (n : N) : read_digits (decimal n) = Z.of_N n.
Proof.
  apply digits_rev_read. rewrite Nat2N.inj_succ, N2Nat.id, N.pow_succ_r'.
  pose proof (N.size_gt n). lia.
Qed.

Lemma digits_rev_digits (fuel : nat) (n : N) : Forall (fun c => Js.is_digit c = true) (digits_rev fuel n).
Proof.
  revert n. induction fuel as [| f IH]; intros n; constructor.
  - apply digit_char_is_digit, N.mod_lt. lia.
  - destruct (n <? 10)%N; auto.
Qed.

Lemma decimal_digits (n : N) : Forall (fun c => Js.is_digit c = true) (decimal n).
Proof. apply Forall_rev, digits_rev_digits. Qed.

Lemma filter_no_point (l : list Ascii.ascii) :
  Forall (fun c => Js.is_digit c = true) l ->
  List.filter (fun c => negb (Ascii.eqb c "."%char)) l = l.
Proof.
  induction 1 as [| c l Hc _ IH]; [done |]. simpl. rewrite IH.
  destruct (Ascii.eqb_spec c "."%char) as [-> |]; [discriminate | done].
Qed.

Lemma toFixed2_cents_bounds (x : Q) :
  (0 <= x)%Q ->
  0 <= toFixed2_cents x /\ (Qabs (x * 100 - inject_Z (toFixed2_cents x)) <= 1 # 2)%Q.
Proof.
  intros Hx. unfold toFixed2_cents. set (q := (Qabs x * 100 + (1 # 2))%Q).
  pose proof (Qfloor_le q) as Hle. pose proof (Qlt_floor q) as Hlt.
  rewrite inject_Z_plus in Hlt. change (inject_Z 1) with 1%Q in Hlt. pose proof (Qabs_pos x Hx) as Ha. subst q.
  split.
  - apply (Qfloor_resp_le 0). lra.
  - apply Qabs_Qle_condition. split; lra.
Qed.

Lemma padStart_digits (k : nat) (m : list Ascii.ascii) :
  Forall (fun c => Js.is_digit c = true) m -> Forall (fun c => Js.is_digit c = true) (padStart k m).
Proof. intros Hm. apply Forall_app; split; [apply Forall_replicate; reflexivity | done]. Qed.

(** The digits [toFixed(2)] prints for a non-negative [x] read back as
    the number of cents it rounds [x] to. *)
Lemma toFixed2_read (x : Q) : (0 <= x)%Q -> read_fixed2 (toFixed2 x) = toFixed2_cents x.
Proof.
  intros Hx. destruct (toFixed2_cents_bounds x Hx) as [Hc _].
  unfold toFixed2, read_fixed2. apply Qle_bool_iff in Hx. rewrite Hx. simpl.
  rewrite String.list_ascii_of_string_of_list_ascii. unfold fixed2_chars.
  rewrite List.filter_app. cbn [List.filter]. rewrite Ascii.eqb_refl. simpl negb. cbv iota.
  rewrite <- List.filter_app, take_drop, filter_no_point by apply padStart_digits, decimal_digits.
  unfold padStart. rewrite read_digits_zeros, decimal_read. lia.
Qed.

(** On a whole number of euros no rounding occurs. *)
Lemma toFixed2_cents_int (z : Z) : 0 <= z -> toFixed2_cents (inject_Z z) = 100 * z.
Proof.
  intros Hz. unfold toFixed2_cents. cbn -[Z.mul Z.div]. rewrite Z.abs_eq by done.
  symmetry. apply Z.div_unique_pos with 1; simpl; lia.
Qed.

(** ** Strings as lists of characters *)

Lemma list_ascii_substring (n m : nat) (s : string) :
  String.list_ascii_of_string (String.substring n m s) = take m (drop n (String.list_ascii_of_string s)).
Proof.
  revert n m. induction s as [| c s IH]; intros [| n] [| m]; simpl; rewrite ?IH; try done.
Qed.

Lemma get_lookup (i : nat) (s : string) : String.get i s = String.list_ascii_of_string s !! i.
Proof. revert i. induction s as [| c s IH]; intros [| i]; simpl; auto. Qed.

Lemma digits_to_Z_read (s : string) (acc : Z) :
  Js.digits_to_Z s acc = fold_left (fun acc c => acc * 10 + Js.digit_value c) (String.list_ascii_of_string s) acc.
Proof. revert acc. induction s as [| c s IH]; intros acc; simpl; auto. Qed.

Lemma digits_rev_length (fuel : nat) (n : N) (k : nat) :
  (1 <= k)%nat -> (n < 10 ^ N.of_nat k)%N -> (length (digits_rev fuel n) <= k)%nat.
Proof.
  revert n k. induction fuel as [| f IH]; intros n k Hk Hn; simpl; [lia |].
  destruct (n <? 10)%N eqn:E; simpl; [lia |]. apply N.ltb_ge in E.
  destruct k as [| [| k]]; [lia | simpl in Hn; lia |].
  assert (IH' := IH (n / 10)%N (S k) ltac:(lia)).
  enough ((n / 10 < 10 ^ N.of_nat (S k))%N) by (specialize (IH' H); lia).
  rewrite !Nat2N.inj_succ, N.pow_succ_r' in Hn. apply N.Div0.div_lt_upper_bound; lia.
Qed.

(** A number below [10 ^ k] padded to [k] digits takes exactly [k]
    characters, all digits, and reads back as itself. *)
Lemma padZ_spec (k : nat) (n : Z) :
  (1 <= k)%nat -> 0 <= n < 10 ^ Z.of_nat k ->
  length (padZ k n) = k /\ Forall (fun c => Js.is_digit c = true) (padZ k n) /\ read_digits (padZ k n) = n.
Proof.
  intros Hk Hn. unfold padZ, padStart. split; [| split].
  - rewrite length_app, length_replicate.
    enough (length (decimal (Z.to_N n)) <= k)%nat by lia.
    unfold decimal. rewrite length_rev. apply digits_rev_length; [done |].
    apply N2Z.inj_lt. rewrite N2Z.inj_pow, nat_N_Z, Z2N.id; lia.
  - apply padStart_digits, decimal_digits.
  - rewrite read_digits_zeros, decimal_read. lia.
Qed.

End Fmt.
