(* ===== verification/Notifications.v ===== *)
(** * In-app notifications

    The zustand store of [src/src/stores/notificationStore.ts], the
    snapshot handlers of [src/src/hooks/useNotifications.ts] that fill it,
    the two components that read it
    ([src/src/components/notifications/NotificationList.tsx] and
    [NotificationBell.tsx]) and the notification writer of
    [src/src/utils/notifications.ts].  The store is a record; each action
    is a function from the state before [set] to the state after it.  The
    store keeps a cached [unreadCount] beside the list, and the theorems
    are about when that cache is right. *)

From S2P Require Import Prelude Stations Fare Trip.

Set Warnings "-clear-no-such-hyp".
Open Scope Z_scope.

(** [type: 'trip_update' | 'trip_cancelled' | 'participant_joined' |
    'participant_left'] *)
Inductive NotificationType :=
  | trip_update | trip_cancelled | participant_joined | participant_left.

Definition notification_type_name (ty : NotificationType) : string :=
  match ty with
  | trip_update => "trip_update"
  | trip_cancelled => "trip_cancelled"
  | participant_joined => "participant_joined"
  | participant_left => "participant_left"
  end.

Module Notification.

(** [export interface Notification] of [src/src/types/notification.ts];
    [createdAt] as milliseconds since the epoch. *)
Record t := mk {
  id : string;
  userId : string;
  tripId : option string;
  type : NotificationType;
  title : string;
  message : string;
  read : bool;
  createdAt : Z
}.

(** [{ ...n, read: true }] *)
Definition with_read (n : t) : t :=
  mk (id n) (userId n) (tripId n) (type n) (title n) (message n) true (createdAt n).

End Notification.

(** [interface NotificationState], without the action fields. *)
Record NotificationState := mkNotificationState {
  notifications : list Notification.t;
  unreadCount : Z;
  loading : bool;
  error : option string
}.

(** The initial value passed to [create]. *)
Definition initialNotificationState : NotificationState :=
  mkNotificationState [] 0 true None.

(** [notifications.filter(n => !n.read).length] *)
Definition count_unread (l : list Notification.t) : Z :=
  Z.of_nat (length (List.filter (fun n => negb (Notification.read n)) l)).

(** ** The store's actions *)

Definition setNotifications (ns : list Notification.t) (s : NotificationState)
    : NotificationState :=
  mkNotificationState ns (count_unread ns) (loading s) (error s).

Definition addNotification (n : Notification.t) (s : NotificationState)
    : NotificationState :=
  mkNotificationState (n :: notifications s)
    (unreadCount s + (if Notification.read n then 0 else 1)) (loading s) (error s).

(** [state.notifications.find(n => n.id === notificationId)?.read ? 0 : 1]:
    an id that is not in the list gives [undefined?.read], which is falsy. *)
Definition found_unread (nid : string) (l : list Notification.t) : Z :=
  match List.find (fun n => String.eqb (Notification.id n) nid) l with
  | Some n => if Notification.read n then 0 else 1
  | None => 1
  end.

Definition mark_if (nid : string) (n : Notification.t) : Notification.t :=
  if String.eqb (Notification.id n) nid then Notification.with_read n else n.

Definition markAsRead (nid : string) (s : NotificationState) : NotificationState :=
  mkNotificationState (map (mark_if nid) (notifications s))
    (unreadCount s - found_unread nid (notifications s)) (loading s) (error s).

Definition markAllAsRead (s : NotificationState) : NotificationState :=
  mkNotificationState (map Notification.with_read (notifications s)) 0 (loading s) (error s).

Definition setLoading (b : bool) (s : NotificationState) : NotificationState :=
  mkNotificationState (notifications s) (unreadCount s) b (error s).

Definition setError (e : option string) (s : NotificationState) : NotificationState :=
  mkNotificationState (notifications s) (unreadCount s) (loading s) e.

(** ** The subscription of [useNotifications]

    A document of the [notifications] collection as the snapshot delivers
    it: [createdAt] is a [Timestamp] once the server has set it, and is
    replaced by the client's clock ([new Date()]) otherwise. *)
Record NotificationDoc := mkNotificationDoc {
  doc_userId : string;
  doc_tripId : option string;
  doc_type : NotificationType;
  doc_title : string;
  doc_message : string;
  doc_read : bool;
  doc_createdAt : option Z
}.

Definition fromDoc (now : Z) (docId : string) (d : NotificationDoc) : Notification.t :=
  Notification.mk docId (doc_userId d) (doc_tripId d) (doc_type d) (doc_title d)
    (doc_message d) (doc_read d) (default now (doc_createdAt d)).

(** The effect's first lines: without a user only [setLoading(false)]. *)
Definition useNotifications_start (user : option string) (s : NotificationState)
    : NotificationState :=
  match user with
  | None => setLoading false s
  | Some _ => setLoading true s
  end.

(** The [onSnapshot] success callback on the documents [(id, data)]. *)
Definition onNotificationsSnapshot (now : Z) (docs : list (string * NotificationDoc))
    (s : NotificationState) : NotificationState :=
  setLoading false (setError None
    (setNotifications (map (fun '(i, d) => fromDoc now i d) docs) s)).

(** The [onSnapshot] error callback, on the error's [code]. *)
Definition onNotificationsError (code : string) (s : NotificationState)
    : NotificationState :=
  setLoading false (setError (Some
    (if String.eqb code "permission-denied"
     then "You do not have permission to view notifications"
     else "Failed to load notifications")) s).

(** ** What the components show *)

Inductive NotificationListView :=
  | NLLoading
  | NLError (msg : string)
  | NLEmpty
  | NLItems (markAllButton : bool) (items : list (string * string * bool)).

(** The body of [NotificationList] once loading and error are past: the
    empty message, or the "Mark all as read" button when
    [notifications.some(n => !n.read)] and each item's title, message and
    unread highlight. *)
Definition items_view (ns : list Notification.t) : NotificationListView :=
  match ns with
  | [] => NLEmpty
  | _ => NLItems (existsb (fun n => negb (Notification.read n)) ns)
          (map (fun n => (Notification.title n, Notification.message n,
                          negb (Notification.read n))) ns)
  end.

(** [NotificationList]'s early returns; an empty error string is falsy. *)
Definition NotificationList_view (s : NotificationState) : NotificationListView :=
  if loading s then NLLoading else
  match error s with
  | Some e => if String.eqb e "" then items_view (notifications s) else NLError e
  | None => items_view (notifications s)
  end.

(** [handleNotificationClick]: the new state and the route navigated to. *)
Definition handleNotificationClick (n : Notification.t) (s : NotificationState)
    : NotificationState * option string :=
  (markAsRead (Notification.id n) s,
   match Notification.tripId n with
   | Some tid => if String.eqb tid "" then None else Some ("/trip/" +:+ tid)
   | None => None
   end).

(** [NotificationBell]: the badge [{unreadCount}] when [unreadCount > 0]. *)
Definition NotificationBell_badge (s : NotificationState) : option Z :=
  if 0 <? unreadCount s then Some (unreadCount s) else None.

(** ** Writing a notification ([utils/notifications.ts]) *)

(** [getNotificationTitle(type: string)] *)
Definition getNotificationTitle (type : string) : string :=
  if String.eqb type "trip_update" then "Trajet modifié"
  else if String.eqb type "trip_cancelled" then "Trajet annulé"
  else if String.eqb type "participant_joined" then "Nouveau participant"
  else if String.eqb type "participant_left" then "Participant parti"
  else "Notification de trajet".

(** [getNotificationMessage(type, trip)], with its template literals. *)
Definition getNotificationMessage (type : string) (trip : Trip.t) : string :=
  let from := Location.address (Trip.pickup trip) in
  let to := Location.address (Trip.dropoff trip) in
  if String.eqb type "trip_update" then
    "Les détails du trajet de " +:+ from +:+ " à " +:+ to +:+ " ont été mis à jour"
  else if String.eqb type "trip_cancelled" then
    "Le trajet de " +:+ from +:+ " à " +:+ to +:+ " a été annulé"
  else if String.eqb type "participant_joined" then
    "Un nouveau participant a rejoint votre trajet vers " +:+ to
  else if String.eqb type "participant_left" then
    "Un participant a quitté votre trajet vers " +:+ to
  else "Il y a eu une mise à jour de votre trajet".

(** [createTripNotification(userId, tripId, type, trip)]: [addDoc] into
    the [notifications] collection under the id it allocates, the
    [createdAt] being the server's timestamp.  A failed write is only
    logged, so the collection is then unchanged. *)
Definition createTripNotification (coll : gmap string NotificationDoc) (newId : string)
    (writeOk : bool) (userId tripId : string) (ty : NotificationType) (trip : Trip.t)
    (serverTime : Z) : gmap string NotificationDoc :=
  let type := notification_type_name ty in
  if writeOk then
    <[newId := mkNotificationDoc userId (Some tripId) ty (getNotificationTitle type)
                 (getNotificationMessage type trip) false (Some serverTime)]> coll
  else coll.

(** ** The store as the application drives it

    The events that change the store: a snapshot of the user's
    notifications (document ids are distinct), a snapshot error, a click
    on an item the list shows, and a click on "Mark all as read" while
    the button is shown. *)
Inductive notif_step : NotificationState -> NotificationState -> Prop :=
  | ns_start user s :
      notif_step s (useNotifications_start user s)
  | ns_snapshot now docs s :
      NoDup (map fst docs) ->
      notif_step s (onNotificationsSnapshot now docs s)
  | ns_error code s :
      notif_step s (onNotificationsError code s)
  | ns_click n b items s :
      NotificationList_view s = NLItems b items -> In n (notifications s) ->
      notif_step s (fst (handleNotificationClick n s))
  | ns_mark_all items s :
      NotificationList_view s = NLItems true items ->
      notif_step s (markAllAsRead s).

(** The store's cache is right. *)
Definition notif_inv (s : NotificationState) : Prop :=
  unreadCount s = count_unread (notifications s) /\
  NoDup (map Notification.id (notifications s)).

(** ** Counting unread notifications *)

Lemma count_unread_cons (n : Notification.t) (l : list Notification.t) :
  count_unread (n :: l) = (if Notification.read n then 0 else 1) + count_unread l.
Proof. unfold count_unread. simpl. destruct (Notification.read n); simpl; lia. Qed.

Lemma count_unread_nonneg (l : list Notification.t) : 0 <= count_unread l.
Proof. unfold count_unread. lia. Qed.

Lemma count_unread_with_read (l : list Notification.t) :
  count_unread (map Notification.with_read l) = 0.
Proof. induction l as [|n l IH]; [done |]. by rewrite map_cons, count_unread_cons. Qed.

Lemma count_unread_pos (l : list Notification.t) :
  0 < count_unread l <-> existsb (fun n => negb (Notification.read n)) l = true.
Proof.
  induction l as [|n l IH]; [cbv; split; congruence |].
  rewrite count_unread_cons. simpl. pose proof (count_unread_nonneg l).
  destruct (Notification.read n); simpl; [exact IH | split; [done | lia]].
Qed.

Lemma ids_with_read (l : list Notification.t) :
  map Notification.id (map Notification.with_read l) = map Notification.id l.
Proof. rewrite map_map. by apply map_ext. Qed.

Lemma ids_mark_if (nid : string) (l : list Notification.t) :
  map Notification.id (map (mark_if nid) l) = map Notification.id l.
Proof. rewrite map_map. apply map_ext. intros n. unfold mark_if. by destruct (String.eqb _ _). Qed.

Lemma mark_if_absent (nid : string) (l : list Notification.t) :
  ~ In nid (map Notification.id l) -> map (mark_if nid) l = l.
Proof.
  induction l as [|n l IH]; intros Hn; [done |]. simpl in Hn. simpl. unfold mark_if at 1.
  rewrite (proj2 (String.eqb_neq _ _)) by tauto. f_equal. apply IH. tauto.
Qed.

Lemma found_unread_absent (nid : string) (l : list Notification.t) :
  ~ In nid (map Notification.id l) -> found_unread nid l = 1.
Proof.
  intros Hn. unfold found_unread. destruct (List.find _ l) as [n|] eqn:Hf; [| done].
  apply find_some in Hf as [Hin Heq]. apply String.eqb_eq in Heq as <-.
  destruct Hn. by apply in_map.
Qed.

(** With distinct ids, marking a listed notification read lowers the
    count by exactly what [markAsRead] subtracts. *)
Lemma count_unread_mark (nid : string) (l : list Notification.t) :
  NoDup (map Notification.id l) -> In nid (map Notification.id l) ->
  count_unread (map (mark_if nid) l) = count_unread l - found_unread nid l.
Proof.
  induction l as [|n l IH]; intros Hnd Hin; [done |].
  simpl in Hnd, Hin. apply NoDup_cons in Hnd as [Hn Hnd].
  unfold found_unread. simpl. unfold mark_if at 1.
  destruct (String.eqb (Notification.id n) nid) eqn:E.
  - apply String.eqb_eq in E as <-.
    rewrite mark_if_absent by (by intros ?; apply Hn, list_elem_of_In).
    rewrite !count_unread_cons. simpl. destruct (Notification.read n); lia.
  - apply String.eqb_neq in E. destruct Hin as [? | Hin]; [done |].
    rewrite !count_unread_cons, IH by done. unfold found_unread. lia.
Qed.

Lemma ids_fromDoc (now : Z) (docs : list (string * NotificationDoc)) :
  map Notification.id (map (fun '(i, d) => fromDoc now i d) docs) = map fst docs.
Proof. rewrite map_map. apply map_ext. by intros []. Qed.

#[export] Hint Resolve count_unread_nonneg : cotax.
#[export] Hint Rewrite count_unread_with_read ids_with_read ids_mark_if ids_fromDoc : cotax_rw.

(** ** The cached count *)

Lemma notif_step_inv (s s' : NotificationState) :
  notif_inv s -> notif_step s s' -> notif_inv s'.
Proof.
  intros [Hc Hnd] Hs. destruct Hs as [user s | now docs s Hd | code s | n b items s _ Hin | items s _];
    unfold notif_inv; simpl; autorewrite with cotax_rw.
  - destruct user; split; simpl; done.
  - done.
  - done.
  - split; [| done]. rewrite count_unread_mark; [lia | done | by apply in_map].
  - done.
Qed.

(** (C14: the unread counter is right) In every state the application
    reaches from the store's initial value (through snapshots, snapshot
    errors, clicks on listed notifications and "Mark all as read"), the
    cached [unreadCount] equals the number of unread notifications. *)
Theorem notif_reachable_inv (s : NotificationState) :
  rtc notif_step initialNotificationState s ->
  unreadCount s = count_unread (notifications s).
Proof.
  intros Hr. enough (notif_inv s) by apply H.
  assert (H0 : notif_inv initialNotificationState) by (split; [done | constructor]).
  induction Hr as [x | x y z Hxy _ IH]; [done |]. apply IH. by eapply notif_step_inv.
Qed.

(** (C: marking an unknown notification corrupts the counter) [markAsRead]
    with an id that is not in the list changes no notification but still
    subtracts one from [unreadCount]: from a correct count it makes it
    wrong (one below the truth, negative on an empty list). *)
Theorem markAsRead_unknown_desync (nid : string) (s : NotificationState) :
  notif_inv s -> ~ In nid (map Notification.id (notifications s)) ->
  notifications (markAsRead nid s) = notifications s /\
  unreadCount (markAsRead nid s) = count_unread (notifications s) - 1.
Proof.
  intros [Hc _] Hn. simpl. rewrite mark_if_absent, found_unread_absent by done.
  split; [done | lia].
Qed.

(** (C: the bell agrees with the list) When the list is shown, the bell
    shows a badge exactly when the list offers "Mark all as read", i.e.
    when some notification is unread, provided the count is right. *)
Theorem bell_badge_iff_mark_all (s : NotificationState) :
  notif_inv s -> loading s = false -> error s = None ->
  is_Some (NotificationBell_badge s) <->
  exists items, NotificationList_view s = NLItems true items.
Proof.
  intros [Hc _] Hl He. unfold NotificationBell_badge, NotificationList_view.
  rewrite Hl, He, Hc. pose proof (count_unread_pos (notifications s)) as Hp.
  destruct (notifications s) as [|n l]; [cbv; split; intros [? [=]] |].
  unfold items_view. destruct (0 <? count_unread (n :: l)) eqn:E;
    [apply Z.ltb_lt in E | apply Z.ltb_ge in E].
  - rewrite (proj1 Hp E). split; eauto.
  - destruct (existsb _ _); [specialize (proj2 Hp eq_refl); lia |].
    split; intros [? [=]].
Qed.

(** (C: reading is local) [markAsRead] and [markAllAsRead] only change the
    local store; they never write the [notifications] collection.  So when
    the next snapshot arrives with a notification the server still has
    unread, it is listed unread again and counted by the bell, whatever
    the user clicked before. *)
Theorem read_state_lost_on_snapshot (now : Z) (docs : list (string * NotificationDoc))
    (s : NotificationState) (n : Notification.t) (i : string) (d : NotificationDoc) :
  In (i, d) docs -> doc_read d = false ->
  let s' := onNotificationsSnapshot now docs (markAllAsRead (fst (handleNotificationClick n s))) in
  In (fromDoc now i d) (notifications s') /\ Notification.read (fromDoc now i d) = false /\ 0 < unreadCount s'.
Proof.
  intros Hin Hr. simpl. split; [| split; [done |]].
  - by apply (in_map (fun '(i, d) => fromDoc now i d) docs (i, d)).
  - apply count_unread_pos, existsb_exists. exists (fromDoc now i d). split.
    + by apply (in_map (fun '(i, d) => fromDoc now i d) docs (i, d)).
    + simpl. by rewrite Hr.
Qed.

(** ** Witnesses *)

Definition sample_doc (tid : string) (rd : bool) : NotificationDoc :=
  mkNotificationDoc "alice" (Some tid) participant_joined "Nouveau participant"
    "Un nouveau participant a rejoint votre trajet vers 95700 Roissy-en-France" rd (Some 5).

Definition sample_docs : list (string * NotificationDoc) :=
  [("n1", sample_doc "trip-1" false); ("n2", sample_doc "trip-2" false);
   ("n3", sample_doc "trip-3" true)].

Definition sample_loaded : NotificationState :=
  onNotificationsSnapshot 9 sample_docs (useNotifications_start (Some "alice") initialNotificationState).

Lemma notif_reachable_inv_witness :
  rtc notif_step initialNotificationState
    (fst (handleNotificationClick (fromDoc 9 "n1" (sample_doc "trip-1" false)) sample_loaded)) /\
  unreadCount (fst (handleNotificationClick (fromDoc 9 "n1" (sample_doc "trip-1" false)) sample_loaded)) = 1.
Proof.
  assert (Hr : rtc notif_step initialNotificationState
    (fst (handleNotificationClick (fromDoc 9 "n1" (sample_doc "trip-1" false)) sample_loaded))).
  { eapply rtc_l; [apply (ns_start (Some "alice")) |].
    eapply rtc_l; [apply (ns_snapshot 9 sample_docs); apply (bool_decide_unpack _); vm_compute; reflexivity |].
    eapply rtc_l; [eapply (ns_click (fromDoc 9 "n1" (sample_doc "trip-1" false)) true);
      [reflexivity | simpl; auto] |]. reflexivity. }
  split; [exact Hr |]. rewrite (notif_reachable_inv _ Hr). reflexivity.
Defined.

Lemma markAsRead_unknown_desync_witness :
  notifications (markAsRead "n9" sample_loaded) = notifications sample_loaded /\
  unreadCount (markAsRead "n9" sample_loaded) = count_unread (notifications sample_loaded) - 1.
Proof.
  apply markAsRead_unknown_desync.
  - split; [reflexivity | apply (bool_decide_unpack _); vm_compute; reflexivity].
  - simpl. intuition discriminate.
Defined.

Lemma bell_badge_iff_mark_all_witness :
  is_Some (NotificationBell_badge sample_loaded) <->
  exists items, NotificationList_view sample_loaded = NLItems true items.
Proof.
  apply bell_badge_iff_mark_all; [| reflexivity | reflexivity].
  split; [reflexivity | apply (bool_decide_unpack _); vm_compute; reflexivity].
Defined.

Lemma read_state_lost_on_snapshot_witness :
  let s' := onNotificationsSnapshot 9 sample_docs
              (markAllAsRead (fst (handleNotificationClick
                 (fromDoc 9 "n1" (sample_doc "trip-1" false)) sample_loaded))) in
  In (fromDoc 9 "n1" (sample_doc "trip-1" false)) (notifications s') /\
  (Notification.read (fromDoc 9 "n1" (sample_doc "trip-1" false)) = false) /\
  (0 < unreadCount s').
Proof.
  apply read_state_lost_on_snapshot; [simpl; auto | reflexivity].
Defined.

(** After a successful join of "bob", the notification the specification
    expects would read as follows; [createTripNotification] is, however,
    never called by the application. *)
Example createTripNotification_joined :
  option_map doc_message
    (createTripNotification ∅ "n1" true "alice" "trip-1" participant_joined
       (sample_trip open 2 ["alice"; "bob"]) 5 !! "n1") =
  Some "Un nouveau participant a rejoint votre trajet vers 95700 Roissy-en-France".
Proof. reflexivity. Qed.
