(* ===== verification/Booking.v ===== *)
(** * Individual bookings: the booking store and the booking screens

    The zustand store of [src/src/stores/bookingStore.ts], the search form
    that fills it ([src/src/components/SearchForm.tsx]), the screens of
    the booking flow that read it ([BookingForm], [RideSelection],
    [SelectionStep], [SearchStep], [BookingStep], [PaymentStep] under
    [src/src/components/booking/]) and the booking hooks
    ([src/src/hooks/useBooking.ts], [useBookings.ts]).  Each handler is a
    function from the state it reads to the writes, toasts and navigation
    it performs. *)

From S2P Require Import Prelude Binary64 Stations Fare Validation JsDate.

Set Warnings "-clear-no-such-hyp".
Open Scope Z_scope.

(** ** The booking store *)

(** [interface BookingState] without its actions.  [fare] is a
    JavaScript number and may be fractional ([RideSelection] stores a
    per-person share), hence a rational. *)
Record BookingStore := mkBookingStore {
  bs_pickup : option Location.t;
  bs_dropoff : option Location.t;
  bs_date : option JsDateObj;
  bs_passengers : Z;
  bs_fare : Q
}.

(** [const initialState] *)
Definition initialBookingStore : BookingStore := mkBookingStore None None None 1 0.

Definition setPickup (l : option Location.t) (s : BookingStore) : BookingStore :=
  mkBookingStore l (bs_dropoff s) (bs_date s) (bs_passengers s) (bs_fare s).

Definition setDropoff (l : option Location.t) (s : BookingStore) : BookingStore :=
  mkBookingStore (bs_pickup s) l (bs_date s) (bs_passengers s) (bs_fare s).

Definition setDate (d : option JsDateObj) (s : BookingStore) : BookingStore :=
  mkBookingStore (bs_pickup s) (bs_dropoff s) d (bs_passengers s) (bs_fare s).

(** [setPassengers]: only counts from 1 to 3 are stored. *)
Definition setPassengers (count : Z) (s : BookingStore) : BookingStore :=
  if (1 <=? count) && (count <=? 3) then
    mkBookingStore (bs_pickup s) (bs_dropoff s) (bs_date s) count (bs_fare s)
  else s.

Definition setFare (amount : Q) (s : BookingStore) : BookingStore :=
  mkBookingStore (bs_pickup s) (bs_dropoff s) (bs_date s) (bs_passengers s) amount.

(** [reset: () => set(initialState)] *)
Definition reset (s : BookingStore) : BookingStore := initialBookingStore.

(** The store's actions, as the components call them. *)
Inductive StoreAction :=
  | ActSetPickup (l : option Location.t)
  | ActSetDropoff (l : option Location.t)
  | ActSetDate (d : option JsDateObj)
  | ActSetPassengers (count : Z)
  | ActSetFare (amount : Q)
  | ActReset.

Definition apply_action (a : StoreAction) (s : BookingStore) : BookingStore :=
  match a with
  | ActSetPickup l => setPickup l s
  | ActSetDropoff l => setDropoff l s
  | ActSetDate d => setDate d s
  | ActSetPassengers n => setPassengers n s
  | ActSetFare x => setFare x s
  | ActReset => reset s
  end.

Definition run_actions (acts : list StoreAction) (s : BookingStore) : BookingStore :=
  fold_left (fun s a => apply_action a s) acts s.

(** ** The search form ([SearchForm.tsx]) *)

Inductive Direction := toAirport | fromAirport.

(** The component's state: [direction], [formData] and [estimatedFare]. *)
Record SearchForm := mkSearchForm {
  sf_direction : Direction;
  sf_pickup : string;
  sf_dropoff : string;
  sf_date : string;
  sf_passengers : Z;
  sf_estimatedFare : Z
}.

Definition initialSearchForm : SearchForm := mkSearchForm toAirport "" "" "" 1 0.

(** [availablePickupStations] and [availableDropoffStations] *)
Definition availablePickupStations (d : Direction) : list Station.t :=
  match d with
  | toAirport => TRAIN_STATIONS ++ TAXI_STATIONS
  | fromAirport => AIRPORTS
  end.

Definition availableDropoffStations (d : Direction) : list Station.t :=
  match d with
  | toAirport => AIRPORTS
  | fromAirport => TRAIN_STATIONS ++ TAXI_STATIONS
  end.

Definition js_truthy_string (s : string) : bool := negb (String.eqb s "").

(** The effect on [[formData.pickup, formData.dropoff]]: the estimate is
    updated only for two catalog stations forming a valid route, and is
    priced from the catalog entries themselves. *)
Definition searchFareEffect (f : SearchForm) : SearchForm :=
  if js_truthy_string (sf_pickup f) && js_truthy_string (sf_dropoff f) then
    match find_station (sf_pickup f), find_station (sf_dropoff f) with
    | Some p, Some d =>
        match validateRoute (sf_pickup f) (sf_dropoff f) with
        | Ok _ =>
            mkSearchForm (sf_direction f) (sf_pickup f) (sf_dropoff f) (sf_date f)
              (sf_passengers f) (calculateFare (stationAsLocation p) (stationAsLocation d))
        | Err _ => f
        end
    | _, _ => f
    end
  else f.

(** The direction buttons: [setDirection(d)] and both selections cleared;
    the effect then runs on the empty selections. *)
Definition chooseDirection (d : Direction) (f : SearchForm) : SearchForm :=
  searchFareEffect (mkSearchForm d "" "" (sf_date f) (sf_passengers f) (sf_estimatedFare f)).

Definition selectPickup (id : string) (f : SearchForm) : SearchForm :=
  searchFareEffect (mkSearchForm (sf_direction f) id (sf_dropoff f) (sf_date f)
                      (sf_passengers f) (sf_estimatedFare f)).

Definition selectDropoff (id : string) (f : SearchForm) : SearchForm :=
  searchFareEffect (mkSearchForm (sf_direction f) (sf_pickup f) id (sf_date f)
                      (sf_passengers f) (sf_estimatedFare f)).

Definition selectDate (date : string) (f : SearchForm) : SearchForm :=
  mkSearchForm (sf_direction f) (sf_pickup f) (sf_dropoff f) date
    (sf_passengers f) (sf_estimatedFare f).

Definition selectPassengers (n : Z) (f : SearchForm) : SearchForm :=
  mkSearchForm (sf_direction f) (sf_pickup f) (sf_dropoff f) (sf_date f) n
    (sf_estimatedFare f).

(** The estimate box: shown when [estimatedFare > 0], with the total and
    [calculatePerPersonFare(estimatedFare, formData.passengers)]. *)
Definition searchEstimate (f : SearchForm) : option (Z * Z) :=
  if 0 <? sf_estimatedFare f then
    Some (sf_estimatedFare f, calculatePerPersonFare (sf_estimatedFare f) (sf_passengers f))
  else None.

(** [handleSubmit]: the checks, then the store writes and
    [navigate('/trips')].  [tz] is the local time-zone offset used by
    [new Date(date)]. *)
Definition searchSubmit (tz : Z) (f : SearchForm) (s : BookingStore)
    : BookingStore * Effects :=
  if negb (js_truthy_string (sf_pickup f) && js_truthy_string (sf_dropoff f) &&
           js_truthy_string (sf_date f)) then
    (s, toast_error "Veuillez remplir tous les champs requis")
  else
    match find_station (sf_pickup f), find_station (sf_dropoff f) with
    | Some p, Some d =>
        match validateRoute (sf_pickup f) (sf_dropoff f) with
        | Err e => (s, toast_error (error_message e))
        | Ok _ =>
            (setPassengers (sf_passengers f)
               (setDate (Some (parse_datetime_local tz (sf_date f)))
                  (setDropoff (Some (toLocation d)) (setPickup (Some (toLocation p)) s))),
             mkEffects [] (Some "/trips"))
        end
    | _, _ => (s, toast_error "Points de départ ou d'arrivée invalides")
    end.

(** ** The screens that read the store *)

(** [BookingForm.handleSubmit] *)
Definition bookingFormSubmit (s : BookingStore) : Effects :=
  match bs_pickup s, bs_dropoff s with
  | Some _, Some _ =>
      match bs_date s with
      | Some _ => mkEffects [] (Some "/booking/confirm")
      | None => toast_error "Please select a date and time"
      end
  | _, _ => toast_error "Please select pickup and dropoff locations"
  end.

(** [const SHARING_OPTION]: the seats it offers and those already taken. *)
Definition SHARING_maxPassengers : Z := 4.
Definition SHARING_currentPassengers : Z := 0.

(** [RideSelection]'s effect: [setFare(baseFare / totalPassengers)], a
    per-person share: the quotient rounded to a double, not to the cent.
    (The store's count is 1 to 3, see [setPassengers]; a count of 0,
    which would make the share [Infinity], is never stored.) *)
Definition rideSelectionEffect (s : BookingStore) : BookingStore :=
  match bs_pickup s, bs_dropoff s with
  | Some p, Some d =>
      setFare (round_double (inject_Z (calculateFare p d) /
                             inject_Z (SHARING_currentPassengers + bs_passengers s))) s
  | _, _ => s
  end.

(** What [RideSelection] renders: nothing without pickup, dropoff and
    date; otherwise the price per person, the seats left and whether the
    option shows "Available". *)
Record RideView := mkRideView {
  rv_pricePerPerson : Q;
  rv_remainingSeats : Z;
  rv_available : bool
}.

Definition rideSelectionView (s : BookingStore) : option RideView :=
  match bs_pickup s, bs_dropoff s, bs_date s with
  | Some p, Some d, Some _ =>
      let remainingSeats := SHARING_maxPassengers - SHARING_currentPassengers in
      Some (mkRideView
              (inject_Z (calculateFare p d) /
               inject_Z (SHARING_currentPassengers + bs_passengers s))
              remainingSeats (bs_passengers s <=? remainingSeats))
  | _, _, _ => None
  end.

(** [SelectionStep.handleContinue]: a zero fare is falsy. *)
Definition selectionContinue (s : BookingStore) : Effects :=
  if Qeq_bool (bs_fare s) 0 then no_effects else mkEffects [] (Some "/booking/payment").

(** [SearchStep]'s effect. *)
Definition searchStepEffect (s : BookingStore) : Effects :=
  match bs_pickup s, bs_dropoff s, bs_date s with
  | Some _, Some _, Some _ => mkEffects [] (Some "/booking/payment")
  | _, _, _ => no_effects
  end.

(** ** Booking documents *)

(** [status: 'pending' | 'confirmed' | 'completed' | 'cancelled'] *)
Module BookingStatus.
Inductive t := pending | confirmed | completed | cancelled.
End BookingStatus.

(** [paymentStatus: 'pending' | 'completed' | 'failed'] *)
Module PaymentStatus.
Inductive t := pending | completed | failed.
End PaymentStatus.

#[export] Instance BookingStatus_eq_dec : EqDecision BookingStatus.t.
Proof. solve_decision. Defined.
#[export] Instance PaymentStatus_eq_dec : EqDecision PaymentStatus.t.
Proof. solve_decision. Defined.

(** [export interface Booking], as [addDoc] stores it. *)
Record Booking := mkBooking {
  b_userId : string;
  b_pickup : Location.t;
  b_dropoff : Location.t;
  b_scheduledFor : JsDateObj;
  b_passengers : Z;
  b_fare : Q;
  b_status : BookingStatus.t;
  b_paymentStatus : PaymentStatus.t;
  b_createdAt : Z;
  b_updatedAt : option Z
}.

Abbreviation Bookings := (gmap string Booking).

(** [useBooking().createBooking()]: [newId] is the id [addDoc]
    allocates, [writeOk] whether the write succeeded.  The result is the
    id returned, the collection, the store and the toasts. *)
Definition createBooking (user : option string) (s : BookingStore) (coll : Bookings)
    (newId : string) (writeOk : bool) (serverTime : Z)
    : option string * Bookings * BookingStore * list Toast :=
  match user, bs_pickup s, bs_dropoff s, bs_date s with
  | Some uid, Some p, Some d, Some date =>
      if writeOk then
        (Some newId,
         <[newId := mkBooking uid p d date (bs_passengers s) (bs_fare s) BookingStatus.pending PaymentStatus.pending
                      serverTime None]> coll,
         reset s, [])
      else (None, coll, s, [ToastError "Failed to create booking"])
  | _, _, _, _ => (None, coll, s, [ToastError "Missing required booking information"])
  end.

(** [BookingStep.handleConfirm]: the checks, [setFare] with the total
    fare, the new booking and the navigation to its payment page. *)
Definition handleConfirm (tz now : Z) (user : option string) (s : BookingStore)
    (coll : Bookings) (newId : string) (writeOk : bool) (serverTime : Z)
    : BookingStore * Bookings * Effects :=
  match user with
  | None => (s, coll, mkEffects [ToastError "Veuillez vous connecter pour réserver"] (Some "/login"))
  | Some uid =>
      match bs_pickup s, bs_dropoff s, bs_date s with
      | Some p, Some d, Some date =>
          match validateDateTimeObj tz now date with
          | Err e => (s, coll, toast_error (date_error_message e))
          | Ok _ =>
              let fare := calculateFare p d in
              let s' := setFare (inject_Z fare) s in
              if writeOk then
                (s', <[newId := mkBooking uid p d date (bs_passengers s) (inject_Z fare)
                                   BookingStatus.pending PaymentStatus.pending serverTime None]> coll,
                 mkEffects [] (Some ("/booking/payment/" +:+ newId)))
              else (s', coll, toast_error "Échec de la réservation. Veuillez réessayer.")
          end
      | _, _, _ => (s, coll, toast_error "Veuillez remplir tous les champs requis")
      end
  end.

(** ** Paying for a booking ([PaymentStep.tsx]) *)

(** The card fields keep what [onChange] lets through:
    [value.replace(/\D/g, '').slice(0, n)]. *)
Definition keep_digits (s : string) : string :=
  String.string_of_list_ascii (List.filter Js.is_digit (String.list_ascii_of_string s)).

Definition sanitizeInput (n : nat) (raw : string) : string :=
  String.substring 0 n (keep_digits raw).

(** The component's state. *)
Record PaymentStepState := mkPaymentStep {
  ps_loading : bool;
  ps_booking : option Booking;
  ps_cardNumber : string;
  ps_expiryDate : string;
  ps_cvc : string
}.

Definition initialPaymentStep : PaymentStepState := mkPaymentStep true None "" "" "".

(** [fetchBooking]: without a booking id or a user it returns before its
    [try], so [loading] is never cleared. *)
Definition fetchBooking (bookingId user : option string) (coll : Bookings)
    (ps : PaymentStepState) : PaymentStepState * Effects :=
  match bookingId, user with
  | Some bid, Some uid =>
      match coll !! bid with
      | None => (mkPaymentStep false (ps_booking ps) (ps_cardNumber ps) (ps_expiryDate ps) (ps_cvc ps),
                 mkEffects [ToastError "Réservation introuvable"] (Some "/booking"))
      | Some b =>
          if String.eqb (b_userId b) uid then
            (mkPaymentStep false (Some b) (ps_cardNumber ps) (ps_expiryDate ps) (ps_cvc ps),
             no_effects)
          else
            (mkPaymentStep false (ps_booking ps) (ps_cardNumber ps) (ps_expiryDate ps) (ps_cvc ps),
             mkEffects [ToastError "Accès non autorisé"] (Some "/booking"))
      end
  | _, _ => (ps, no_effects)
  end.

(** [updateDoc(doc(db, 'bookings', id), { status: 'confirmed',
    paymentStatus: 'completed', updatedAt })]; it fails on a missing
    document and whenever the store refuses the write (security rules,
    network): [writeOk] is the store's answer. *)
Definition confirmPayment (coll : Bookings) (bid : string) (writeOk : bool) (updatedAt : Z)
    : option Bookings :=
  if negb writeOk then None else
  match coll !! bid with
  | Some b =>
      Some (<[bid := mkBooking (b_userId b) (b_pickup b) (b_dropoff b) (b_scheduledFor b)
                      (b_passengers b) (b_fare b) BookingStatus.confirmed PaymentStatus.completed (b_createdAt b)
                      (Some updatedAt)]> coll)
  | None => None
  end.

(** [handlePayment]: only non-blank fields are required; the simulated
    processing always succeeds. *)
Definition handlePayment (bookingId : option string) (ps : PaymentStepState)
    (coll : Bookings) (writeOk : bool) (updatedAt : Z) : Bookings * Effects :=
  match ps_booking ps, bookingId with
  | Some _, Some bid =>
      if String.eqb (Js.trim (ps_cardNumber ps)) "" || String.eqb (Js.trim (ps_expiryDate ps)) "" ||
         String.eqb (Js.trim (ps_cvc ps)) "" then
        (coll, toast_error "Veuillez remplir tous les champs")
      else
        match confirmPayment coll bid writeOk updatedAt with
        | Some coll' => (coll', mkEffects [ToastSuccess "Paiement effectué avec succès"]
                                   (Some "/booking/confirmation"))
        | None => (coll, toast_error "Le paiement a échoué. Veuillez réessayer.")
        end
  | _, _ => (coll, no_effects)
  end.

(** ** The life of a booking document

    The writes the application performs on the [bookings] collection:
    creation by [BookingStep] or by [useBooking], and the payment of
    [PaymentStep] after it has loaded a booking. *)
Inductive booking_step : Bookings -> Bookings -> Prop :=
  | bk_confirm tz now user s coll newId writeOk ts s' coll' eff :
      handleConfirm tz now user s coll newId writeOk ts = (s', coll', eff) ->
      booking_step coll coll'
  | bk_create user s coll newId writeOk ts r coll' s' ts' :
      createBooking user s coll newId writeOk ts = (r, coll', s', ts') ->
      booking_step coll coll'
  | bk_pay bookingId user ps0 ps eff0 coll writeOk updatedAt coll' eff :
      fetchBooking bookingId user coll ps0 = (ps, eff0) ->
      handlePayment bookingId ps coll writeOk updatedAt = (coll', eff) ->
      booking_step coll coll'.

(** The statuses a booking document can have. *)
Definition booking_statuses_ok (coll : Bookings) : Prop :=
  forall bid b, coll !! bid = Some b ->
    (b_status b = BookingStatus.pending /\ b_paymentStatus b = PaymentStatus.pending) \/
    (b_status b = BookingStatus.confirmed /\ b_paymentStatus b = PaymentStatus.completed).

(** ** The store keeps a valid passenger count *)

Lemma apply_action_passengers (a : StoreAction) (s : BookingStore) :
  1 <= bs_passengers s <= 3 -> 1 <= bs_passengers (apply_action a s) <= 3.
Proof.
  intros H. destruct a as [l | l | d | n | x |]; simpl; try exact H; [| simpl; lia].
  unfold setPassengers. destruct ((1 <=? n) && (n <=? 3)) eqn:E; [| exact H].
  apply andb_prop in E as [E1 E2]. apply Z.leb_le in E1, E2. simpl. lia.
Qed.

Lemma run_actions_passengers (acts : list StoreAction) (s : BookingStore) :
  1 <= bs_passengers s <= 3 -> 1 <= bs_passengers (run_actions acts s) <= 3.
Proof.
  revert s. induction acts as [|a acts IH]; intros s H; [exact H |].
  apply IH. by apply apply_action_passengers.
Qed.

(** (C: passenger count of the booking store) Whatever the components do
    to the store, it holds between one and three passengers; the fourth
    option of [BookingForm]'s select is silently ignored. *)
Theorem bookingStore_passengers (acts : list StoreAction) :
  1 <= bs_passengers (run_actions acts initialBookingStore) <= 3 /\
  forall s, setPassengers 4 s = s.
Proof.
  split; [apply run_actions_passengers; simpl; lia | reflexivity].
Qed.

(** With such a store [RideSelection] always offers its option as
    available, and divides by a positive count. *)
Lemma rideSelection_available (s : BookingStore) (v : RideView) :
  1 <= bs_passengers s <= 3 -> rideSelectionView s = Some v ->
  rv_available v = true /\ rv_remainingSeats v = 4.
Proof.
  intros Hp Hv. unfold rideSelectionView in Hv.
  destruct (bs_pickup s), (bs_dropoff s), (bs_date s); try discriminate.
  injection Hv as <-. simpl. split; [apply Z.leb_le; unfold SHARING_maxPassengers,
    SHARING_currentPassengers; lia | reflexivity].
Qed.

(** ** Booking and payment statuses *)

Definition status_pair_ok (b : Booking) : Prop :=
  (b_status b = BookingStatus.pending /\ b_paymentStatus b = PaymentStatus.pending) \/
  (b_status b = BookingStatus.confirmed /\ b_paymentStatus b = PaymentStatus.completed).

Lemma statuses_ok_insert (coll : Bookings) (k : string) (b : Booking) :
  booking_statuses_ok coll -> status_pair_ok b -> booking_statuses_ok (<[k := b]> coll).
Proof.
  intros Hc Hb bid b' Hl. apply lookup_insert_Some in Hl as [[<- <-] | [_ Hl]]; [exact Hb |].
  by apply (Hc bid).
Qed.

(** A write of the application leaves the collection as it was or stores
    one booking with consistent statuses. *)
Definition writes_one_ok (coll coll' : Bookings) : Prop :=
  coll' = coll \/ exists k b, coll' = <[k := b]> coll /\ status_pair_ok b.

Lemma handleConfirm_writes tz now user s coll newId writeOk ts s' coll' eff :
  handleConfirm tz now user s coll newId writeOk ts = (s', coll', eff) ->
  writes_one_ok coll coll'.
Proof.
  unfold handleConfirm, writes_one_ok, status_pair_ok.
  destruct user, (bs_pickup s), (bs_dropoff s), (bs_date s); try (intros [= _ <- _]; by left).
  destruct (validateDateTimeObj _ _ _); [| intros [= _ <- _]; by left].
  destruct writeOk; intros [= _ <- _]; [right | by left]. eexists _, _. split; [reflexivity | left; done].
Qed.

Lemma createBooking_writes user s coll newId writeOk ts r coll' s' ts' :
  createBooking user s coll newId writeOk ts = (r, coll', s', ts') -> writes_one_ok coll coll'.
Proof.
  unfold createBooking, writes_one_ok, status_pair_ok.
  destruct user, (bs_pickup s), (bs_dropoff s), (bs_date s); try (intros [= _ <- _ _]; by left).
  destruct writeOk; intros [= _ <- _ _]; [right | by left]. eexists _, _. split; [reflexivity | left; done].
Qed.

Lemma handlePayment_writes bookingId ps coll writeOk updatedAt coll' eff :
  handlePayment bookingId ps coll writeOk updatedAt = (coll', eff) -> writes_one_ok coll coll'.
Proof.
  unfold handlePayment, confirmPayment, writes_one_ok, status_pair_ok.
  destruct (ps_booking ps), bookingId as [bid|]; try (intros [= <- _]; by left).
  destruct (_ || _); [intros [= <- _]; by left |].
  destruct writeOk; [| intros [= <- _]; by left].
  destruct (coll !! bid); intros [= <- _]; [right | by left].
  eexists _, _. split; [reflexivity | right; done].
Qed.

Lemma booking_step_ok (coll coll' : Bookings) :
  booking_statuses_ok coll -> booking_step coll coll' -> booking_statuses_ok coll'.
Proof.
  intros Hc Hs.
  assert (Hw : writes_one_ok coll coll') by
    (destruct Hs; [eapply handleConfirm_writes | eapply createBooking_writes
                  | eapply handlePayment_writes]; eassumption).
  destruct Hw as [-> | (k & b & -> & Hb)]; [done | by apply statuses_ok_insert].
Qed.

(** Every collection the booking handlers produce satisfies
    [booking_statuses_ok]. *)
Lemma bookings_reachable_ok (coll : Bookings) :
  rtc booking_step ∅ coll -> booking_statuses_ok coll.
Proof.
  intros Hr. apply (rtc_preserves _ _ (fun x y Hs Hx => booking_step_ok x y Hx Hs) _ _ Hr).
  intros ? ? Hl. discriminate Hl.
Qed.

(** (C15: booking statuses) In every [bookings] collection the application
    produces, a booking is either pending with its payment pending, or
    confirmed with its payment completed: the payment status [failed] of
    the specification is never written, a failed payment leaves the
    booking pending. *)
Theorem bookings_reachable_statuses (coll : Bookings) :
  rtc booking_step ∅ coll ->
  forall bid b, coll !! bid = Some b ->
    b_paymentStatus b <> PaymentStatus.failed /\
    (b_status b = BookingStatus.confirmed <-> b_paymentStatus b = PaymentStatus.completed).
Proof.
  intros Hr. pose proof (bookings_reachable_ok coll Hr) as Hok.
  intros bid b Hl. destruct (Hok bid b Hl) as [[-> ->] | [-> ->]]; split; try done; split; discriminate.
Qed.

(** ** Payment without the card checks *)

Lemma is_digit_not_space (c : Ascii.ascii) : Js.is_digit c = true -> Js.is_space c = false.
Proof.
  unfold Js.is_digit, Js.is_space. intros H. apply andb_prop in H as [H1 H2].
  apply Nat.leb_le in H1, H2.
  destruct (Nat.eqb_spec (Ascii.nat_of_ascii c) 32); [lia |].
  destruct (Nat.leb_spec 9 (Ascii.nat_of_ascii c)), (Nat.leb_spec (Ascii.nat_of_ascii c) 13);
    simpl; try reflexivity; lia.
Qed.

Lemma drop_spaces_digits (l : list Ascii.ascii) :
  forallb Js.is_digit l = true -> Js.drop_spaces l = l.
Proof.
  destruct l as [|c l]; [done |]. simpl. intros H. apply andb_prop in H as [H _].
  by rewrite is_digit_not_space.
Qed.

(** [trim] leaves a string of digits as it is. *)
Lemma trim_digits (s : string) :
  forallb Js.is_digit (String.list_ascii_of_string s) = true -> Js.trim s = s.
Proof.
  intros H. unfold Js.trim. rewrite (drop_spaces_digits _ H).
  rewrite drop_spaces_digits.
  - by rewrite rev_involutive, String.string_of_list_ascii_of_string.
  - apply forallb_forall. intros c Hc. apply in_rev in Hc. by apply (proj1 (forallb_forall _ _) H).
Qed.

Lemma substring_digits (n : nat) (s : string) :
  forallb Js.is_digit (String.list_ascii_of_string s) = true ->
  forallb Js.is_digit (String.list_ascii_of_string (String.substring 0 n s)) = true.
Proof.
  revert n. induction s as [|c s IH]; intros n H; destruct n; simpl in *; try done.
  apply andb_prop in H as [H1 H2]. rewrite H1. by apply IH.
Qed.

(** The card fields as [onChange] leaves them hold only digits. *)
Lemma sanitizeInput_digits (n : nat) (raw : string) :
  forallb Js.is_digit (String.list_ascii_of_string (sanitizeInput n raw)) = true.
Proof.
  unfold sanitizeInput, keep_digits. apply substring_digits.
  rewrite String.list_ascii_of_string_of_list_ascii. apply forallb_forall.
  intros c Hc. by apply filter_In in Hc as [_ ?].
Qed.

(** (C37: payment skips the card checks) [PaymentStep] confirms a loaded
    booking and marks it paid, when the store accepts the write, for any
    non-empty card fields the inputs accept, although
    [validatePaymentDetails] (never called) rejects every card number
    that does not have 16 digits. *)
Theorem handlePayment_skips_card_validation (bid : string) (b : Booking) (coll : Bookings)
    (ps : PaymentStepState) (rawCard rawExpiry rawCvc : string) (t nowYear nowMonth : Z) :
  coll !! bid = Some b -> ps_booking ps = Some b ->
  ps_cardNumber ps = sanitizeInput 16 rawCard -> ps_expiryDate ps = sanitizeInput 4 rawExpiry ->
  ps_cvc ps = sanitizeInput 3 rawCvc ->
  ps_cardNumber ps <> "" -> ps_expiryDate ps <> "" -> ps_cvc ps <> "" ->
  String.length (ps_cardNumber ps) <> 16%nat ->
  validatePaymentDetails nowYear nowMonth (ps_cardNumber ps) (ps_expiryDate ps) (ps_cvc ps)
    = Err InvalidCardNumber /\
  exists b', (handlePayment (Some bid) ps coll true t).1 !! bid = Some b' /\
    b_status b' = BookingStatus.confirmed /\ b_paymentStatus b' = PaymentStatus.completed.
Proof.
  intros Hl Hb Hc He Hv Hc0 He0 Hv0 Hlen. split.
  - unfold validatePaymentDetails, Js.test_digits.
    by rewrite (proj2 (Nat.eqb_neq _ _) Hlen).
  - unfold handlePayment, confirmPayment. rewrite Hb, Hl.
    rewrite !trim_digits by (rewrite ?Hc, ?He, ?Hv; apply sanitizeInput_digits).
    rewrite (proj2 (String.eqb_neq _ _) Hc0), (proj2 (String.eqb_neq _ _) He0),
      (proj2 (String.eqb_neq _ _) Hv0). cbn [orb fst negb].
    eexists. rewrite lookup_insert_eq. split; [reflexivity | split; reflexivity].
Qed.

(** ** The search form *)

(** (C: the search form only offers valid routes) Any pickup and dropoff
    the two selects offer for the chosen direction form a route that
    [validateRoute] accepts. *)
Theorem search_options_valid (dir : Direction) (p d : Station.t) :
  In p (availablePickupStations dir) -> In d (availableDropoffStations dir) ->
  validateRoute (Station.id p) (Station.id d) = Ok tt.
Proof.
  intros Hp Hd. destruct dir; simpl in Hp, Hd;
    repeat (destruct Hp as [<- | Hp]; [| try contradiction]);
    repeat (destruct Hd as [<- | Hd]; [| try contradiction]); try contradiction; vm_compute; reflexivity.
Qed.

(** (C: the estimate survives a change of direction) Switching direction
    clears both selections but not [estimatedFare]: the estimate box keeps
    showing the previous route's fare while nothing is selected. *)
Theorem search_estimate_stale (d : Direction) (f : SearchForm) :
  sf_pickup (chooseDirection d f) = "" /\ sf_dropoff (chooseDirection d f) = "" /\
  searchEstimate (chooseDirection d f) = searchEstimate f.
Proof. repeat split. Qed.

(** ** Witnesses *)

Lemma triple_eta {A B C : Type} (x : A * B * C) : x = (fst (fst x), snd (fst x), snd x).
Proof. by destruct x as [[]]. Qed.

(** From Rue Saint-Antoine to Orly: the form's estimate is priced from the
    catalog entries (right bank, 44) while the locations it stores carry
    the latitude (left bank, 36). *)
Example search_estimate_vs_store_fare :
  let f := selectDate "2026-01-10T10:00"
             (selectDropoff "orly" (selectPickup "saint-antoine" initialSearchForm)) in
  searchEstimate f = Some (44, 44) /\
  match searchSubmit 0 f initialBookingStore with
  | (s, eff) => navigateTo eff = Some "/trips" /\
      match bs_pickup s, bs_dropoff s with
      | Some p, Some d => calculateFare p d = 36
      | _, _ => False
      end
  end.
Proof. vm_compute. split; [reflexivity | split; reflexivity]. Qed.

Definition sample_form : SearchForm :=
  selectDate "2026-01-10T10:00"
    (selectDropoff "orly" (selectPickup "saint-antoine" initialSearchForm)).

Definition sample_store : BookingStore := fst (searchSubmit 0 sample_form initialBookingStore).

(** 1 January 2026, midnight UTC. *)
Definition sample_now : Z := days_from_civil 2026 1 1 * msPerDay.

Definition sample_coll1 : Bookings :=
  snd (fst (handleConfirm 0 sample_now (Some "alice") sample_store ∅ "b1" true sample_now)).

Definition sample_entered : PaymentStepState :=
  mkPaymentStep true None (sanitizeInput 16 "4242") (sanitizeInput 4 "12/29")
    (sanitizeInput 3 "123").

Definition sample_payment : PaymentStepState :=
  fst (fetchBooking (Some "b1") (Some "alice") sample_coll1 sample_entered).

Definition sample_coll2 : Bookings := fst (handlePayment (Some "b1") sample_payment sample_coll1 true 5).

Lemma bookings_reachable_statuses_witness :
  rtc booking_step ∅ sample_coll2 /\
  forall bid b, sample_coll2 !! bid = Some b ->
    b_paymentStatus b <> PaymentStatus.failed /\
    (b_status b = BookingStatus.confirmed <-> b_paymentStatus b = PaymentStatus.completed).
Proof.
  assert (Hr : rtc booking_step ∅ sample_coll2).
  { eapply (rtc_l _ _ sample_coll1).
    { exact (bk_confirm 0 sample_now (Some "alice") sample_store ∅ "b1" true sample_now _
               sample_coll1 _ (triple_eta (handleConfirm 0 sample_now (Some "alice")
                                             sample_store ∅ "b1" true sample_now))). }
    eapply (rtc_l _ _ sample_coll2); [| reflexivity].
    apply (bk_pay (Some "b1") (Some "alice") sample_entered sample_payment
      (snd (fetchBooking (Some "b1") (Some "alice") sample_coll1 sample_entered))
      sample_coll1 true 5 _ (snd (handlePayment (Some "b1") sample_payment sample_coll1 true 5)));
      apply surjective_pairing. }
  split; [exact Hr | exact (bookings_reachable_statuses _ Hr)].
Defined.

(** The booking made from the search form is stored pending, then
    confirmed and paid by [PaymentStep] with a four-digit card number. *)
Example sample_booking_paid :
  option_map (fun b => (b_status b, b_paymentStatus b, b_fare b)) (sample_coll1 !! "b1") =
    Some (BookingStatus.pending, PaymentStatus.pending, 36%Q) /\
  option_map (fun b => (b_status b, b_paymentStatus b)) (sample_coll2 !! "b1") =
    Some (BookingStatus.confirmed, PaymentStatus.completed).
Proof. vm_compute. split; reflexivity. Qed.

Definition sample_b1 : option Booking := sample_coll1 !! "b1".

Lemma handlePayment_skips_card_validation_witness :
  validatePaymentDetails 2026 0 (ps_cardNumber sample_payment) (ps_expiryDate sample_payment)
    (ps_cvc sample_payment) = Err InvalidCardNumber /\
  exists b', (handlePayment (Some "b1") sample_payment sample_coll1 true 5).1 !! "b1" = Some b' /\
    b_status b' = BookingStatus.confirmed /\ b_paymentStatus b' = PaymentStatus.completed.
Proof.
  destruct sample_b1 as [b|] eqn:Hb; [| vm_compute in Hb; discriminate].
  assert (Hps : ps_booking sample_payment = Some b).
  { unfold sample_payment, fetchBooking. fold sample_b1. rewrite Hb.
    vm_compute in Hb. injection Hb as <-. vm_compute. reflexivity. }
  apply (handlePayment_skips_card_validation "b1" b sample_coll1 sample_payment "4242" "12/29" "123"
           5 2026 0 Hb Hps);
    [vm_compute; reflexivity .. | | | |];
    intros H; vm_compute in H; discriminate.
Defined.

Lemma search_options_valid_witness :
  In (nth 7 ALL_STATIONS (Station.mk "" "" Station.taxi (Station.mkCoord 0 0) "" [] None))
     (availablePickupStations toAirport) /\
  In (nth 4 ALL_STATIONS (Station.mk "" "" Station.taxi (Station.mkCoord 0 0) "" [] None))
     (availableDropoffStations toAirport) /\
  validateRoute "saint-antoine" "orly" = Ok tt.
Proof.
  assert (Hp : In (nth 7 ALL_STATIONS (Station.mk "" "" Station.taxi (Station.mkCoord 0 0) "" [] None))
                  (availablePickupStations toAirport)) by (simpl; tauto).
  assert (Hd : In (nth 4 ALL_STATIONS (Station.mk "" "" Station.taxi (Station.mkCoord 0 0) "" [] None))
                  (availableDropoffStations toAirport)) by (simpl; tauto).
  split; [exact Hp | split; [exact Hd |]].
  exact (search_options_valid toAirport _ _ Hp Hd).
Defined.
