(* ===== verification/TripViews.v ===== *)
(** * Trip screens: the join path that runs, trip queries and trip views

    The application joins trips through [TripDetails.handleJoin]
    ([src/src/components/trip/TripDetails.tsx]) and the [joinTrip] of
    [src/src/hooks/useTrip.ts]; [useJoinTrip] (modelled in [Trip.v]) is
    imported by no component.  This file models that path, the trip
    page's subscription and view, the search results of
    [src/src/hooks/useTrips.ts] shown by [src/src/pages/TripsPage.tsx]
    and [TripList]/[TripCard], the user's trips of [useUserTrips] and
    [UserTripList], and the trip-creation form
    [src/src/components/trip/CreateTripForm.tsx]. *)

From S2P Require Import Prelude Stations Fare Validation JsDate Trip Booking.
From stdpp Require Import sorting.

Set Warnings "-clear-no-such-hyp".
Open Scope Z_scope.

Abbreviation Trips := (gmap string Trip.t).

(** ** The trip page ([useTrip] and [TripDetails]) *)

(** [useTrip]'s state. *)
Record TripPageState := mkTripPage {
  tp_trip : option Trip.t;
  tp_loading : bool;
  tp_error : option string
}.

Definition initialTripPage : TripPageState := mkTripPage None true None.

(** The [onSnapshot] callbacks on the trip document. *)
Definition onTripSnapshot (doc : option Trip.t) (s : TripPageState) : TripPageState :=
  match doc with
  | Some t => mkTripPage (Some t) false None
  | None => mkTripPage None false (Some "Trip not found")
  end.

Definition onTripError (s : TripPageState) : TripPageState :=
  mkTripPage (tp_trip s) false (Some "Failed to load trip details").

(** [useTrip(tripId).joinTrip(userId)]: the checks on the page's copy of
    the trip, the share prompt ([shared] is the answer of [shareTrip]),
    the update it sends and its toasts.  [writeOk] is whether
    [updateDoc] succeeded; the function never throws. *)
Definition useTrip_joinTrip (trip : option Trip.t) (userId : string) (shared writeOk : bool)
    : option JoinUpdate * list Toast :=
  match trip with
  | None => (None, [])
  | Some t =>
      if Trip.maxPassengers t <=? Trip.currentPassengers t then
        (None, [ToastError "This trip is full"])
      else if Js.array_includes (Trip.participants t) userId then
        (None, [ToastError "You are already part of this trip"])
      else if negb shared then
        (None, [ToastError "Please share the trip to join"])
      else
        let u := mkJoinUpdate userId
                   (if Trip.maxPassengers t <=? Trip.currentPassengers t + 1 then full else open) in
        if writeOk then (Some u, [ToastSuccess "Successfully joined the trip"])
        else (None, [ToastError "Failed to join trip"])
  end.

(** [TripDetails.handleJoin]: its own checks, then [await joinTrip(uid)]
    and a second [await shareTrip(trip)] whose answer is ignored; since
    neither throws, the success toast always follows. *)
Definition handleJoin (user : option string) (trip : option Trip.t) (shared writeOk : bool)
    : option JoinUpdate * Effects :=
  match user with
  | None => (None, mkEffects [ToastError "Veuillez vous connecter pour rejoindre ce trajet"]
                     (Some "/login"))
  | Some uid =>
      match trip with
      | None => (None, no_effects)
      | Some t =>
          if String.eqb (Trip.creatorId t) uid then
            (None, toast_error "Vous ne pouvez pas rejoindre votre propre trajet")
          else if Js.array_includes (Trip.participants t) uid then
            (None, toast_error "Vous avez déjà rejoint ce trajet")
          else
            let '(w, ts) := useTrip_joinTrip (Some t) uid shared writeOk in
            (w, mkEffects (ts ++ [ToastSuccess "Vous avez rejoint le trajet avec succès !"]) None)
      end
  end.

(** What the trip page shows. *)
Inductive TripDetailsView :=
  | TDLoading
  | TDError (msg : string)
  | TDTrip (perPersonFare availableSeats : Z) (joinDisabled : bool) (joinLabel : string).

(** The join button: disabled when [joining], when no seat is left
    ([availableSeats === 0]), for the creator, for a participant and for
    a past trip; its label follows the same tests. *)
Definition join_button (t : Trip.t) (user : option string) (joining : bool) (now : Z)
    : bool * string :=
  let availableSeats := Trip.maxPassengers t - Trip.currentPassengers t in
  let isPastTrip := Trip.scheduledFor t <? now in
  let isCreator := match user with Some u => String.eqb (Trip.creatorId t) u | None => false end in
  let isIn := Js.array_includes (Trip.participants t) (default "" user) in
  (joining || (availableSeats =? 0) || isCreator || isIn || isPastTrip,
   if isCreator then "Votre trajet" else if isIn then "Déjà inscrit"
   else if availableSeats =? 0 then "Complet" else if isPastTrip then "Terminé"
   else "Rejoindre").

(** The page once loading and error are past: the per-person fare
    [calculatePerPersonFare(trip.fare, trip.currentPassengers)], the seats
    left and the join button. *)
Definition trip_body (t : Trip.t) (user : option string) (joining : bool) (now : Z)
    : TripDetailsView :=
  let '(dis, lbl) := join_button t user joining now in
  TDTrip (calculatePerPersonFare (Trip.fare t) (Trip.currentPassengers t))
    (Trip.maxPassengers t - Trip.currentPassengers t) dis lbl.

(** [if (loading)], then [if (error || !trip)]; an empty error is falsy. *)
Definition tripDetailsView (s : TripPageState) (user : option string) (joining : bool)
    (now : Z) : TripDetailsView :=
  if tp_loading s then TDLoading else
  match tp_error s, tp_trip s with
  | Some e, Some t => if String.eqb e "" then trip_body t user joining now else TDError e
  | Some e, None => if String.eqb e "" then TDError "Trajet non trouvé" else TDError e
  | None, Some t => trip_body t user joining now
  | None, None => TDError "Trajet non trouvé"
  end.

(** ** Search results ([useTrips], [TripsPage], [TripList], [TripCard]) *)

(** [interface TripFilters]; [availableSeats] is used only when truthy. *)
Record TripFilters := mkTripFilters {
  f_pickup : option string;
  f_dropoff : option string;
  f_fromDate : option JsDateObj;
  f_availableSeats : option Z
}.

Definition trips_of (coll : Trips) : list Trip.t := map snd (map_to_list coll).

(** The store query: [where('status', '==', 'open')], the optional
    [where('pickup.id', '==', ...)] and [where('dropoff.id', '==', ...)]
    (only for truthy ids). *)
Definition query_match (f : TripFilters) (t : Trip.t) : bool :=
  bool_decide (Trip.status t = open) &&
  match f_pickup f with
  | Some p => if String.eqb p "" then true
              else bool_decide (Location.id (Trip.pickup t) = Some p)
  | None => true
  end &&
  match f_dropoff f with
  | Some d => if String.eqb d "" then true
              else bool_decide (Location.id (Trip.dropoff t) = Some d)
  | None => true
  end.

(** [orderBy('scheduledFor', 'asc')]: a stable sort on the departure time
    (the store's tie-break on document ids is not modelled). *)
Definition departs_before (a b : Trip.t) : Prop := Trip.scheduledFor a <= Trip.scheduledFor b.

#[export] Instance departs_before_dec : RelDecision departs_before.
Proof. intros a b. unfold departs_before. apply _. Defined.

(** The client-side [filter] of the snapshot callback. *)
Definition client_keep (f : TripFilters) (t : Trip.t) : bool :=
  negb (match f_fromDate f with
        | Some d => match d with
                    | ValidDate x => Trip.scheduledFor t <? x
                    | InvalidDate => false
                    end
        | None => false
        end) &&
  negb (match f_availableSeats f with
        | Some n => negb (n =? 0) && (Trip.maxPassengers t - Trip.currentPassengers t <? n)
        | None => false
        end).

(** The trips [useTrips(filters)] delivers for a collection. *)
Definition useTrips_result (f : TripFilters) (coll : Trips) : list Trip.t :=
  List.filter (client_keep f) (merge_sort departs_before (List.filter (query_match f) (trips_of coll))).

(** [TripsPage] reads its filters from the booking store. *)
Definition tripsPage_filters (s : BookingStore) : TripFilters :=
  mkTripFilters (option_map (fun l => default "" (Location.id l)) (bs_pickup s))
    (option_map (fun l => default "" (Location.id l)) (bs_dropoff s)) (bs_date s)
    (Some (bs_passengers s)).

(** [TripsPage]'s effect: back to the home page without a complete
    search or with an invalid route. *)
Definition tripsPageEffect (s : BookingStore) : Effects :=
  match bs_pickup s, bs_dropoff s, bs_date s with
  | Some p, Some d, Some _ =>
      match validateRoute (default "" (Location.id p)) (default "" (Location.id d)) with
      | Ok _ => no_effects
      | Err e => mkEffects [ToastError (error_message e)] (Some "/")
      end
  | _, _, _ => mkEffects [] (Some "/")
  end.

(** [TripCard]: the per-person fare, the seats left and the badge. *)
Definition tripCard_badge (t : Trip.t) (now : Z) : string :=
  if Trip.scheduledFor t <? now then "Trajet passé"
  else if Trip.maxPassengers t - Trip.currentPassengers t =? 0 then "Complet"
  else "Disponible".

Definition tripCard_click (user : option string) (t : Trip.t) : Effects :=
  match user with
  | None => mkEffects [ToastError "Veuillez vous connecter pour voir les détails du trajet"]
              (Some "/login")
  | Some _ => mkEffects [] (Some ("/trip/" +:+ Trip.id t))
  end.

(** ** The user's trips ([useUserTrips], [UserTripList]) *)

(** [where('participants', 'array-contains', userId)] with
    [orderBy('scheduledFor', 'desc')]. *)
Definition departs_after (a b : Trip.t) : Prop := Trip.scheduledFor b <= Trip.scheduledFor a.

#[export] Instance departs_after_dec : RelDecision departs_after.
Proof. intros a b. unfold departs_after. apply _. Defined.

Definition useUserTrips_result (userId : string) (coll : Trips) : list Trip.t :=
  if String.eqb userId "" then []
  else merge_sort departs_after
         (List.filter (fun t => Js.array_includes (Trip.participants t) userId) (trips_of coll)).

(** A JavaScript division: [Infinity] or [NaN] (here [None]) by zero. *)
Definition js_div (a b : Z) : option Q :=
  if b =? 0 then None else Some (inject_Z a / inject_Z b)%Q.

(** [trip.status.charAt(0).toUpperCase() + trip.status.slice(1)] *)
Definition status_label (st : TripStatus) : string :=
  match st with
  | open => "Open" | full => "Full" | cancelled => "Cancelled" | completed => "Completed"
  end.

(** A row of [UserTripList]: the addresses, [trip.fare / trip.currentPassengers]
    (not rounded, not clamped), the counts and the status label. *)
Record UserTripRow := mkUserTripRow {
  row_from : string;
  row_to : string;
  row_perPerson : option Q;
  row_current : Z;
  row_max : Z;
  row_status : string
}.

Definition userTripRow (t : Trip.t) : UserTripRow :=
  mkUserTripRow (Location.address (Trip.pickup t)) (Location.address (Trip.dropoff t))
    (js_div (Trip.fare t) (Trip.currentPassengers t)) (Trip.currentPassengers t)
    (Trip.maxPassengers t) (status_label (Trip.status t)).

(** ** The trip-creation form ([CreateTripForm.tsx]) *)

Record CreateForm := mkCreateForm {
  cf_direction : Direction;
  cf_pickup : string;
  cf_dropoff : string;
  cf_date : string;
  cf_availableSeats : Z;
  cf_estimatedFare : Z
}.

Definition initialCreateForm : CreateForm := mkCreateForm toAirport "" "" "" 3 0.

(** The effect on the two selections: the estimate is priced from the
    catalog entries, for any two catalog stations. *)
Definition createFareEffect (f : CreateForm) : CreateForm :=
  if js_truthy_string (cf_pickup f) && js_truthy_string (cf_dropoff f) then
    match find_station (cf_pickup f), find_station (cf_dropoff f) with
    | Some p, Some d =>
        mkCreateForm (cf_direction f) (cf_pickup f) (cf_dropoff f) (cf_date f)
          (cf_availableSeats f) (calculateFare (stationAsLocation p) (stationAsLocation d))
    | _, _ => f
    end
  else f.

(** The estimate box: [calculatePerPersonFare(estimatedFare, availableSeats + 1)]. *)
Definition createEstimate (f : CreateForm) : option (Z * Z) :=
  if 0 <? cf_estimatedFare f then
    Some (cf_estimatedFare f, calculatePerPersonFare (cf_estimatedFare f) (cf_availableSeats f + 1))
  else None.

(** [handleSubmit], with [useCreateTrip().createTrip(formData)] inside:
    [new Date(data.date)] is stored, and an Invalid Date makes the write
    throw, which the hook reports as a failed creation. *)
Definition createFormSubmit (tz : Z) (user : option string) (f : CreateForm) (db : Trips)
    (newId : string) (serverTime : Z) : Trips * Effects :=
  match user with
  | None => (db, toast_error "Veuillez vous connecter pour créer un trajet")
  | Some _ =>
      if negb (js_truthy_string (cf_pickup f) && js_truthy_string (cf_dropoff f) &&
               js_truthy_string (cf_date f)) then
        (db, toast_error "Veuillez remplir tous les champs requis")
      else
        match validateRoute (cf_pickup f) (cf_dropoff f) with
        | Err e => (db, toast_error (error_message e))
        | Ok _ =>
            match parse_datetime_local tz (cf_date f) with
            | InvalidDate => (db, toast_error "Failed to create trip")
            | ValidDate scheduled =>
                match createTrip db user
                        (mkCreateTripData (cf_pickup f) (cf_dropoff f) scheduled (cf_availableSeats f))
                        newId serverTime with
                | Ok (tid, db') =>
                    (db', mkEffects [ToastSuccess "Trip created successfully!";
                                     ToastSuccess "Trajet créé avec succès !"]
                            (Some ("/trip/" +:+ tid)))
                | Err e => (db, toast_error (create_error_message e))
                end
            end
        end
  end.

(** ** The join path that runs *)

Lemma useTrip_joinTrip_write (t : Trip.t) (uid : string) (shared writeOk : bool) (u : JoinUpdate) :
  ~ In uid (Trip.participants t) ->
  fst (useTrip_joinTrip (Some t) uid shared writeOk) = Some u <->
  writeOk = true /\ Trip.currentPassengers t < Trip.maxPassengers t /\ shared = true /\
  u = mkJoinUpdate uid (if Trip.maxPassengers t <=? Trip.currentPassengers t + 1 then full else open).
Proof.
  intros Hn. unfold useTrip_joinTrip.
  rewrite (proj2 (array_includes_false _ _) Hn).
  destruct (Trip.maxPassengers t <=? Trip.currentPassengers t) eqn:E;
    [apply Z.leb_le in E | apply Z.leb_gt in E];
  destruct shared, writeOk; simpl; split; intros H; try discriminate;
    try (destruct H as (? & ? & ? & ?); first [discriminate | lia]);
    [injection H as <-; auto | destruct H as (_ & _ & _ & ->); reflexivity].
Qed.

(** (C10: the join path that runs sends what [joinTrip] allows) The page's
    [handleJoin] writes an update exactly when its [updateDoc] succeeds
    and the checks of [useJoinTrip]'s [joinTrip] pass on the page's copy
    of the trip, and the update is the same; so every theorem on
    [joinTrip] and [applyJoinUpdate] (the invariant, the capacity bound,
    the overbooking race) holds of the code the application runs. *)
Theorem handleJoin_refines_joinTrip (uid : string) (t : Trip.t) (shared writeOk : bool)
    (u : JoinUpdate) :
  fst (handleJoin (Some uid) (Some t) shared writeOk) = Some u <->
  writeOk = true /\ joinTrip (Some uid) shared t = Ok u.
Proof.
  unfold handleJoin.
  destruct (String.eqb (Trip.creatorId t) uid) eqn:E1.
  - cbn [fst]. split; [discriminate | intros [_ Hj]].
    apply joinTrip_Ok in Hj as (? & [= <-] & Hne & _). exfalso. by apply Hne, String.eqb_eq.
  - destruct (Js.array_includes (Trip.participants t) uid) eqn:E2.
    + cbn [fst]. split; [discriminate | intros [_ Hj]].
      apply joinTrip_Ok in Hj as (? & [= <-] & _ & Hn & _). exfalso. by apply Hn, array_includes_In.
    + apply array_includes_false in E2.
      destruct (useTrip_joinTrip (Some t) uid shared writeOk) as [w ts] eqn:Ew. cbn [fst].
      change w with (fst (w, ts)). rewrite <- Ew, useTrip_joinTrip_write by done.
      apply String.eqb_neq in E1. split.
      * intros (-> & Hlt & -> & ->). split; [done |]. by apply joinTrip_new_user.
      * intros [-> Hj]. apply joinTrip_Ok in Hj as (? & [= <-] & _ & _ & Hlt & -> & ->). auto.
Qed.

(** (C11: a refused join is reported as a success) Once the page's own
    checks pass, [handleJoin] ends with the success toast whatever
    happened inside [joinTrip]: also when the trip is full, when the user
    declined to share it, or when the write failed, in which cases
    nothing is written. *)
Theorem handleJoin_always_reports_success (uid : string) (t : Trip.t) (shared writeOk : bool) :
  Trip.creatorId t <> uid -> ~ In uid (Trip.participants t) ->
  last (toasts (snd (handleJoin (Some uid) (Some t) shared writeOk))) =
    Some (ToastSuccess "Vous avez rejoint le trajet avec succès !") /\
  (fst (handleJoin (Some uid) (Some t) shared writeOk) = None <->
   Trip.maxPassengers t <= Trip.currentPassengers t \/ shared = false \/ writeOk = false).
Proof.
  intros Hc Hn. unfold handleJoin.
  rewrite (proj2 (String.eqb_neq _ _) Hc), (proj2 (array_includes_false _ _) Hn).
  destruct (useTrip_joinTrip (Some t) uid shared writeOk) as [w ts] eqn:Ew. simpl.
  split; [by rewrite last_snoc |].
  destruct w as [u|]; split; intros H; try done.
  - exfalso. assert (Hw : fst (useTrip_joinTrip (Some t) uid shared writeOk) = Some u)
      by (by rewrite Ew).
    apply useTrip_joinTrip_write in Hw as (-> & Hlt & -> & _); [| done]. lia.
  - destruct (Z_le_gt_dec (Trip.maxPassengers t) (Trip.currentPassengers t)); [by left |].
    destruct shared, writeOk; auto. exfalso.
    assert (Hw : fst (useTrip_joinTrip (Some t) uid true true) =
      Some (mkJoinUpdate uid (if Trip.maxPassengers t <=? Trip.currentPassengers t + 1
                              then full else open))) by (apply useTrip_joinTrip_write; auto with lia).
    by rewrite Ew in Hw.
Qed.

(** ** Search results *)

#[export] Instance departs_before_total : Total departs_before.
Proof. intros a b. unfold departs_before. lia. Qed.

#[export] Instance departs_before_trans : Transitive departs_before.
Proof. intros a b c. unfold departs_before. lia. Qed.

Lemma StronglySorted_filter {A} (R : relation A) (f : A -> bool) (l : list A) :
  StronglySorted R l -> StronglySorted R (List.filter f l).
Proof.
  induction 1 as [| x l Hs IH Hf]; simpl; [constructor |].
  destruct (f x); [| exact IH]. constructor; [exact IH |].
  apply List.Forall_forall. intros y Hy. apply filter_In in Hy as [Hy _].
  by apply (proj1 (List.Forall_forall _ _) Hf).
Qed.

(** (C: search results) The trips [useTrips] delivers are exactly the
    trips of the collection that are open, on the requested route, not
    before the requested date and with at least the requested number of
    free seats, in order of departure. *)
Theorem useTrips_result_spec (f : TripFilters) (coll : Trips) :
  (forall t, In t (useTrips_result f coll) <->
     In t (trips_of coll) /\ query_match f t = true /\ client_keep f t = true) /\
  Sorted departs_before (useTrips_result f coll).
Proof.
  split.
  - intros t. unfold useTrips_result. rewrite filter_In.
    split.
    + intros [Hin Hk]. apply (Permutation_in _ (merge_sort_Permutation _ _)) in Hin.
      apply filter_In in Hin as [? ?]. repeat split; assumption.
    + intros (Hin & Hq & Hk). split; [| done].
      apply (Permutation_in _ (Permutation_sym (merge_sort_Permutation _ _))).
      by apply filter_In.
  - apply StronglySorted_Sorted, StronglySorted_filter, StronglySorted_merge_sort; apply _.
Qed.

(** ** Witnesses *)

Lemma handleJoin_always_reports_success_witness :
  last (toasts (snd (handleJoin (Some "erin") (Some (sample_trip full 4 ["alice"; "bob"; "carol"; "dave"]))
                       true true))) =
    Some (ToastSuccess "Vous avez rejoint le trajet avec succès !") /\
  (fst (handleJoin (Some "erin") (Some (sample_trip full 4 ["alice"; "bob"; "carol"; "dave"])) true true)
     = None <->
   4 <= 4 \/ true = false \/ true = false).
Proof.
  apply (handleJoin_always_reports_success "erin" (sample_trip full 4 ["alice"; "bob"; "carol"; "dave"]));
    [discriminate | simpl; intuition discriminate].
Defined.

(** After the race of [Race.race_overbooks] a trip holds five passengers
    for four seats: [availableSeats] is [-1], not [0], so the page still
    offers "Rejoindre" to a newcomer, and clicking it shows
    "This trip is full" followed by the success message. *)
Example overbooked_trip_page :
  let t := sample_trip open 5 ["alice"; "bob"; "carol"; "dave"; "erin"] in
  trip_body t (Some "frank") false 0 = TDTrip 12 (-1) false "Rejoindre" /\
  toasts (snd (handleJoin (Some "frank") (Some t) true true)) =
    [ToastError "This trip is full"; ToastSuccess "Vous avez rejoint le trajet avec succès !"].
Proof. vm_compute. split; reflexivity. Qed.
