(* ===== verification/Chat.v ===== *)
(** * Chat: the chat store, the chat hooks and sending a message

    [src/src/stores/chatStore.ts], the hooks [useChat], [useChats],
    [useMessages], [useSendMessage] and [useCreateChat] of
    [src/src/hooks/], and the handlers of the two chat widgets
    ([src/src/components/chat/] and [src/src/components/messaging/]).
    Neither widget is mounted by the application's layout or pages.

    Sending a message is two writes: [addDoc] of the message, then
    [updateDoc] of the chat's [lastMessage].  As for joins, other clients
    run between the two; [chat_step] interleaves them. *)

From S2P Require Import Prelude.

Set Warnings "-clear-no-such-hyp".
Open Scope Z_scope.

(** [export interface Message]; [timestamp] is the server's time. *)
Record Message := mkMessage {
  m_id : string;
  m_chatId : string;
  m_senderId : string;
  m_content : string;
  m_timestamp : Z;
  m_read : bool
}.

(** [export interface Chat] *)
Record Chat := mkChat {
  c_id : string;
  c_participants : list string;
  c_lastMessage : option Message;
  c_updatedAt : Z;
  c_bookingId : option string
}.

(** ** The chat store *)

Record ChatStore := mkChatStore {
  cs_chats : list Chat;
  cs_activeChat : option Chat;
  cs_messages : list Message;
  cs_loading : bool;
  cs_error : option string
}.

Definition initialChatStore : ChatStore := mkChatStore [] None [] false None.

Definition setChats (l : list Chat) (s : ChatStore) : ChatStore :=
  mkChatStore l (cs_activeChat s) (cs_messages s) (cs_loading s) (cs_error s).
Definition setActiveChat (c : option Chat) (s : ChatStore) : ChatStore :=
  mkChatStore (cs_chats s) c (cs_messages s) (cs_loading s) (cs_error s).
Definition setMessages (l : list Message) (s : ChatStore) : ChatStore :=
  mkChatStore (cs_chats s) (cs_activeChat s) l (cs_loading s) (cs_error s).
Definition setChatLoading (b : bool) (s : ChatStore) : ChatStore :=
  mkChatStore (cs_chats s) (cs_activeChat s) (cs_messages s) b (cs_error s).
Definition setChatError (e : option string) (s : ChatStore) : ChatStore :=
  mkChatStore (cs_chats s) (cs_activeChat s) (cs_messages s) (cs_loading s) e.
(** [addMessage]: appended at the end. *)
Definition addMessage (m : Message) (s : ChatStore) : ChatStore :=
  mkChatStore (cs_chats s) (cs_activeChat s) (cs_messages s ++ [m]) (cs_loading s) (cs_error s).

(** ** The subscriptions *)

(** [useChat]: nothing without a user; the chats containing the user. *)
Definition useChat_start (user : option string) (s : ChatStore) : ChatStore :=
  match user with None => s | Some _ => setChatLoading true s end.

Definition onChatsSnapshot (chats : list Chat) (s : ChatStore) : ChatStore :=
  setChatLoading false (setChatError None (setChats chats s)).

Definition onChatsError (s : ChatStore) : ChatStore :=
  setChatLoading false (setChatError (Some "Failed to load chats") s).

(** [useMessages(chatId)]: the snapshot replaces the store's messages
    (the hook itself returns nothing). *)
Definition onMessagesSnapshot (msgs : list Message) (s : ChatStore) : ChatStore :=
  setChatError None (setMessages msgs s).

Definition onMessagesError (s : ChatStore) : ChatStore :=
  setChatError (Some "Failed to load messages") s.

(** [useChats]' own state and callbacks. *)
Record ChatsState := mkChatsState {
  ch_chats : list Chat;
  ch_loading : bool;
  ch_error : option string
}.

Definition useChats_start (user : option string) (s : ChatsState) : ChatsState :=
  match user with None => mkChatsState (ch_chats s) false (ch_error s) | Some _ => s end.

Definition useChats_snapshot (chats : list Chat) (s : ChatsState) : ChatsState :=
  mkChatsState chats false None.

Definition useChats_error (s : ChatsState) : ChatsState :=
  mkChatsState (ch_chats s) false (Some "Unable to load chats").

(** ** Creating a chat ([useCreateChat]) *)

Definition createChat (user : option string) (coll : gmap string Chat) (participantId : string)
    (bookingId : option string) (newId : string) (serverTime : Z)
    : option string * gmap string Chat * list Toast :=
  match user with
  | None => (None, coll, [ToastError "You must be logged in to start a chat"])
  | Some uid =>
      (Some newId, <[newId := mkChat newId [uid; participantId] None serverTime bookingId]> coll, [])
  end.

(** ** Sending a message ([useSendMessage]) *)

(** The collections the hook writes and the server's clock. *)
Record ChatDb := mkChatDb {
  db_messages : gmap string Message;
  db_chats : gmap string Chat;
  db_clock : Z
}.

(** The first write, [addDoc(collection(db, 'messages'), messageData)],
    timestamped by the server. *)
Definition send_add (db : ChatDb) (chatId uid content newId : string) (ts : Z)
    : ChatDb * Message :=
  let m := mkMessage newId chatId uid content ts false in
  (mkChatDb (<[newId := m]> (db_messages db)) (db_chats db) ts, m).

(** The second write, [updateDoc(doc(db, 'chats', chatId), { lastMessage:
    { ...messageData, id: messageRef.id }, updatedAt: serverTimestamp() })];
    it fails on a missing chat.  Both [serverTimestamp()] sentinels, the
    one inside [messageData] included, resolve to the time this write
    commits, not to the time stored with the message. *)
Definition send_update (db : ChatDb) (m : Message) (ts : Z) : option ChatDb :=
  match db_chats db !! m_chatId m with
  | Some c =>
      let last := mkMessage (m_id m) (m_chatId m) (m_senderId m) (m_content m) ts false in
      Some (mkChatDb (db_messages db)
              (<[m_chatId m := mkChat (c_id c) (c_participants c) (Some last) ts (c_bookingId c)]>
                 (db_chats db)) ts)
  | None => None
  end.

(** The whole [sendMessage(content)] when nothing runs between its two
    writes: the new message id, or the toast of the failure. *)
Definition sendMessage (user : option string) (db : ChatDb) (chatId content newId : string)
    (ts : Z) : result (string * ChatDb) (list Toast) :=
  match user with
  | None => Err [ToastError "You must be logged in to send messages"]
  | Some uid =>
      let '(db1, m) := send_add db chatId uid content newId ts in
      match send_update db1 m ts with
      | Some db2 => Ok (newId, db2)
      | None => Err [ToastError "Failed to send message"]
      end
  end.

(** [ChatWindow.handleSubmit] (both widgets): nothing for a blank message
    or while sending; the trimmed text is sent and the input cleared on
    success. *)
Definition chatSubmit (activeChat : option Chat) (newMessage : string) (sending : bool) : option string :=
  match activeChat with
  | None => None
  | Some _ => if String.eqb (Js.trim newMessage) "" || sending then None
              else Some (Js.trim newMessage)
  end.

(** The title of a chat window. *)
Definition chat_title (c : Chat) : string :=
  match c_bookingId c with
  | Some b => if String.eqb b "" then "Chat" else "Booking #" +:+ b
  | None => "Chat"
  end.

(** ** Sends one at a time and interleaved *)

(** A send with nothing between its two writes; the server's clock
    advances and message ids are fresh. *)
Inductive serial_chat_step : ChatDb -> ChatDb -> Prop :=
  | scs_send db uid chatId content newId ts db' :
      db_clock db < ts -> db_messages db !! newId = None ->
      sendMessage (Some uid) db chatId content newId ts = Ok (newId, db') ->
      serial_chat_step db db'
  | scs_send_failed db uid chatId content newId ts :
      db_clock db < ts -> db_messages db !! newId = None ->
      db_chats db !! chatId = None ->
      serial_chat_step db (fst (send_add db chatId uid content newId ts))
  | scs_create user db participantId bookingId newId ts r chats' toasts :
      db_clock db < ts -> db_chats db !! newId = None ->
      createChat user (db_chats db) participantId bookingId newId ts = (r, chats', toasts) ->
      serial_chat_step db (mkChatDb (db_messages db) chats' ts).

(** The interleaved model: [w_sent] are the messages whose [addDoc] has
    landed and whose [updateDoc] has not. *)
Record ChatWorld := mkChatWorld { cw_db : ChatDb; cw_sent : list Message }.

Inductive chat_step : ChatWorld -> ChatWorld -> Prop :=
  | cw_add w uid chatId content newId ts :
      db_clock (cw_db w) < ts -> db_messages (cw_db w) !! newId = None ->
      chat_step w (mkChatWorld (fst (send_add (cw_db w) chatId uid content newId ts))
                     (cw_sent w ++ [snd (send_add (cw_db w) chatId uid content newId ts)]))
  | cw_update w pre m post ts db' :
      cw_sent w = pre ++ m :: post -> db_clock (cw_db w) < ts ->
      send_update (cw_db w) m ts = Some db' ->
      chat_step w (mkChatWorld db' (pre ++ post)).

(** A [lastMessage] shows the stored message [m0]: the same id, chat,
    sender and text (its time is that of the chat's update). *)
Definition shows (lm m0 : Message) : Prop :=
  m_id lm = m_id m0 /\ m_chatId lm = m_chatId m0 /\ m_senderId lm = m_senderId m0 /\
  m_content lm = m_content m0.

(** What a chat's [lastMessage] should be: it shows a stored message of
    the chat, and the latest one. *)
Definition last_message_latest (db : ChatDb) : Prop :=
  (forall i m, db_messages db !! i = Some m -> m_id m = i /\ m_timestamp m <= db_clock db) /\
  forall c ch lm, db_chats db !! c = Some ch -> c_lastMessage ch = Some lm ->
    exists m0, db_messages db !! m_id lm = Some m0 /\ shows lm m0 /\ m_chatId m0 = c /\
    forall i m', db_messages db !! i = Some m' -> m_chatId m' = c ->
      m_timestamp m' <= m_timestamp m0.

(** ** Sends one at a time keep [lastMessage] the latest message *)

(** Storing a fresh message of a chat without a [lastMessage] to keep up
    to date (its chat is absent, or is updated next). *)
Lemma inv_add_message (db : ChatDb) (chatId uid content newId : string) (ts : Z) :
  last_message_latest db -> db_clock db < ts -> db_messages db !! newId = None ->
  let m := snd (send_add db chatId uid content newId ts) in
  (forall i m1, <[newId := m]> (db_messages db) !! i = Some m1 -> m_id m1 = i /\ m_timestamp m1 <= ts) /\
  forall c ch lm, db_chats db !! c = Some ch -> c_lastMessage ch = Some lm -> c <> chatId ->
    exists m0, <[newId := m]> (db_messages db) !! m_id lm = Some m0 /\ shows lm m0 /\ m_chatId m0 = c /\
    forall i m', <[newId := m]> (db_messages db) !! i = Some m' -> m_chatId m' = c ->
      m_timestamp m' <= m_timestamp m0.
Proof.
  intros [Hm Hc] Hts Hfresh m. split.
  - intros i m1 Hl. apply lookup_insert_Some in Hl as [[<- <-] | [_ Hl]]; [simpl; split; [done | lia] |].
    destruct (Hm i m1 Hl). split; [done | lia].
  - intros c ch lm Hch Hlast Hne. destruct (Hc c ch lm Hch Hlast) as (m0 & Hst & Hsh & Hid & Hlat).
    exists m0. split; [| split; [done | split; [done |]]].
    + rewrite lookup_insert_ne; [done |]. intros Heq. rewrite Heq in Hfresh. congruence.
    + intros i m' Hl Hcm. apply lookup_insert_Some in Hl as [[<- <-] | [_ Hl]];
        [simpl in Hcm; congruence | by apply (Hlat i)].
Qed.

Lemma serial_chat_step_inv (db db' : ChatDb) :
  last_message_latest db -> serial_chat_step db db' -> last_message_latest db'.
Proof.
  intros Hinv Hs. destruct Hs as [db uid chatId content newId ts db' Hts Hfresh Hsend
                                | db uid chatId content newId ts Hts Hfresh Hnone
                                | user db pid bid newId ts r chats' toasts Hts Hfresh Hcreate].
  - pose proof (inv_add_message db chatId uid content newId ts Hinv Hts Hfresh) as [H1 H2].
    unfold sendMessage, send_update in Hsend. simpl in Hsend.
    destruct (db_chats db !! chatId) as [ch0|] eqn:Hch; [| discriminate].
    injection Hsend as <-. split; [exact H1 |]. simpl.
    intros c ch lm Hl Hlast. apply lookup_insert_Some in Hl as [[<- <-] | [Hne Hl]].
    + injection Hlast as <-. eexists. split; [by rewrite lookup_insert_eq |].
      split; [done | split; [done |]]. intros i m' Hm' _. by destruct (H1 i m' Hm').
    + by apply (H2 c ch lm).
  - pose proof (inv_add_message db chatId uid content newId ts Hinv Hts Hfresh) as [H1 H2].
    split; [exact H1 |]. simpl. intros c ch lm Hl Hlast.
    apply (H2 c ch lm Hl Hlast). intros ->. congruence.
  - destruct Hinv as [Hm Hc]. unfold createChat in Hcreate.
    split; simpl; [intros i m1 Hl; destruct (Hm i m1 Hl); split; [done | lia] |].
    destruct user; injection Hcreate as <- <- <-; [| exact Hc].
    intros c ch lm Hl Hlast. apply lookup_insert_Some in Hl as [[<- <-] | [_ Hl]];
      [discriminate | by apply (Hc c ch lm)].
Qed.

(** (C: one send at a time keeps the chat list right) When each send's
    [updateDoc] lands before the next send starts, every chat's
    [lastMessage] shows a stored message of that chat and no message of
    the chat is more recent. *)
Theorem serial_last_message_latest (db0 db : ChatDb) :
  db_messages db0 = ∅ -> db_chats db0 = ∅ -> rtc serial_chat_step db0 db ->
  forall c ch lm, db_chats db !! c = Some ch -> c_lastMessage ch = Some lm ->
    exists m0, db_messages db !! m_id lm = Some m0 /\ shows lm m0 /\ m_chatId m0 = c /\
    forall i m', db_messages db !! i = Some m' -> m_chatId m' = c ->
      m_timestamp m' <= m_timestamp m0.
Proof.
  intros Hm Hc Hr. enough (Hinv : last_message_latest db) by apply Hinv.
  assert (H0 : last_message_latest db0).
  { split; [intros i m1; rewrite Hm; discriminate | intros c ch m; rewrite Hc; discriminate]. }
  clear Hm Hc.
  induction Hr as [x | x y z Hxy _ IH]; [done |]. apply IH. by eapply serial_chat_step_inv.
Qed.

(** ** Interleaved sends *)

(** (C17: concurrent sends leave a stale last message) Two messages sent to
    the same chat at about the same time: when the second one's [updateDoc]
    lands first, the chat's [lastMessage] ends showing the older message
    while a more recent message of the chat is stored, and its
    [timestamp], resolved when that last update commits, is later than
    both, so the chat list presents the older text as the newest. *)
Theorem chat_race_stale_last (db : ChatDb) (c : string) (ch : Chat)
    (u1 u2 content1 content2 i1 i2 : string) :
  db_chats db !! c = Some ch -> db_messages db !! i1 = None -> db_messages db !! i2 = None ->
  i1 <> i2 ->
  exists w, rtc chat_step (mkChatWorld db []) w /\ cw_sent w = [] /\
    exists ch' lm m1 m2, db_chats (cw_db w) !! c = Some ch' /\ c_lastMessage ch' = Some lm /\
      m_id lm = i1 /\ m_content lm = content1 /\
      db_messages (cw_db w) !! i1 = Some m1 /\ db_messages (cw_db w) !! i2 = Some m2 /\
      m_chatId m2 = c /\ m_timestamp m1 < m_timestamp m2 < m_timestamp lm.
Proof.
  intros Hch Hf1 Hf2 Hne. set (k := db_clock db).
  set (m1 := mkMessage i1 c u1 content1 (k + 1) false).
  set (m2 := mkMessage i2 c u2 content2 (k + 2) false).
  set (db1 := fst (send_add db c u1 content1 i1 (k + 1))).
  set (db2 := fst (send_add db1 c u2 content2 i2 (k + 2))).
  set (ch3 := mkChat (c_id ch) (c_participants ch) (Some (mkMessage i2 c u2 content2 (k + 3) false))
                (k + 3) (c_bookingId ch)).
  set (db3 := mkChatDb (db_messages db2) (<[c := ch3]> (db_chats db2)) (k + 3)).
  set (lm := mkMessage i1 c u1 content1 (k + 4) false).
  set (ch4 := mkChat (c_id ch3) (c_participants ch3) (Some lm) (k + 4) (c_bookingId ch3)).
  set (db4 := mkChatDb (db_messages db3) (<[c := ch4]> (db_chats db3)) (k + 4)).
  exists (mkChatWorld db4 []). split; [| split; [done |]].
  - eapply rtc_l.
    { apply (cw_add (mkChatWorld db []) u1 c content1 i1 (k + 1)); simpl; [lia | done]. }
    eapply rtc_l.
    { apply (cw_add (mkChatWorld db1 [m1]) u2 c content2 i2 (k + 2)); simpl; [lia |].
      rewrite lookup_insert_ne by congruence. done. }
    eapply rtc_l.
    { apply (cw_update (mkChatWorld db2 [m1; m2]) [m1] m2 [] (k + 3) db3); simpl; [done | lia |].
      unfold send_update. simpl. rewrite Hch. reflexivity. }
    eapply rtc_l.
    { apply (cw_update (mkChatWorld db3 [m1]) [] m1 [] (k + 4) db4); simpl; [done | lia |].
      unfold send_update. simpl. rewrite lookup_insert_eq. reflexivity. }
    reflexivity.
  - exists ch4, lm, m1, m2. simpl. rewrite lookup_insert_eq, lookup_insert_ne, !lookup_insert_eq by congruence.
    repeat split; simpl; lia.
Qed.

(** ** Witnesses *)

Definition sample_chat : Chat := mkChat "c1" ["alice"; "bob"] None 1 None.
Definition sample_chatdb0 : ChatDb := mkChatDb ∅ ∅ 0.
Definition sample_chatdb1 : ChatDb := mkChatDb ∅ {["c1" := sample_chat]} 1.
Definition sample_chatdb2 : ChatDb :=
  match sendMessage (Some "alice") sample_chatdb1 "c1" "Bonjour" "m1" 2 with
  | Ok (_, db) => db
  | Err _ => sample_chatdb1
  end.

Lemma serial_last_message_latest_witness :
  rtc serial_chat_step sample_chatdb0 sample_chatdb2 /\
  forall ch lm, db_chats sample_chatdb2 !! "c1" = Some ch -> c_lastMessage ch = Some lm ->
    exists m0, db_messages sample_chatdb2 !! m_id lm = Some m0 /\ shows lm m0 /\ m_chatId m0 = "c1" /\
    forall i m', db_messages sample_chatdb2 !! i = Some m' -> m_chatId m' = "c1" ->
      m_timestamp m' <= m_timestamp m0.
Proof.
  assert (Hr : rtc serial_chat_step sample_chatdb0 sample_chatdb2).
  { eapply rtc_l; [apply (scs_create (Some "alice") sample_chatdb0 "bob" None "c1" 1
                          (Some "c1") {["c1" := sample_chat]} []); reflexivity |].
    eapply rtc_l; [apply (scs_send sample_chatdb1 "alice" "c1" "Bonjour" "m1" 2); reflexivity |].
    reflexivity. }
  split; [exact Hr |]. intros ch lm.
  exact (serial_last_message_latest sample_chatdb0 sample_chatdb2 eq_refl eq_refl Hr "c1" ch lm).
Defined.

Lemma chat_race_stale_last_witness :
  exists w, rtc chat_step (mkChatWorld sample_chatdb1 []) w /\ cw_sent w = [] /\
    exists ch' lm m1 m2, db_chats (cw_db w) !! "c1" = Some ch' /\ c_lastMessage ch' = Some lm /\
      m_id lm = "m1" /\ m_content lm = "Bonjour" /\
      db_messages (cw_db w) !! "m1" = Some m1 /\ db_messages (cw_db w) !! "m2" = Some m2 /\
      m_chatId m2 = "c1" /\ m_timestamp m1 < m_timestamp m2 < m_timestamp lm.
Proof.
  apply (chat_race_stale_last sample_chatdb1 "c1" sample_chat "alice" "bob" "Bonjour" "Salut" "m1" "m2");
    first [reflexivity | discriminate].
Defined.
