(* ===== verification/Auth.v ===== *)
(** * Authentication, user profiles and their documents

    The session state of [contexts/AuthContext.tsx] ([user], [loading]),
    the writes its handlers make to the [users] collection
    ([setDoc] with and without [merge]), the two forms that call it
    ([components/LoginForm.tsx], [components/RegisterForm.tsx]), the
    Google sign-in of [components/auth/SocialLogin.tsx], the settings
    panel of [components/profile/ProfileSettings.tsx], the profile page
    and header, and [components/admin/AdminGuard.tsx].

    The authentication provider itself (account creation, password
    checks, popups) is not modelled: its answer is an input of each
    handler.  [zod]'s e-mail check is a parameter [isEmail]. *)

From S2P Require Import Prelude.

(** ** The authentication provider's user *)

Record User := mkUser {
  uid : string;
  email : option string;
  displayName : option string;
  photoURL : option string
}.

(** ** Documents of the [users] collection

    A field value is what the handlers write: a string or [null], a
    boolean, a server timestamp (resolved to the server's time [t]) or
    the [settings] object of three booleans, which every write sets as a
    whole. *)

Inductive FValue :=
  | FStr (s : string)
  | FNull
  | FBool (b : bool)
  | FTime (t : Z)
  | FSettings (isPublic emailNotifications pushNotifications : bool).

Abbreviation Fields := (gmap string FValue).
Abbreviation UsersDb := (gmap string Fields).

Definition opt_str (o : option string) : FValue :=
  match o with Some s => FStr s | None => FNull end.

(** [setDoc(ref, data)]: the document becomes [data]. *)
Definition setDoc (db : UsersDb) (id : string) (data : Fields) : UsersDb :=
  <[id := data]> db.

(** [setDoc(ref, data, { merge: true })]: the fields of [data] replace
    those of the document, the others are kept; a missing document is
    created. *)
Definition setDoc_merge (db : UsersDb) (id : string) (data : Fields) : UsersDb :=
  <[id := data ∪ default ∅ (db !! id)]> db.

(** [updateDoc(ref, data)]: like a merge, but it fails on a missing
    document. *)
Definition updateDoc (db : UsersDb) (id : string) (data : Fields) : option UsersDb :=
  (fun old => <[id := data ∪ old]> db) <$> db !! id.

(** ** [AuthContext] *)

Record AuthState := mkAuthState {
  auth_user : option User;
  auth_loading : bool
}.

Definition initialAuth : AuthState := mkAuthState None true.

Definition lastLogin (t : Z) : Fields := {[ "lastLoginAt" := FTime t ]}.

(** The [onAuthStateChanged] observer: for a signed-in user it merges
    [lastLoginAt] into the profile (a failed write only raises a toast),
    then it publishes the user and ends the loading state. *)
Definition onAuthStateChanged (u : option User) (writeOk : bool) (t : Z)
    (db : UsersDb) : UsersDb * AuthState * list Toast :=
  match u with
  | Some usr =>
      if writeOk then (setDoc_merge db (uid usr) (lastLogin t), mkAuthState u false, [])
      else (db, mkAuthState u false, [ToastError "Failed to update user profile"])
  | None => (db, mkAuthState None false, [])
  end.

(** The [getRedirectResult] handler: after a redirect sign-in it merges
    the provider's identity into the profile. *)
Definition onRedirectResult (res : result (option User) string) (writeOk : bool) (t : Z)
    (db : UsersDb) : UsersDb * list Toast :=
  match res with
  | Ok (Some usr) =>
      if writeOk then
        (setDoc_merge db (uid usr)
           (list_to_map [("email", opt_str (email usr));
                         ("displayName", opt_str (displayName usr));
                         ("photoURL", opt_str (photoURL usr));
                         ("lastLoginAt", FTime t)]),
         [ToastSuccess "Successfully logged in!"])
      else (db, [ToastError "Failed to update user profile"])
  | Ok None => (db, [])
  | Err code =>
      if String.eqb code "auth/redirect-cancelled-by-user" then (db, [])
      else (db, [ToastError "Failed to complete sign-in"])
  end.

(** The profile [signUp] writes for a new account. *)
Definition signUp_profile (usr : User) (t : Z) : Fields :=
  list_to_map [("email", opt_str (email usr)); ("displayName", FNull); ("photoURL", FNull);
               ("bio", FNull); ("phoneNumber", FNull); ("isPublic", FBool true);
               ("createdAt", FTime t); ("lastLoginAt", FTime t);
               ("settings", FSettings true true true)].

(** [signUp(email, password)]: [created] is the provider's answer to
    [createUserWithEmailAndPassword] (the new user, or the error code it
    throws); a failed profile write is rethrown as well. *)
Definition signUp (created : result User string) (writeOk : bool) (t : Z) (db : UsersDb)
    : result (User * UsersDb) string :=
  match created with
  | Ok usr =>
      if writeOk then Ok (usr, setDoc db (uid usr) (signUp_profile usr t))
      else Err "firestore/unavailable"
  | Err code => Err code
  end.

(** [signIn(email, password)] and [logout()]: the provider's call
    ([None] when it succeeds, else its error code), rethrown on
    failure; the session itself changes through the observer. *)
Definition signIn (answer : option string) : result unit string :=
  match answer with None => Ok tt | Some code => Err code end.

Definition logout (answer : option string) : result unit string :=
  match answer with None => Ok tt | Some code => Err code end.

(** ** [LoginForm] and [RegisterForm] *)

(** What a submitted form can fail with: a schema issue (its message), an
    error of the provider (its code) or anything else. *)
Inductive FormError :=
  | SchemaError (msg : string)
  | ProviderError (code : string)
  | OtherError.

(** [loginSchema.parse]: the first issue in field order. *)
Definition loginSchema (isEmail : string -> bool) (em pw : string) : result unit string :=
  when negb (isEmail em) fail "Adresse email invalide";
  when (String.length pw <? 6)%nat fail "Le mot de passe doit contenir au moins 6 caractères";
  Ok tt.

Definition login_error_message (e : FormError) : string :=
  match e with
  | SchemaError m => m
  | ProviderError code =>
      if String.eqb code "auth/invalid-credential" || String.eqb code "auth/wrong-password"
         || String.eqb code "auth/user-not-found" then "Email ou mot de passe incorrect"
      else if String.eqb code "auth/user-disabled" then "Ce compte a été désactivé"
      else "Échec de la connexion. Veuillez vérifier vos identifiants."
  | OtherError => "Une erreur inattendue est survenue"
  end.

(** [LoginForm.handleSubmit]: [signedIn] is the outcome of [signIn]. *)
Definition loginSubmit (isEmail : string -> bool) (em pw : string)
    (signedIn : result unit FormError) : Effects :=
  match loginSchema isEmail em pw with
  | Err m => toast_error (login_error_message (SchemaError m))
  | Ok _ =>
      match signedIn with
      | Ok _ => mkEffects [ToastSuccess "Connexion réussie !"]
                  (Some (if String.eqb em "admin@cotaxiage.com" then "/admin" else "/"))
      | Err e => toast_error (login_error_message e)
      end
  end.

(** [registerSchema.parse]: the field checks, then the refinement.  The
    refinement's issue is listed after the field issues, so the first
    issue, the one the form shows, is a field issue whenever one fails. *)
Definition registerSchema (isEmail : string -> bool) (em pw confirm : string)
    : result unit string :=
  let? _ := loginSchema isEmail em pw in
  when negb (String.eqb pw confirm) fail "Les mots de passe ne correspondent pas";
  Ok tt.

Definition register_error_message (e : FormError) : string :=
  match e with
  | SchemaError m => m
  | ProviderError code =>
      if String.eqb code "auth/email-already-in-use" then "Cette adresse email est déjà utilisée"
      else if String.eqb code "auth/invalid-email" then "Adresse email invalide"
      else if String.eqb code "auth/operation-not-allowed" then
        "La création de compte par email est désactivée"
      else if String.eqb code "auth/weak-password" then "Le mot de passe est trop faible"
      else "Échec de la création du compte. Veuillez réessayer."
  | OtherError => "Une erreur inattendue est survenue"
  end.

(** [RegisterForm.handleSubmit]: [signedUp] is the outcome of [signUp]. *)
Definition registerSubmit (isEmail : string -> bool) (em pw confirm : string)
    (signedUp : result unit FormError) : Effects :=
  match registerSchema isEmail em pw confirm with
  | Err m => toast_error (register_error_message (SchemaError m))
  | Ok _ =>
      match signedUp with
      | Ok _ => mkEffects [ToastSuccess "Compte créé avec succès !"] (Some "/dashboard")
      | Err e => toast_error (register_error_message e)
      end
  end.

(** ** [SocialLogin]: Google sign-in *)

(** The profile written at a first Google sign-in. *)
Definition social_profile (usr : User) (t : Z) : Fields :=
  list_to_map [("email", opt_str (email usr)); ("displayName", opt_str (displayName usr));
               ("photoURL", opt_str (photoURL usr)); ("createdAt", FTime t);
               ("lastLoginAt", FTime t); ("provider", FStr "google");
               ("settings", FSettings true true true)].

(** The write that follows [getDoc]: a full profile when the read saw no
    document, a [lastLoginAt] merge otherwise. *)
Definition social_write (seen : bool) (usr : User) (t : Z) (db : UsersDb) : UsersDb :=
  if seen then setDoc_merge db (uid usr) (lastLogin t)
  else setDoc db (uid usr) (social_profile usr t).

Definition social_error_message (code : string) : string :=
  if String.eqb code "auth/popup-blocked" then "Veuillez autoriser les popups pour ce site"
  else if String.eqb code "auth/unauthorized-domain" then
    "Ce domaine n'est pas autorisé pour la connexion Google"
  else "Échec de la connexion avec Google".

(** [handleGoogleLogin], run alone: [popup] is the provider's answer,
    [writeOk] whether the document reads and writes succeed. *)
Definition handleGoogleLogin (isLoading : bool) (popup : result User string) (writeOk : bool)
    (t : Z) (db : UsersDb) : UsersDb * Effects :=
  if isLoading then (db, no_effects) else
  match popup with
  | Err code => (db, toast_error (social_error_message code))
  | Ok usr =>
      if writeOk then
        (social_write (bool_decide (is_Some (db !! uid usr))) usr t db,
         mkEffects [ToastSuccess "Connexion réussie !"] (Some "/"))
      else (db, toast_error (social_error_message ""))
  end.

(** The sign-in also fires the [onAuthStateChanged] observer, whose
    [lastLoginAt] merge runs concurrently with [handleGoogleLogin]'s
    [getDoc] and [setDoc].  A world records the document store, where
    [handleGoogleLogin] is, and whether the observer's write is still
    pending. *)
Inductive SocialPc :=
  | SAwaitRead
  | SAwaitWrite (seen : bool)
  | SDone (seen : bool).

Record SocialWorld := mkSocialWorld {
  sw_db : UsersDb;
  sw_pc : SocialPc;
  sw_observer : bool
}.

Section SocialRace.
Context (usr : User) (t_obs t_soc : Z).

Inductive social_step : SocialWorld -> SocialWorld -> Prop :=
  | ss_read (db : UsersDb) (o : bool) :
      social_step (mkSocialWorld db SAwaitRead o)
        (mkSocialWorld db (SAwaitWrite (bool_decide (is_Some (db !! uid usr)))) o)
  | ss_write (db : UsersDb) (seen o : bool) :
      social_step (mkSocialWorld db (SAwaitWrite seen) o)
        (mkSocialWorld (social_write seen usr t_soc db) (SDone seen) o)
  | ss_observer (db : UsersDb) (pc : SocialPc) :
      social_step (mkSocialWorld db pc true)
        (mkSocialWorld (setDoc_merge db (uid usr) (lastLogin t_obs)) pc false).

End SocialRace.

(** ** [ProfileSettings] *)

Inductive SettingKey := isPublicKey | emailNotificationsKey | pushNotificationsKey.

Record SettingsPanel := mkSettingsPanel {
  sp_isPublic : bool;
  sp_emailNotifications : bool;
  sp_pushNotifications : bool
}.

(** The panel's state starts at these constants; it is never loaded from
    the profile. *)
Definition initialSettingsPanel : SettingsPanel := mkSettingsPanel true true true.

Definition handleToggle (k : SettingKey) (s : SettingsPanel) : SettingsPanel :=
  match k with
  | isPublicKey => mkSettingsPanel (negb (sp_isPublic s)) (sp_emailNotifications s) (sp_pushNotifications s)
  | emailNotificationsKey => mkSettingsPanel (sp_isPublic s) (negb (sp_emailNotifications s)) (sp_pushNotifications s)
  | pushNotificationsKey => mkSettingsPanel (sp_isPublic s) (sp_emailNotifications s) (negb (sp_pushNotifications s))
  end.

Definition settings_value (s : SettingsPanel) : FValue :=
  FSettings (sp_isPublic s) (sp_emailNotifications s) (sp_pushNotifications s).

(** [handleSave]: [updateDoc(users/uid, { settings })]. *)
Definition handleSave (u : option User) (writeOk : bool) (s : SettingsPanel) (db : UsersDb)
    : UsersDb * list Toast :=
  match u with
  | None => (db, [])
  | Some usr =>
      match (if writeOk then updateDoc db (uid usr) {[ "settings" := settings_value s ]} else None) with
      | Some db' => (db', [ToastSuccess "Settings updated successfully"])
      | None => (db, [ToastError "Failed to update settings"])
      end
  end.

(** ** [ProfilePage] and [ProfileHeader] *)

Record ProfilePageState := mkProfilePageState {
  pp_profile : option (string * Fields);
  pp_loading : bool
}.

Definition initialProfilePage : ProfilePageState := mkProfilePageState None true.

(** [a || b] on two [string | undefined] values. *)
Definition js_or (a b : option string) : option string :=
  match a with
  | Some x => if String.eqb x "" then b else a
  | None => b
  end.

(** [fetchProfile], run on mount and again whenever [userId] or [user]
    changes: the profile of the route's [userId], or of the signed-in
    user; [readOk] whether [getDoc] succeeds.  The profile is set only
    when the document exists and is never cleared; the [finally] clause
    ends the loading state on every path, the early return included. *)
Definition fetchProfile (userId : option string) (u : option User) (readOk : bool)
    (db : UsersDb) (s : ProfilePageState) : ProfilePageState :=
  let done := mkProfilePageState (pp_profile s) false in
  match js_or userId (uid <$> u) with
  | Some pid =>
      if String.eqb pid "" then done
      else if readOk then
        match db !! pid with
        | Some f => mkProfilePageState (Some (pid, f)) false
        | None => done
        end
      else done
  | None => done
  end.

(** What [ProfileHeader] shows: the name (with its fallback), the join
    date ([None] for ['Unknown date']) and whether the edit buttons are
    offered. *)
Record HeaderView := mkHeaderView {
  hv_name : string;
  hv_joined : option Z;
  hv_own : bool
}.

(** What [docSnap.data()] holds for a stored field: a time comes back
    as a [Timestamp] object, never as a [Date]. *)
Inductive JsValue :=
  | JsString (s : string)
  | JsNull
  | JsBool (b : bool)
  | JsTimestamp (t : Z)
  | JsObject
  | JsDate (t : Z)
  | JsInvalidDate.

Definition read_field (v : FValue) : JsValue :=
  match v with
  | FStr s => JsString s
  | FNull => JsNull
  | FBool b => JsBool b
  | FTime t => JsTimestamp t
  | FSettings _ _ _ => JsObject
  end.

(** [formatDate(date)]: a valid [Date] is shown (as ['MMMM yyyy']);
    [null], [undefined], a [Timestamp] or an invalid date give
    ['Unknown date'] ([None]). *)
Definition formatDate (v : option JsValue) : option Z :=
  match v with Some (JsDate t) => Some t | _ => None end.

Definition profileHeader (u : option User) (pid : string) (f : Fields) : HeaderView :=
  mkHeaderView
    (match f !! "displayName" with
     | Some (FStr s) => if String.eqb s "" then "Anonymous User" else s
     | _ => "Anonymous User"
     end)
    (formatDate (read_field <$> f !! "createdAt"))
    (match u with Some usr => String.eqb (uid usr) pid | None => false end).

(** ** [AdminGuard] *)

Inductive GuardView := GuardSpinner | GuardRedirect (to : string) | GuardChildren.

Definition adminGuard (s : AuthState) : GuardView :=
  if auth_loading s then GuardSpinner else
  match auth_user s with
  | Some usr =>
      match email usr with
      | Some e => if Js.endsWith e "@cotaxiage.com" then GuardChildren else GuardRedirect "/"
      | None => GuardRedirect "/"
      end
  | None => GuardRedirect "/"
  end.

#[export] Instance SettingKey_eq_dec : EqDecision SettingKey.
Proof. solve_decision. Defined.

(** ** Lemmas on the document writes *)

Lemma lastLogin_union (t : Z) (f : Fields) :
  lastLogin t ∪ f = <["lastLoginAt" := FTime t]> f.
Proof. by rewrite insert_union_singleton_l. Qed.

Lemma setDoc_merge_lastLogin (db : UsersDb) (id : string) (t : Z) :
  setDoc_merge db id (lastLogin t) !! id = Some (<["lastLoginAt" := FTime t]> (default ∅ (db !! id))).
Proof. unfold setDoc_merge. by rewrite lookup_insert_eq, lastLogin_union. Qed.

Lemma setDoc_merge_other (db : UsersDb) (id i : string) (f : Fields) :
  i <> id -> setDoc_merge db id f !! i = db !! i.
Proof. intros. unfold setDoc_merge. by rewrite lookup_insert_ne. Qed.

Lemma setDoc_other (db : UsersDb) (id i : string) (f : Fields) :
  i <> id -> setDoc db id f !! i = db !! i.
Proof. intros. unfold setDoc. by rewrite lookup_insert_ne. Qed.

#[export] Hint Rewrite setDoc_merge_lastLogin : cotax_rw.

(** What a first sign-in's full profile holds. *)
Definition full_social_profile (usr : User) (t : Z) (f : Fields) : Prop :=
  f !! "settings" = Some (FSettings true true true) /\
  f !! "email" = Some (opt_str (email usr)) /\ f !! "createdAt" = Some (FTime t).

Definition social_inv (usr : User) (t : Z) (w : SocialWorld) : Prop :=
  sw_pc w = SDone false -> exists f, sw_db w !! uid usr = Some f /\ full_social_profile usr t f.

Lemma social_step_inv (usr : User) (t_obs t_soc : Z) (w w' : SocialWorld) :
  social_step usr t_obs t_soc w w' -> social_inv usr t_soc w -> social_inv usr t_soc w'.
Proof.
  intros Hs Hi. destruct Hs as [db o | db seen o | db pc]; unfold social_inv in *; simpl in *.
  - discriminate.
  - intros [= ->]. unfold social_write, setDoc. rewrite lookup_insert_eq.
    eexists. split; [done |]. repeat split; reflexivity.
  - intros Hpc. destruct (Hi Hpc) as (f & Hf & Hs & He & Hc).
    rewrite setDoc_merge_lastLogin, Hf. eexists. split; [done |].
    unfold full_social_profile. rewrite !lookup_insert_ne by done. done.
Qed.

(** ** Theorems *)

(** (C27: account creation and the login observer commute) [signUp]'s
    profile write and the [onAuthStateChanged] observer's [lastLoginAt]
    merge race after account creation.  In either order the account's
    document is the full sign-up profile (they differ at most in the
    login time) and no other document changes. *)
Theorem signUp_observer_commute (db db1 db2 : UsersDb) (usr : User) (t1 t2 : Z) :
  signUp (Ok usr) true t1 db = Ok (usr, db1) ->
  signUp (Ok usr) true t1 (fst (fst (onAuthStateChanged (Some usr) true t2 db))) = Ok (usr, db2) ->
  let db1' := fst (fst (onAuthStateChanged (Some usr) true t2 db1)) in
  db1' !! uid usr = Some (<["lastLoginAt" := FTime t2]> (signUp_profile usr t1)) /\
  db2 !! uid usr = Some (signUp_profile usr t1) /\
  forall i, i <> uid usr -> db1' !! i = db2 !! i.
Proof.
  intros [= <-] [= <-]. simpl. split; [| split].
  - unfold setDoc. by rewrite setDoc_merge_lastLogin, lookup_insert_eq.
  - unfold setDoc. by rewrite lookup_insert_eq.
  - intros i Hi. by rewrite setDoc_merge_other, !setDoc_other, setDoc_merge_other.
Qed.

(** (C19: a first Google sign-in can lose the profile) When the observer's
    [lastLoginAt] merge lands before [handleGoogleLogin]'s [getDoc], the
    read sees a document, only [lastLoginAt] is merged, and the profile
    ends with no e-mail, name, creation date or settings: the profile
    page then shows "Anonymous User" and an unknown join date. *)
Theorem social_login_race (db : UsersDb) (usr : User) (t_obs t_soc : Z) :
  db !! uid usr = None ->
  exists w, rtc (social_step usr t_obs t_soc) (mkSocialWorld db SAwaitRead true) w /\
    sw_pc w = SDone true /\ sw_observer w = false /\
    sw_db w !! uid usr = Some (lastLogin t_soc) /\
    profileHeader (Some usr) (uid usr) (lastLogin t_soc) = mkHeaderView "Anonymous User" None true.
Proof.
  intros Hnone. set (db1 := setDoc_merge db (uid usr) (lastLogin t_obs)).
  assert (Hseen : bool_decide (is_Some (db1 !! uid usr)) = true).
  { apply bool_decide_true. subst db1. rewrite setDoc_merge_lastLogin. by eexists. }
  exists (mkSocialWorld (social_write true usr t_soc db1) (SDone true) false).
  split; [| split; [done | split; [done | split]]].
  - eapply rtc_l; [apply ss_observer |]. fold db1.
    eapply rtc_l; [pose proof (ss_read usr t_obs t_soc db1 false) as Hr; rewrite Hseen in Hr; exact Hr |].
    eapply rtc_l; [apply ss_write | apply rtc_refl].
  - simpl. unfold social_write. rewrite setDoc_merge_lastLogin. subst db1.
    rewrite setDoc_merge_lastLogin, Hnone. simpl. by f_equal.
  - unfold profileHeader. simpl. by rewrite String.eqb_refl.
Qed.

(** (C: a sign-in that finds no document writes a full profile) In every
    interleaving with the observer, once [handleGoogleLogin] has run
    after a [getDoc] that found no document, the profile holds the
    settings, the e-mail and the creation date: the observer's merge,
    before or after the write, keeps them. *)
Theorem social_login_unseen_complete (usr : User) (t_obs t_soc : Z) (w0 w : SocialWorld) :
  rtc (social_step usr t_obs t_soc) w0 w -> sw_pc w0 = SAwaitRead -> sw_pc w = SDone false ->
  exists f, sw_db w !! uid usr = Some f /\ full_social_profile usr t_soc f.
Proof.
  intros Hr H0. apply (rtc_preserves _ _ (social_step_inv usr t_obs t_soc) w0 w Hr).
  unfold social_inv. by rewrite H0.
Qed.

(** (C: saving settings resets the untouched ones) The settings panel
    always starts at "all on", whatever the profile stores.  Toggling one
    setting and saving writes that setting off and the two others on:
    a user who had turned notifications off has them turned back on by
    changing their privacy.  The rest of the profile is kept. *)
Theorem settings_save_resets_others (db : UsersDb) (usr : User) (f : Fields) (k : SettingKey) :
  db !! uid usr = Some f ->
  fst (handleSave (Some usr) true (handleToggle k initialSettingsPanel) db) !! uid usr =
  Some (<["settings" := FSettings (bool_decide (k <> isPublicKey))
                                  (bool_decide (k <> emailNotificationsKey))
                                  (bool_decide (k <> pushNotificationsKey))]> f).
Proof.
  intros Hf. unfold handleSave, updateDoc. rewrite Hf. simpl. rewrite lookup_insert_eq.
  f_equal. rewrite <- insert_union_singleton_l. by destruct k.
Qed.

(** (C18: any address of the company's domain is an administrator)
    [RegisterForm] creates an account for any well-formed address whose
    password has six characters, and the provider does not verify it;
    once the observer publishes the new user, [AdminGuard] lets them
    through because the address ends with "@cotaxiage.com". *)
Theorem register_grants_admin (isEmail : string -> bool) (local pw : string) (usr : User)
    (db db1 : UsersDb) (t1 t2 : Z) :
  isEmail (local +:+ "@cotaxiage.com") = true -> (6 <= String.length pw)%nat ->
  email usr = Some (local +:+ "@cotaxiage.com") ->
  signUp (Ok usr) true t1 db = Ok (usr, db1) ->
  registerSubmit isEmail (local +:+ "@cotaxiage.com") pw pw (Ok tt) =
    mkEffects [ToastSuccess "Compte créé avec succès !"] (Some "/dashboard") /\
  adminGuard (snd (fst (onAuthStateChanged (Some usr) true t2 db1))) = GuardChildren.
Proof.
  intros He Hpw Hu _. split.
  - unfold registerSubmit, registerSchema, loginSchema. rewrite He, String.eqb_refl.
    replace (String.length pw <? 6)%nat with false by (symmetry; apply Nat.ltb_ge; lia).
    reflexivity.
  - unfold adminGuard. simpl. by rewrite Hu, endsWith_app.
Qed.

(** (C: where a login leads) [LoginForm] navigates only after the schema
    and the provider accept the credentials, and to the admin page
    exactly for the address "admin@cotaxiage.com"; every failure raises
    one error toast and stays on the page. *)
Theorem loginSubmit_navigation (isEmail : string -> bool) (em pw : string)
    (r : result unit FormError) :
  (navigateTo (loginSubmit isEmail em pw r) = Some "/admin" <->
     loginSchema isEmail em pw = Ok tt /\ is_ok r = true /\ em = "admin@cotaxiage.com") /\
  (navigateTo (loginSubmit isEmail em pw r) = None <->
     exists msg, toasts (loginSubmit isEmail em pw r) = [ToastError msg]).
Proof.
  unfold loginSubmit. destruct (loginSchema isEmail em pw) as [[] | m] eqn:Hs.
  - destruct r as [[] | e]; simpl.
    + destruct (String.eqb_spec em "admin@cotaxiage.com"); split; split; naive_solver.
    + split; split; naive_solver.
  - simpl. split; split; naive_solver.
Qed.

(** (C: the profile never shows a join date) Whatever the stored
    profile holds, [ProfileHeader] reads "Joined Unknown date": the
    profile comes from [getDoc], whose times are [Timestamp] objects, and
    [formatDate] shows only a [Date]. *)
Theorem profile_join_date_unknown (u : option User) (pid : string) (f : Fields) :
  hv_joined (profileHeader u pid f) = None.
Proof. unfold profileHeader. cbn. by destruct (f !! "createdAt") as [[] |]. Qed.

(** ** Witnesses *)

Definition sample_user : User := mkUser "u1" (Some "mallory@cotaxiage.com") (Some "Mallory") None.
Definition sample_users : UsersDb := {[ "u1" := signUp_profile sample_user 0 ]}.

Lemma signUp_observer_commute_witness :
  signUp (Ok sample_user) true 0 ∅ = Ok (sample_user, setDoc ∅ "u1" (signUp_profile sample_user 0)) /\
  signUp (Ok sample_user) true 0 (fst (fst (onAuthStateChanged (Some sample_user) true 5 ∅))) =
    Ok (sample_user, setDoc (setDoc_merge ∅ "u1" (lastLogin 5)) "u1" (signUp_profile sample_user 0)) /\
  let db1' := fst (fst (onAuthStateChanged (Some sample_user) true 5
                          (setDoc ∅ "u1" (signUp_profile sample_user 0)))) in
  db1' !! "u1" = Some (<["lastLoginAt" := FTime 5]> (signUp_profile sample_user 0)) /\
  setDoc (setDoc_merge ∅ "u1" (lastLogin 5)) "u1" (signUp_profile sample_user 0) !! "u1" =
    Some (signUp_profile sample_user 0) /\
  forall i, i <> "u1" -> db1' !! i =
    setDoc (setDoc_merge ∅ "u1" (lastLogin 5)) "u1" (signUp_profile sample_user 0) !! i.
Proof.
  split; [reflexivity | split; [reflexivity |]].
  exact (signUp_observer_commute ∅ _ _ sample_user 0 5 eq_refl eq_refl).
Defined.

Lemma social_login_race_witness :
  (∅ : UsersDb) !! "u1" = None /\
  exists w, rtc (social_step sample_user 1 2) (mkSocialWorld ∅ SAwaitRead true) w /\
    sw_pc w = SDone true /\ sw_observer w = false /\
    sw_db w !! uid sample_user = Some (lastLogin 2) /\
    profileHeader (Some sample_user) (uid sample_user) (lastLogin 2) =
      mkHeaderView "Anonymous User" None true.
Proof. split; [reflexivity | apply (social_login_race ∅ sample_user 1 2); reflexivity]. Defined.

Lemma social_login_unseen_complete_witness :
  rtc (social_step sample_user 1 2) (mkSocialWorld ∅ SAwaitRead true)
      (mkSocialWorld (social_write false sample_user 2 ∅) (SDone false) true) /\
  exists f, sw_db (mkSocialWorld (social_write false sample_user 2 ∅) (SDone false) true)
              !! uid sample_user = Some f /\ full_social_profile sample_user 2 f.
Proof.
  assert (Hr : rtc (social_step sample_user 1 2) (mkSocialWorld ∅ SAwaitRead true)
                 (mkSocialWorld (social_write false sample_user 2 ∅) (SDone false) true)).
  { eapply rtc_l; [apply (ss_read sample_user 1 2 ∅ true) |].
    eapply rtc_l; [apply ss_write | apply rtc_refl]. }
  split; [exact Hr |]. exact (social_login_unseen_complete sample_user 1 2 _ _ Hr eq_refl eq_refl).
Defined.

Lemma settings_save_resets_others_witness :
  sample_users !! uid sample_user = Some (signUp_profile sample_user 0) /\
  fst (handleSave (Some sample_user) true (handleToggle isPublicKey initialSettingsPanel) sample_users)
    !! uid sample_user =
  Some (<["settings" := FSettings (bool_decide (isPublicKey <> isPublicKey))
                                  (bool_decide (isPublicKey <> emailNotificationsKey))
                                  (bool_decide (isPublicKey <> pushNotificationsKey))]>
          (signUp_profile sample_user 0)).
Proof.
  split; [reflexivity |].
  apply (settings_save_resets_others sample_users sample_user _ isPublicKey). reflexivity.
Defined.

Lemma register_grants_admin_witness :
  (fun _ => true) ("mallory" +:+ "@cotaxiage.com") = true /\ (6 <= String.length "secret1")%nat /\
  registerSubmit (fun _ => true) ("mallory" +:+ "@cotaxiage.com") "secret1" "secret1" (Ok tt) =
    mkEffects [ToastSuccess "Compte créé avec succès !"] (Some "/dashboard") /\
  adminGuard (snd (fst (onAuthStateChanged (Some sample_user) true 1
                          (setDoc ∅ "u1" (signUp_profile sample_user 0))))) = GuardChildren.
Proof.
  split; [reflexivity | split; [simpl; lia |]].
  apply (register_grants_admin (fun _ => true) "mallory" "secret1" sample_user ∅ _ 0 1);
    [reflexivity | simpl; lia | reflexivity | reflexivity].
Defined.
