(* ===== verification/Routing.v ===== *)
(** * Routes, guards and where the application navigates

    The route table of [App.tsx], the descendant routes of
    [pages/BookingPage.tsx] and [components/booking/BookingFlow.tsx], and
    the paths the components pass to [navigate] and [<Navigate>].  A
    target goes through [navigate]'s [parsePath] (the search and hash
    are cut off), the browser's URL parser (a backslash separates segments, dot
    segments are resolved, the path percent-encode set is escaped) and
    [matchRoutes]' [decodePath] (React Router 6.30: each segment decoded
    by [decodeURIComponent], the whole path left as it is when one does
    not decode).  Path matching follows [matchPath]: a path is [/]
    followed by segments separated by [/], trailing slashes are ignored,
    a static segment matches case-insensitively, a parameter matches one
    non-empty segment, an optional parameter [:x?] at most one, a route
    whose pattern does not end in [*] must consume the whole path, and a
    parameter's value has [%2F] turned back into [/]. *)

From Stdlib Require Import Ascii.
From S2P Require Import Prelude Auth.

(** ** Paths and patterns *)

(** [s.split(sep)], for the separator characters [sep] picks out. *)
Fixpoint split_when (sep : Ascii.ascii -> bool) (l : list Ascii.ascii) : list (list Ascii.ascii) :=
  match l with
  | [] => [[]]
  | c :: l' =>
      let r := split_when sep l' in
      if sep c then [] :: r
      else match r with
           | s :: rs => (c :: s) :: rs
           | [] => [[c]]
           end
  end.

Definition is_slash (c : Ascii.ascii) : bool := Ascii.eqb c "/"%char.

(** [pathname.split('/')]: the segments between slashes. *)
Definition split_slash (l : list Ascii.ascii) : list (list Ascii.ascii) := split_when is_slash l.

(** [segs.join('/')] *)
Fixpoint join_slash (segs : list (list Ascii.ascii)) : list Ascii.ascii :=
  match segs with
  | [] => []
  | [s] => s
  | s :: r => s ++ "/"%char :: join_slash r
  end.

(** Trailing empty segments, from trailing slashes, are dropped. *)
Fixpoint drop_empty (l : list string) : list string :=
  match l with
  | s :: l' => if String.eqb s "" then drop_empty l' else l
  | [] => []
  end.

Definition drop_trailing_empty (l : list string) : list string :=
  rev (drop_empty (rev l)).

(** The segments of an absolute path; [None] for a path that does not
    start with [/]. *)
Definition path_segments (p : string) : option (list string) :=
  match String.list_ascii_of_string p with
  | c :: rest =>
      if Ascii.eqb c "/"%char
      then Some (drop_trailing_empty (map String.string_of_list_ascii (split_slash rest)))
      else None
  | [] => None
  end.

(** ** From a [navigate] target to the path [matchRoutes] reads

    [navigate(to)] keeps the path of [parsePath(to)], [history.pushState]
    hands it to the browser's URL parser, and [matchRoutes] reads
    [location.pathname] through [decodePath] (React Router 6.30). *)

(** [parsePath(to).pathname]: the hash is cut first, then the search.
    (A target whose path is empty keeps the current location; every
    target of the components starts with [/].) *)
Definition parse_pathname (to : string) : string :=
  String.string_of_list_ascii
    (fst (break_at "?"%char (fst (break_at "#"%char (String.list_ascii_of_string to))))).

(** In the path of a special URL a segment ends at [/] or [\]. *)
Definition url_separator (c : Ascii.ascii) : bool := Ascii.eqb c "/"%char || Ascii.eqb c "\"%char.

(** The path percent-encode set of the URL standard: C0 controls, space,
    the double quote, [#], [<], [>], [?], [^], [`], [{], [}] and the bytes
    above [~]. *)
Definition path_encoded (c : Ascii.ascii) : bool :=
  let n := Ascii.N_of_ascii c in
  ((n <=? 32) || (126 <? n) || (n =? 34) || (n =? 35) || (n =? 60) || (n =? 62) || (n =? 63) ||
   (n =? 94) || (n =? 96) || (n =? 123) || (n =? 125))%N.

Definition path_encode (c : Ascii.ascii) : list Ascii.ascii :=
  if path_encoded c then Js.percent_encode c else [c].

(** ["."] or ["%2e"], and [".."], [".%2e"], ["%2e."] or ["%2e%2e"], in
    any case. *)
Definition single_dot (s : list Ascii.ascii) : bool :=
  let t := String.string_of_list_ascii (map Js.lower_ascii s) in
  String.eqb t "." || String.eqb t "%2e".

Definition double_dot (s : list Ascii.ascii) : bool :=
  let t := String.string_of_list_ascii (map Js.lower_ascii s) in
  String.eqb t ".." || String.eqb t ".%2e" || String.eqb t "%2e." || String.eqb t "%2e%2e".

(** The URL parser's path state, one segment at a time; [acc] is the
    path so far, last segment first.  A double-dot segment removes the
    last segment, a single-dot one is skipped, and either leaves an empty
    segment when it ends the path; the other segments are
    percent-encoded. *)
Fixpoint url_path_segs (acc : list (list Ascii.ascii)) (segs : list (list Ascii.ascii))
    : list (list Ascii.ascii) :=
  match segs with
  | [] => acc
  | s :: rest =>
      let closing := match rest with [] => [[]] | _ => [] end in
      if double_dot s then url_path_segs (closing ++ tail acc) rest
      else if single_dot s then url_path_segs (closing ++ acc) rest
      else url_path_segs (flat_map path_encode s :: acc) rest
  end.

(** [location.pathname] once the browser has parsed a path-absolute
    URL; a relative path is left as it is (no component navigates to
    one). *)
Definition url_pathname (p : string) : string :=
  match String.list_ascii_of_string p with
  | c :: rest =>
      if url_separator c then
        String.string_of_list_ascii
          ("/"%char :: join_slash (rev (url_path_segs [] (split_when url_separator rest))))
      else p
  | [] => p
  end.

(** [String.prototype.replace(/\//g, '%2F')] *)
Fixpoint escape_slash (l : list Ascii.ascii) : list Ascii.ascii :=
  match l with
  | [] => []
  | c :: l' => if is_slash c then Js.percent_sign :: "2"%char :: "F"%char :: escape_slash l'
               else c :: escape_slash l'
  end.

(** [String.prototype.replace(/%2F/g, '/')] *)
Fixpoint unescape_slash (l : list Ascii.ascii) : list Ascii.ascii :=
  match l with
  | [] => []
  | c :: l' =>
      match l' with
      | c1 :: c2 :: l'' =>
          if Ascii.eqb c Js.percent_sign && Ascii.eqb c1 "2"%char && Ascii.eqb c2 "F"%char
          then "/"%char :: unescape_slash l''
          else c :: unescape_slash l'
      | _ => c :: unescape_slash l'
      end
  end.

Definition decode_segment (s : list Ascii.ascii) : option (list Ascii.ascii) :=
  String.list_ascii_of_string <$> Js.decodeURIComponent (String.string_of_list_ascii s).

(** React Router's [decodePath]: every segment between [/] decoded by
    [decodeURIComponent], a decoded [/] written back as [%2F]; the path
    unchanged when a segment does not decode. *)
Definition decodePath (p : string) : string :=
  match mapM decode_segment (split_slash (String.list_ascii_of_string p)) with
  | Some segs => String.string_of_list_ascii (join_slash (map escape_slash segs))
  | None => p
  end.

(** The path [matchRoutes] matches after [navigate(to)], or at a
    location whose [pathname] is [to]. *)
Definition location_path (to : string) : string := decodePath (url_pathname (parse_pathname to)).

(** [matchPath]'s value of a parameter: [value.replace(/%2F/g, '/')]. *)
Definition param_value (x : string) : string :=
  String.string_of_list_ascii (unescape_slash (String.list_ascii_of_string x)).

Inductive Seg :=
  | Static (s : string)
  | Param (name : string)
  | OptParam (name : string)
  | Splat.

Abbreviation Params := (list (string * string)).

(** Matching a pattern against segments: the parameters bound and the
    segments a final [*] leaves to descendant routes. *)
Fixpoint match_segs (pat : list Seg) (segs : list string) : option (Params * list string) :=
  match pat with
  | [] => match segs with [] => Some ([], []) | _ => None end
  | Splat :: _ => Some ([], segs)
  | Static s :: pat' =>
      match segs with
      | x :: segs' =>
          if String.eqb (Js.toLowerCase x) (Js.toLowerCase s) then match_segs pat' segs' else None
      | [] => None
      end
  | Param n :: pat' =>
      match segs with
      | x :: segs' =>
          if String.eqb x "" then None
          else (fun r => ((n, param_value x) :: fst r, snd r)) <$> match_segs pat' segs'
      | [] => None
      end
  | OptParam n :: pat' =>
      match (match segs with
             | x :: segs' =>
                 if String.eqb x "" then None
                 else (fun r => ((n, param_value x) :: fst r, snd r)) <$> match_segs pat' segs'
             | [] => None
             end) with
      | Some r => Some r
      | None => match_segs pat' segs
      end
  end.

Definition matchPath (pat : list Seg) (p : string) : option (Params * list string) :=
  path_segments p ≫= match_segs pat.

(** ** The application's routes *)

Inductive Page :=
  | HomePage | LoginPage | RegisterPage | BookingPage | TripsPage
  | ProfilePage | CreateTripPage | TripDetailsPage | AdminPage.

Inductive Guard := Unguarded | AuthGuarded | AdminGuarded.

Record Route := mkRoute {
  route_path : list Seg;
  route_guard : Guard;
  route_page : Page
}.

(** [App]'s [<Routes>]. *)
Definition app_routes : list Route :=
  [mkRoute [] Unguarded HomePage;
   mkRoute [Static "login"] Unguarded LoginPage;
   mkRoute [Static "register"] Unguarded RegisterPage;
   mkRoute [Static "booking"] Unguarded BookingPage;
   mkRoute [Static "trips"] Unguarded TripsPage;
   mkRoute [Static "profile"; OptParam "userId"] AuthGuarded ProfilePage;
   mkRoute [Static "create-trip"] AuthGuarded CreateTripPage;
   mkRoute [Static "trip"; Param "tripId"] AuthGuarded TripDetailsPage;
   mkRoute [Static "admin"] AdminGuarded AdminPage].

(** The first route that matches the segments, with its parameters and
    the segments left to its descendant routes. *)
Fixpoint first_match (rs : list Route) (segs : list string) : option (Route * Params * list string) :=
  match rs with
  | [] => None
  | r :: rs' =>
      match match_segs (route_path r) segs with
      | Some (ps, rest) => Some (r, ps, rest)
      | None => first_match rs' segs
      end
  end.

Definition app_match (p : string) : option (Route * Params * list string) :=
  path_segments (location_path p) ≫= first_match app_routes.

(** ** Descendant routes *)

(** [BookingPage]'s [<Routes>], matched against what [App]'s route left. *)
Inductive BookingPageView := BPSearchStep | BPTrips | BPRedirect (to : string) | BPNothing.

Definition bookingPage_view (pickupSet dropoffSet dateSet : bool) (rest : list string)
    : BookingPageView :=
  match rest with
  | [] => BPSearchStep
  | [x] => if String.eqb (Js.toLowerCase x) "trips" then
             (if pickupSet && dropoffSet && dateSet then BPTrips else BPRedirect "/booking")
           else BPNothing
  | _ => BPNothing
  end.

(** [BookingFlow]'s [<Routes>] (the component is mounted by no route). *)
Inductive BookingFlowView := BFSearchStep | BFBookingStep | BFConfirmation | BFRedirect (to : string) | BFNothing.

Definition bookingFlow_view (pickupSet dropoffSet dateSet : bool) (rest : list string)
    : BookingFlowView :=
  let ready := pickupSet && dropoffSet && dateSet in
  match rest with
  | [] => BFSearchStep
  | [x] => if String.eqb (Js.toLowerCase x) "book" then
             (if ready then BFBookingStep else BFRedirect "/booking")
           else if String.eqb (Js.toLowerCase x) "confirmation" then
             (if ready then BFConfirmation else BFRedirect "/booking")
           else BFNothing
  | _ => BFNothing
  end.

(** ** What a path renders *)

Inductive Rendered :=
  | RNothing
  | RSpinner
  | RRedirect (to : string)
  | RPage (p : Page) (ps : Params) (rest : list string).

Definition guard_render (g : GuardView) (page : Rendered) : Rendered :=
  match g with
  | GuardSpinner => RSpinner
  | GuardRedirect to => RRedirect to
  | GuardChildren => page
  end.

(** The file [components/AuthGuard.tsx] that [App] imports is not in the
    sources; its decision is a parameter of [render]. *)
Definition render (authGuard : AuthState -> GuardView) (s : AuthState) (p : string) : Rendered :=
  match app_match p with
  | None => RNothing
  | Some (r, ps, rest) =>
      let page := RPage (route_page r) ps rest in
      match route_guard r with
      | Unguarded => page
      | AuthGuarded => guard_render (authGuard s) page
      | AdminGuarded => guard_render (adminGuard s) page
      end
  end.

(** ** Where the components navigate *)

Definition trip_path (tripId : string) : string := "/trip/" +:+ tripId.
Definition profile_path (userId : string) : string := "/profile/" +:+ userId.

(** The targets of [navigate], [<Navigate>] and [<Link>] that lead to a
    route of [App]. *)
Definition live_targets (tripId userId : string) : list string :=
  ["/"; "/login"; "/register"; "/admin"; "/trips"; "/booking"; "/create-trip";
   trip_path tripId; profile_path userId].

(** The targets that lead to no route: [RegisterForm]'s ["/dashboard"],
    [BookingForm]'s ["/booking/confirm"], [SelectionStep]'s and
    [SearchStep]'s ["/booking/payment"], [BookingStep]'s
    [`/booking/payment/${id}`] and [PaymentStep]'s
    ["/booking/confirmation"]. *)
Definition dead_targets (bookingId : string) : list string :=
  ["/dashboard"; "/booking/confirm"; "/booking/payment";
   "/booking/payment/" +:+ bookingId; "/booking/confirmation"].

(** ** [Navbar] *)

Record NavLink := mkNavLink {
  nl_to : string;
  nl_label : string;
  nl_active : bool
}.

(** The links of the bar and whether each is highlighted for the
    current [location.pathname]. *)
Definition navbar_links (u : option User) (pathname : string) : list NavLink :=
  match u with
  | Some usr =>
      [mkNavLink "/create-trip" "Créer un trajet" (String.eqb pathname "/create-trip");
       mkNavLink "/booking" "Réserver" (Js.startsWith pathname "/booking");
       mkNavLink (profile_path (uid usr)) "Profil" (Js.startsWith pathname "/profile")]
  | None =>
      [mkNavLink "/login" "Connexion" (String.eqb pathname "/login");
       mkNavLink "/register" "S'inscrire" false]
  end.

(** [handleLogout]: on success the observer clears the session, a toast
    confirms and the app goes home; on failure only a toast. *)
Definition handleLogout (signOutAnswer : option string) (s : AuthState) : AuthState * Effects :=
  match logout signOutAnswer with
  | Ok _ =>
      let '(_, s', _) := onAuthStateChanged None true 0 ∅ in
      (s', mkEffects [ToastSuccess "Déconnexion réussie"] (Some "/"))
  | Err _ => (s, toast_error "Échec de la déconnexion")
  end.

(** ** Building a path from segments *)

(** A non-empty segment without [/]: what a route parameter matches. *)
Definition plain_segment (s : string) : bool :=
  negb (String.eqb s "") && forallb (fun c => negb (is_slash c)) (String.list_ascii_of_string s).

(** An id that reaches a route as one segment when a component puts it
    in a path: non-empty, without [/], [\], [?] or [#], and not a dot
    segment, which the URL parser would resolve away. *)
Definition plain_char (c : Ascii.ascii) : bool :=
  negb (url_separator c || Ascii.eqb c "?"%char || Ascii.eqb c "#"%char).

Definition segment_ok (s : string) : bool :=
  let l := String.list_ascii_of_string s in
  negb (String.eqb s "") && forallb plain_char l && negb (single_dot l) && negb (double_dot l).

(** A static segment of the components' paths: a segment the URL
    parser and [decodePath] both leave as it is. *)
Definition static_ok (s : string) : bool :=
  segment_ok s &&
  String.eqb (String.string_of_list_ascii (flat_map path_encode (String.list_ascii_of_string s))) s &&
  bool_decide (Js.decodeURIComponent s = Some s).

(** An id without [%], in which [decodeURIComponent] has nothing to do. *)
Definition no_percent (s : string) : bool :=
  forallb (fun c => negb (Ascii.eqb c Js.percent_sign)) (String.list_ascii_of_string s).

(** [`/${a}/${b}`...]: the path of a list of segments. *)
Fixpoint build_path (segs : list string) : string :=
  match segs with
  | [] => ""
  | s :: r => "/" +:+ s +:+ build_path r
  end.

Definition path_of (segs : list string) : string :=
  match segs with [] => "/" | _ => build_path segs end.

(** ** Lemmas on splitting *)

Definition no_slash (a : list Ascii.ascii) : Prop := Forall (fun c => is_slash c = false) a.

Lemma split_when_last (sep : Ascii.ascii -> bool) (a : list Ascii.ascii) :
  Forall (fun c => sep c = false) a -> split_when sep a = [a].
Proof. induction 1 as [| c a Hc _ IH]; [done |]. simpl. by rewrite Hc, IH. Qed.

Lemma split_when_seg (sep : Ascii.ascii -> bool) (a l : list Ascii.ascii) (x : Ascii.ascii) :
  Forall (fun c => sep c = false) a -> sep x = true ->
  split_when sep (a ++ x :: l) = a :: split_when sep l.
Proof. intros Ha Hx. induction Ha as [| c a Hc _ IH]; simpl; [by rewrite Hx | by rewrite Hc, IH]. Qed.

Lemma split_slash_seg (a l : list Ascii.ascii) :
  no_slash a -> split_slash (a ++ "/"%char :: l) = a :: split_slash l.
Proof. intros Ha. by apply split_when_seg. Qed.

Lemma plain_segment_no_slash (s : string) :
  plain_segment s = true -> s <> "" /\ no_slash (String.list_ascii_of_string s).
Proof.
  unfold plain_segment. rewrite andb_true_iff, negb_true_iff, forallb_forall.
  intros [Hne Hs]. split; [by apply String.eqb_neq |].
  apply List.Forall_forall. intros c Hc. apply negb_true_iff, Hs, Hc.
Qed.

Lemma split_build (a : list Ascii.ascii) (segs : list string) :
  no_slash a -> Forall (fun s => plain_segment s = true) segs ->
  split_slash (a ++ String.list_ascii_of_string (build_path segs)) =
  a :: map String.list_ascii_of_string segs.
Proof.
  intros Ha Hs. revert a Ha. induction Hs as [| s segs Hs _ IH]; intros a Ha.
  - rewrite app_nil_r. by apply split_when_last.
  - simpl. rewrite !list_ascii_of_string_app. simpl.
    rewrite split_slash_seg by done. f_equal. apply IH, plain_segment_no_slash, Hs.
Qed.

Lemma drop_trailing_empty_id (l : list string) :
  Forall (fun s => plain_segment s = true) l -> drop_trailing_empty l = l.
Proof.
  intros Hl. unfold drop_trailing_empty. destruct (rev l) as [| x r] eqn:E.
  - simpl. apply (f_equal (@rev string)) in E. by rewrite rev_involutive in E.
  - assert (Hx : plain_segment x = true).
    { eapply (proj1 (List.Forall_forall _ _) Hl). apply in_rev. rewrite E. by left. }
    apply plain_segment_no_slash in Hx as [Hx _]. simpl.
    apply String.eqb_neq in Hx. rewrite Hx, <- E. apply rev_involutive.
Qed.

(** ** Lemmas on the navigation pipeline *)

Lemma split_when_join (sep : Ascii.ascii -> bool) (segs : list (list Ascii.ascii)) :
  sep "/"%char = true -> segs <> [] -> Forall (Forall (fun c => sep c = false)) segs ->
  split_when sep (join_slash segs) = segs.
Proof.
  intros Hs Hne Hf. induction Hf as [| a segs Ha Hf IH]; [done |].
  destruct segs as [| b segs]; [by apply split_when_last |].
  change (split_when sep (a ++ "/"%char :: join_slash (b :: segs)) = a :: b :: segs).
  rewrite split_when_seg by done. f_equal. by apply IH.
Qed.

Lemma Forall_join_slash (P : Ascii.ascii -> Prop) (segs : list (list Ascii.ascii)) :
  P "/"%char -> Forall (Forall P) segs -> Forall P (join_slash segs).
Proof.
  intros Hs Hf. induction Hf as [| a segs Ha Hf IH]; [constructor |].
  destruct segs as [| b segs]; [done |]. cbn [join_slash]. apply Forall_app. by split; [| constructor].
Qed.

Lemma build_path_join (segs : list string) :
  segs <> [] -> String.list_ascii_of_string (build_path segs) =
                "/"%char :: join_slash (map String.list_ascii_of_string segs).
Proof.
  induction segs as [| s segs IH]; intros Hne; [done |].
  cbn [build_path]. rewrite !list_ascii_of_string_app.
  destruct segs as [| t segs]; [by rewrite app_nil_r |]. rewrite IH by done. reflexivity.
Qed.

Definition pathname_char (c : Ascii.ascii) : bool := negb (Ascii.eqb c "?"%char || Ascii.eqb c "#"%char).

Lemma parse_pathname_free (s : string) :
  Forall (fun c => pathname_char c = true) (String.list_ascii_of_string s) -> parse_pathname s = s.
Proof.
  intros Hf. unfold parse_pathname.
  assert (Hn : forall x, x = "?"%char \/ x = "#"%char -> ~ In x (String.list_ascii_of_string s)).
  { intros x Hx Hin. apply (proj1 (List.Forall_forall _ _) Hf) in Hin.
    destruct Hx as [-> | ->]; discriminate. }
  rewrite (break_at_free "#"%char), (break_at_free "?"%char) by (apply Hn; auto).
  apply String.string_of_list_ascii_of_string.
Qed.

Lemma url_path_segs_plain (acc segs : list (list Ascii.ascii)) :
  Forall (fun s => single_dot s = false /\ double_dot s = false) segs ->
  url_path_segs acc segs = rev (map (flat_map path_encode) segs) ++ acc.
Proof.
  intros Hf. revert acc. induction Hf as [| s segs [H1 H2] _ IH]; intros acc; [done |].
  cbn. rewrite H1, H2, IH, <- app_assoc. reflexivity.
Qed.

(** Per byte: an encoded byte decodes back, and has no [/]. *)
Lemma path_encode_decode (c : Ascii.ascii) (rest : list Ascii.ascii) :
  c <> Js.percent_sign -> Js.percent_decode (path_encode c ++ rest) = cons c <$> Js.percent_decode rest.
Proof. intros Hc. destruct c as [[] [] [] [] [] [] [] []]; first [reflexivity | by contradict Hc]. Qed.

Lemma path_encode_no_slash (c : Ascii.ascii) :
  is_slash c = false -> forallb (fun x => negb (is_slash x)) (path_encode c) = true.
Proof. destruct c as [[] [] [] [] [] [] [] []]; first [reflexivity | discriminate]. Qed.

Lemma no_slash_forallb (l : list Ascii.ascii) : forallb (fun x => negb (is_slash x)) l = true -> no_slash l.
Proof.
  rewrite forallb_forall. intros H. apply List.Forall_forall. intros x Hx. apply negb_true_iff, H, Hx.
Qed.

Lemma flat_map_path_encode_no_slash (l : list Ascii.ascii) : no_slash l -> no_slash (flat_map path_encode l).
Proof.
  induction 1 as [| c l Hc _ IH]; [constructor |]. cbn [flat_map]. apply Forall_app.
  split; [apply no_slash_forallb, path_encode_no_slash, Hc | exact IH].
Qed.

Lemma percent_decode_path_encode (l : list Ascii.ascii) :
  Forall (fun c => c <> Js.percent_sign) l -> Js.percent_decode (flat_map path_encode l) = Some l.
Proof.
  induction 1 as [| c l Hc _ IH]; [done |]. cbn [flat_map]. by rewrite path_encode_decode, IH.
Qed.

Lemma percent_decode_nonempty (l r : list Ascii.ascii) :
  Js.percent_decode l = Some r -> l <> [] -> r <> [].
Proof.
  destruct l as [| c l]; [done |]. cbn. intros H _.
  destruct (Ascii.eqb c Js.percent_sign);
    [destruct l as [| h1 [| h2 l]]; [done | done |]; destruct (Js.hex_value h1), (Js.hex_value h2) |];
    try discriminate; destruct (Js.percent_decode _); by simplify_eq/=.
Qed.

Lemma no_percent_Forall (s : string) :
  no_percent s = true -> Forall (fun c => c <> Js.percent_sign) (String.list_ascii_of_string s).
Proof.
  unfold no_percent. rewrite forallb_forall. intros H. apply List.Forall_forall.
  intros c Hc. apply H, negb_true_iff, Ascii.eqb_neq in Hc. exact Hc.
Qed.

Lemma escape_slash_id (l : list Ascii.ascii) : no_slash l -> escape_slash l = l.
Proof. induction 1 as [| c l Hc _ IH]; [done |]. cbn. by rewrite Hc, IH. Qed.

Lemma escape_slash_no_slash (l : list Ascii.ascii) : no_slash (escape_slash l).
Proof.
  induction l as [| c l IH]; [constructor |]. cbn.
  destruct (is_slash c) eqn:E; repeat constructor; done.
Qed.

Lemma unescape_slash_id (l : list Ascii.ascii) :
  Forall (fun c => c <> Js.percent_sign) l -> unescape_slash l = l.
Proof.
  induction 1 as [| c l Hc _ IH]; [done |].
  destruct l as [| c1 [| c2 l]]; [done | done |].
  change (unescape_slash (c :: c1 :: c2 :: l)) with
    (if Ascii.eqb c Js.percent_sign && Ascii.eqb c1 "2"%char && Ascii.eqb c2 "F"%char
     then "/"%char :: unescape_slash l else c :: unescape_slash (c1 :: c2 :: l)).
  rewrite (proj2 (Ascii.eqb_neq c Js.percent_sign) Hc). cbn [andb]. by rewrite IH.
Qed.

Lemma plain_char_no_slash (c : Ascii.ascii) : plain_char c = true -> is_slash c = false /\ url_separator c = false.
Proof.
  unfold plain_char, url_separator, is_slash. intros H.
  apply negb_true_iff, orb_false_iff in H as [H _]. apply orb_false_iff in H as [H _].
  apply orb_false_iff in H as [H1 H2]. by split; [| rewrite H1, H2].
Qed.

Lemma plain_char_pathname (c : Ascii.ascii) : plain_char c = true -> pathname_char c = true.
Proof.
  unfold plain_char, pathname_char. intros H.
  apply negb_true_iff, orb_false_iff in H as [H H2]. apply orb_false_iff in H as [_ H1].
  by rewrite H1, H2.
Qed.

Lemma segment_ok_spec (s : string) :
  segment_ok s = true ->
  s <> "" /\ Forall (fun c => plain_char c = true) (String.list_ascii_of_string s) /\
  single_dot (String.list_ascii_of_string s) = false /\ double_dot (String.list_ascii_of_string s) = false.
Proof.
  unfold segment_ok. rewrite !andb_true_iff, !negb_true_iff, forallb_forall.
  intros [[[Hne Hc] H1] H2]. split; [by apply String.eqb_neq |]. split; [| done].
  by apply List.Forall_forall.
Qed.

Lemma segment_ok_plain (s : string) :
  segment_ok s = true -> plain_segment s = true /\ no_slash (String.list_ascii_of_string s).
Proof.
  intros H. destruct (segment_ok_spec s H) as (Hne & Hc & _).
  assert (Hns : no_slash (String.list_ascii_of_string s)).
  { eapply Forall_impl; [exact Hc |]. intros c Hpc. apply (plain_char_no_slash c Hpc). }
  split; [| done]. unfold plain_segment. apply andb_true_iff. split; [by apply negb_true_iff, String.eqb_neq |].
  apply forallb_forall. intros c Hin. apply negb_true_iff. exact (proj1 (List.Forall_forall _ _) Hns c Hin).
Qed.

(** No route of [App] has a [*]: what a match leaves is always empty. *)
Lemma match_segs_no_splat (pat : list Seg) (segs : list string) (ps : Params) (rest : list string) :
  ~ In Splat pat -> match_segs pat segs = Some (ps, rest) -> rest = [].
Proof.
  revert segs ps. induction pat as [| [s | n | n |] pat IH]; intros segs ps Hns Hm; simpl in Hm.
  - destruct segs; congruence.
  - destruct segs as [| x segs]; [done |]. destruct (String.eqb _ _); [| done].
    eapply IH; [| exact Hm]. intros H. apply Hns. by right.
  - destruct segs as [| x segs]; [done |]. destruct (String.eqb x ""); [done |].
    destruct (match_segs pat segs) as [[]|] eqn:E; simplify_eq/=.
    eapply IH; [| exact E]. intros H. apply Hns. by right.
  - assert (Hns' : ~ In Splat pat) by (intros H; apply Hns; by right).
    destruct segs as [| x segs]; [by eapply IH |].
    destruct (String.eqb x ""); [by eapply IH |].
    destruct (match_segs pat segs) as [[]|] eqn:E; simplify_eq/=; [by eapply IH | by eapply IH].
  - exfalso. apply Hns. by left.
Qed.

Lemma NoDup_map_inj_in {A B} (f : A -> B) (l : list A) (x y : A) :
  NoDup (map f l) -> In x l -> In y l -> f x = f y -> x = y.
Proof.
  induction l as [| a l IH]; intros Hnd Hx Hy Hf; [done |].
  simpl in Hnd. apply NoDup_cons in Hnd as [Hn Hnd].
  destruct Hx as [<- | Hx], Hy as [<- | Hy]; [done | | | by apply IH].
  - exfalso. apply Hn, list_elem_of_In, in_map_iff. eauto.
  - exfalso. apply Hn, list_elem_of_In, in_map_iff. eauto.
Qed.

(** The first segment a route needs, lowered; [None] for the root. *)
Definition route_key (r : Route) : option string :=
  match route_path r with
  | Static s :: _ => Some (Js.toLowerCase s)
  | _ => None
  end.

(** Every route of [App] is the root or starts with a static segment. *)
Definition keyed_route (r : Route) : bool :=
  match route_path r with [] | Static _ :: _ => true | _ => false end.

Lemma match_segs_key (r : Route) (segs : list string) (m : Params * list string) :
  keyed_route r = true -> match_segs (route_path r) segs = Some m ->
  Js.toLowerCase <$> head segs = route_key r.
Proof.
  unfold keyed_route, route_key. destruct (route_path r) as [| [s | | |] pat]; try done.
  - intros _ H. destruct segs; [done | discriminate].
  - simpl. destruct segs as [| x segs]; [done |]. intros _.
    destruct (String.eqb_spec (Js.toLowerCase x) (Js.toLowerCase s)); [| done].
    intros _. simpl. congruence.
Qed.

Lemma app_routes_keyed : Forall (fun r => keyed_route r = true) app_routes.
Proof. repeat constructor. Qed.

Lemma app_route_keys_NoDup : NoDup (map route_key app_routes).
Proof.
  vm_compute. repeat (apply NoDup_cons_2; [rewrite list_elem_of_In; simpl; intuition discriminate |]).
  apply NoDup_nil_2.
Qed.

Lemma app_routes_no_splat : Forall (fun r => ~ In Splat (route_path r)) app_routes.
Proof. repeat constructor; simpl; intuition discriminate. Qed.

Lemma first_match_In (rs : list Route) (segs : list string) (r : Route) (ps : Params)
    (rest : list string) :
  first_match rs segs = Some (r, ps, rest) -> In r rs /\ match_segs (route_path r) segs = Some (ps, rest).
Proof.
  induction rs as [| r' rs IH]; simpl; [done |].
  destruct (match_segs (route_path r') segs) as [[ps' rest'] |] eqn:E.
  - intros [= <- <- <-]. by split; [left |].
  - intros H. destruct (IH H). by split; [right |].
Qed.

(** ** Theorems *)

(** Splitting a built path gives its segments back: the path
    [`/${s1}/${s2}...`] a component builds from non-empty segments
    without [/] splits, as React Router splits the location, into exactly
    those segments. *)
Theorem path_segments_roundtrip (segs : list string) :
  Forall (fun s => plain_segment s = true) segs -> path_segments (path_of segs) = Some segs.
Proof.
  intros Hs. destruct segs as [| s r]; [reflexivity |].
  inversion Hs as [| ? ? Hs1 Hr]; subst.
  unfold path_of, path_segments. simpl build_path.
  rewrite list_ascii_of_string_app. simpl. f_equal.
  rewrite list_ascii_of_string_app, split_build by (done || apply plain_segment_no_slash, Hs1).
  rewrite <- (map_cons String.list_ascii_of_string s r), map_map.
  rewrite (map_ext _ id) by apply String.string_of_list_ascii_of_string.
  rewrite map_id. by apply drop_trailing_empty_id.
Qed.

(** (C25: the route table is unambiguous) At most one route of [App]
    matches any location, so the page shown does not depend on React
    Router's ranking of routes and [app_match] is the route it renders. *)
Theorem app_routes_unambiguous (p : string) (r1 r2 : Route) (m1 m2 : Params * list string) :
  In r1 app_routes -> In r2 app_routes ->
  matchPath (route_path r1) p = Some m1 -> matchPath (route_path r2) p = Some m2 -> r1 = r2.
Proof.
  intros H1 H2 M1 M2. unfold matchPath in *.
  destruct (path_segments p) as [segs |]; [simpl in * | done].
  apply (NoDup_map_inj_in route_key app_routes); [apply app_route_keys_NoDup | done | done |].
  rewrite <- (match_segs_key r1 segs m1), <- (match_segs_key r2 segs m2); try done;
    eapply (proj1 (List.Forall_forall _ _) app_routes_keyed); done.
Qed.

Lemma string_app_nil_r (s : string) : s +:+ "" = s.
Proof.
  induction s as [| c s IH]; [done |].
  change (String c (s +:+ "") = String c s). by rewrite IH.
Qed.

Lemma drop_empty_snoc (l : list string) (x : string) :
  x <> "" -> drop_empty (l ++ [x]) = drop_empty l ++ [x].
Proof.
  intros Hx. induction l as [| y l IH]; simpl.
  - by rewrite (proj2 (String.eqb_neq x "") Hx).
  - by destruct (String.eqb y "").
Qed.

Lemma drop_trailing_empty_cons (x : string) (l : list string) :
  x <> "" -> drop_trailing_empty (x :: l) = x :: drop_trailing_empty l.
Proof.
  intros Hx. unfold drop_trailing_empty. simpl. rewrite drop_empty_snoc by done.
  by rewrite rev_app_distr.
Qed.

Lemma trip_path_of (id : string) : trip_path id = path_of ["trip"; id].
Proof. unfold trip_path. simpl. by rewrite string_app_nil_r. Qed.

Lemma profile_path_of (id : string) : profile_path id = path_of ["profile"; id].
Proof. unfold profile_path. simpl. by rewrite string_app_nil_r. Qed.

Lemma static_ok_spec (s : string) :
  static_ok s = true ->
  segment_ok s = true /\ flat_map path_encode (String.list_ascii_of_string s) = String.list_ascii_of_string s /\
  decode_segment (String.list_ascii_of_string s) = Some (String.list_ascii_of_string s).
Proof.
  unfold static_ok. rewrite !andb_true_iff, String.eqb_eq, bool_decide_eq_true.
  intros [[Hs He] Hd]. split; [done | split].
  - apply (f_equal String.list_ascii_of_string) in He. by rewrite String.list_ascii_of_string_of_list_ascii in He.
  - unfold decode_segment. by rewrite String.string_of_list_ascii_of_string, Hd.
Qed.

Lemma join_slash_cons (s : list Ascii.ascii) (r : list (list Ascii.ascii)) :
  r <> [] -> join_slash (s :: r) = s ++ "/"%char :: join_slash r.
Proof. by destruct r. Qed.

Lemma mapM_statics (f : list Ascii.ascii -> option (list Ascii.ascii)) (pre : list (list Ascii.ascii))
    (e : list Ascii.ascii) :
  Forall (fun x => f x = Some x) pre -> mapM f (pre ++ [e]) = (fun d => pre ++ [d]) <$> f e.
Proof.
  induction 1 as [| x pre Hx _ IH]; cbn; [by destruct (f e) |].
  rewrite Hx. cbn. rewrite IH. by destruct (f e).
Qed.

Lemma param_value_nonempty (x : string) : x <> "" -> param_value x <> "".
Proof.
  unfold param_value. intros Hx E. apply Hx.
  destruct (String.list_ascii_of_string x) as [| c l] eqn:El.
  - apply (f_equal String.string_of_list_ascii) in El. by rewrite String.string_of_list_ascii_of_string in El.
  - exfalso. revert E. cbn. destruct l as [| c1 [| c2 l]]; [done | done |].
    by destruct (_ && _).
Qed.

Lemma decode_segment_path_encode (l : list Ascii.ascii) :
  Forall (fun c => c <> Js.percent_sign) l -> Js.utf8_valid l = true ->
  decode_segment (flat_map path_encode l) = Some l.
Proof.
  intros Hp Hu. unfold decode_segment, Js.decodeURIComponent.
  rewrite String.list_ascii_of_string_of_list_ascii, percent_decode_path_encode by done.
  cbn. rewrite Hu. cbn. by rewrite String.list_ascii_of_string_of_list_ascii.
Qed.

Lemma decode_segment_nonempty (e d : list Ascii.ascii) : decode_segment e = Some d -> e <> [] -> d <> [].
Proof.
  unfold decode_segment, Js.decodeURIComponent. rewrite String.list_ascii_of_string_of_list_ascii.
  destruct (Js.percent_decode e) as [b |] eqn:Eb; cbn; [| done]. destruct (Js.utf8_valid b); [| done].
  intros [= <-] He. rewrite String.list_ascii_of_string_of_list_ascii. by apply (percent_decode_nonempty e).
Qed.

Lemma escape_slash_nonempty (l : list Ascii.ascii) : l <> [] -> escape_slash l <> [].
Proof. destruct l as [| c l]; [done |]. cbn. by destruct (is_slash c). Qed.

Lemma flat_map_path_encode_nonempty (l : list Ascii.ascii) : l <> [] -> flat_map path_encode l <> [].
Proof.
  destruct l as [| c l]; [done |]. intros _. cbn [flat_map]. unfold path_encode.
  by destruct (path_encoded c).
Qed.

Lemma plain_segment_of (l : list Ascii.ascii) :
  l <> [] -> no_slash l -> plain_segment (String.string_of_list_ascii l) = true.
Proof.
  intros Hne Hns. unfold plain_segment. rewrite String.list_ascii_of_string_of_list_ascii.
  apply andb_true_iff. split.
  - apply negb_true_iff, String.eqb_neq. intros E.
    apply (f_equal String.list_ascii_of_string) in E. by rewrite String.list_ascii_of_string_of_list_ascii in E.
  - apply forallb_forall. intros c Hin. apply negb_true_iff. exact (proj1 (List.Forall_forall _ _) Hns c Hin).
Qed.

Lemma path_of_build (segs : list string) : segs <> [] -> path_of segs = build_path segs.
Proof. by destruct segs. Qed.

(** The browser keeps the segments of a built path, encoding them. *)
Lemma url_pathname_segments (segs : list string) :
  segs <> [] -> Forall (fun s => segment_ok s = true) segs ->
  url_pathname (build_path segs) =
  String.string_of_list_ascii ("/"%char :: join_slash (map (fun s => flat_map path_encode (String.list_ascii_of_string s)) segs)).
Proof.
  intros Hne Hf. unfold url_pathname. rewrite build_path_join by done. cbn [url_separator].
  assert (Hs : Forall (fun s => Forall (fun c => plain_char c = true) s /\ single_dot s = false /\ double_dot s = false)
                 (map String.list_ascii_of_string segs)).
  { apply Forall_map. eapply Forall_impl; [exact Hf |]. intros s Hs. apply segment_ok_spec, Hs. }
  rewrite split_when_join; [| done | by destruct segs |].
  - rewrite url_path_segs_plain, app_nil_r, rev_involutive, map_map; [done |].
    eapply Forall_impl; [exact Hs |]. intros s (_ & H1 & H2). done.
  - eapply Forall_impl; [exact Hs |]. intros s [Hc _]. eapply Forall_impl; [exact Hc |].
    intros c Hpc. apply (plain_char_no_slash c Hpc).
Qed.

(** [decodePath] keeps the static segments and decodes the last one,
    or leaves the whole path as it is. *)
Lemma decodePath_segments (pre : list string) (e : list Ascii.ascii) :
  Forall (fun s => static_ok s = true) pre -> no_slash e ->
  decodePath (String.string_of_list_ascii ("/"%char :: join_slash (map String.list_ascii_of_string pre ++ [e]))) =
  String.string_of_list_ascii ("/"%char :: join_slash (map String.list_ascii_of_string pre ++
    [match decode_segment e with Some d => escape_slash d | None => e end])).
Proof.
  intros Hpre He. unfold decodePath. rewrite String.list_ascii_of_string_of_list_ascii.
  assert (Hst : Forall (fun s => decode_segment s = Some s /\ no_slash s) (map String.list_ascii_of_string pre)).
  { apply Forall_map. eapply Forall_impl; [exact Hpre |]. intros s Hs.
    destruct (static_ok_spec s Hs) as (Hok & _ & Hd). split; [done | apply segment_ok_plain, Hok]. }
  unfold split_slash. cbn [split_when is_slash Ascii.eqb Bool.eqb].
  rewrite split_when_join; [| done | by destruct pre |].
  2: { apply Forall_app. split; [| by constructor]. eapply Forall_impl; [exact Hst |]. intros s [_ Hs]. exact Hs. }
  cbn [mapM]. change (decode_segment []) with (Some (@nil Ascii.ascii)). cbn.
  rewrite mapM_statics by (eapply Forall_impl; [exact Hst | intros s [Hs _]; exact Hs]).
  destruct (decode_segment e) as [d |]; cbn; [| done].
  rewrite map_app, (map_ext_Forall escape_slash id), map_id.
  - cbn [map]. by destruct (map String.list_ascii_of_string pre).
  - eapply Forall_impl; [exact Hst |]. intros s [_ Hs]. by apply escape_slash_id.
Qed.

(** A path a component builds from static segments and an id reaches
    [matchRoutes] as those segments and a plain last one, which is the
    id itself when the id has no escape to decode. *)
Lemma location_path_segments (pre : list string) (id : string) :
  Forall (fun s => static_ok s = true) pre -> segment_ok id = true ->
  exists x, plain_segment x = true /\
    path_segments (location_path (build_path (pre ++ [id]))) = Some (pre ++ [x]) /\
    (no_percent id = true -> Js.utf8_valid (String.list_ascii_of_string id) = true -> x = id).
Proof.
  intros Hpre Hid. destruct (segment_ok_spec id Hid) as (Hne & Hpc & _).
  destruct (segment_ok_plain id Hid) as [_ Hns].
  assert (Hseg : Forall (fun s => segment_ok s = true) (pre ++ [id])).
  { apply Forall_app. split; [| by constructor].
    eapply Forall_impl; [exact Hpre |]. intros s Hs. apply static_ok_spec, Hs. }
  assert (Hnil : pre ++ [id] <> []) by (by destruct pre).
  unfold location_path. rewrite parse_pathname_free.
  2: { rewrite build_path_join by done. constructor; [reflexivity |]. apply Forall_join_slash; [reflexivity |].
       apply Forall_map. eapply Forall_impl; [exact Hseg |]. intros s Hs.
       eapply Forall_impl; [apply segment_ok_spec, Hs |]. apply plain_char_pathname. }
  rewrite url_pathname_segments, map_app by done. cbn [map].
  rewrite (map_ext_Forall _ String.list_ascii_of_string);
    [| eapply Forall_impl; [exact Hpre | intros s Hs; apply static_ok_spec, Hs]].
  rewrite decodePath_segments by (done || by apply flat_map_path_encode_no_slash).
  set (e := flat_map path_encode (String.list_ascii_of_string id)).
  set (l := match decode_segment e with Some d => escape_slash d | None => e end).
  assert (Hl : l <> [] /\ no_slash l).
  { assert (He : e <> []).
    { apply flat_map_path_encode_nonempty. intros E. apply Hne.
      apply (f_equal String.string_of_list_ascii) in E. by rewrite String.string_of_list_ascii_of_string in E. }
    unfold l. destruct (decode_segment e) as [d |] eqn:Ed.
    - split; [apply escape_slash_nonempty, (decode_segment_nonempty e); done | apply escape_slash_no_slash].
    - split; [done | by apply flat_map_path_encode_no_slash]. }
  exists (String.string_of_list_ascii l). split; [| split].
  - apply plain_segment_of; apply Hl.
  - assert (Hb : build_path (pre ++ [String.string_of_list_ascii l]) =
                  String.string_of_list_ascii ("/"%char :: join_slash (map String.list_ascii_of_string pre ++ [l]))).
    { rewrite <- (String.string_of_list_ascii_of_string (build_path _)).
      rewrite build_path_join, map_app by (by destruct pre). cbn [map].
      by rewrite String.list_ascii_of_string_of_list_ascii. }
    rewrite <- Hb, <- path_of_build by (by destruct pre). apply path_segments_roundtrip, Forall_app.
    split; [| constructor; [apply plain_segment_of; apply Hl | constructor]].
    eapply Forall_impl; [exact Hpre |]. intros s Hs. apply segment_ok_plain, static_ok_spec, Hs.
  - intros Hnp Hu. unfold l, e. rewrite decode_segment_path_encode by (done || by apply no_percent_Forall).
    rewrite escape_slash_id by done. apply String.string_of_list_ascii_of_string.
Qed.

Lemma app_match_trip (id : string) :
  segment_ok id = true ->
  exists x, plain_segment x = true /\
    app_match (trip_path id) = Some (mkRoute [Static "trip"; Param "tripId"] AuthGuarded TripDetailsPage,
                                     [("tripId", param_value x)], []) /\
    (no_percent id = true -> Js.utf8_valid (String.list_ascii_of_string id) = true -> x = id).
Proof.
  intros Hid. destruct (location_path_segments ["trip"] id) as (x & Hx & Hp & Hrt);
    [constructor; [reflexivity | constructor] | done |].
  exists x. split; [done | split; [| done]].
  unfold app_match. rewrite trip_path_of, path_of_build by done. cbn [app] in Hp. rewrite Hp.
  destruct (plain_segment_no_slash x Hx) as [Hne _]. simpl. by rewrite (proj2 (String.eqb_neq x "") Hne).
Qed.

Lemma app_match_profile (id : string) :
  segment_ok id = true ->
  exists x, plain_segment x = true /\
    app_match (profile_path id) = Some (mkRoute [Static "profile"; OptParam "userId"] AuthGuarded ProfilePage,
                                        [("userId", param_value x)], []) /\
    (no_percent id = true -> Js.utf8_valid (String.list_ascii_of_string id) = true -> x = id).
Proof.
  intros Hid. destruct (location_path_segments ["profile"] id) as (x & Hx & Hp & Hrt);
    [constructor; [reflexivity | constructor] | done |].
  exists x. split; [done | split; [| done]].
  unfold app_match. rewrite profile_path_of, path_of_build by done. cbn [app] in Hp. rewrite Hp.
  destruct (plain_segment_no_slash x Hx) as [Hne _]. simpl. by rewrite (proj2 (String.eqb_neq x "") Hne).
Qed.

Lemma app_match_booking_payment (bid : string) :
  segment_ok bid = true -> app_match ("/booking/payment/" +:+ bid) = None.
Proof.
  intros Hid. destruct (location_path_segments ["booking"; "payment"] bid) as (x & _ & Hp & _);
    [repeat constructor; reflexivity | done |].
  unfold app_match. replace ("/booking/payment/" +:+ bid) with (build_path (["booking"; "payment"] ++ [bid])).
  - by rewrite Hp.
  - cbn. by rewrite string_app_nil_r.
Qed.

Lemma render_page (g : AuthState -> GuardView) (s : AuthState) (p : string) (pg : Page)
    (ps : Params) (rest : list string) :
  render g s p = RPage pg ps rest ->
  exists r, app_match p = Some (r, ps, rest) /\ route_page r = pg /\
    (route_guard r = AdminGuarded -> adminGuard s = GuardChildren).
Proof.
  unfold render. destruct (app_match p) as [[[r ps'] rest'] |]; [| done].
  destruct (route_guard r) eqn:Eg; [| destruct (g s) | destruct (adminGuard s) eqn:Ea];
    simpl; intros; simplify_eq; exists r; rewrite ?Eg; naive_solver.
Qed.

Lemma app_match_rest (p : string) (r : Route) (ps : Params) (rest : list string) :
  app_match p = Some (r, ps, rest) -> rest = [].
Proof.
  unfold app_match. destruct (path_segments (location_path p)) as [segs |]; [| done].
  intros H. change (first_match app_routes segs = Some (r, ps, rest)) in H.
  apply first_match_In in H as [Hin Hm].
  eapply match_segs_no_splat; [| exact Hm].
  exact (proj1 (List.Forall_forall _ _) app_routes_no_splat r Hin).
Qed.

(** (C20: where the components navigate) Every path the components send
    the user to through the navigation bar, the trip cards, the
    notifications, the login and trip forms leads to a route of [App];
    the paths of the booking flow ([/booking/confirm], [/booking/payment],
    [/booking/payment/<id>], [/booking/confirmation]) and the
    registration's [/dashboard] lead to none, so those pages render
    nothing.  The ids are those that stay one path segment through
    [navigate] and the URL parser, as the store's document ids do. *)
Theorem navigation_targets (tripId userId bookingId : string) :
  segment_ok tripId = true -> segment_ok userId = true -> segment_ok bookingId = true ->
  Forall (fun p => is_Some (app_match p)) (live_targets tripId userId) /\
  Forall (fun p => app_match p = None) (dead_targets bookingId).
Proof.
  intros Ht Hu Hb. split.
  - repeat constructor; try (eexists; reflexivity).
    + destruct (app_match_trip tripId Ht) as (x & _ & -> & _). by eexists.
    + destruct (app_match_profile userId Hu) as (x & _ & -> & _). by eexists.
  - repeat constructor. by apply app_match_booking_payment.
Qed.

(** (C24: the trip list of the booking page is unreachable) [App]'s
    [/booking] route has no [*], so the routes [BookingPage] declares
    below it only ever see an empty remainder: wherever the booking page
    is shown it shows its search step, and [/booking/trips] renders
    nothing at all. *)
Theorem booking_trips_unreachable (g : AuthState -> GuardView) (s : AuthState) :
  render g s "/booking/trips" = RNothing /\
  forall p ps rest, render g s p = RPage BookingPage ps rest ->
    forall pickupSet dropoffSet dateSet, bookingPage_view pickupSet dropoffSet dateSet rest = BPSearchStep.
Proof.
  split; [reflexivity |]. intros p ps rest Hr a b c.
  destruct (render_page g s p BookingPage ps rest Hr) as (r & Hm & _ & _).
  by rewrite (app_match_rest p r ps rest Hm).
Qed.

(** (C: who sees the admin page) [/admin] shows the admin page exactly
    when the session has finished loading and its user's e-mail ends
    with "@cotaxiage.com"; otherwise the guard redirects to [/]. *)
Theorem admin_route_access (g : AuthState -> GuardView) (s : AuthState) :
  render g s "/admin" = RPage AdminPage [] [] <->
  auth_loading s = false /\
  exists u e, auth_user s = Some u /\ email u = Some e /\ Js.endsWith e "@cotaxiage.com" = true.
Proof.
  unfold render. change (app_match "/admin") with
    (Some (mkRoute [Static "admin"] AdminGuarded AdminPage, @nil (string * string), @nil string)).
  cbn [route_guard route_page]. unfold adminGuard.
  destruct (auth_loading s); [split; [done | intros [[=] _]] |].
  destruct (auth_user s) as [u |]; [| split; [done | intros (_ & ? & ? & [=] & _)]].
  destruct (email u) as [e |] eqn:Ee; [| split; [done | intros (_ & ? & ? & [= <-] & E & _); congruence]].
  destruct (Js.endsWith e "@cotaxiage.com") eqn:Es; split; try done.
  - intros _. split; [done |]. eauto.
  - intros (_ & ? & ? & [= <-] & E & Es'). rewrite Ee in E. injection E as <-. congruence.
Qed.

Lemma param_value_id (x : string) : no_percent x = true -> param_value x = x.
Proof.
  intros H. unfold param_value. rewrite unescape_slash_id by (by apply no_percent_Forall).
  apply String.string_of_list_ascii_of_string.
Qed.

(** (C21: a page gets back the id it was sent with) The trip and profile
    links are built as [`/trip/${id}`] and [`/profile/${id}`] and go
    through [navigate]'s [parsePath], the browser's URL parser (dot
    segments, percent-encoding) and [matchRoutes]' [decodePath].  For
    every id that stays one segment on that way (non-empty, no [/], [\],
    [?] or [#], not a dot segment) and has no [%] to decode, the route
    reached is the trip details or the profile page and the parameter
    [useParams] reads there is that id. *)
Theorem navigate_params_roundtrip (id : string) :
  segment_ok id = true -> no_percent id = true -> Js.utf8_valid (String.list_ascii_of_string id) = true ->
  (exists r rest, app_match (trip_path id) = Some (r, [("tripId", id)], rest) /\
                  route_page r = TripDetailsPage) /\
  (exists r rest, app_match (profile_path id) = Some (r, [("userId", id)], rest) /\
                  route_page r = ProfilePage).
Proof.
  intros Hid Hp Hu. split.
  - destruct (app_match_trip id Hid) as (x & _ & Hm & Hx).
    rewrite (Hx Hp Hu), (param_value_id id Hp) in Hm. rewrite Hm. by do 2 eexists.
  - destruct (app_match_profile id Hid) as (x & _ & Hm & Hx).
    rewrite (Hx Hp Hu), (param_value_id id Hp) in Hm. rewrite Hm. by do 2 eexists.
Qed.

(** (C: every link of the navigation bar leads to a route) For a
    signed-in user whose uid is a plain path segment, and for a visitor,
    each link [Navbar] shows matches a route of [App] with nothing left
    over; after a successful logout the session is empty and the app
    goes home. *)
Theorem navbar_links_route (u : option User) (pathname : string) (l : NavLink) :
  (forall usr, u = Some usr -> segment_ok (uid usr) = true) ->
  In l (navbar_links u pathname) ->
  (exists r ps, app_match (nl_to l) = Some (r, ps, [])) /\
  forall s, handleLogout None s = (mkAuthState None false, mkEffects [ToastSuccess "Déconnexion réussie"] (Some "/")).
Proof.
  intros Hok Hin. split; [| done].
  destruct u as [usr |]; simpl in Hin;
    repeat destruct Hin as [<- | Hin]; try done; simpl; try by do 2 eexists.
  destruct (app_match_profile (uid usr)) as (x & _ & -> & _); [by apply Hok |]. by do 2 eexists.
Qed.

(** ** Witnesses *)

Lemma navigation_targets_witness :
  segment_ok "t42" = true /\ segment_ok "u1" = true /\ segment_ok "b7" = true /\
  Forall (fun p => is_Some (app_match p)) (live_targets "t42" "u1") /\
  Forall (fun p => app_match p = None) (dead_targets "b7").
Proof.
  split; [reflexivity | split; [reflexivity | split; [reflexivity |]]].
  apply (navigation_targets "t42" "u1" "b7"); reflexivity.
Defined.

Lemma navigate_params_roundtrip_witness :
  segment_ok "t42" = true /\ no_percent "t42" = true /\
  Js.utf8_valid (String.list_ascii_of_string "t42") = true /\
  (exists r rest, app_match (trip_path "t42") = Some (r, [("tripId", "t42")], rest) /\
                  route_page r = TripDetailsPage) /\
  (exists r rest, app_match (profile_path "t42") = Some (r, [("userId", "t42")], rest) /\
                  route_page r = ProfilePage).
Proof.
  split; [reflexivity | split; [reflexivity | split; [reflexivity |]]].
  apply navigate_params_roundtrip; reflexivity.
Defined.

(** Ids the round trip does not hold for: [?] starts the search, [%41]
    is decoded, [%2F] is read as [/], and [..] leaves the trip pages for
    [/trips]. *)
Example navigate_params_counterexamples :
  (snd <$> (fst <$> app_match (trip_path "a?b"))) = Some [("tripId", "a")] /\
  (snd <$> (fst <$> app_match (trip_path "a%41"))) = Some [("tripId", "aA")] /\
  (snd <$> (fst <$> app_match (trip_path "a%2Fb"))) = Some [("tripId", "a/b")] /\
  (route_page <$> (fst <$> (fst <$> app_match (trip_path "../trips")))) = Some TripsPage.
Proof. vm_compute. repeat split. Qed.

Lemma app_routes_unambiguous_witness :
  let r := mkRoute [Static "trip"; Param "tripId"] AuthGuarded TripDetailsPage in
  In r app_routes /\ matchPath (route_path r) "/Trip/t42/" = Some ([("tripId", "t42")], []) /\ r = r.
Proof.
  intros r. assert (Hin : In r app_routes) by (simpl; tauto).
  assert (Hm : matchPath (route_path r) "/Trip/t42/" = Some ([("tripId", "t42")], [])) by reflexivity.
  split; [exact Hin | split; [exact Hm |]].
  exact (app_routes_unambiguous "/Trip/t42/" r r _ _ Hin Hin Hm Hm).
Defined.

Lemma booking_trips_unreachable_witness :
  render (fun _ => GuardChildren) initialAuth "/booking" = RPage BookingPage [] [] /\
  bookingPage_view true true true [] = BPSearchStep.
Proof.
  split; [reflexivity |].
  apply (proj2 (booking_trips_unreachable (fun _ => GuardChildren) initialAuth) "/booking" [] []).
  reflexivity.
Defined.

(** The administrator's login of [LoginForm] lands on the admin page. *)
Example admin_login_lands :
  navigateTo (loginSubmit (fun _ => true) "admin@cotaxiage.com" "secret1" (Ok tt)) = Some "/admin" /\
  render (fun _ => GuardChildren)
    (mkAuthState (Some (mkUser "a" (Some "admin@cotaxiage.com") None None)) false) "/admin" =
    RPage AdminPage [] [].
Proof. split; reflexivity. Qed.

Definition navbar_user : User := mkUser "alice" (Some "alice@example.com") None None.

Lemma navbar_links_route_witness :
  (forall usr, Some navbar_user = Some usr -> segment_ok (uid usr) = true) /\
  In (mkNavLink (profile_path "alice") "Profil" false) (navbar_links (Some navbar_user) "/") /\
  (exists r ps, app_match (nl_to (mkNavLink (profile_path "alice") "Profil" false)) = Some (r, ps, [])) /\
  forall s, handleLogout None s = (mkAuthState None false, mkEffects [ToastSuccess "Déconnexion réussie"] (Some "/")).
Proof.
  assert (Hok : forall usr, Some navbar_user = Some usr -> segment_ok (uid usr) = true)
    by (intros usr [= <-]; reflexivity).
  assert (Hin : In (mkNavLink (profile_path "alice") "Profil" false) (navbar_links (Some navbar_user) "/"))
    by (right; right; left; reflexivity).
  split; [exact Hok |]. split; [exact Hin |].
  exact (navbar_links_route _ _ _ Hok Hin).
Defined.
