(* ===== verification/Reviews.v ===== *)
(** * Reviews: the two rating forms, the [reviews] collection and its list

    [components/reviews/ReviewForm.tsx] adds a review with [addDoc];
    [components/reviews/DriverRating.tsx] writes one with
    [setDoc(reviews/<bookingId>)]; [hooks/useReviews.ts] reads the
    reviews of a user, newest first, and [components/reviews/ReviewList.tsx]
    shows them with their stars.  A rating is chosen by clicking one of
    five star buttons. *)

From stdpp Require Import sorting pretty.
From S2P Require Import Prelude Auth.

(** ** Data *)

(** A document of the [reviews] collection ([types/review.ts]); the
    creation time is the server's time of the write. *)
Record Review := mkReview {
  rv_userId : string;
  rv_authorId : string;
  rv_authorName : string;
  rv_authorPhoto : option string;
  rv_rating : Z;
  rv_comment : string;
  rv_bookingId : option string;
  rv_createdAt : Z
}.

Abbreviation Reviews := (gmap string Review).

(** The state both forms keep. *)
Record RatingForm := mkRatingForm {
  rf_rating : Z;
  rf_comment : string
}.

Definition initialRatingForm : RatingForm := mkRatingForm 0 "".

(** The values of the five star buttons ([[1, 2, 3, 4, 5].map]). *)
Definition star_values : list Z := [1; 2; 3; 4; 5]%Z.

(** [onClick={() => setRating(value)}] *)
Definition clickStar (v : Z) (f : RatingForm) : RatingForm := mkRatingForm v (rf_comment f).

(** [onChange={(e) => setComment(e.target.value)}] *)
Definition typeComment (c : string) (f : RatingForm) : RatingForm := mkRatingForm (rf_rating f) c.

(** [user.displayName || fallback] *)
Definition author_name (usr : User) (fallback : string) : string :=
  match displayName usr with
  | Some n => if String.eqb n "" then fallback else n
  | None => fallback
  end.

(** ** [ReviewForm.handleSubmit] *)

(** [newId] is the id [addDoc] allocates, [t] the server's time,
    [writeOk] whether the write succeeds. *)
Definition reviewFormSubmit (u : option User) (userId : string) (bookingId : option string)
    (newId : string) (writeOk : bool) (t : Z) (f : RatingForm) (db : Reviews)
    : RatingForm * Reviews * list Toast :=
  match u with
  | None => (f, db, [ToastError "Vous devez être connecté pour laisser un avis"])
  | Some usr =>
      if Z.eqb (rf_rating f) 0 then (f, db, [ToastError "Veuillez sélectionner une note"])
      else if writeOk then
        (initialRatingForm,
         <[newId := mkReview userId (uid usr) (author_name usr "Anonyme") (photoURL usr)
                     (rf_rating f) (rf_comment f) bookingId t]> db,
         [ToastSuccess "Avis envoyé avec succès"])
      else (f, db, [ToastError "Échec de l'envoi de l'avis"])
  end.

(** ** [DriverRating.handleSubmit] *)

Definition driverRating_error (code : string) : string :=
  if String.eqb code "permission-denied" then "You do not have permission to submit this review."
  else "Failed to submit review. Please try again.".

(** The review is written under the booking's id: [write] is [Ok tt]
    when [setDoc] succeeds, the error code it rejects with otherwise. *)
Definition driverRatingSubmit (u : option User) (bookingId driverId : string)
    (write : result unit string) (t : Z) (f : RatingForm) (db : Reviews)
    : RatingForm * Reviews * list Toast :=
  match u with
  | None => (f, db, [ToastError "You must be logged in to submit a review"])
  | Some usr =>
      if Z.eqb (rf_rating f) 0 then (f, db, [ToastError "Please select a rating"])
      else match write with
           | Ok _ =>
               (initialRatingForm,
                <[bookingId := mkReview driverId (uid usr) (author_name usr "Anonymous") (photoURL usr)
                                (rf_rating f) (rf_comment f) (Some bookingId) t]> db,
                [ToastSuccess "Thank you for your review!"])
           | Err code => (f, db, [ToastError (driverRating_error code)])
           end
  end.

(** [DriverRating]'s caption under the stars. *)
Definition driverRating_caption (rating : Z) : string :=
  if Z.eqb rating 0 then "Select a rating"
  else "You rated " +:+ pretty rating +:+ " star" +:+ (if Z.eqb rating 1 then "" else "s").

(** ** Stars *)

(** The forms fill the button of value [v] when [v <= rating]. *)
Definition form_stars (rating : Z) : list bool := map (fun v => bool_decide (v <= rating)%Z) star_values.

(** [ReviewList] fills the [i]-th of five stars when [i < review.rating]. *)
Definition list_stars (rating : Z) : list bool :=
  map (fun i => bool_decide (Z.of_nat i < rating)%Z) (seq 0 5).

(** ** What the forms render *)

(** The stars, the caption ([DriverRating] only), the comment and the
    submit button: its label and [disabled={busy || rating === 0}]. *)
Record RatingFormView := mkRatingFormView {
  rv_stars : list bool;
  rv_caption : option string;
  rv_comment_text : string;
  rv_button : string;
  rv_disabled : bool
}.

Definition reviewForm_view (f : RatingForm) (submitting : bool) : RatingFormView :=
  mkRatingFormView (form_stars (rf_rating f)) None (rf_comment f)
    (if submitting then "Envoi en cours..." else "Envoyer l'avis")
    (submitting || Z.eqb (rf_rating f) 0).

Definition driverRating_view (f : RatingForm) (loading : bool) : RatingFormView :=
  mkRatingFormView (form_stars (rf_rating f)) (Some (driverRating_caption (rf_rating f))) (rf_comment f)
    (if loading then "Submitting..." else "Submit Review")
    (loading || Z.eqb (rf_rating f) 0).

(** ** [useReviews] and [ReviewList] *)

Record ReviewsState := mkReviewsState {
  rs_reviews : list (string * Review);
  rs_loading : bool;
  rs_error : option string
}.

Definition initialReviewsState : ReviewsState := mkReviewsState [] true None.

(** [orderBy('createdAt', 'desc')] *)
Definition created_after (a b : string * Review) : Prop := (rv_createdAt (snd b) <= rv_createdAt (snd a))%Z.

#[export] Instance created_after_dec : RelDecision created_after.
Proof. intros a b. unfold created_after. apply _. Defined.

(** The effect of [useReviews(userId)]: [read] is the answer of
    [getDocs] (the collection, or the error code).  With an empty
    [userId] nothing is fetched and the state stays as it started. *)
Definition useReviews (userId : string) (read : result Reviews string) : ReviewsState :=
  if String.eqb userId "" then initialReviewsState else
  match read with
  | Ok db =>
      mkReviewsState
        (merge_sort created_after
           (List.filter (fun kv => String.eqb (rv_userId (snd kv)) userId) (map_to_list db)))
        false None
  | Err code =>
      mkReviewsState [] false
        (Some (if String.eqb code "permission-denied" then "Unable to access reviews at this time."
               else "Failed to load reviews. Please try again later."))
  end.

Inductive ReviewListView :=
  | RLSpinner
  | RLError (msg : string)
  | RLEmpty
  | RLItems (items : list (string * list bool)).

Definition review_items (l : list (string * Review)) : ReviewListView :=
  match l with
  | [] => RLEmpty
  | _ => RLItems (map (fun kv => (rv_authorName (snd kv), list_stars (rv_rating (snd kv)))) l)
  end.

(** [ReviewList]: the spinner, the error (a non-empty string), the empty
    notice or the reviews. *)
Definition reviewList_view (s : ReviewsState) : ReviewListView :=
  if rs_loading s then RLSpinner else
  match rs_error s with
  | Some e => if String.eqb e "" then review_items (rs_reviews s) else RLError e
  | None => review_items (rs_reviews s)
  end.

(** ** The reviews the application can write *)

(** Both forms, and the collection they write to.  The user, the ids,
    the server's time and the outcome of each write are free. *)
Record ReviewWorld := mkReviewWorld {
  w_reviews : Reviews;
  w_form : RatingForm;
  w_driver : RatingForm
}.

Inductive review_step : ReviewWorld -> ReviewWorld -> Prop :=
  | rs_click_form (w : ReviewWorld) (v : Z) :
      In v star_values ->
      review_step w (mkReviewWorld (w_reviews w) (clickStar v (w_form w)) (w_driver w))
  | rs_type_form (w : ReviewWorld) (c : string) :
      review_step w (mkReviewWorld (w_reviews w) (typeComment c (w_form w)) (w_driver w))
  | rs_submit_form (w : ReviewWorld) u userId bookingId newId writeOk t f' db' ts :
      reviewFormSubmit u userId bookingId newId writeOk t (w_form w) (w_reviews w) = (f', db', ts) ->
      review_step w (mkReviewWorld db' f' (w_driver w))
  | rs_click_driver (w : ReviewWorld) (v : Z) :
      In v star_values ->
      review_step w (mkReviewWorld (w_reviews w) (w_form w) (clickStar v (w_driver w)))
  | rs_type_driver (w : ReviewWorld) (c : string) :
      review_step w (mkReviewWorld (w_reviews w) (w_form w) (typeComment c (w_driver w)))
  | rs_submit_driver (w : ReviewWorld) u bookingId driverId write t f' db' ts :
      driverRatingSubmit u bookingId driverId write t (w_driver w) (w_reviews w) = (f', db', ts) ->
      review_step w (mkReviewWorld db' (w_form w) f').

Definition form_ok (f : RatingForm) : Prop := (0 <= rf_rating f <= 5)%Z.

Definition review_inv (w : ReviewWorld) : Prop :=
  form_ok (w_form w) /\ form_ok (w_driver w) /\
  map_Forall (fun _ r => 1 <= rv_rating r <= 5)%Z (w_reviews w).

Lemma star_values_range (v : Z) : In v star_values -> (1 <= v <= 5)%Z.
Proof. simpl. lia. Qed.

Lemma reviewFormSubmit_inv u userId bookingId newId writeOk t f db f' db' ts :
  reviewFormSubmit u userId bookingId newId writeOk t f db = (f', db', ts) ->
  form_ok f -> map_Forall (fun _ r => 1 <= rv_rating r <= 5)%Z db ->
  form_ok f' /\ map_Forall (fun _ r => 1 <= rv_rating r <= 5)%Z db'.
Proof.
  unfold reviewFormSubmit, form_ok. intros Hs Hf Hdb.
  destruct u as [usr |]; [| by simplify_eq].
  destruct (Z.eqb_spec (rf_rating f) 0); [by simplify_eq |].
  destruct writeOk; simplify_eq; [| done].
  split; [simpl; lia |]. apply map_Forall_insert_2; [simpl; lia | done].
Qed.

Lemma driverRatingSubmit_inv u bookingId driverId write t f db f' db' ts :
  driverRatingSubmit u bookingId driverId write t f db = (f', db', ts) ->
  form_ok f -> map_Forall (fun _ r => 1 <= rv_rating r <= 5)%Z db ->
  form_ok f' /\ map_Forall (fun _ r => 1 <= rv_rating r <= 5)%Z db'.
Proof.
  unfold driverRatingSubmit, form_ok. intros Hs Hf Hdb.
  destruct u as [usr |]; [| by simplify_eq].
  destruct (Z.eqb_spec (rf_rating f) 0); [by simplify_eq |].
  destruct write; simplify_eq; [| done].
  split; [simpl; lia |]. apply map_Forall_insert_2; [simpl; lia | done].
Qed.

Lemma review_step_inv (w w' : ReviewWorld) : review_step w w' -> review_inv w -> review_inv w'.
Proof.
  intros Hs (Hf & Hd & Hdb). unfold review_inv.
  destruct Hs as [w v Hv | w c | w u userId bid nid ok t f' db' ts Hsub
                 | w v Hv | w c | w u bid did wr t f' db' ts Hsub]; simpl.
  - apply star_values_range in Hv. unfold form_ok. simpl. auto with lia.
  - auto.
  - destruct (reviewFormSubmit_inv _ _ _ _ _ _ _ _ _ _ _ Hsub Hf Hdb). auto.
  - apply star_values_range in Hv. unfold form_ok. simpl. auto with lia.
  - auto.
  - destruct (driverRatingSubmit_inv _ _ _ _ _ _ _ _ _ _ Hsub Hd Hdb). auto.
Qed.

Lemma filter_user_In (userId : string) (db : Reviews) (kv : string * Review) :
  In kv (merge_sort created_after
           (List.filter (fun kv => String.eqb (rv_userId (snd kv)) userId) (map_to_list db))) <->
  db !! fst kv = Some (snd kv) /\ rv_userId (snd kv) = userId.
Proof. by rewrite In_sorted_query, String.eqb_eq. Qed.

#[export] Instance created_after_total : Total created_after.
Proof. intros a b. unfold created_after. lia. Qed.

(** ** Theorems *)

(** (C: stored ratings are between one and five stars) Starting from an
    empty collection and fresh forms, whatever users click, type and
    submit in either form, every review in the collection has a rating
    from 1 to 5: the star buttons only offer 1 to 5 and both handlers
    refuse the initial 0. *)
Theorem reviews_reachable_ratings (w : ReviewWorld) :
  rtc review_step (mkReviewWorld ∅ initialRatingForm initialRatingForm) w ->
  map_Forall (fun _ r => 1 <= rv_rating r <= 5)%Z (w_reviews w).
Proof.
  intros Hr. enough (Hi : review_inv w) by apply Hi.
  apply (rtc_preserves review_step review_inv review_step_inv _ _ Hr).
  unfold review_inv, form_ok. simpl. split; [lia | split; [lia | apply map_Forall_empty]].
Qed.

(** (C26: a driver rating erases the previous one for the booking)
    [DriverRating] writes under the booking's id with [setDoc], without
    checking who wrote the review there: when a second user rates the
    same booking, the collection is as if the first review had never
    been written. *)
Theorem driver_rating_overwrites (u1 u2 : User) (bookingId driverId : string) (t1 t2 : Z)
    (f1 f2 : RatingForm) (db : Reviews) :
  rf_rating f1 <> 0%Z -> rf_rating f2 <> 0%Z ->
  let db1 := snd (fst (driverRatingSubmit (Some u1) bookingId driverId (Ok tt) t1 f1 db)) in
  snd (fst (driverRatingSubmit (Some u2) bookingId driverId (Ok tt) t2 f2 db1)) =
  snd (fst (driverRatingSubmit (Some u2) bookingId driverId (Ok tt) t2 f2 db)).
Proof.
  intros H1 H2. unfold driverRatingSubmit.
  rewrite (proj2 (Z.eqb_neq _ _) H1), (proj2 (Z.eqb_neq _ _) H2). simpl.
  apply insert_insert_eq.
Qed.

(** (C: the forms and the list draw the same stars) The forms fill the
    star buttons [v <= rating] over 1..5 and the list fills the stars
    [i < rating] over 0..4: for every rating the two rows are the same,
    with the rating, clamped to 0..5, filled. *)
Theorem stars_agree (r : Z) :
  form_stars r = list_stars r /\
  length (List.filter id (list_stars r)) = Z.to_nat (Z.max 0 (Z.min 5 r)).
Proof.
  unfold form_stars, list_stars, star_values. simpl. split.
  - repeat f_equal; apply bool_decide_ext; lia.
  - repeat case_bool_decide; simpl; lia.
Qed.

(** (C: the reviews of a profile) [useReviews] delivers exactly the
    reviews of the collection written about the user, newest first, and
    stops loading; for an empty [userId] it never fetches and the list
    keeps showing its spinner. *)
Theorem useReviews_spec (userId : string) (db : Reviews) (read : result Reviews string) :
  (userId <> "" ->
   (forall kv, In kv (rs_reviews (useReviews userId (Ok db))) <->
      db !! fst kv = Some (snd kv) /\ rv_userId (snd kv) = userId) /\
   Sorted created_after (rs_reviews (useReviews userId (Ok db))) /\
   rs_loading (useReviews userId (Ok db)) = false) /\
  reviewList_view (useReviews "" read) = RLSpinner.
Proof.
  split; [| reflexivity]. intros Hu.
  unfold useReviews. rewrite (proj2 (String.eqb_neq userId "") Hu). simpl.
  split; [apply filter_user_In |]. split; [apply Sorted_merge_sort; apply _ | done].
Qed.

(** (C: the rating prompt is dead code) Both forms disable their only
    submit control while no star is chosen, and nothing else submits
    them: whenever the rendered button can be pressed, the handler's
    "select a rating" branch is not the one taken, and a signed-in user's
    submission reaches the write. *)
Theorem rating_prompt_unreachable (u : option User) (userId : string) (bookingId : option string)
    (newId : string) (writeOk : bool) (bid driverId : string) (write : result unit string)
    (t : Z) (f : RatingForm) (db : Reviews) (busy : bool) :
  rv_disabled (reviewForm_view f busy) = false ->
  ~ In (ToastError "Veuillez sélectionner une note")
      (snd (reviewFormSubmit u userId bookingId newId writeOk t f db)) /\
  ~ In (ToastError "Please select a rating") (snd (driverRatingSubmit u bid driverId write t f db)) /\
  rv_disabled (driverRating_view f busy) = false.
Proof.
  cbn. intros [Hb Hr]%orb_false_iff. rewrite Hb. unfold reviewFormSubmit, driverRatingSubmit.
  rewrite Hr. unfold driverRating_error.
  destruct u, writeOk, write; cbn; try destruct String.eqb; cbn; intuition congruence.
Qed.

(** ** Witnesses *)

Definition sample_reviewer : User := mkUser "u1" (Some "ana@example.com") (Some "Ana") None.
Definition sample_other : User := mkUser "u2" (Some "bob@example.com") None None.

Lemma reviews_reachable_ratings_witness :
  rtc review_step (mkReviewWorld ∅ initialRatingForm initialRatingForm)
    (mkReviewWorld ∅ (clickStar 4 initialRatingForm) initialRatingForm) /\
  map_Forall (fun _ r => 1 <= rv_rating r <= 5)%Z
    (w_reviews (mkReviewWorld ∅ (clickStar 4 initialRatingForm) initialRatingForm)).
Proof.
  assert (Hr : rtc review_step (mkReviewWorld ∅ initialRatingForm initialRatingForm)
                 (mkReviewWorld ∅ (clickStar 4 initialRatingForm) initialRatingForm)).
  { apply rtc_once. apply (rs_click_form (mkReviewWorld ∅ initialRatingForm initialRatingForm) 4).
    simpl. tauto. }
  split; [exact Hr | exact (reviews_reachable_ratings _ Hr)].
Defined.

Lemma driver_rating_overwrites_witness :
  rf_rating (mkRatingForm 5 "") <> 0%Z /\ rf_rating (mkRatingForm 1 "") <> 0%Z /\
  let db1 := snd (fst (driverRatingSubmit (Some sample_reviewer) "b1" "d1" (Ok tt) 1
                         (mkRatingForm 5 "") ∅)) in
  snd (fst (driverRatingSubmit (Some sample_other) "b1" "d1" (Ok tt) 2 (mkRatingForm 1 "") db1)) =
  snd (fst (driverRatingSubmit (Some sample_other) "b1" "d1" (Ok tt) 2 (mkRatingForm 1 "") ∅)).
Proof.
  split; [discriminate | split; [discriminate |]].
  apply (driver_rating_overwrites sample_reviewer sample_other "b1" "d1" 1 2); discriminate.
Defined.

Lemma useReviews_spec_witness :
  ("u1" <> "" ->
   (forall kv, In kv (rs_reviews (useReviews "u1" (Ok ∅))) <->
      (∅ : Reviews) !! fst kv = Some (snd kv) /\ rv_userId (snd kv) = "u1") /\
   Sorted created_after (rs_reviews (useReviews "u1" (Ok ∅))) /\
   rs_loading (useReviews "u1" (Ok ∅)) = false) /\
  reviewList_view (useReviews "" (Err "unavailable")) = RLSpinner.
Proof. exact (useReviews_spec "u1" ∅ (Err "unavailable")). Defined.

Lemma rating_prompt_unreachable_witness :
  rv_disabled (reviewForm_view (clickStar 4 initialRatingForm) false) = false /\
  ~ In (ToastError "Veuillez sélectionner une note")
      (snd (reviewFormSubmit (Some sample_reviewer) "u9" None "r1" true 0 (clickStar 4 initialRatingForm) ∅)) /\
  ~ In (ToastError "Please select a rating")
      (snd (driverRatingSubmit (Some sample_reviewer) "b1" "u9" (Ok tt) 0 (clickStar 4 initialRatingForm) ∅)) /\
  rv_disabled (driverRating_view (clickStar 4 initialRatingForm) false) = false.
Proof.
  split; [reflexivity |].
  exact (rating_prompt_unreachable (Some sample_reviewer) "u9" None "r1" true "b1" "u9" (Ok tt) 0
           (clickStar 4 initialRatingForm) ∅ false eq_refl).
Defined.

(** The forms before and after a star is chosen. *)
Example rating_forms_render :
  driverRating_view initialRatingForm false =
    mkRatingFormView [false; false; false; false; false] (Some "Select a rating") "" "Submit Review" true /\
  driverRating_view (clickStar 3 initialRatingForm) true =
    mkRatingFormView [true; true; true; false; false] (Some "You rated 3 stars") "" "Submitting..." true /\
  rv_button (reviewForm_view (clickStar 1 initialRatingForm) false) = "Envoyer l'avis".
Proof. vm_compute. repeat split. Qed.

