(* ===== verification/BookingViews.v ===== *)
(** * Booking history, confirmation and payment screens

    [hooks/useBookings.ts] and [components/booking/BookingHistory.tsx]
    (the bookings of a user, newest first, with their payment and status
    labels), [components/booking/steps/ConfirmationStep.tsx] and
    [components/booking/BookingConfirmation.tsx] (their redirect and the
    "contact the driver" chat they create),
    [components/booking/PaymentForm.tsx] (the card payment through the
    payment provider, whose answers are inputs) and
    [components/PopularRoutes.tsx]. *)

From stdpp Require Import sorting.
From S2P Require Import Prelude Binary64 Stations Fare Validation JsDate Booking Chat Auth.

(** ** The bookings of a user *)

Record BookingsState := mkBookingsState {
  bk_list : list (string * Booking);
  bk_loading : bool;
  bk_error : option string
}.

Definition initialBookingsState : BookingsState := mkBookingsState [] true None.

(** [orderBy('createdAt', 'desc')] *)
Definition booked_after (a b : string * Booking) : Prop := (b_createdAt (snd b) <= b_createdAt (snd a))%Z.

#[export] Instance booked_after_dec : RelDecision booked_after.
Proof. intros a b. unfold booked_after. apply _. Defined.

#[export] Instance booked_after_total : Total booked_after.
Proof. intros a b. unfold booked_after. lia. Qed.

(** [where('userId', '==', userId), orderBy('createdAt', 'desc')] *)
Definition bookings_of (userId : string) (coll : Bookings) : list (string * Booking) :=
  merge_sort booked_after
    (List.filter (fun kv => String.eqb (b_userId (snd kv)) userId) (map_to_list coll)).

(** [useBookings]: the start of the effect, then each snapshot or error. *)
Definition useBookings_start (userId : string) : BookingsState :=
  if String.eqb userId "" then mkBookingsState [] false None else initialBookingsState.

Definition useBookings_snapshot (userId : string) (coll : Bookings) : BookingsState :=
  mkBookingsState (bookings_of userId coll) false None.

Definition bookings_error_message (code : string) (other : string) : string :=
  if String.eqb code "permission-denied" then "You do not have permission to view these bookings."
  else other.

Definition useBookings_error (code : string) (s : BookingsState) : BookingsState :=
  mkBookingsState (bk_list s) false
    (Some (bookings_error_message code "Failed to load bookings. Please try again.")).

(** [BookingHistory.fetchBookings]: one [getDocs], whose answer is
    [read]; [finally] ends the loading state. *)
Definition fetchBookings (u : option User) (read : result Bookings string) (s : BookingsState)
    : BookingsState :=
  match u with
  | None => mkBookingsState (bk_list s) false (bk_error s)
  | Some usr =>
      match read with
      | Ok coll => mkBookingsState (bookings_of (uid usr) coll) false None
      | Err code =>
          mkBookingsState (bk_list s) false
            (Some (bookings_error_message code "Unable to load bookings. Please try again later."))
      end
  end.

(** The two labels of a history row. *)
Definition paid_label (b : Booking) : string :=
  match b_paymentStatus b with PaymentStatus.completed => "Paid" | _ => "Pending" end.

(** [status.charAt(0).toUpperCase() + status.slice(1)] *)
Definition booking_status_label (st : BookingStatus.t) : string :=
  match st with
  | BookingStatus.pending => "Pending"
  | BookingStatus.confirmed => "Confirmed"
  | BookingStatus.completed => "Completed"
  | BookingStatus.cancelled => "Cancelled"
  end.

Inductive HistoryView :=
  | HVSpinner
  | HVError (msg : string)
  | HVEmpty
  | HVRows (rows : list (string * string)).

Definition history_rows (l : list (string * Booking)) : HistoryView :=
  match l with
  | [] => HVEmpty
  | _ => HVRows (map (fun kv => (paid_label (snd kv), booking_status_label (b_status (snd kv)))) l)
  end.

(** The spinner, the error (a non-empty string), the empty notice or
    the rows. *)
Definition bookingHistory_view (s : BookingsState) : HistoryView :=
  if bk_loading s then HVSpinner else
  match bk_error s with
  | Some e => if String.eqb e "" then history_rows (bk_list s) else HVError e
  | None => history_rows (bk_list s)
  end.

(** ** [ConfirmationStep] *)

(** The effect: back to [/booking] when the store lacks a route, a date
    or a non-zero fare. *)
Definition confirmationEffect (s : BookingStore) : option string :=
  match bs_pickup s, bs_dropoff s, bs_date s with
  | Some _, Some _, Some _ => if Qeq_bool (bs_fare s) 0 then Some "/booking" else None
  | _, _, _ => Some "/booking"
  end.

(** [handleStartChat]: a chat whose only participant is the user,
    made the active chat.  [newId] is the id [addDoc] allocates. *)
Definition confirmationStartChat (u : option User) (newId : string) (writeOk : bool) (t : Z)
    (coll : gmap string Chat) (cs : ChatStore) : gmap string Chat * ChatStore * Effects :=
  match u with
  | None => (coll, cs, mkEffects [ToastError "Veuillez vous connecter pour démarrer une discussion"]
                              (Some "/login"))
  | Some usr =>
      if writeOk then
        (<[newId := mkChat newId [uid usr] None t None]> coll,
         setActiveChat (Some (mkChat newId [uid usr] None t None)) cs,
         mkEffects [ToastSuccess "Discussion démarrée avec succès"] None)
      else (coll, cs, toast_error "Échec du démarrage de la discussion")
  end.

(** [handleFinish]: reset the store and go home. *)
Definition confirmationFinish (s : BookingStore) : BookingStore * Effects :=
  (reset s, mkEffects [] (Some "/")).

(** [BookingConfirmation.handleStartChat]: the participant and booking
    are the literal placeholders of the source. *)
Definition bookingConfirmationStartChat (u : option User) (newId : string) (writeOk : bool) (t : Z)
    (coll : gmap string Chat) : gmap string Chat * list Toast :=
  match u with
  | None => (coll, [])
  | Some usr =>
      if writeOk then
        (<[newId := mkChat newId [uid usr; "DRIVER_ID"] None t (Some "BOOKING_ID")]> coll,
         [ToastSuccess "Discussion démarrée avec votre chauffeur"])
      else (coll, [ToastError "Échec du démarrage de la discussion"])
  end.

(** The chats [useChat] lists for a user: those whose participants
    contain them. *)
Definition chats_of_user (userId : string) (coll : gmap string Chat) : list Chat :=
  List.filter (fun c => Js.array_includes (c_participants c) userId) (map snd (map_to_list coll)).

(** ** [PaymentForm.handlePayment] *)

(** The provider's answers: whether the client library loaded, the
    payment intent the server returns (its client secret, or the error
    message), and the error [confirmCardPayment] reports, if any. *)
Record ProviderAnswers := mkProviderAnswers {
  pa_stripeLoaded : bool;
  pa_intent : result string string;
  pa_confirmError : option string
}.

(** The amount requested, in cents, if the request is sent; the toasts;
    whether [onSuccess] is called. *)
Record PaymentOutcome := mkPaymentOutcome {
  po_amount : option Q;
  po_toasts : list Toast;
  po_success : bool
}.

Definition paymentFormSubmit (u : option User) (s : BookingStore) (pa : ProviderAnswers)
    : PaymentOutcome :=
  match u, bs_pickup s, bs_dropoff s, bs_date s with
  | Some _, Some _, Some _, Some _ =>
      if negb (pa_stripeLoaded pa) then
        mkPaymentOutcome None [ToastError "Stripe failed to initialize"] false
      else
        let amount := Some (round_double (bs_fare s * 100))%Q in
        match pa_intent pa with
        | Err msg => mkPaymentOutcome amount [ToastError msg] false
        | Ok _ =>
            match pa_confirmError pa with
            | Some msg => mkPaymentOutcome amount [ToastError msg] false
            | None => mkPaymentOutcome amount [ToastSuccess "Payment successful!"] true
            end
        end
  | _, _, _, _ => mkPaymentOutcome None [ToastError "Please complete all required information"] false
  end.

(** ** [PopularRoutes] *)

Record PopularRoute := mkPopularRoute {
  pr_from : string;
  pr_to : string;
  pr_price : string
}.

Definition popular_routes : list PopularRoute :=
  [mkPopularRoute "gare-du-nord" "cdg" "€56";
   mkPopularRoute "saint-germain" "orly" "€36";
   mkPopularRoute "bastille" "cdg" "€56"].

(** The cards rendered: a route whose ids are not both in the catalog
    renders [null]. *)
Definition popularRoutes_view : list PopularRoute :=
  List.filter (fun r => match find_station (pr_from r), find_station (pr_to r) with
                        | Some _, Some _ => true
                        | _, _ => false
                        end) popular_routes.

(** [handleRouteClick]: [None] (nothing happens) when a station is
    missing; otherwise the two locations and a navigation to [/trips].
    The default date ([tomorrow] at 10:00) is an input. *)
Definition handleRouteClick (fromId toId : string) (tomorrow : JsDateObj) (s : BookingStore)
    : option (BookingStore * Effects) :=
  match find_station fromId, find_station toId with
  | Some p, Some d =>
      Some (setDate (Some tomorrow) (setDropoff (Some (toLocation d)) (setPickup (Some (toLocation p)) s)),
            mkEffects [] (Some "/trips"))
  | _, _ => None
  end.

(** ** Lemmas *)

Lemma bookings_of_In (userId : string) (coll : Bookings) (kv : string * Booking) :
  In kv (bookings_of userId coll) <-> coll !! fst kv = Some (snd kv) /\ b_userId (snd kv) = userId.
Proof. unfold bookings_of. by rewrite In_sorted_query, String.eqb_eq. Qed.

Lemma history_rows_In (l : list (string * Booking)) (rows : list (string * string)) (row : string * string) :
  history_rows l = HVRows rows -> In row rows ->
  exists kv, In kv l /\ row = (paid_label (snd kv), booking_status_label (b_status (snd kv))).
Proof.
  destruct l as [| kv0 l]; [discriminate |]. intros [= <-] Hin.
  apply (proj1 (in_map_iff (fun kv : string * Booking =>
    (paid_label (snd kv), booking_status_label (b_status (snd kv)))) (kv0 :: l) row)) in Hin as (kv & <- & Hkv). eauto.
Qed.

Lemma chats_of_user_In (userId : string) (coll : gmap string Chat) (c : Chat) :
  In c (chats_of_user userId coll) <->
  (exists k, coll !! k = Some c) /\ In userId (c_participants c).
Proof.
  unfold chats_of_user. rewrite filter_In, in_map_iff, array_includes_In.
  split.
  - intros ([[k c'] [<- Hin]] & Hp). simpl in *. split; [| done].
    exists k. by apply elem_of_map_to_list, list_elem_of_In.
  - intros ([k Hk] & Hp). split; [| done]. exists (k, c). split; [done |].
    by apply list_elem_of_In, elem_of_map_to_list.
Qed.

(** ** Theorems *)

(** (C: the history's two labels agree) In every [bookings] collection
    the booking handlers produce, each row [BookingHistory] shows reads
    "Paid" exactly when its status reads "Confirmed": a pending booking
    is never shown as paid, nor a paid one as pending. *)
Theorem history_labels_agree (coll : Bookings) (usr : User) (s : BookingsState)
    (rows : list (string * string)) :
  rtc booking_step ∅ coll ->
  bookingHistory_view (fetchBookings (Some usr) (Ok coll) s) = HVRows rows ->
  forall row, In row rows -> (fst row = "Paid" <-> snd row = "Confirmed").
Proof.
  intros Hr Hv row Hrow. pose proof (bookings_reachable_ok coll Hr) as Hok.
  simpl in Hv. apply (history_rows_In _ _ row Hv) in Hrow as ([k b] & Hin & ->).
  apply bookings_of_In in Hin as [Hb _]. cbn [fst snd] in *.
  unfold paid_label. destruct (Hok k b Hb) as [[Hs Hp] | [Hs Hp]]; rewrite Hs, Hp; simpl;
    split; discriminate || done.
Qed.

(** (C: "contact the driver" reaches no driver) The chat
    [ConfirmationStep] creates has the user as its only participant: no
    other user's chat list gains it.  [BookingConfirmation]'s version adds
    the literal participant ["DRIVER_ID"] and booking ["BOOKING_ID"], so
    every user's "driver" chat goes to the same placeholder account. *)
Theorem driver_chat_unreachable (usr : User) (newId : string) (t : Z) (coll : gmap string Chat)
    (cs : ChatStore) (v : string) :
  v <> uid usr -> coll !! newId = None ->
  let coll' := fst (fst (confirmationStartChat (Some usr) newId true t coll cs)) in
  (forall c, In c (chats_of_user v coll') -> In c (chats_of_user v coll)) /\
  (exists c, In c (chats_of_user (uid usr) coll') /\ c_participants c = [uid usr]) /\
  (forall c, fst (bookingConfirmationStartChat (Some usr) newId true t coll) !! newId = Some c ->
     In "DRIVER_ID" (c_participants c) /\ c_bookingId c = Some "BOOKING_ID").
Proof.
  intros Hv Hfresh. simpl. split; [| split].
  - intros c. rewrite !chats_of_user_In. intros ([k Hk] & Hp).
    destruct (decide (k = newId)) as [-> |].
    + rewrite lookup_insert_eq in Hk. injection Hk as <-. simpl in Hp. naive_solver.
    + rewrite lookup_insert_ne in Hk by done. eauto.
  - exists (mkChat newId [uid usr] None t None). split; [| reflexivity]. apply chats_of_user_In. split; [| by left].
    exists newId. apply lookup_insert_eq.
  - rewrite lookup_insert_eq. intros c [= <-]. simpl. split; [tauto | done].
Qed.

(** (C30: the card payment charges the per-person share) After
    [RideSelection] has stored its fare, [PaymentForm] asks the payment
    server for 100 times the per-person share of the ride (the fare
    divided by the store's 1 to 3 passengers, a double, times 100 in
    binary64 again), and calls [onSuccess] exactly when the library
    loaded, the intent was created and the card was confirmed. *)
Theorem payment_amount_per_person (usr : User) (s : BookingStore) (p d : Location.t) (dt : JsDateObj)
    (pa : ProviderAnswers) :
  bs_pickup s = Some p -> bs_dropoff s = Some d -> bs_date s = Some dt -> (1 <= bs_passengers s <= 3)%Z ->
  pa_stripeLoaded pa = true ->
  po_amount (paymentFormSubmit (Some usr) (rideSelectionEffect s) pa) =
    Some (round_double (round_double (inject_Z (calculateFare p d) / inject_Z (bs_passengers s)) * 100))%Q /\
  (po_success (paymentFormSubmit (Some usr) (rideSelectionEffect s) pa) = true <->
     is_ok (pa_intent pa) = true /\ pa_confirmError pa = None).
Proof.
  intros Hp Hd Hdt _ Hs. unfold rideSelectionEffect. rewrite Hp, Hd.
  unfold paymentFormSubmit, setFare. simpl. rewrite Hp, Hd, Hdt, Hs. simpl.
  destruct (pa_intent pa); [destruct (pa_confirmError pa) |]; simpl; (split; [done | naive_solver]).
Qed.

(** The catalog has no station [gare-du-nord], [saint-germain] or
    [bastille]: no popular route card is rendered, and clicking one
    would do nothing. *)
Example popular_routes_dead (tomorrow : JsDateObj) (s : BookingStore) :
  popularRoutes_view = [] /\
  Forall (fun r => handleRouteClick (pr_from r) (pr_to r) tomorrow s = None) popular_routes.
Proof. split; [vm_compute; reflexivity | repeat constructor]. Qed.

(** ** Witnesses *)

Definition sample_alice : User := mkUser "alice" None None None.
Definition sample_answers : ProviderAnswers := mkProviderAnswers true (Ok "pi_secret") None.

Lemma history_labels_agree_witness :
  rtc booking_step ∅ sample_coll1 /\
  bookingHistory_view (fetchBookings (Some sample_alice) (Ok sample_coll1) initialBookingsState) =
    HVRows [("Pending", "Pending")] /\
  forall row, In row [("Pending", "Pending")] -> (fst row = "Paid" <-> snd row = "Confirmed").
Proof.
  assert (Hr : rtc booking_step ∅ sample_coll1).
  { apply rtc_once.
    exact (bk_confirm 0 sample_now (Some "alice") sample_store ∅ "b1" true sample_now _
             sample_coll1 _ (triple_eta (handleConfirm 0 sample_now (Some "alice")
                                           sample_store ∅ "b1" true sample_now))). }
  assert (Hv : bookingHistory_view (fetchBookings (Some sample_alice) (Ok sample_coll1)
                                      initialBookingsState) = HVRows [("Pending", "Pending")])
    by (vm_compute; reflexivity).
  split; [exact Hr | split; [exact Hv |]].
  exact (history_labels_agree sample_coll1 sample_alice initialBookingsState _ Hr Hv).
Defined.

Lemma driver_chat_unreachable_witness :
  "bob" <> uid sample_alice /\ (∅ : gmap string Chat) !! "c1" = None /\
  let coll' := fst (fst (confirmationStartChat (Some sample_alice) "c1" true 0 ∅ initialChatStore)) in
  (forall c, In c (chats_of_user "bob" coll') -> In c (chats_of_user "bob" ∅)) /\
  (exists c, In c (chats_of_user (uid sample_alice) coll') /\ c_participants c = [uid sample_alice]) /\
  (forall c, fst (bookingConfirmationStartChat (Some sample_alice) "c1" true 0 ∅) !! "c1" = Some c ->
     In "DRIVER_ID" (c_participants c) /\ c_bookingId c = Some "BOOKING_ID").
Proof.
  split; [discriminate | split; [reflexivity |]].
  apply (driver_chat_unreachable sample_alice "c1" 0 ∅ initialChatStore "bob"); [discriminate | reflexivity].
Defined.

Definition sample_pickup : Location.t := Location.mk (Some 49%Q) (Some 2%Q) "Gare" (Some "gare-de-lyon") None.
Definition sample_dropoff : Location.t := Location.mk None None "CDG" (Some "cdg") None.
Definition sample_pay_store : BookingStore :=
  mkBookingStore (Some sample_pickup) (Some sample_dropoff) (Some (ValidDate 0)) 2 0.

Lemma payment_amount_per_person_witness :
  bs_pickup sample_pay_store = Some sample_pickup /\ bs_dropoff sample_pay_store = Some sample_dropoff /\
  bs_date sample_pay_store = Some (ValidDate 0) /\ (1 <= bs_passengers sample_pay_store <= 3)%Z /\
  pa_stripeLoaded sample_answers = true /\
  po_amount (paymentFormSubmit (Some sample_alice) (rideSelectionEffect sample_pay_store) sample_answers) =
    Some (round_double (round_double (inject_Z (calculateFare sample_pickup sample_dropoff) /
                                      inject_Z (bs_passengers sample_pay_store)) * 100))%Q /\
  (po_success (paymentFormSubmit (Some sample_alice) (rideSelectionEffect sample_pay_store) sample_answers) = true <->
     is_ok (pa_intent sample_answers) = true /\ pa_confirmError sample_answers = None).
Proof.
  do 3 (split; [reflexivity |]). split; [vm_compute; split; discriminate |]. split; [reflexivity |].
  apply (payment_amount_per_person sample_alice sample_pay_store sample_pickup sample_dropoff (ValidDate 0));
    (reflexivity || (vm_compute; split; discriminate)).
Defined.

(** Three riders to CDG from the right bank: the share is 56 / 3 as a
    double, and [PaymentForm] asks for between 1866 and 1867 cents, not
    a whole number of cents. *)
Example payment_amount_fractional :
  exists q, po_amount (paymentFormSubmit (Some sample_alice)
              (rideSelectionEffect (setPassengers 3 sample_pay_store)) sample_answers) = Some q /\
    Qfloor q = 1866%Z /\ Qceiling q = 1867%Z.
Proof. eexists. split; [reflexivity | vm_compute; split; reflexivity]. Qed.
