(* ===== verification/TripWidgets.v ===== *)
(** * Trip search widgets, the trip list and the participants list

    [components/trip/AdvancedTripSearch.tsx] keeps its filters in a
    JavaScript object updated by spreading ([{ ...f, key: value }]); the
    model keeps the object's keys in insertion order with their values,
    [undefined] included, since [Object.keys] decides whether "Clear
    filters" is shown.  [components/trip/TripSearch.tsx],
    [components/trip/TripFilters.tsx] and [components/trip/TripSorting.tsx]
    turn their inputs into the values they pass to their callbacks.
    [components/trip/TripList.tsx] chooses what the trips page shows, and
    [hooks/useParticipants.ts] with [components/trip/ParticipantsList.tsx]
    show the profiles of a trip's participants. *)

From stdpp Require Import pretty.
From S2P Require Import Prelude Stations Fare Validation Trip Auth.

(** ** JavaScript objects *)

Inductive JsVal :=
  | JUndef
  | JNull
  | JStr (s : string)
  | JNum (z : Z)
  | JDate (t : Z).

(** An object: its own keys in insertion order, with their values. *)
Abbreviation JsObj := (list (string * JsVal)).

(** [{ ...o, [k]: v }]: an existing key keeps its place, a new one comes
    last. *)
Fixpoint obj_set (o : JsObj) (k : string) (v : JsVal) : JsObj :=
  match o with
  | [] => [(k, v)]
  | (k', v') :: o' => if String.eqb k' k then (k, v) :: o' else (k', v') :: obj_set o' k v
  end.

(** [o[k]]: [undefined] for a missing key. *)
Definition obj_get (o : JsObj) (k : string) : JsVal :=
  match List.find (fun kv => String.eqb (fst kv) k) o with
  | Some kv => snd kv
  | None => JUndef
  end.

Definition object_keys (o : JsObj) : list string := map fst o.

(** [Boolean(v)] *)
Definition js_truthy (v : JsVal) : bool :=
  match v with
  | JUndef | JNull => false
  | JStr s => negb (String.eqb s "")
  | JNum z => negb (Z.eqb z 0)
  | JDate _ => true
  end.

(** ** [AdvancedTripSearch] *)

Record AdvancedSearch := mkAdvancedSearch {
  as_showFilters : bool;
  as_filters : JsObj
}.

Definition initialAdvancedSearch : AdvancedSearch := mkAdvancedSearch false [].

Definition set_filter (k : string) (v : JsVal) (s : AdvancedSearch) : AdvancedSearch :=
  mkAdvancedSearch (as_showFilters s) (obj_set (as_filters s) k v).

(** [e.target.value || undefined] *)
Definition str_or_undef (value : string) : JsVal :=
  if String.eqb value "" then JUndef else JStr value.

Definition selectPickupFilter (value : string) : AdvancedSearch -> AdvancedSearch :=
  set_filter "pickup" (str_or_undef value).

Definition selectDropoffFilter (value : string) : AdvancedSearch -> AdvancedSearch :=
  set_filter "dropoff" (str_or_undef value).

(** The date picker passes the chosen date, or [null] when it is
    cleared. *)
Definition pickDateFilter (d : option Z) : AdvancedSearch -> AdvancedSearch :=
  set_filter "date" (match d with Some t => JDate t | None => JNull end).

(** [e.target.value ? Number(e.target.value) : undefined]: the number
    input's value, [None] for the empty string. *)
Definition setMaxPrice (input : option Z) : AdvancedSearch -> AdvancedSearch :=
  set_filter "maxPrice" (match input with Some z => JNum z | None => JUndef end).

(** The seats select offers [""], ["1"], ["2"] and ["3"]. *)
Definition setMinSeats (value : string) : AdvancedSearch -> AdvancedSearch :=
  set_filter "availableSeats"
    (if String.eqb value "" then JUndef
     else match Js.parseInt value with Some z => JNum z | None => JUndef end).

Definition toggleFilters (s : AdvancedSearch) : AdvancedSearch :=
  mkAdvancedSearch (negb (as_showFilters s)) (as_filters s).

(** [handleSubmit]: [onSearch(filters)]. *)
Definition advancedSubmit (s : AdvancedSearch) : AdvancedSearch * JsObj := (s, as_filters s).

(** [clearFilters]: [setFilters({})] and [onSearch({})]. *)
Definition clearFilters (s : AdvancedSearch) : AdvancedSearch * JsObj :=
  (mkAdvancedSearch (as_showFilters s) [], []).

(** What the form shows: the toggle's label, whether "Clear filters" is
    offered, and the values of the price and seats inputs
    ([filters.maxPrice || ''], [None] for the empty input). *)
Record AdvancedView := mkAdvancedView {
  av_toggleLabel : string;
  av_clearShown : bool;
  av_maxPrice : option Z;
  av_minSeats : option Z
}.

Definition num_or_empty (v : JsVal) : option Z :=
  match v with JNum z => if Z.eqb z 0 then None else Some z | _ => None end.

Definition advancedSearch_view (s : AdvancedSearch) : AdvancedView :=
  mkAdvancedView
    (if as_showFilters s then "Hide filters" else "Show more filters")
    (negb (Nat.eqb (length (object_keys (as_filters s))) 0))
    (num_or_empty (obj_get (as_filters s) "maxPrice"))
    (num_or_empty (obj_get (as_filters s) "availableSeats")).

(** ** [TripSearch], [TripFilters] and [TripSorting] *)

Record TripSearchForm := mkTripSearchForm {
  tsf_location : string;
  tsf_date : option Z
}.

Definition initialTripSearch : TripSearchForm := mkTripSearchForm "" None.

(** [handleSearch]: [{ location: location || undefined, date: date || undefined }]. *)
Definition tripSearchSubmit (s : TripSearchForm) : option string * option Z :=
  (if String.eqb (tsf_location s) "" then None else Some (tsf_location s), tsf_date s).

(** [onLocationChange(e.target.value || null)] *)
Definition tripFiltersLocation (value : string) : option string :=
  if String.eqb value "" then None else Some value.

(** The count line and whether the clear-date button is shown. *)
Definition tripFilters_view (selectedDate : option Z) (tripCount : nat) : string * bool :=
  (pretty tripCount +:+ (if Nat.eqb tripCount 1 then " trip" else " trips") +:+ " available",
   bool_decide (is_Some selectedDate)).

Inductive SortBy := byDate | byPrice.

(** The two buttons of [TripSorting]: which is highlighted. *)
Definition tripSorting_view (s : SortBy) : bool * bool :=
  (match s with byDate => true | byPrice => false end,
   match s with byPrice => true | byDate => false end).

(** ** [TripList] *)

Inductive TripListView :=
  | TLSpinner
  | TLError (msg : string)
  | TLEmpty
  | TLCards (ids : list string).

Definition tripList_view (trips : list Trip.t) (loading : bool) (error : option string) : TripListView :=
  if loading then TLSpinner else
  match error with
  | Some e => if String.eqb e "" then
                (match trips with [] => TLEmpty | _ => TLCards (map Trip.id trips) end)
              else TLError e
  | None => match trips with [] => TLEmpty | _ => TLCards (map Trip.id trips) end
  end.

(** ** [useParticipants] and [ParticipantsList] *)

Record ParticipantsState := mkParticipantsState {
  ps_users : list (string * Fields);
  ps_loading : bool;
  ps_error : option string
}.

(** The effect: one [getDoc] per participant, in parallel; [readOk]
    whether they all succeed ([Promise.all] rejects on the first
    failure).  Participants without a profile are dropped, the others
    keep their order. *)
Definition useParticipants (ids : list string) (readOk : bool) (db : UsersDb) : ParticipantsState :=
  match ids with
  | [] => mkParticipantsState [] false None
  | _ =>
      if readOk then
        mkParticipantsState (omap (fun id => (fun f => (id, f)) <$> db !! id) ids) false None
      else mkParticipantsState [] false (Some "Failed to load participants")
  end.

(** [user.displayName || fallback] on a stored profile. *)
Definition profile_name (f : Fields) (fallback : string) : string :=
  match f !! "displayName" with
  | Some (FStr n) => if String.eqb n "" then fallback else n
  | _ => fallback
  end.

(** [ParticipantsList]: [null] while loading, on error or with no
    profile; otherwise each participant's id and name. *)
Definition participantsList_view (s : ParticipantsState) : option (list (string * string)) :=
  if ps_loading s then None else
  match ps_error s with
  | Some _ => None
  | None => match ps_users s with
            | [] => None
            | l => Some (map (fun uf => (fst uf, profile_name (snd uf) "Anonyme")) l)
            end
  end.

(** ** Lemmas on objects *)

Lemma obj_get_set_eq (o : JsObj) (k : string) (v : JsVal) : obj_get (obj_set o k v) k = v.
Proof.
  unfold obj_get. induction o as [| [k' v'] o IH]; simpl.
  - by rewrite String.eqb_refl.
  - destruct (String.eqb_spec k' k); simpl.
    + by rewrite String.eqb_refl.
    + rewrite (proj2 (String.eqb_neq k' k)) by done. exact IH.
Qed.

Lemma object_keys_set_nonempty (o : JsObj) (k : string) (v : JsVal) :
  object_keys (obj_set o k v) <> [].
Proof. destruct o as [| [k' v'] o]; simpl; [| destruct (String.eqb k' k)]; discriminate. Qed.

(** ** Filter edits *)

Inductive FilterAction :=
  | APickup (value : string)
  | ADropoff (value : string)
  | ADate (d : option Z)
  | APrice (input : option Z)
  | ASeats (value : string)
  | AToggle.

Definition apply_filter_action (a : FilterAction) : AdvancedSearch -> AdvancedSearch :=
  match a with
  | APickup v => selectPickupFilter v
  | ADropoff v => selectDropoffFilter v
  | ADate d => pickDateFilter d
  | APrice p => setMaxPrice p
  | ASeats v => setMinSeats v
  | AToggle => toggleFilters
  end.

Definition run_filter_actions (acts : list FilterAction) (s : AdvancedSearch) : AdvancedSearch :=
  fold_left (fun s a => apply_filter_action a s) acts s.

Definition is_edit (a : FilterAction) : bool := match a with AToggle => false | _ => true end.

Lemma run_filter_keys_nonempty (acts : list FilterAction) (s : AdvancedSearch) :
  object_keys (as_filters s) <> [] -> object_keys (as_filters (run_filter_actions acts s)) <> [].
Proof.
  revert s. induction acts as [| a acts IH]; intros s Hs; simpl; [done |].
  apply IH. destruct a; simpl; try apply object_keys_set_nonempty. done.
Qed.

Lemma run_filter_edit_nonempty (acts : list FilterAction) (s : AdvancedSearch) :
  existsb is_edit acts = true -> object_keys (as_filters (run_filter_actions acts s)) <> [].
Proof.
  revert s. induction acts as [| a acts IH]; intros s He; simpl in *; [done |].
  destruct a; simpl in He |- *; try (apply run_filter_keys_nonempty, object_keys_set_nonempty).
  by apply IH.
Qed.

Lemma participants_view_omap (ids : list string) (db : UsersDb) :
  ids <> [] ->
  participantsList_view (useParticipants ids true db) =
  match omap (fun id => (fun f => (id, f)) <$> db !! id) ids with
  | [] => None
  | l => Some (map (fun uf => (fst uf, profile_name (snd uf) "Anonyme")) l)
  end.
Proof. destruct ids; [done |]. intros _. reflexivity. Qed.

(** ** Theorems *)

(** (C: "Clear filters" stays once any filter was touched) [Object.keys]
    counts keys whose value is [undefined]: after any edit of a filter,
    also one that puts it back to "Any", the form offers "Clear filters"
    until it is clicked, even when no filter is set (choosing a pickup
    and then "Any location" leaves every filter unset and the button
    shown).  Clearing removes it. *)
Theorem clear_filters_shown (acts : list FilterAction) (v : string) (s : AdvancedSearch) :
  existsb is_edit acts = true ->
  av_clearShown (advancedSearch_view (run_filter_actions acts s)) = true /\
  (let s1 := selectPickupFilter "" (selectPickupFilter v initialAdvancedSearch) in
   (forall k, js_truthy (obj_get (as_filters s1) k) = false) /\
   av_clearShown (advancedSearch_view s1) = true) /\
  av_clearShown (advancedSearch_view (fst (clearFilters s))) = false.
Proof.
  intros He. split; [| split; [| done]].
  - unfold advancedSearch_view. simpl. apply negb_true_iff, Nat.eqb_neq.
    intros Hl. apply length_zero_iff_nil in Hl. by apply (run_filter_edit_nonempty acts s).
  - simpl. split; [| done].
    intros k. unfold obj_get. cbn -[String.eqb]. by destruct (String.eqb "pickup" k).
Qed.

(** (C: a participant is listed exactly when they have a profile)
    [ParticipantsList] shows the participants of a trip whose [users]
    document exists, in the trip's order and named by their display name
    (["Anonyme"] without one), and nothing when none exists; one failed
    read hides the whole list. *)
Theorem participants_listed (ids : list string) (db : UsersDb) :
  ids <> [] ->
  match participantsList_view (useParticipants ids true db) with
  | Some rows => forall id name, In (id, name) rows <->
      exists f, In id ids /\ db !! id = Some f /\ name = profile_name f "Anonyme"
  | None => forall id, In id ids -> db !! id = None
  end /\
  participantsList_view (useParticipants ids false db) = None.
Proof.
  intros Hne. split; [| by destruct ids].
  rewrite participants_view_omap by done.
  assert (Hom : forall uf, In uf (omap (fun id => (fun f => (id, f)) <$> db !! id) ids) <->
                           In (fst uf) ids /\ db !! fst uf = Some (snd uf)).
  { intros [i f]. rewrite <- !list_elem_of_In, list_elem_of_omap. simpl. split.
    - intros (j & Hj & Hl). destruct (db !! j) eqn:E; simplify_eq/=. by split.
    - intros [Hi Hl]. exists i. split; [done |]. by rewrite Hl. }
  destruct (omap _ ids) as [| uf l] eqn:Eom.
  - intros id Hid. destruct (db !! id) as [f |] eqn:E; [| done].
    exfalso. apply (proj2 (Hom (id, f))). by split.
  - intros id name. rewrite in_map_iff. split.
    + intros ([i f] & [= <- <-] & Hin). apply Hom in Hin as [Hi Hf]. eauto.
    + intros (f & Hi & Hf & ->). exists (id, f). split; [done |]. by apply Hom.
Qed.

(** A maximum price of 0 is kept in the filters and sent with the search,
    but the input shows it as empty. *)
Example max_price_zero_hidden :
  obj_get (as_filters (setMaxPrice (Some 0%Z) initialAdvancedSearch)) "maxPrice" = JNum 0 /\
  av_maxPrice (advancedSearch_view (setMaxPrice (Some 0%Z) initialAdvancedSearch)) = None.
Proof. split; reflexivity. Qed.

(** ** Witnesses *)

Lemma clear_filters_shown_witness :
  existsb is_edit [APickup "cdg"; APickup ""] = true /\
  av_clearShown (advancedSearch_view (run_filter_actions [APickup "cdg"; APickup ""] initialAdvancedSearch)) = true /\
  (let s1 := selectPickupFilter "" (selectPickupFilter "cdg" initialAdvancedSearch) in
   (forall k, js_truthy (obj_get (as_filters s1) k) = false) /\
   av_clearShown (advancedSearch_view s1) = true) /\
  av_clearShown (advancedSearch_view (fst (clearFilters initialAdvancedSearch))) = false.
Proof.
  split; [reflexivity |].
  exact (clear_filters_shown [APickup "cdg"; APickup ""] "cdg" initialAdvancedSearch eq_refl).
Defined.

Definition sample_profiles : UsersDb := {[ "alice" := {[ "displayName" := FStr "Alice" ]} ]}.

Lemma participants_listed_witness :
  ["alice"; "system"] <> [] /\
  match participantsList_view (useParticipants ["alice"; "system"] true sample_profiles) with
  | Some rows => forall id name, In (id, name) rows <->
      exists f, In id ["alice"; "system"] /\ sample_profiles !! id = Some f /\ name = profile_name f "Anonyme"
  | None => forall id, In id ["alice"; "system"] -> sample_profiles !! id = None
  end /\
  participantsList_view (useParticipants ["alice"; "system"] false sample_profiles) = None.
Proof. split; [discriminate | apply participants_listed; discriminate]. Defined.
