(* ===== verification/Admin.v ===== *)
(** * The admin bootstrap

    [pages/AdminPage.tsx] reads the [admin/system] document once and
    shows [components/admin/CreateAdminButton.tsx] when it is missing,
    [components/admin/DatabaseInitializer.tsx] when it exists.  The
    first creates the admin account and writes [users/uid] and
    [admin/system]; the second calls [utils/initializeFirestore.ts],
    which writes the same two documents and then seeds [stations] and
    one trip in a batch.  [utils/initializeCollections.ts] (behind
    [components/admin/InitializeButton.tsx]), [utils/initializeAdmin.ts]
    and [utils/createAdmin.ts] are never called from a mounted
    component but are modelled too.

    The handlers are [async] functions that write, raise toasts and
    throw.  They are written in a small monad [M]: a state of the store
    and of the provider's accounts, a list of toasts, and a result
    whose [Err] is a thrown error code.  A write that fails throws and
    leaves the earlier writes in place, as the store does.  Every answer
    of the services (the code of a failed read or write, the uid the
    provider assigns, the ids [doc()] allocates, the clocks) is a field
    of [Answers]. *)

From S2P Require Import Prelude Stations Fare Validation Trip Auth.

(** ** Documents and the store *)

(** The [admin/system] document. *)
Record SystemDoc := mkSystemDoc {
  sys_initialized : bool;
  sys_lastInitializedBy : string;
  sys_lastInitializedAt : Z;
  sys_version : string;
  sys_superAdminId : string
}.

(** A [stations] document: [{ ...station, isActive, capacity?,
    operatingHours?, createdAt, updatedAt }]. *)
Record StationDoc := mkStationDoc {
  sd_station : Station.t;
  sd_isActive : bool;
  sd_capacity : option Z;
  sd_operatingHours : option (string * string);
  sd_createdAt : Z;
  sd_updatedAt : Z
}.

(** A [messages] document of the seed. *)
Record MessageDoc := mkMessageDoc {
  md_tripId : string;
  md_senderId : string;
  md_content : string;
  md_timestamp : Z;
  md_read : bool
}.

(** The collections the bootstrap writes, and the provider's
    e-mail/password accounts (e-mail to uid). *)
Record AdminWorld := mkAdminWorld {
  aw_accounts : gmap string string;
  aw_users : UsersDb;
  aw_system : option SystemDoc;
  aw_stations : gmap string StationDoc;
  aw_trips : gmap string Trip.t;
  aw_messages : gmap string MessageDoc
}.

Definition emptyWorld : AdminWorld := mkAdminWorld ∅ ∅ None ∅ ∅ ∅.

Definition set_accounts (w : AdminWorld) (a : gmap string string) : AdminWorld :=
  mkAdminWorld a (aw_users w) (aw_system w) (aw_stations w) (aw_trips w) (aw_messages w).
Definition set_users (w : AdminWorld) (u : UsersDb) : AdminWorld :=
  mkAdminWorld (aw_accounts w) u (aw_system w) (aw_stations w) (aw_trips w) (aw_messages w).
Definition set_system (w : AdminWorld) (s : option SystemDoc) : AdminWorld :=
  mkAdminWorld (aw_accounts w) (aw_users w) s (aw_stations w) (aw_trips w) (aw_messages w).

(** What the services answer during one handler run. *)
Record Answers := mkAnswers {
  ans_read : option string;    (** [getDoc(admin/system)]: [None] on success, else its error code *)
  ans_create : option string;  (** [createUserWithEmailAndPassword]: a refusal other than an e-mail in use *)
  ans_users : option string;   (** [setDoc(users/uid)] *)
  ans_system : option string;  (** [setDoc(admin/system)] *)
  ans_batch : option string;   (** [batch.commit()] *)
  ans_uid : string;            (** the uid of a new account *)
  ans_tripId : string;         (** [doc(collection(db, 'trips'))] *)
  ans_msgId : string;          (** [doc(collection(db, 'messages'))] *)
  ans_now : Z;                 (** [new Date()] *)
  ans_srv : Z                  (** [serverTimestamp()] as resolved by the store *)
}.

(** ** The handler monad *)

Definition M (A : Type) : Type := AdminWorld -> AdminWorld * list Toast * result A string.

Definition ret {A} (a : A) : M A := fun w => (w, [], Ok a).

Definition throw {A} (code : string) : M A := fun w => (w, [], Err code).

Definition bind {A B} (m : M A) (k : A -> M B) : M B := fun w =>
  match m w with
  | (w1, ts1, Ok a) => let '(w2, ts2, r) := k a w1 in (w2, ts1 ++ ts2, r)
  | (w1, ts1, Err e) => (w1, ts1, Err e)
  end.

(** [try { m } catch (error) { h(error.code) }] *)
Definition try_catch {A} (m : M A) (h : string -> M A) : M A := fun w =>
  match m w with
  | (w1, ts1, Err e) => let '(w2, ts2, r) := h e w1 in (w2, ts1 ++ ts2, r)
  | res => res
  end.

Definition toast (t : Toast) : M unit := fun w => (w, [t], Ok tt).

(** A write: applied when the store accepts it, thrown otherwise. *)
Definition write (ans : option string) (f : AdminWorld -> AdminWorld) : M unit := fun w =>
  match ans with
  | None => (f w, [], Ok tt)
  | Some code => (w, [], Err code)
  end.

Declare Scope admin_scope.
Delimit Scope admin_scope with admin.

Notation "'let!' x ':=' m 'in' k" := (bind m (fun x => k))
  (at level 10, x name, m at level 100, k at level 200) : admin_scope.
Notation "m ;; k" := (bind m (fun _ => k))
  (at level 100, right associativity) : admin_scope.

Open Scope admin_scope.

(** ** Writes of the bootstrap *)

Definition ADMIN_EMAIL : string := "admin@cotaxiage.com".

(** The admin's [users] document ([displayName] is ["Administrator"],
    or ["Super Admin"] in [initializeAdmin]). *)
Definition admin_profile (displayName : string) (srv : Z) : Fields :=
  list_to_map [("email", FStr ADMIN_EMAIL); ("displayName", FStr displayName);
               ("isAdmin", FBool true); ("isSuperAdmin", FBool true);
               ("createdAt", FTime srv); ("lastLoginAt", FTime srv);
               ("settings", FSettings false true true)].

Definition system_doc (uid : string) (srv : Z) : SystemDoc :=
  mkSystemDoc true uid srv "1.0.0" uid.

(** [createUserWithEmailAndPassword(auth, email, password)]: a new
    account with the provider's uid, unless the e-mail is taken or the
    provider refuses. *)
Definition createUserWithEmailAndPassword (a : Answers) (email : string) : M string := fun w =>
  match ans_create a with
  | Some code => (w, [], Err code)
  | None =>
      match aw_accounts w !! email with
      | Some _ => (w, [], Err "auth/email-already-in-use")
      | None => (set_accounts w (<[email := ans_uid a]> (aw_accounts w)), [], Ok (ans_uid a))
      end
  end.

(** [getDoc(doc(db, 'admin', 'system'))] followed by [.exists()]. *)
Definition systemExists (a : Answers) : M bool := fun w =>
  match ans_read a with
  | Some code => (w, [], Err code)
  | None => (w, [], Ok (bool_decide (is_Some (aw_system w))))
  end.

(** One [batch.set] of a [writeBatch]. *)
Inductive BatchWrite :=
  | BStation (id : string) (d : StationDoc)
  | BTrip (id : string) (t : Trip.t)
  | BMessage (id : string) (m : MessageDoc).

Definition apply_batch_write (w : AdminWorld) (bw : BatchWrite) : AdminWorld :=
  match bw with
  | BStation k d =>
      mkAdminWorld (aw_accounts w) (aw_users w) (aw_system w) (<[k := d]> (aw_stations w))
                   (aw_trips w) (aw_messages w)
  | BTrip k t =>
      mkAdminWorld (aw_accounts w) (aw_users w) (aw_system w) (aw_stations w)
                   (<[k := t]> (aw_trips w)) (aw_messages w)
  | BMessage k m =>
      mkAdminWorld (aw_accounts w) (aw_users w) (aw_system w) (aw_stations w)
                   (aw_trips w) (<[k := m]> (aw_messages w))
  end.

(** [batch.commit()]: all the writes, in order, or none. *)
Definition batch_commit (ans : option string) (ws : list BatchWrite) : M unit :=
  write ans (fun w => foldl apply_batch_write w ws).

(** [ALL_STATIONS[0].location], read as a [Location]: it has [lat] and
    [lng] but no [address], which the views print as nothing. *)
Definition coordAsLocation (c : Station.Coord) : Location.t :=
  Location.mk (Some (Station.lat c)) (Some (Station.lng c)) "" None None.

(** The batch of [initializeFirestore]: every catalog station, then a
    trip from [ALL_STATIONS[0]] to [ALL_STATIONS[1]] (the station
    objects themselves) for tomorrow, created by the admin.  The seed
    writes no [availableSeats], which no code reads back; it is read as
    [0] here.  The catalog has more than two entries, so the last branch
    is not taken. *)
Definition firestore_seed (uid : string) (a : Answers) : list BatchWrite :=
  map (fun s => BStation (Station.id s) (mkStationDoc s true None None (ans_srv a) (ans_srv a)))
      ALL_STATIONS ++
  match ALL_STATIONS with
  | s0 :: s1 :: _ =>
      [BTrip (ans_tripId a)
         (Trip.mk (ans_tripId a) uid [uid] (stationAsLocation s0) (stationAsLocation s1)
                  (ans_now a + 86400000) 4 1 0 open 50 None (ans_srv a) (ans_srv a))]
  | _ => []
  end.

(** The batch of [initializeCollections]: every station with a
    capacity and opening hours, a trip created by ["system"] with no
    participant, and a welcome message on it. *)
Definition collections_seed (a : Answers) : list BatchWrite :=
  map (fun s => BStation (Station.id s)
                  (mkStationDoc s true
                     (Some (if bool_decide (Station.type s = Station.taxi) then 5 else 10))
                     (Some ("00:00", "23:59")) (ans_now a) (ans_now a)))
      ALL_STATIONS ++
  match ALL_STATIONS with
  | s0 :: s1 :: _ =>
      [BTrip (ans_tripId a)
         (Trip.mk (ans_tripId a) "system" [] (coordAsLocation (Station.location s0))
                  (coordAsLocation (Station.location s1)) (ans_now a) 4 0 0 open 50 (Some 25)
                  (ans_now a) (ans_now a));
       BMessage (ans_msgId a)
         (mkMessageDoc (ans_tripId a) "system" "Welcome to CoTaxiage!" (ans_now a) false)]
  | _ => []
  end.

(** ** [utils/initializeFirestore.ts] and [DatabaseInitializer] *)

Definition init_error_message (code : string) : string :=
  if String.eqb code "permission-denied" then "You do not have permission to initialize the database"
  else "Failed to initialize database".

(** [initializeFirestore(uid)]: two awaited writes, then the batch; on
    an error it raises a toast and rethrows. *)
Definition initializeFirestore (uid : string) (a : Answers) : M bool :=
  try_catch
    (write (ans_users a)
       (fun w => set_users w (setDoc_merge (aw_users w) uid (admin_profile "Administrator" (ans_srv a)))) ;;
     write (ans_system a) (fun w => set_system w (Some (system_doc uid (ans_srv a)))) ;;
     batch_commit (ans_batch a) (firestore_seed uid a) ;;
     toast (ToastSuccess "Database initialized successfully") ;;
     ret true)
    (fun code => toast (ToastError (init_error_message code)) ;; throw code).

(** [user?.email?.endsWith('@cotaxiage.com')] *)
Definition isAdminUser (user : option User) : bool :=
  match user ≫= email with
  | Some e => Js.endsWith e "@cotaxiage.com"
  | None => false
  end.

(** [DatabaseInitializer.handleInitialize]: [confirmed] is the answer to
    [confirm(...)]; the result is whether the page reloads. *)
Definition handleInitialize (user : option User) (confirmed : bool) (a : Answers) : M bool :=
  match user with
  | Some usr =>
      if isAdminUser user then
        if confirmed then
          try_catch
            (let! initialized := systemExists a in
             if initialized then toast (ToastError "Database is already initialized") ;; ret false
             else initializeFirestore (uid usr) a ;; ret true)
            (fun code => toast (ToastError (init_error_message code)) ;; ret false)
        else ret false
      else toast (ToastError "Only administrators can initialize the database") ;; ret false
  | None => toast (ToastError "Only administrators can initialize the database") ;; ret false
  end.

(** ** [CreateAdminButton] *)

Definition create_admin_error_message (code : string) : string :=
  if String.eqb code "auth/email-already-in-use" then "Admin account already exists"
  else "Failed to create admin account. Please try again.".

(** [handleCreateAdmin]: the account, then [users/uid] (no merge), then
    [admin/system]; the result is whether the page reloads. *)
Definition handleCreateAdmin (confirmed : bool) (a : Answers) : M bool :=
  if negb confirmed then ret false else
  try_catch
    (let! uid := createUserWithEmailAndPassword a ADMIN_EMAIL in
     write (ans_users a)
       (fun w => set_users w (setDoc (aw_users w) uid (admin_profile "Administrator" (ans_srv a)))) ;;
     write (ans_system a) (fun w => set_system w (Some (system_doc uid (ans_srv a)))) ;;
     toast (ToastSuccess "Admin configuration completed successfully!") ;;
     ret true)
    (fun code => toast (ToastError (create_admin_error_message code)) ;; ret false).

(** ** [AdminPage] *)

Record AdminPageState := mkAdminPageState {
  ap_initialized : bool;
  ap_loading : bool
}.

Definition initialAdminPage : AdminPageState := mkAdminPageState false true.

(** [checkInitialization]: a failed read leaves [initialized] false. *)
Definition checkInitialization (a : Answers) : M AdminPageState :=
  try_catch
    (let! initialized := systemExists a in ret (mkAdminPageState initialized false))
    (fun _ => toast (ToastError "Failed to check system status") ;;
              ret (mkAdminPageState false false)).

Inductive AdminPageView := APSpinner | APCreateAdmin | APDashboard.

Definition adminPage_view (s : AdminPageState) : AdminPageView :=
  if ap_loading s then APSpinner
  else if ap_initialized s then APDashboard else APCreateAdmin.

(** ** Helpers never called from a mounted component *)

(** [initializeAdmin(uid)]: an e-mail already in use is ignored; the
    profile is merged. *)
Definition initializeAdmin (uid : string) (a : Answers) : M bool :=
  try_catch
    (try_catch
       (let! _ := createUserWithEmailAndPassword a ADMIN_EMAIL in
        toast (ToastSuccess "Admin account created successfully"))
       (fun code => if String.eqb code "auth/email-already-in-use" then ret tt else throw code) ;;
     write (ans_users a)
       (fun w => set_users w (setDoc_merge (aw_users w) uid (admin_profile "Super Admin" (ans_srv a)))) ;;
     write (ans_system a) (fun w => set_system w (Some (system_doc uid (ans_srv a)))) ;;
     ret true)
    (fun code => toast (ToastError "Failed to initialize admin account") ;; throw code).

(** [createAdminAccount()]: its own refusal is an [Error] whose message
    stands for the code here; its [catch] only logs and rethrows. *)
Definition createAdminAccount (a : Answers) : M string :=
  let! initialized := systemExists a in
  if initialized then throw "Admin account already exists" else
  let! uid := createUserWithEmailAndPassword a ADMIN_EMAIL in
  write (ans_users a)
    (fun w => set_users w (setDoc (aw_users w) uid (admin_profile "Administrator" (ans_srv a)))) ;;
  write (ans_system a) (fun w => set_system w (Some (system_doc uid (ans_srv a)))) ;;
  ret uid.

(** [initializeCollections()]: one batch; its [catch] logs and rethrows. *)
Definition initializeCollections (a : Answers) : M unit :=
  batch_commit (ans_batch a) (collections_seed a).

(** [InitializeButton.handleInitialize] *)
Definition initializeButton_handleInitialize (a : Answers) : M unit :=
  try_catch
    (initializeCollections a ;; toast (ToastSuccess "Firebase collections initialized successfully"))
    (fun _ => toast (ToastError "Failed to initialize collections")).

(** ** Runs of a handler *)

Definition run_world {A} (m : M A) (w : AdminWorld) : AdminWorld := fst (fst (m w)).
Definition run_result {A} (m : M A) (w : AdminWorld) : result A string := snd (m w).

(** The page's state once [checkInitialization] has settled. *)
Definition loadAdminPage (a : Answers) (w : AdminWorld) : AdminPageState :=
  match run_result (checkInitialization a) w with
  | Ok s => s
  | Err _ => initialAdminPage
  end.

(** Every handler and helper of the bootstrap, run to its end on any
    answers of the services, in any order. *)
Inductive admin_step : AdminWorld -> AdminWorld -> Prop :=
  | as_createAdmin confirmed a w : admin_step w (run_world (handleCreateAdmin confirmed a) w)
  | as_initialize user confirmed a w : admin_step w (run_world (handleInitialize user confirmed a) w)
  | as_initializeFirestore uid a w : admin_step w (run_world (initializeFirestore uid a) w)
  | as_initializeAdmin uid a w : admin_step w (run_world (initializeAdmin uid a) w)
  | as_createAdminAccount a w : admin_step w (run_world (createAdminAccount a) w)
  | as_initializeCollections a w : admin_step w (run_world (initializeButton_handleInitialize a) w).

(** What the mounted page lets a user do: load [/admin], then click the
    one button it shows. *)
Inductive admin_ui_step : AdminWorld -> AdminWorld -> Prop :=
  | ui_createAdmin a0 confirmed a w :
      adminPage_view (loadAdminPage a0 w) = APCreateAdmin ->
      admin_ui_step w (run_world (handleCreateAdmin confirmed a) w)
  | ui_initialize a0 user confirmed a w :
      adminPage_view (loadAdminPage a0 w) = APDashboard ->
      admin_ui_step w (run_world (handleInitialize user confirmed a) w).

(** ** Invariants of handlers

    [preserves P m]: a run of [m] from a state satisfying [P] ends in
    one that satisfies it, whether it returns or throws. *)

Definition preserves (P : AdminWorld -> Prop) {A} (m : M A) : Prop :=
  forall w, P w -> P (run_world m w).

Section Preserves.
Context (P : AdminWorld -> Prop).

Lemma preserves_ret {A} (x : A) : preserves P (ret x).
Proof. by intros w. Qed.

Lemma preserves_throw {A} (code : string) : preserves P (@throw A code).
Proof. by intros w. Qed.

Lemma preserves_toast (t : Toast) : preserves P (toast t).
Proof. by intros w. Qed.

Lemma preserves_bind {A B} (m : M A) (k : A -> M B) :
  preserves P m -> (forall x, preserves P (k x)) -> preserves P (bind m k).
Proof.
  intros Hm Hk w Hw. specialize (Hm w Hw). unfold run_world, bind in *.
  destruct (m w) as [[w1 ts1] [x | e]]; [| done].
  specialize (Hk x w1 Hm). unfold run_world in Hk. by destruct (k x w1) as [[? ?] ?].
Qed.

Lemma preserves_try_catch {A} (m : M A) (h : string -> M A) :
  preserves P m -> (forall e, preserves P (h e)) -> preserves P (try_catch m h).
Proof.
  intros Hm Hh w Hw. specialize (Hm w Hw). unfold run_world, try_catch in *.
  destruct (m w) as [[w1 ts1] [x | e]]; [done |].
  specialize (Hh e w1 Hm). unfold run_world in Hh. by destruct (h e w1) as [[? ?] ?].
Qed.

Lemma preserves_write (ans : option string) (f : AdminWorld -> AdminWorld) :
  (forall w, P w -> P (f w)) -> preserves P (write ans f).
Proof. intros Hf w Hw. unfold run_world, write. destruct ans; simpl; auto. Qed.

Lemma preserves_systemExists (a : Answers) : preserves P (systemExists a).
Proof. intros w. unfold run_world, systemExists. by destruct (ans_read a). Qed.

Lemma preserves_createUser (a : Answers) (email : string) :
  (forall w acc, P w -> P (set_accounts w acc)) -> preserves P (createUserWithEmailAndPassword a email).
Proof.
  intros Hacc w Hw. unfold run_world, createUserWithEmailAndPassword.
  destruct (ans_create a); [done |]. destruct (aw_accounts w !! email); simpl; auto.
Qed.

End Preserves.

Create HintDb admin.
#[export] Hint Resolve preserves_ret preserves_throw preserves_toast preserves_systemExists : admin.

(** Splits a handler into its primitive steps; what is left are the
    effects of its writes on [P]. *)
Ltac preserves_tac :=
  repeat first
    [ progress intros
    | progress cbv beta
    | apply preserves_bind
    | apply preserves_try_catch
    | apply preserves_write
    | apply preserves_createUser
    | match goal with
      | |- preserves _ (if ?b then _ else _) => destruct b
      | |- preserves _ (match ?x with _ => _ end) => destruct x
      end
    | solve [eauto with admin] ].

(** ** The [admin/system] document is never removed *)

Definition system_set (w : AdminWorld) : Prop := is_Some (aw_system w).

Lemma batch_system (w : AdminWorld) (ws : list BatchWrite) :
  aw_system (foldl apply_batch_write w ws) = aw_system w.
Proof. revert w. induction ws as [| [] ws IH]; intros w; simpl; rewrite ?IH; done. Qed.

Lemma admin_step_system (w w' : AdminWorld) : admin_step w w' -> system_set w -> system_set w'.
Proof.
  destruct 1; revert w;
    match goal with |- forall w, _ -> _ (run_world ?m w) => change (preserves system_set m) end;
    unfold handleCreateAdmin, handleInitialize, initializeFirestore, initializeAdmin,
      createAdminAccount, initializeButton_handleInitialize, initializeCollections, batch_commit;
    preserves_tac; unfold system_set in *; simpl; rewrite ?batch_system; eauto.
Qed.

(** The dashboard is shown only when the read found [admin/system]. *)
Lemma adminPage_dashboard (a : Answers) (w : AdminWorld) :
  adminPage_view (loadAdminPage a w) = APDashboard -> system_set w.
Proof.
  unfold loadAdminPage, checkInitialization, run_result, try_catch, bind, systemExists.
  destruct (ans_read a); simpl; [discriminate |].
  case_bool_decide; simpl; [done | discriminate].
Qed.

(** On an initialised store [handleInitialize] writes nothing and does
    not reload, on every branch. *)
Lemma handleInitialize_initialized (user : option User) (confirmed : bool) (a : Answers)
    (w : AdminWorld) :
  system_set w ->
  run_world (handleInitialize user confirmed a) w = w /\
  run_result (handleInitialize user confirmed a) w = Ok false.
Proof.
  intros Hs. unfold handleInitialize, run_world, run_result.
  destruct user as [usr |]; [| done]. destruct (isAdminUser _), confirmed; try done.
  unfold try_catch, bind, systemExists. destruct (ans_read a); [done |].
  by rewrite bool_decide_eq_true_2.
Qed.

(** The admin account exists but [admin/system] does not: what a
    [handleCreateAdmin] whose system write failed leaves behind. *)
Definition setup_stuck (w : AdminWorld) : Prop :=
  is_Some (aw_accounts w !! ADMIN_EMAIL) /\ aw_system w = None.

(** Once the e-mail is taken, [handleCreateAdmin] fails at
    [createUserWithEmailAndPassword] and writes nothing. *)
Lemma handleCreateAdmin_taken (confirmed : bool) (a : Answers) (w : AdminWorld) :
  is_Some (aw_accounts w !! ADMIN_EMAIL) ->
  run_world (handleCreateAdmin confirmed a) w = w.
Proof.
  intros [u Hu]. unfold handleCreateAdmin, run_world. destruct confirmed; [| done]. simpl.
  unfold try_catch, bind, createUserWithEmailAndPassword. destruct (ans_create a); [done |].
  by rewrite Hu.
Qed.

Lemma admin_ui_step_stuck (w w' : AdminWorld) :
  setup_stuck w -> admin_ui_step w w' -> w' = w.
Proof.
  intros [Hacc Hsys] Hstep. destruct Hstep as [a0 confirmed a w _ | a0 user confirmed a w Hv].
  - by apply handleCreateAdmin_taken.
  - apply adminPage_dashboard in Hv. unfold system_set in Hv. rewrite Hsys in Hv.
    by destruct Hv.
Qed.

(** ** What a committed batch stores *)

Definition trips_write (m : gmap string Trip.t) (bw : BatchWrite) : gmap string Trip.t :=
  match bw with BTrip k t => <[k := t]> m | _ => m end.

Definition stations_write (m : gmap string StationDoc) (bw : BatchWrite) : gmap string StationDoc :=
  match bw with BStation k d => <[k := d]> m | _ => m end.

Lemma batch_trips (w : AdminWorld) (ws : list BatchWrite) :
  aw_trips (foldl apply_batch_write w ws) = foldl trips_write (aw_trips w) ws.
Proof. revert w. induction ws as [| [] ws IH]; intros w; simpl; rewrite ?IH; done. Qed.

Lemma batch_stations (w : AdminWorld) (ws : list BatchWrite) :
  aw_stations (foldl apply_batch_write w ws) = foldl stations_write (aw_stations w) ws.
Proof. revert w. induction ws as [| [] ws IH]; intros w; simpl; rewrite ?IH; done. Qed.

Lemma trips_write_stations (m : gmap string Trip.t) (l : list Station.t)
    (g : Station.t -> StationDoc) :
  foldl trips_write m (map (fun s => BStation (Station.id s) (g s)) l) = m.
Proof. revert m. induction l; intros m; simpl; auto. Qed.

(** Setting each station of a list under its id, then looking one up,
    finds the first station with that id; with distinct ids it is the
    only one. *)
Lemma stations_write_find (m : gmap string StationDoc) (l : list Station.t)
    (g : Station.t -> StationDoc) (sid : string) :
  NoDup (map Station.id l) ->
  foldl stations_write m (map (fun s => BStation (Station.id s) (g s)) l) !! sid =
  match List.find (fun s => String.eqb (Station.id s) sid) l with
  | Some s => Some (g s)
  | None => m !! sid
  end.
Proof.
  revert m. induction l as [| s l IH]; intros m Hnd; [done |]. simpl.
  apply NoDup_cons in Hnd as [Hs Hnd]. rewrite IH by done.
  destruct (String.eqb_spec (Station.id s) sid) as [<- |].
  - destruct (List.find _ l) as [s' |] eqn:E; [| by rewrite lookup_insert_eq].
    apply find_some in E as [Hin E%String.eqb_eq]. destruct Hs.
    apply list_elem_of_In, in_map_iff. eauto.
  - destruct (List.find _ l); [done |]. by rewrite lookup_insert_ne.
Qed.

(** The writes of a successful [initializeFirestore]. *)
Lemma initializeFirestore_ok (uid : string) (a : Answers) (w : AdminWorld) :
  ans_users a = None -> ans_system a = None -> ans_batch a = None ->
  run_world (initializeFirestore uid a) w =
    foldl apply_batch_write
      (set_system (set_users w (setDoc_merge (aw_users w) uid (admin_profile "Administrator" (ans_srv a))))
                  (Some (system_doc uid (ans_srv a))))
      (firestore_seed uid a) /\
  run_result (initializeFirestore uid a) w = Ok true.
Proof.
  intros Hu Hs Hb. unfold run_world, run_result, initializeFirestore, try_catch, bind, write,
    batch_commit. rewrite Hu, Hs, Hb. done.
Qed.

(** ** Theorems *)

(** (C35: the database initializer never initializes) [AdminPage] shows
    [DatabaseInitializer] only when it has read [admin/system], no
    handler ever removes that document, and [handleInitialize] refuses
    whenever it exists: after any sequence of bootstrap handlers, on any
    answers, clicking "Initialize Database" writes nothing and does not
    reload, so [initializeFirestore] never runs from the page. *)
Theorem initializer_never_runs (a0 : Answers) (w0 w : AdminWorld) (user : option User)
    (confirmed : bool) (a : Answers) :
  adminPage_view (loadAdminPage a0 w0) = APDashboard ->
  rtc admin_step w0 w ->
  run_world (handleInitialize user confirmed a) w = w /\
  run_result (handleInitialize user confirmed a) w = Ok false.
Proof.
  intros Hv Hr. apply handleInitialize_initialized.
  eapply (rtc_preserves _ _ admin_step_system); [exact Hr |]. by eapply adminPage_dashboard.
Qed.

(** (C38: a failed system write blocks the admin setup for good) Once the
    admin account exists without [admin/system] (as a [handleCreateAdmin]
    whose second write failed leaves it), every load of [/admin] shows
    "Set Up Admin Account" again and every click fails with "Admin
    account already exists": no sequence of page actions changes the
    store. *)
Theorem admin_setup_stuck (w w' : AdminWorld) :
  setup_stuck w -> rtc admin_ui_step w w' -> w' = w.
Proof.
  intros Hs Hr. induction Hr as [| x y z Hxy _ IH]; [done |].
  assert (y = x) as -> by by eapply admin_ui_step_stuck. auto.
Qed.

(** (C: the seeded stations are the catalog) A successful
    [initializeFirestore] stores every catalog station under its id, so
    that reading [stations/sid] gives back [find_station sid] with the
    seed's fields; other documents are untouched.  It also writes
    [admin/system] and reports success. *)
Theorem initializeFirestore_stations (uid : string) (a : Answers) (w : AdminWorld) (sid : string) :
  ans_users a = None -> ans_system a = None -> ans_batch a = None ->
  aw_stations (run_world (initializeFirestore uid a) w) !! sid =
    match find_station sid with
    | Some s => Some (mkStationDoc s true None None (ans_srv a) (ans_srv a))
    | None => aw_stations w !! sid
    end /\
  aw_system (run_world (initializeFirestore uid a) w) = Some (system_doc uid (ans_srv a)) /\
  run_result (initializeFirestore uid a) w = Ok true.
Proof.
  intros Hu Hs Hb. destruct (initializeFirestore_ok uid a w Hu Hs Hb) as [-> ->].
  rewrite batch_stations, batch_system. unfold firestore_seed.
  rewrite foldl_app. split; [| done].
  assert (Hrest : forall m, foldl stations_write m
     (match ALL_STATIONS with
      | s0 :: s1 :: _ => [BTrip (ans_tripId a) (Trip.mk (ans_tripId a) uid [uid]
          (stationAsLocation s0) (stationAsLocation s1) (ans_now a + 86400000) 4 1 0 open 50
          None (ans_srv a) (ans_srv a))]
      | _ => [] end) = m) by done.
  rewrite Hrest, stations_write_find by apply ALL_STATIONS_ids_NoDup. done.
Qed.

(** (C: the admin's seed trip is not a bookable route) The trip a
    successful [initializeFirestore] seeds is consistent (the admin is
    its only passenger) but runs from Gare de Lyon to Gare d'Austerlitz,
    a route [validateRoute] rejects, and is stored at a fare of 50 where
    [calculateFare] gives 0. *)
Theorem seeded_trip_mispriced (uid : string) (a : Answers) (w : AdminWorld) :
  ans_users a = None -> ans_system a = None -> ans_batch a = None ->
  exists t, aw_trips (run_world (initializeFirestore uid a) w) !! ans_tripId a = Some t /\
    trip_inv t /\ Trip.fare t = 50 /\ calculateFare (Trip.pickup t) (Trip.dropoff t) = 0 /\
    exists p d, Location.id (Trip.pickup t) = Some p /\ Location.id (Trip.dropoff t) = Some d /\
      validateRoute p d = Err NotAirportRoute.
Proof.
  intros Hu Hs Hb. destruct (initializeFirestore_ok uid a w Hu Hs Hb) as [-> _].
  rewrite batch_trips. unfold firestore_seed. rewrite foldl_app, trips_write_stations.
  eexists. split; [simpl; apply lookup_insert_eq |].
  split; [| split; [done | split; [reflexivity | eauto]]].
  unfold trip_inv; simpl. repeat split; try lia; try by left.
  - apply NoDup_singleton.
  - intros; discriminate.
Qed.

(** (C: the collections seed trip breaks the trip invariant) The trip
    [InitializeButton] seeds is created by ["system"] with no
    participant, so it fails [trip_inv]; any other user can still join
    it, and the joined trip fails the invariant too (its creator is
    never among the participants). *)
Theorem collections_trip_breaks_inv (a : Answers) (w : AdminWorld) :
  ans_batch a = None ->
  exists t, aw_trips (run_world (initializeButton_handleInitialize a) w) !! ans_tripId a = Some t /\
    ~ trip_inv t /\
    forall u ts, u <> "system" ->
      joinTrip (Some u) true t = Ok (mkJoinUpdate u open) /\
      ~ trip_inv (applyJoinUpdate ts (mkJoinUpdate u open) t).
Proof.
  intros Hb. assert (run_world (initializeButton_handleInitialize a) w =
                     foldl apply_batch_write w (collections_seed a)) as ->.
  { unfold run_world, initializeButton_handleInitialize, try_catch, bind,
      initializeCollections, batch_commit, write. by rewrite Hb. }
  rewrite batch_trips. unfold collections_seed. rewrite foldl_app, trips_write_stations.
  eexists. split; [simpl; apply lookup_insert_eq |].
  split; [intros (_ & _ & [] & _) |].
  intros u ts Hu. split.
  - unfold joinTrip. cbn -[String.eqb]. by destruct (String.eqb_spec "system" u).
  - intros (_ & _ & Hin & _). simpl in Hin. destruct Hin as [Heq | []]. by apply Hu.
Qed.

(** The batch is refused. *)
Definition batch_refused_answers : Answers :=
  mkAnswers None None None None (Some "permission-denied") "admin-uid" "trip-1" "msg-1" 0 0.

Definition admin_user : option User := Some (mkUser "admin-uid" (Some "admin@cotaxiage.com") None None).

(** A refused batch inside [initializeFirestore] is reported twice: by
    its own [catch] and by [handleInitialize]'s; [admin/system] is
    already written and no station is. *)
Example initialize_batch_refused :
  snd (fst (handleInitialize admin_user true batch_refused_answers emptyWorld)) =
    [ToastError "You do not have permission to initialize the database";
     ToastError "You do not have permission to initialize the database"] /\
  system_set (run_world (handleInitialize admin_user true batch_refused_answers) emptyWorld) /\
  aw_stations (run_world (handleInitialize admin_user true batch_refused_answers) emptyWorld) = ∅.
Proof. split; [reflexivity | split; [eexists; reflexivity | reflexivity]]. Qed.

(** ** Witnesses *)

Definition ok_answers : Answers :=
  mkAnswers None None None None None "admin-uid" "trip-1" "msg-1" 1700000000000 1700000000000.

(** The system write is refused. *)
Definition denied_answers : Answers :=
  mkAnswers None None None (Some "permission-denied") None "admin-uid" "trip-1" "msg-1"
    1700000000000 1700000000000.

Definition admin_world : AdminWorld := run_world (handleCreateAdmin true ok_answers) emptyWorld.

Definition stuck_world : AdminWorld := run_world (handleCreateAdmin true denied_answers) emptyWorld.

Lemma initializer_never_runs_witness :
  adminPage_view (loadAdminPage ok_answers admin_world) = APDashboard /\
  rtc admin_step admin_world (run_world (initializeButton_handleInitialize ok_answers) admin_world) /\
  run_world (handleInitialize (Some (mkUser "admin-uid" (Some ADMIN_EMAIL) None None)) true ok_answers)
    (run_world (initializeButton_handleInitialize ok_answers) admin_world) =
    run_world (initializeButton_handleInitialize ok_answers) admin_world /\
  run_result (handleInitialize (Some (mkUser "admin-uid" (Some ADMIN_EMAIL) None None)) true ok_answers)
    (run_world (initializeButton_handleInitialize ok_answers) admin_world) = Ok false.
Proof.
  assert (Hv : adminPage_view (loadAdminPage ok_answers admin_world) = APDashboard)
    by reflexivity.
  assert (Hr : rtc admin_step admin_world
                 (run_world (initializeButton_handleInitialize ok_answers) admin_world))
    by apply rtc_once, as_initializeCollections.
  split; [exact Hv |]. split; [exact Hr |].
  exact (initializer_never_runs ok_answers admin_world _ _ true ok_answers Hv Hr).
Defined.

Lemma admin_setup_stuck_witness :
  rtc admin_ui_step emptyWorld stuck_world /\
  setup_stuck stuck_world /\
  rtc admin_ui_step stuck_world (run_world (handleCreateAdmin true ok_answers) stuck_world) /\
  run_world (handleCreateAdmin true ok_answers) stuck_world = stuck_world.
Proof.
  assert (Hs : setup_stuck stuck_world) by (split; [eexists |]; reflexivity).
  assert (Hr : rtc admin_ui_step stuck_world (run_world (handleCreateAdmin true ok_answers) stuck_world))
    by (apply rtc_once; apply (ui_createAdmin ok_answers); reflexivity).
  split; [apply rtc_once; apply (ui_createAdmin ok_answers); reflexivity |].
  split; [exact Hs |]. split; [exact Hr |].
  exact (admin_setup_stuck _ _ Hs Hr).
Defined.

Lemma initializeFirestore_stations_witness :
  ans_users ok_answers = None /\ ans_system ok_answers = None /\ ans_batch ok_answers = None /\
  aw_stations (run_world (initializeFirestore "admin-uid" ok_answers) admin_world) !! "cdg" =
    match find_station "cdg" with
    | Some s => Some (mkStationDoc s true None None (ans_srv ok_answers) (ans_srv ok_answers))
    | None => aw_stations admin_world !! "cdg"
    end /\
  aw_system (run_world (initializeFirestore "admin-uid" ok_answers) admin_world) =
    Some (system_doc "admin-uid" (ans_srv ok_answers)) /\
  run_result (initializeFirestore "admin-uid" ok_answers) admin_world = Ok true.
Proof.
  do 3 (split; [reflexivity |]).
  by apply initializeFirestore_stations.
Defined.

Lemma seeded_trip_mispriced_witness :
  ans_users ok_answers = None /\ ans_system ok_answers = None /\ ans_batch ok_answers = None /\
  exists t, aw_trips (run_world (initializeFirestore "admin-uid" ok_answers) emptyWorld)
              !! ans_tripId ok_answers = Some t /\
    trip_inv t /\ Trip.fare t = 50 /\ calculateFare (Trip.pickup t) (Trip.dropoff t) = 0 /\
    exists p d, Location.id (Trip.pickup t) = Some p /\ Location.id (Trip.dropoff t) = Some d /\
      validateRoute p d = Err NotAirportRoute.
Proof.
  do 3 (split; [reflexivity |]).
  by apply seeded_trip_mispriced.
Defined.

Lemma collections_trip_breaks_inv_witness :
  ans_batch ok_answers = None /\
  exists t, aw_trips (run_world (initializeButton_handleInitialize ok_answers) emptyWorld)
              !! ans_tripId ok_answers = Some t /\
    ~ trip_inv t /\
    forall u ts, u <> "system" ->
      joinTrip (Some u) true t = Ok (mkJoinUpdate u open) /\
      ~ trip_inv (applyJoinUpdate ts (mkJoinUpdate u open) t).
Proof.
  split; [reflexivity |].
  by apply collections_trip_breaks_inv.
Defined.
