(* ===== verification/Messaging.v ===== *)
(** * The chat widgets: lists, windows and their panels

    Two families of widgets show the chats of [Chat.v].  The
    [components/chat/] one ([ChatButton], [ChatList], [ChatWindow]) reads
    the shared chat store that [useChat] and [useMessages] fill; the
    [components/messaging/] one ([MessagingCenter], [ChatList],
    [ChatWindow], [MessageList]) keeps the selected chat in its own state
    and reads [useChats].  This file holds what each of them renders and
    the panels' state machines: in [ChatButton] an active chat can never
    be left, and in [MessagingCenter] opening a chat throws while
    rendering, because [useMessages] returns nothing. *)

From stdpp Require Import sorting.
From S2P Require Import Prelude Chat.

(** ** What the lists and windows render *)

(** A [string | null] field used as a condition: truthy when present
    and non-empty. *)
Definition str_truthy (o : option string) : bool :=
  match o with Some s => negb (String.eqb s "") | None => false end.

(** One entry of a chat list: the chat it selects, its title, the
    preview of its last message and the time shown. *)
Record ChatRow := mkChatRow {
  row_chat : Chat;
  row_title : string;
  row_preview : option string;
  row_time : option Z
}.

Inductive ChatListView :=
  | CLSignIn
  | CLSpinner
  | CLError (msg : string)
  | CLEmpty
  | CLRows (rows : list ChatRow).

(** [components/chat/ChatList.tsx]: groups of more than two are "Group
    Chat", the time is [updatedAt]. *)
Definition chatList_row (c : Chat) : ChatRow :=
  mkChatRow c (if Nat.ltb 2 (length (c_participants c)) then "Group Chat" else "Direct Message")
    (m_content <$> c_lastMessage c) (Some (c_updatedAt c)).

Definition chatList_view (s : ChatStore) : ChatListView :=
  if cs_loading s then CLSpinner
  else if str_truthy (cs_error s) then CLError (default "" (cs_error s))
  else match cs_chats s with
       | [] => CLEmpty
       | l => CLRows (map chatList_row l)
       end.

(** [components/messaging/ChatList.tsx]: titled by the booking, the time
    is that of the last message. *)
Definition messaging_row (c : Chat) : ChatRow :=
  mkChatRow c
    (if str_truthy (c_bookingId c) then "Booking #" +:+ default "" (c_bookingId c)
     else "Direct Message")
    (m_content <$> c_lastMessage c) (m_timestamp <$> c_lastMessage c).

Definition messagingChatList_view (user : option string) (s : ChatsState) : ChatListView :=
  match user with
  | None => CLSignIn
  | Some _ =>
      if ch_loading s then CLSpinner
      else if str_truthy (ch_error s) then CLError (default "" (ch_error s))
      else match ch_chats s with
           | [] => CLEmpty
           | l => CLRows (map messaging_row l)
           end
  end.

(** A message as shown: right-aligned and blue when it is the user's
    own ([message.senderId === user?.uid]). *)
Record Bubble := mkBubble { b_message : Message; b_own : bool }.

Definition bubbles (user : option string) (msgs : list Message) : list Bubble :=
  map (fun m => mkBubble m (match user with Some u => String.eqb (m_senderId m) u | None => false end))
    msgs.

Inductive MessageListView :=
  | MLSpinner
  | MLError (msg : string)
  | MLBubbles (bs : list Bubble).

(** [components/messaging/MessageList.tsx] *)
Definition messageList_view (user : option string) (msgs : list Message) (loading : bool)
    (error : option string) : MessageListView :=
  if loading then MLSpinner
  else if str_truthy error then MLError (default "" error)
  else MLBubbles (bubbles user msgs).

(** [components/chat/ChatWindow.tsx]: nothing without an active chat,
    else its title and the store's messages. *)
Definition chatWindow_view (user : option string) (s : ChatStore) : option (string * list Bubble) :=
  match cs_activeChat s with
  | None => None
  | Some c => Some (chat_title c, bubbles user (cs_messages s))
  end.

(** [useMessages(chatId)] has no [return]: its value is [undefined],
    whatever the chat. *)
Definition useMessages_result (chatId : string) : option (list Message * bool * option string) :=
  None.

(** [components/messaging/ChatWindow.tsx] renders by destructuring
    [useMessages(chat.id)]: on [undefined] that throws. *)
Definition messagingChatWindow_view (user : option string) (c : Chat)
    : result (string * MessageListView) string :=
  match useMessages_result (c_id c) with
  | None => Err "TypeError: Cannot destructure property 'messages' of undefined"
  | Some (msgs, loading, error) =>
      Ok (if str_truthy (c_bookingId c) then "Booking #" +:+ default "" (c_bookingId c)
          else "Direct Message",
          messageList_view user msgs loading error)
  end.

(** ** [useChats]' query *)

(** [orderBy('updatedAt', 'desc')] *)
Definition updated_after (a b : string * Chat) : Prop := (c_updatedAt (snd b) <= c_updatedAt (snd a))%Z.

#[export] Instance updated_after_dec : RelDecision updated_after.
Proof. intros a b. unfold updated_after. apply _. Defined.

#[export] Instance updated_after_total : Total updated_after.
Proof. intros a b. unfold updated_after. lia. Qed.

(** What a snapshot of [where('participants', 'array-contains', uid)]
    with that order delivers: the stored chats of the user, latest
    first, each with its document id. *)
Definition chats_query (uid : string) (coll : gmap string Chat) : list (string * Chat) :=
  merge_sort updated_after
    (List.filter (fun kv => Js.array_includes (c_participants (snd kv)) uid) (map_to_list coll)).

(** ** [ChatButton] *)

Record ChatButtonState := mkChatButtonState {
  cb_isOpen : bool;
  cb_store : ChatStore
}.

Inductive ChatPanel :=
  | PanelList (v : ChatListView)
  | PanelWindow (title : string) (bs : list Bubble).

(** The panel, when open: the window of the active chat, else the list. *)
Definition chatButton_view (user : option string) (s : ChatButtonState) : option ChatPanel :=
  if cb_isOpen s then
    Some (match chatWindow_view user (cb_store s) with
          | Some (t, bs) => PanelWindow t bs
          | None => PanelList (chatList_view (cb_store s))
          end)
  else None.

(** The back arrow of [components/chat/ChatWindow.tsx] is
    [onClick={onClose}]; [ChatButton] passes no [onClose], so the arrow
    has no handler. *)
Definition chatWindowBack {S} (onClose : option (S -> S)) (s : S) : S :=
  match onClose with Some f => f s | None => s end.

(** The store's updates while the panel is mounted: [useChat]'s
    subscription, [useMessages]' subscription, and [ConfirmationStep]'s
    [setActiveChat]. *)
Inductive store_event : (ChatStore -> ChatStore) -> Prop :=
  | se_start user : store_event (useChat_start user)
  | se_chats chats : store_event (onChatsSnapshot chats)
  | se_chats_error : store_event onChatsError
  | se_messages msgs : store_event (onMessagesSnapshot msgs)
  | se_messages_error : store_event onMessagesError
  | se_add m : store_event (addMessage m)
  | se_activate c : store_event (setActiveChat (Some c)).

Inductive chat_button_step : ChatButtonState -> ChatButtonState -> Prop :=
  | cbs_open s : chat_button_step s (mkChatButtonState true (cb_store s))
  | cbs_close s : cb_isOpen s = true -> chat_button_step s (mkChatButtonState false (cb_store s))
  | cbs_select s rows c :
      chatButton_view None s = Some (PanelList (CLRows rows)) -> In c (map row_chat rows) ->
      chat_button_step s (mkChatButtonState true (setActiveChat (Some c) (cb_store s)))
  | cbs_back s : cb_isOpen s = true -> is_Some (cs_activeChat (cb_store s)) ->
      chat_button_step s (chatWindowBack None s)
  | cbs_store s f : store_event f -> chat_button_step s (mkChatButtonState (cb_isOpen s) (f (cb_store s))).

(** ** [MessagingCenter] *)

Record CenterState := mkCenterState {
  mc_isOpen : bool;
  mc_selected : option Chat
}.

Definition initialCenter : CenterState := mkCenterState false None.

Definition centerOpen (s : CenterState) : CenterState := mkCenterState true (mc_selected s).
Definition centerClose (s : CenterState) : CenterState := mkCenterState false None.
Definition centerSelect (c : Chat) (s : CenterState) : CenterState := mkCenterState (mc_isOpen s) (Some c).
Definition centerBack (s : CenterState) : CenterState := mkCenterState (mc_isOpen s) None.

Inductive CenterPanel :=
  | CPList (v : ChatListView)
  | CPWindow (title : string) (v : MessageListView).

(** The panel when open, or the error its render throws. *)
Definition messagingCenter_view (user : option string) (cs : ChatsState) (s : CenterState)
    : result (option CenterPanel) string :=
  if mc_isOpen s then
    match mc_selected s with
    | Some c =>
        match messagingChatWindow_view user c with
        | Ok (t, v) => Ok (Some (CPWindow t v))
        | Err e => Err e
        end
    | None => Ok (Some (CPList (messagingChatList_view user cs)))
    end
  else Ok None.

(** ** Lemmas *)

Lemma store_event_active (f : ChatStore -> ChatStore) (s : ChatStore) :
  store_event f -> is_Some (cs_activeChat s) -> is_Some (cs_activeChat (f s)).
Proof. destruct 1 as [[] | | | | | |]; simpl; eauto. Qed.

Lemma chat_button_step_active (s s' : ChatButtonState) :
  chat_button_step s s' -> is_Some (cs_activeChat (cb_store s)) -> is_Some (cs_activeChat (cb_store s')).
Proof.
  destruct 1 as [| | s rows c | | s f Hf]; simpl; eauto using store_event_active.
Qed.

Lemma chatButton_view_active (user : option string) (s : ChatButtonState) (v : ChatListView) :
  is_Some (cs_activeChat (cb_store s)) -> chatButton_view user s <> Some (PanelList v).
Proof.
  intros [c Hc]. unfold chatButton_view, chatWindow_view. rewrite Hc.
  by destruct (cb_isOpen s).
Qed.

(** The rows of a chat list show the chats of the query, in its order. *)
Lemma messaging_rows_In (uid : string) (coll : gmap string Chat) (r : ChatRow) :
  In r (map messaging_row (map snd (chats_query uid coll))) <->
  exists k c, coll !! k = Some c /\ In uid (c_participants c) /\ r = messaging_row c.
Proof.
  unfold chats_query. rewrite map_map, in_map_iff. split.
  - intros ([k c] & <- & Hin). apply In_sorted_query in Hin as [Hk Hp]. simpl in *.
    apply array_includes_In in Hp. eauto.
  - intros (k & c & Hk & Hp & ->). exists (k, c). split; [done |].
    apply In_sorted_query. split; [done |]. by apply array_includes_In.
Qed.

(** ** Theorems *)

(** (C: an open chat in [ChatButton] can never be left) Once the chat
    store has an active chat, whatever the user clicks and whatever the
    subscriptions deliver, it keeps one, and the panel never shows the
    chat list again: the window's back arrow has no handler and nothing
    else clears [activeChat]. *)
Theorem chat_button_window_sticks (s s' : ChatButtonState) :
  is_Some (cs_activeChat (cb_store s)) -> rtc chat_button_step s s' ->
  is_Some (cs_activeChat (cb_store s')) /\
  forall user v, chatButton_view user s' <> Some (PanelList v).
Proof.
  intros Ha Hr.
  assert (Ha' : is_Some (cs_activeChat (cb_store s'))).
  { by eapply (rtc_preserves _ _ chat_button_step_active); [exact Hr |]. }
  split; [done |]. intros user v. by apply chatButton_view_active.
Qed.

(** (C: opening a chat in [MessagingCenter] throws) Whenever the open
    panel lists chats, clicking any of them makes the next render throw:
    the window destructures the [undefined] that [useMessages] returns. *)
Theorem messaging_select_crashes (user : option string) (cs : ChatsState) (s : CenterState)
    (rows : list ChatRow) (r : ChatRow) :
  messagingCenter_view user cs s = Ok (Some (CPList (CLRows rows))) -> In r rows ->
  messagingCenter_view user cs (centerSelect (row_chat r) s) =
    Err "TypeError: Cannot destructure property 'messages' of undefined".
Proof.
  unfold messagingCenter_view, centerSelect. simpl.
  by destruct (mc_isOpen s).
Qed.

(** (C: the messaging list shows the user's chats, latest first) After a
    snapshot of [useChats]' query, [messaging/ChatList] shows one row per
    stored chat that has the user among its participants, ordered by
    [updatedAt], newest first, and "No conversations yet" exactly when
    there is none. *)
Theorem messaging_list_rows (uid : string) (coll : gmap string Chat) (s : ChatsState) :
  match messagingChatList_view (Some uid) (useChats_snapshot (map snd (chats_query uid coll)) s) with
  | CLRows rows =>
      (forall r, In r rows <->
         exists k c, coll !! k = Some c /\ In uid (c_participants c) /\ r = messaging_row c) /\
      Sorted (fun r1 r2 => (c_updatedAt (row_chat r2) <= c_updatedAt (row_chat r1))%Z) rows
  | CLEmpty => forall k c, coll !! k = Some c -> ~ In uid (c_participants c)
  | _ => False
  end.
Proof.
  pose proof (messaging_rows_In uid coll) as HIn.
  assert (Hs : Sorted (fun r1 r2 => (c_updatedAt (row_chat r2) <= c_updatedAt (row_chat r1))%Z)
                 (map messaging_row (map snd (chats_query uid coll)))).
  { rewrite map_map. apply (Sorted_map _ updated_after); [done |].
    apply Sorted_merge_sort, _. }
  unfold messagingChatList_view, useChats_snapshot. simpl.
  destruct (map snd (chats_query uid coll)) as [| c l] eqn:E.
  - intros k c Hk Hp. apply (proj2 (HIn (messaging_row c))). eauto.
  - split; [exact HIn | exact Hs].
Qed.

(** ** Witnesses *)

Definition sample_store : ChatStore := onChatsSnapshot [sample_chat] initialChatStore.

(** The panel opened on a loaded list, then the chat clicked. *)
Definition sample_opened : ChatButtonState :=
  mkChatButtonState true (setActiveChat (Some sample_chat) sample_store).

Lemma sample_opened_reachable :
  rtc chat_button_step (mkChatButtonState false sample_store) sample_opened.
Proof.
  eapply rtc_l; [apply cbs_open |]. apply rtc_once.
  apply (cbs_select (mkChatButtonState true sample_store) [chatList_row sample_chat]);
    [reflexivity | by left].
Qed.

Lemma chat_button_window_sticks_witness :
  is_Some (cs_activeChat (cb_store sample_opened)) /\
  rtc chat_button_step sample_opened (mkChatButtonState false (cb_store sample_opened)) /\
  is_Some (cs_activeChat (cb_store (mkChatButtonState false (cb_store sample_opened)))) /\
  forall user v, chatButton_view user (mkChatButtonState false (cb_store sample_opened)) <> Some (PanelList v).
Proof.
  assert (Ha : is_Some (cs_activeChat (cb_store sample_opened))) by (eexists; reflexivity).
  assert (Hr : rtc chat_button_step sample_opened (mkChatButtonState false (cb_store sample_opened)))
    by (apply rtc_once, cbs_close; reflexivity).
  split; [exact Ha |]. split; [exact Hr |].
  exact (chat_button_window_sticks _ _ Ha Hr).
Defined.

Definition sample_chats : ChatsState := useChats_snapshot [sample_chat] (mkChatsState [] true None).

Lemma messaging_select_crashes_witness :
  messagingCenter_view (Some "alice") sample_chats (centerOpen initialCenter) =
    Ok (Some (CPList (CLRows [messaging_row sample_chat]))) /\
  In (messaging_row sample_chat) [messaging_row sample_chat] /\
  messagingCenter_view (Some "alice") sample_chats
    (centerSelect (row_chat (messaging_row sample_chat)) (centerOpen initialCenter)) =
    Err "TypeError: Cannot destructure property 'messages' of undefined".
Proof.
  assert (Hv : messagingCenter_view (Some "alice") sample_chats (centerOpen initialCenter) =
               Ok (Some (CPList (CLRows [messaging_row sample_chat])))) by reflexivity.
  assert (Hin : In (messaging_row sample_chat) [messaging_row sample_chat]) by (left; reflexivity).
  split; [exact Hv |]. split; [exact Hin |].
  exact (messaging_select_crashes _ _ _ _ _ Hv Hin).
Defined.
