(* ===== verification/Profile.v ===== *)
(** * The profile page: header, tabs and settings panel

    [pages/ProfilePage.tsx] fetches a profile ([Auth.fetchProfile]) and
    renders [components/profile/ProfileHeader.tsx] and
    [components/profile/ProfileTabs.tsx]; the tabs show the user's trips
    ([UserTripList]), reviews ([UserReviews]) and, on one's own profile,
    [components/profile/ProfileSettings.tsx].  Navigating from one
    profile to another keeps the page and its tabs mounted: the effect
    runs again, but neither [loading], [profile] nor the current tab is
    reset.  [profile_step] is that sequence of navigations, sign-ins and
    tab clicks. *)

From S2P Require Import Prelude Auth.

(** ** [ProfileTabs] *)

Inductive Tab := trips | reviews | settings.

#[export] Instance Tab_eq_dec : EqDecision Tab.
Proof. solve_decision. Defined.

(** The tab bar: "Settings" only on one's own profile. *)
Definition profile_tabs (isOwnProfile : bool) : list (Tab * string) :=
  [(trips, "My Trips"); (reviews, "Reviews")] ++
  (if isOwnProfile then [(settings, "Settings")] else []).

Inductive TabContent :=
  | TCUserTrips (userId : string)
  | TCUserReviews (userId : string)
  | TCSettings
  | TCNone.

(** [renderTabContent] *)
Definition renderTabContent (currentTab : Tab) (profileUid : string) (isOwnProfile : bool)
    : TabContent :=
  match currentTab with
  | trips => TCUserTrips profileUid
  | reviews => TCUserReviews profileUid
  | settings => if isOwnProfile then TCSettings else TCNone
  end.

(** A click on a tab of the bar. *)
Definition clickTab (isOwnProfile : bool) (t : Tab) (currentTab : Tab) : Tab :=
  if bool_decide (t ∈ map fst (profile_tabs isOwnProfile)) then t else currentTab.

(** ** [ProfileSettingsPanel]'s render: the three switches and the save
    button's label. *)

Record SettingsView := mkSettingsView {
  sv_isPublic : bool;
  sv_emailNotifications : bool;
  sv_pushNotifications : bool;
  sv_saveLabel : string
}.

Definition settingsPanel_view (s : SettingsPanel) (saving : bool) : SettingsView :=
  mkSettingsView (sp_isPublic s) (sp_emailNotifications s) (sp_pushNotifications s)
    (if saving then "Saving..." else "Save Changes").

(** ** [ProfilePage] *)

Inductive ProfilePageView :=
  | PPSpinner
  | PPNotFound
  | PPProfile (header : HeaderView) (tabs : list (Tab * string)) (content : TabContent).

(** [isOwnProfile = user?.uid === profile.uid] *)
Definition isOwnProfile (u : option User) (pid : string) : bool :=
  match u with Some usr => String.eqb (uid usr) pid | None => false end.

Definition profilePage_view (u : option User) (s : ProfilePageState) (currentTab : Tab)
    : ProfilePageView :=
  if pp_loading s then PPSpinner else
  match pp_profile s with
  | None => PPNotFound
  | Some (pid, f) =>
      PPProfile (profileHeader u pid f) (profile_tabs (isOwnProfile u pid))
        (renderTabContent currentTab pid (isOwnProfile u pid))
  end.

(** The mounted page: the route's [userId], the signed-in user, the
    page's state and the current tab. *)
Record ProfileWorld := mkProfileWorld {
  pw_userId : option string;
  pw_user : option User;
  pw_page : ProfilePageState;
  pw_tab : Tab
}.

Definition profile_mount (userId : option string) (u : option User) : ProfileWorld :=
  mkProfileWorld userId u initialProfilePage trips.

(** A navigation to another [/profile/:userId] or a change of user
    re-runs the effect; a click changes the tab.  The store is any
    [users] collection, read successfully or not. *)
Inductive profile_step : ProfileWorld -> ProfileWorld -> Prop :=
  | ps_fetch w readOk db :
      profile_step w (mkProfileWorld (pw_userId w) (pw_user w)
                        (fetchProfile (pw_userId w) (pw_user w) readOk db (pw_page w)) (pw_tab w))
  | ps_navigate w userId' :
      profile_step w (mkProfileWorld userId' (pw_user w) (pw_page w) (pw_tab w))
  | ps_auth w u' :
      profile_step w (mkProfileWorld (pw_userId w) u' (pw_page w) (pw_tab w))
  | ps_click w t pid f :
      pp_loading (pw_page w) = false -> pp_profile (pw_page w) = Some (pid, f) ->
      profile_step w (mkProfileWorld (pw_userId w) (pw_user w) (pw_page w)
                        (clickTab (isOwnProfile (pw_user w) pid) t (pw_tab w))).

(** ** Lemmas *)

(** A fetch never clears the profile, and sets it only to the stored
    document of the id it read. *)
Lemma fetchProfile_profile (userId : option string) (u : option User) (readOk : bool)
    (db : UsersDb) (s : ProfilePageState) :
  pp_profile (fetchProfile userId u readOk db s) = pp_profile s \/
  exists pid f, js_or userId (uid <$> u) = Some pid /\ db !! pid = Some f /\
    pp_profile (fetchProfile userId u readOk db s) = Some (pid, f).
Proof.
  unfold fetchProfile. destruct (js_or _ _) as [pid |]; [| by left].
  destruct (String.eqb pid ""), readOk; try by left.
  destruct (db !! pid) as [f |] eqn:E; [right; eauto | by left].
Qed.

Lemma profile_step_keeps (w w' : ProfileWorld) :
  profile_step w w' -> is_Some (pp_profile (pw_page w)) -> is_Some (pp_profile (pw_page w')).
Proof.
  destruct 1 as [w readOk db | | | ]; simpl; auto.
  destruct (fetchProfile_profile (pw_userId w) (pw_user w) readOk db (pw_page w))
    as [-> | (pid & f & _ & _ & ->)]; eauto.
Qed.

Lemma fetchProfile_loaded (userId : option string) (u : option User) (readOk : bool)
    (db : UsersDb) (s : ProfilePageState) :
  pp_loading (fetchProfile userId u readOk db s) = false.
Proof.
  unfold fetchProfile. destruct (js_or _ _) as [pid |]; [| done].
  destruct (String.eqb pid ""), readOk; try done. by destruct (db !! pid).
Qed.

Lemma profile_step_shown (w w' : ProfileWorld) :
  profile_step w w' ->
  is_Some (pp_profile (pw_page w)) /\ pp_loading (pw_page w) = false ->
  is_Some (pp_profile (pw_page w')) /\ pp_loading (pw_page w') = false.
Proof.
  intros Hs [Hp Hl]. split; [by eapply profile_step_keeps |].
  destruct Hs; simpl; auto using fetchProfile_loaded.
Qed.

(** ** Theorems *)

(** (C: a shown profile is never replaced by "Profile not found") Once
    the page shows a profile, no navigation, sign-in change, failed read
    or missing document makes it show the spinner or "Profile not found"
    again: the effect never resets [profile] or [loading]. *)
Theorem profile_view_sticks (w w' : ProfileWorld) (u : option User) (tab : Tab) :
  is_Some (pp_profile (pw_page w)) -> pp_loading (pw_page w) = false ->
  rtc profile_step w w' ->
  profilePage_view u (pw_page w') tab <> PPNotFound /\
  profilePage_view u (pw_page w') tab <> PPSpinner.
Proof.
  intros Hp Hl Hr.
  destruct (rtc_preserves _ _ profile_step_shown w w' Hr (conj Hp Hl)) as [[[pid f] Hp'] Hl'].
  unfold profilePage_view. by rewrite Hl', Hp'.
Qed.

(** (C: navigating to a missing profile shows the previous one) From a
    page showing some profile, following a link to [/profile/target]
    whose document does not exist (or cannot be read) leaves the page
    showing the previous profile, with the same header, tabs and tab
    content, under the new address. *)
Theorem stale_profile (w : ProfileWorld) (target : string) (db : UsersDb) (readOk : bool) :
  pp_loading (pw_page w) = false -> is_Some (pp_profile (pw_page w)) ->
  target <> "" -> db !! target = None ->
  let w' := mkProfileWorld (Some target) (pw_user w)
              (fetchProfile (Some target) (pw_user w) readOk db (pw_page w)) (pw_tab w) in
  rtc profile_step w w' /\ pw_userId w' = Some target /\
  profilePage_view (pw_user w') (pw_page w') (pw_tab w') =
    profilePage_view (pw_user w) (pw_page w) (pw_tab w).
Proof.
  intros Hl _ Ht Hdb w'.
  assert (Hf : fetchProfile (Some target) (pw_user w) readOk db (pw_page w) =
               mkProfilePageState (pp_profile (pw_page w)) false).
  { unfold fetchProfile, js_or. rewrite (proj2 (String.eqb_neq target "") Ht).
    rewrite (proj2 (String.eqb_neq target "") Ht). destruct readOk; [by rewrite Hdb | done]. }
  split; [| split; [done |]].
  - eapply rtc_l; [apply (ps_navigate w (Some target)) |].
    apply rtc_once. apply (ps_fetch (mkProfileWorld (Some target) (pw_user w) (pw_page w) (pw_tab w))).
  - subst w'. simpl. rewrite Hf. unfold profilePage_view. simpl. by rewrite Hl.
Qed.

(** ** Witnesses *)

Definition profile_user : User := mkUser "alice" (Some "alice@example.com") (Some "Alice") None.
Definition profile_db : UsersDb := {[ "alice" := signUp_profile profile_user 0 ]}.

(** Alice on her own profile, settings tab open. *)
Definition alice_page : ProfileWorld :=
  mkProfileWorld (Some "alice") (Some profile_user)
    (fetchProfile (Some "alice") (Some profile_user) true profile_db initialProfilePage) settings.

Lemma alice_page_reachable : rtc profile_step (profile_mount (Some "alice") (Some profile_user)) alice_page.
Proof.
  eapply rtc_l; [apply (ps_fetch _ true profile_db) |].
  eapply rtc_l; [apply (ps_click _ settings "alice" (signUp_profile profile_user 0)); reflexivity |].
  apply rtc_refl.
Qed.

Lemma profile_view_sticks_witness :
  is_Some (pp_profile (pw_page alice_page)) /\ pp_loading (pw_page alice_page) = false /\
  rtc profile_step alice_page
    (mkProfileWorld (Some "ghost") (Some profile_user) (pw_page alice_page) settings) /\
  profilePage_view None (pw_page (mkProfileWorld (Some "ghost") (Some profile_user) (pw_page alice_page) settings))
    trips <> PPNotFound /\
  profilePage_view None (pw_page (mkProfileWorld (Some "ghost") (Some profile_user) (pw_page alice_page) settings))
    trips <> PPSpinner.
Proof.
  assert (Hp : is_Some (pp_profile (pw_page alice_page))) by (eexists; reflexivity).
  assert (Hl : pp_loading (pw_page alice_page) = false) by reflexivity.
  assert (Hr : rtc profile_step alice_page
                 (mkProfileWorld (Some "ghost") (Some profile_user) (pw_page alice_page) settings))
    by (apply rtc_once, (ps_navigate alice_page (Some "ghost"))).
  split; [exact Hp |]. split; [exact Hl |]. split; [exact Hr |].
  exact (profile_view_sticks _ _ None trips Hp Hl Hr).
Defined.

Lemma stale_profile_witness :
  pp_loading (pw_page alice_page) = false /\ is_Some (pp_profile (pw_page alice_page)) /\
  "ghost" <> "" /\ profile_db !! "ghost" = None /\
  (let w' := mkProfileWorld (Some "ghost") (pw_user alice_page)
               (fetchProfile (Some "ghost") (pw_user alice_page) true profile_db (pw_page alice_page))
               (pw_tab alice_page) in
   rtc profile_step alice_page w' /\ pw_userId w' = Some "ghost" /\
   profilePage_view (pw_user w') (pw_page w') (pw_tab w') =
     profilePage_view (pw_user alice_page) (pw_page alice_page) (pw_tab alice_page)).
Proof.
  assert (Hl : pp_loading (pw_page alice_page) = false) by reflexivity.
  assert (Hp : is_Some (pp_profile (pw_page alice_page))) by (eexists; reflexivity).
  assert (Ht : "ghost" <> "") by discriminate.
  assert (Hdb : profile_db !! "ghost" = None) by reflexivity.
  split; [exact Hl |]. split; [exact Hp |]. split; [exact Ht |]. split; [exact Hdb |].
  exact (stale_profile alice_page "ghost" profile_db true Hl Hp Ht Hdb).
Defined.

(** On someone else's missing profile the page still offers Alice's
    settings. *)
Example ghost_shows_settings :
  profilePage_view (Some profile_user)
    (fetchProfile (Some "ghost") (Some profile_user) true profile_db (pw_page alice_page)) settings =
  PPProfile (profileHeader (Some profile_user) "alice" (signUp_profile profile_user 0))
    [(trips, "My Trips"); (reviews, "Reviews"); (settings, "Settings")] TCSettings.
Proof. reflexivity. Qed.
