(* ===== verification/Monitoring.v ===== *)
(** * Monitoring: the health check, [SystemStatus], the error tracker
      and the navigation timings

    [utils/health-check.ts] probes three services one after the other;
    each probe catches its own error.  The authentication probe is a
    real [signInAnonymously], which replaces the session of whoever is
    signed in: [components/admin/SystemStatus.tsx] runs it on mount and
    every five minutes on the admin dashboard, where the signed-in user
    is the admin.  [utils/error-tracking.ts] keeps its reports in an
    array that [getErrors] hands out by reference; the model keeps the
    arrays in a heap so that this sharing is visible.
    [utils/performance.ts] computes navigation timings from a
    [PerformanceNavigationTiming] entry. *)

From S2P Require Import Prelude Auth.

(** ** [utils/health-check.ts] *)

Inductive HealthLevel := healthy | degraded | health_error.

Record HealthStatus := mkHealthStatus {
  hs_status : HealthLevel;
  hs_message : string;
  hs_timestamp : Z
}.

Record SystemHealth := mkSystemHealth {
  sh_firebase : HealthStatus;
  sh_database : HealthStatus;
  sh_pwa : HealthStatus
}.

(** What the services answer: [signInAnonymously] (the new anonymous
    account's uid, or the error's message), [getDocs] of one station
    (its error's message, if any), [navigator.serviceWorker.getRegistration()]
    (whether a worker is registered, or the error's message), and the
    clock. *)
Record HealthAnswers := mkHealthAnswers {
  ha_anon : result string string;
  ha_db : option string;
  ha_sw : result bool string;
  ha_now : Z
}.

(** An anonymous account has no e-mail, name or photo. *)
Definition anonymous_user (uid : string) : User := mkUser uid None None None.

(** [checkFirebaseHealth]: the status, and the account the session now
    belongs to when the sign-in succeeded. *)
Definition checkFirebaseHealth (a : HealthAnswers) : option User * HealthStatus :=
  match ha_anon a with
  | Ok anon =>
      (Some (anonymous_user anon),
       mkHealthStatus healthy "Firebase Authentication is operational" (ha_now a))
  | Err msg => (None, mkHealthStatus health_error ("Firebase Authentication error: " +:+ msg) (ha_now a))
  end.

Definition checkDatabaseHealth (a : HealthAnswers) : HealthStatus :=
  match ha_db a with
  | None => mkHealthStatus healthy "Firestore connection is operational" (ha_now a)
  | Some msg => mkHealthStatus health_error ("Firestore error: " +:+ msg) (ha_now a)
  end.

Definition checkPWAHealth (a : HealthAnswers) : HealthStatus :=
  match ha_sw a with
  | Ok true => mkHealthStatus healthy "Service Worker is registered and active" (ha_now a)
  | Ok false => mkHealthStatus degraded "Service Worker is not registered" (ha_now a)
  | Err msg => mkHealthStatus health_error ("PWA error: " +:+ msg) (ha_now a)
  end.

(** [checkSystemHealth]: the three probes in order; it never throws. *)
Definition checkSystemHealth (a : HealthAnswers) : option User * SystemHealth :=
  let '(signedIn, fb) := checkFirebaseHealth a in
  (signedIn, mkSystemHealth fb (checkDatabaseHealth a) (checkPWAHealth a)).

(** ** [SystemStatus] *)

Record SystemStatusState := mkSystemStatusState {
  ss_health : option SystemHealth;
  ss_loading : bool
}.

Definition initialSystemStatus : SystemStatusState := mkSystemStatusState None true.

(** [checkHealth] with the session it leaves: on a successful anonymous
    sign-in the auth observer of [AuthContext] fires for the new
    account ([writeOk] and [t] are its profile write's outcome and
    time).  The [catch] branch is dead: [checkSystemHealth] never
    throws. *)
Definition checkHealth (a : HealthAnswers) (writeOk : bool) (t : Z)
    (auth : AuthState) (db : UsersDb) (s : SystemStatusState)
    : AuthState * UsersDb * SystemStatusState :=
  let '(signedIn, h) := checkSystemHealth a in
  let s' := mkSystemStatusState (Some h) false in
  match signedIn with
  | Some anon =>
      let '(db', auth', _) := onAuthStateChanged (Some anon) writeOk t db in (auth', db', s')
  | None => (auth, db, s')
  end.

Inductive StatusView :=
  | StatusSpinner
  | StatusCards (cards : list (string * HealthStatus))
  | StatusCrash (msg : string).

(** The cards are [Object.entries(health)]: on [null] that throws. *)
Definition systemStatus_view (s : SystemStatusState) : StatusView :=
  if ss_loading s then StatusSpinner else
  match ss_health s with
  | Some h => StatusCards [("firebase", sh_firebase h); ("database", sh_database h); ("pwa", sh_pwa h)]
  | None => StatusCrash "TypeError: Cannot convert undefined or null to object"
  end.

(** The checks [SystemStatus] runs: on mount, then every five minutes. *)
Inductive status_step : AuthState * UsersDb * SystemStatusState -> AuthState * UsersDb * SystemStatusState -> Prop :=
  | sts_check a writeOk t auth db s :
      status_step (auth, db, s) (checkHealth a writeOk t auth db s).

(** ** [utils/error-tracking.ts] *)

Record ErrorReport := mkErrorReport {
  er_message : string;
  er_stack : option string;
  er_timestamp : Z;
  er_userAgent : string;
  er_path : string
}.

(** The arrays the tracker has allocated, by address, the next free
    address, and the address its [errors] field holds. *)
Record Tracker := mkTracker {
  tr_heap : gmap nat (list ErrorReport);
  tr_next : nat;
  tr_errors : nat
}.

(** [new ErrorTracker()]: [errors = []]. *)
Definition newTracker : Tracker := mkTracker {[0 := []]} 1 0.

(** The contents of the array at an address. *)
Definition deref (t : Tracker) (r : nat) : list ErrorReport := default [] (tr_heap t !! r).

(** [logError]: [this.errors.push(error)] mutates the array in place. *)
Definition logError (e : ErrorReport) (t : Tracker) : Tracker :=
  mkTracker (<[tr_errors t := deref t (tr_errors t) ++ [e]]> (tr_heap t)) (tr_next t) (tr_errors t).

(** [getErrors]: the array itself, not a copy. *)
Definition getErrors (t : Tracker) : nat := tr_errors t.

(** [clearErrors]: [this.errors = []] points the field at a new array. *)
Definition clearErrors (t : Tracker) : Tracker :=
  mkTracker (<[tr_next t := []]> (tr_heap t)) (S (tr_next t)) (tr_next t).

(** The two listeners. *)
Definition handleError (message : string) (stack : option string) (now : Z) (userAgent path : string)
    : Tracker -> Tracker :=
  logError (mkErrorReport message stack now userAgent path).

(** [event.reason?.message || 'Promise rejection'] *)
Definition handlePromiseRejection (reasonMessage stack : option string) (now : Z) (userAgent path : string)
    : Tracker -> Tracker :=
  logError (mkErrorReport
              (match reasonMessage with
               | Some m => if String.eqb m "" then "Promise rejection" else m
               | None => "Promise rejection"
               end) stack now userAgent path).

Inductive TrackerOp := TLog (e : ErrorReport) | TClear.

Definition run_tracker (ops : list TrackerOp) (t : Tracker) : Tracker :=
  foldl (fun t op => match op with TLog e => logError e t | TClear => clearErrors t end) t ops.

(** The reports logged before the first [clearErrors]. *)
Fixpoint logged_before_clear (ops : list TrackerOp) : list ErrorReport :=
  match ops with
  | TLog e :: ops' => e :: logged_before_clear ops'
  | TClear :: _ | [] => []
  end.

(** ** [utils/performance.ts] *)

(** The fields of a performance entry the observer reads, [None] for a
    field the entry does not have ([undefined]). *)
Record PerfEntry := mkPerfEntry {
  pe_entryType : string;
  pe_domainLookupStart : option Z;
  pe_domainLookupEnd : option Z;
  pe_connectStart : option Z;
  pe_connectEnd : option Z;
  pe_requestStart : option Z;
  pe_responseStart : option Z;
  pe_domContentLoadedEventEnd : option Z;
  pe_loadEventEnd : option Z;
  pe_navigationStart : option Z
}.

(** [a - b] on numbers that may be [undefined]: [None] is [NaN]. *)
Definition js_sub (a b : option Z) : option Z :=
  match a, b with Some x, Some y => Some (x - y)%Z | _, _ => None end.

Record NavigationTiming := mkNavigationTiming {
  nt_dnsLookup : option Z;
  nt_tcpConnection : option Z;
  nt_firstByte : option Z;
  nt_domLoad : option Z;
  nt_windowLoad : option Z
}.

(** What the observer logs for one entry. *)
Definition navigation_timing (e : PerfEntry) : option NavigationTiming :=
  if String.eqb (pe_entryType e) "navigation" then
    Some (mkNavigationTiming
            (js_sub (pe_domainLookupEnd e) (pe_domainLookupStart e))
            (js_sub (pe_connectEnd e) (pe_connectStart e))
            (js_sub (pe_responseStart e) (pe_requestStart e))
            (js_sub (pe_domContentLoadedEventEnd e) (pe_navigationStart e))
            (js_sub (pe_loadEventEnd e) (pe_navigationStart e)))
  else None.

(** [initializePerformanceMonitoring]: outside production no observer
    is installed; in production each batch of entries is logged. *)
Definition initializePerformanceMonitoring (production : bool) (entries : list PerfEntry)
    : list NavigationTiming :=
  if production then omap navigation_timing entries else [].

(** A [PerformanceNavigationTiming] entry: it has every timing field
    but [navigationStart], which belongs to the legacy
    [performance.timing]. *)
Definition navigation_entry (dls dle cs ce rqs rps dcl le : Z) : PerfEntry :=
  mkPerfEntry "navigation" (Some dls) (Some dle) (Some cs) (Some ce) (Some rqs) (Some rps)
    (Some dcl) (Some le) None.

(** ** Lemmas *)

Definition status_ok (s : SystemStatusState) : Prop := ss_loading s = true \/ is_Some (ss_health s).

Lemma checkHealth_status (a : HealthAnswers) (writeOk : bool) (t : Z) (auth : AuthState)
    (db : UsersDb) (s : SystemStatusState) :
  (checkHealth a writeOk t auth db s).2 = mkSystemStatusState (Some (checkSystemHealth a).2) false.
Proof.
  unfold checkHealth, checkSystemHealth, checkFirebaseHealth.
  destruct (ha_anon a); [destruct writeOk |]; reflexivity.
Qed.

Lemma status_step_ok (x y : AuthState * UsersDb * SystemStatusState) :
  status_step x y -> status_ok y.2.
Proof. destruct 1. rewrite checkHealth_status. right. by eexists. Qed.

Definition tracker_wf (t : Tracker) : Prop := tr_errors t < tr_next t.

Lemma deref_logError_eq (e : ErrorReport) (t : Tracker) :
  deref (logError e t) (tr_errors t) = deref t (tr_errors t) ++ [e].
Proof. unfold deref at 1, logError. simpl. by rewrite lookup_insert_eq. Qed.

Lemma deref_logError_ne (e : ErrorReport) (t : Tracker) (r : nat) :
  r <> tr_errors t -> deref (logError e t) r = deref t r.
Proof. intros Hr. unfold deref, logError. simpl. by rewrite lookup_insert_ne. Qed.

Lemma deref_clearErrors_ne (t : Tracker) (r : nat) :
  r <> tr_next t -> deref (clearErrors t) r = deref t r.
Proof. intros Hr. unfold deref, clearErrors. simpl. by rewrite lookup_insert_ne. Qed.

(** An array the tracker no longer points to, allocated before, is
    never written again. *)
Lemma run_tracker_other (ops : list TrackerOp) (t : Tracker) (r : nat) :
  r < tr_next t -> r <> tr_errors t -> deref (run_tracker ops t) r = deref t r.
Proof.
  revert t. induction ops as [| [e |] ops IH]; intros t Hn He; [done | simpl |].
  - rewrite (IH (logError e t)) by done. by apply deref_logError_ne.
  - unfold run_tracker. simpl. fold (run_tracker ops (clearErrors t)).
    rewrite (IH (clearErrors t)) by (simpl; lia). apply deref_clearErrors_ne. lia.
Qed.

(** ** Theorems *)

(** (C: the health check ends the admin's session) On the admin
    dashboard, where [AdminGuard] admits the signed-in user, one run of
    [SystemStatus]' check either reports Firebase Authentication healthy
    and leaves the session to a new anonymous account that [AdminGuard]
    sends back to ["/"], or reports it in error and leaves the session
    alone: the card never reads healthy while the admin stays. *)
Theorem health_check_signs_out_admin (a : HealthAnswers) (writeOk : bool) (t : Z)
    (auth : AuthState) (db : UsersDb) (s : SystemStatusState) :
  adminGuard auth = GuardChildren ->
  let '(auth', _, s') := checkHealth a writeOk t auth db s in
  match ss_health s' with
  | Some h => (hs_status (sh_firebase h) = healthy /\ adminGuard auth' = GuardRedirect "/") \/
              (hs_status (sh_firebase h) = health_error /\ auth' = auth)
  | None => False
  end.
Proof.
  intros _. unfold checkHealth, checkSystemHealth, checkFirebaseHealth.
  destruct (ha_anon a) as [anon | msg]; [destruct writeOk |]; simpl;
    first [left; split; reflexivity | right; split; reflexivity].
Qed.

(** (C: [SystemStatus] never renders a crash) [checkSystemHealth]
    catches every probe's error, so after any sequence of checks the
    panel shows the spinner or the three cards, never the [TypeError]
    of [Object.entries(null)]. *)
Theorem system_status_never_crashes (auth : AuthState) (db : UsersDb)
    (x : AuthState * UsersDb * SystemStatusState) :
  rtc status_step (auth, db, initialSystemStatus) x ->
  forall msg, systemStatus_view x.2 <> StatusCrash msg.
Proof.
  intros Hr msg.
  assert (Hok : status_ok x.2).
  { apply (rtc_preserves status_step (fun y => status_ok y.2)
             (fun y z Hyz _ => status_step_ok y z Hyz) _ _ Hr).
    unfold status_ok. by left. }
  unfold systemStatus_view. destruct Hok as [-> | [h ->]]; [done |].
  by destruct (ss_loading x.2).
Qed.

(** (C: [getErrors] hands out the live array) The array [getErrors]
    returns keeps receiving every report logged after it was taken, up
    to the next [clearErrors], and none after: [clearErrors] points the
    tracker at a new array and leaves the old one to its holders. *)
Theorem getErrors_alias (ops : list TrackerOp) (t : Tracker) :
  tracker_wf t ->
  deref (run_tracker ops t) (getErrors t) = deref t (getErrors t) ++ logged_before_clear ops.
Proof.
  unfold tracker_wf, getErrors. revert t. induction ops as [| [e |] ops IH]; intros t Hwf.
  - by rewrite app_nil_r.
  - specialize (IH (logError e t) Hwf). simpl in *. rewrite IH.
    by rewrite deref_logError_eq, <- app_assoc.
  - simpl. rewrite app_nil_r. unfold run_tracker. simpl. fold (run_tracker ops (clearErrors t)).
    rewrite run_tracker_other by (simpl; lia). apply deref_clearErrors_ne. lia.
Qed.

(** The navigation timings the observer logs: [domLoad] and [windowLoad]
    subtract the [navigationStart] a [PerformanceNavigationTiming] entry
    does not have, and are always [NaN]. *)
Theorem navigation_timing_nan (dls dle cs ce rqs rps dcl le : Z) :
  initializePerformanceMonitoring true [navigation_entry dls dle cs ce rqs rps dcl le] =
    [mkNavigationTiming (Some (dle - dls)%Z) (Some (ce - cs)%Z) (Some (rps - rqs)%Z) None None] /\
  initializePerformanceMonitoring false [navigation_entry dls dle cs ce rqs rps dcl le] = [].
Proof. split; reflexivity. Qed.

(** ** Witnesses *)

Definition admin_session : AuthState :=
  mkAuthState (Some (mkUser "admin-uid" (Some "admin@cotaxiage.com") (Some "Administrator") None)) false.

Definition anon_answers : HealthAnswers := mkHealthAnswers (Ok "anon-1") None (Ok false) 0.

Lemma health_check_signs_out_admin_witness :
  adminGuard admin_session = GuardChildren /\
  let '(auth', _, s') := checkHealth anon_answers true 0 admin_session ∅ initialSystemStatus in
  match ss_health s' with
  | Some h => (hs_status (sh_firebase h) = healthy /\ adminGuard auth' = GuardRedirect "/") \/
              (hs_status (sh_firebase h) = health_error /\ auth' = admin_session)
  | None => False
  end.
Proof.
  assert (Hg : adminGuard admin_session = GuardChildren) by reflexivity.
  split; [exact Hg |].
  exact (health_check_signs_out_admin anon_answers true 0 admin_session ∅ initialSystemStatus Hg).
Defined.

Lemma system_status_never_crashes_witness :
  rtc status_step (admin_session, ∅, initialSystemStatus)
    (checkHealth anon_answers true 0 admin_session ∅ initialSystemStatus) /\
  forall msg, systemStatus_view (checkHealth anon_answers true 0 admin_session ∅ initialSystemStatus).2
                <> StatusCrash msg.
Proof.
  assert (Hr : rtc status_step (admin_session, ∅, initialSystemStatus)
                 (checkHealth anon_answers true 0 admin_session ∅ initialSystemStatus))
    by apply rtc_once, sts_check.
  split; [exact Hr |]. exact (system_status_never_crashes _ _ _ Hr).
Defined.

Definition sample_report (m : string) : ErrorReport := mkErrorReport m None 0 "agent" "/".

Lemma getErrors_alias_witness :
  tracker_wf newTracker /\
  deref (run_tracker [TLog (sample_report "a"); TClear; TLog (sample_report "b")] newTracker)
    (getErrors newTracker) =
  deref newTracker (getErrors newTracker) ++
    logged_before_clear [TLog (sample_report "a"); TClear; TLog (sample_report "b")].
Proof.
  assert (Hwf : tracker_wf newTracker) by (unfold tracker_wf; simpl; lia).
  split; [exact Hwf |]. exact (getErrors_alias _ _ Hwf).
Defined.
