(* ===== verification/TripForm.v ===== *)
(** * [CreateTripForm]: its inputs and what it renders

    [TripViews.v] holds the form's state, its fare effect, its estimate
    box and its submit handler.  This file adds the inputs that change
    the state (the direction toggle, the two station selects, the date
    and the seat count, each followed by the fare effect when a
    selection changed) and the render: the stations each select offers
    for the chosen direction.  They are in [Module CreateTripForm], apart
    from [SearchForm]'s inputs of the same names in [Booking.v]. *)

From S2P Require Import Prelude Stations Fare Validation Booking TripViews.

(** ** The inputs *)

Module CreateTripForm.

(** [availablePickupStations] and [availableDropoffStations] *)
Definition availablePickupStations (d : Direction) : list Station.t :=
  match d with
  | toAirport => TRAIN_STATIONS ++ TAXI_STATIONS
  | fromAirport => AIRPORTS
  end.

Definition availableDropoffStations (d : Direction) : list Station.t :=
  match d with
  | toAirport => AIRPORTS
  | fromAirport => TRAIN_STATIONS ++ TAXI_STATIONS
  end.

(** The two direction buttons: the direction changes and both
    selections are cleared; the estimate is not. *)
Definition selectDirection (d : Direction) (f : CreateForm) : CreateForm :=
  mkCreateForm d "" "" (cf_date f) (cf_availableSeats f) (cf_estimatedFare f).

Definition selectPickup (value : string) (f : CreateForm) : CreateForm :=
  mkCreateForm (cf_direction f) value (cf_dropoff f) (cf_date f) (cf_availableSeats f) (cf_estimatedFare f).

Definition selectDropoff (value : string) (f : CreateForm) : CreateForm :=
  mkCreateForm (cf_direction f) (cf_pickup f) value (cf_date f) (cf_availableSeats f) (cf_estimatedFare f).

Definition setDate (value : string) (f : CreateForm) : CreateForm :=
  mkCreateForm (cf_direction f) (cf_pickup f) (cf_dropoff f) value (cf_availableSeats f) (cf_estimatedFare f).

(** [Number(e.target.value)] of the option picked: 1, 2 or 3. *)
Definition setSeats (n : Z) (f : CreateForm) : CreateForm :=
  mkCreateForm (cf_direction f) (cf_pickup f) (cf_dropoff f) (cf_date f) n (cf_estimatedFare f).

Inductive FormInput :=
  | IDirection (d : Direction)
  | IPickup (value : string)
  | IDropoff (value : string)
  | IDate (value : string)
  | ISeats (n : Z).

(** One input, then the effect when [pickup] or [dropoff] changed. *)
Definition form_input (i : FormInput) (f : CreateForm) : CreateForm :=
  match i with
  | IDirection d => createFareEffect (selectDirection d f)
  | IPickup v => createFareEffect (selectPickup v f)
  | IDropoff v => createFareEffect (selectDropoff v f)
  | IDate v => setDate v f
  | ISeats n => setSeats n f
  end.

Definition run_form (inputs : list FormInput) (f : CreateForm) : CreateForm :=
  foldl (flip form_input) f inputs.

(** ** The render *)

Record CreateFormView := mkCreateFormView {
  cfv_pickupOptions : list string;
  cfv_dropoffOptions : list string;
  cfv_estimate : option (Z * Z);
  cfv_submitLabel : string
}.

Definition createForm_view (f : CreateForm) (loading : bool) : CreateFormView :=
  mkCreateFormView (map Station.id (availablePickupStations (cf_direction f)))
    (map Station.id (availableDropoffStations (cf_direction f)))
    (createEstimate f)
    (if loading then "Création en cours..." else "Créer le trajet").

End CreateTripForm.

Import CreateTripForm.

(** ** Lemmas *)

(** Every pair the two selects offer for a direction, checked by
    evaluation over the catalog. *)
Definition offered_routes_ok (d : Direction) : bool :=
  forallb (fun p => forallb (fun q => is_ok (validateRoute (Station.id p) (Station.id q)))
                      (availableDropoffStations d))
    (availablePickupStations d).

Lemma offered_routes_ok_all (d : Direction) : offered_routes_ok d = true.
Proof. destruct d; vm_compute; reflexivity. Qed.

Lemma is_ok_unit {E} (r : result unit E) : is_ok r = true -> r = Ok tt.
Proof. by destruct r as [[] |]. Qed.

Lemma find_station_empty : find_station "" = None.
Proof. vm_compute. reflexivity. Qed.

(** The estimate is the fare of the two selected stations, whenever both
    are catalog stations. *)
Definition estimate_current (f : CreateForm) : Prop :=
  forall p d, find_station (cf_pickup f) = Some p -> find_station (cf_dropoff f) = Some d ->
    cf_estimatedFare f = calculateFare (stationAsLocation p) (stationAsLocation d).

Lemma createFareEffect_current (f : CreateForm) : estimate_current (createFareEffect f).
Proof.
  intros p d. unfold createFareEffect.
  destruct (js_truthy_string (cf_pickup f) && js_truthy_string (cf_dropoff f)) eqn:Et.
  - destruct (find_station (cf_pickup f)) as [p0 |] eqn:Ep0, (find_station (cf_dropoff f)) as [d0 |] eqn:Ed0;
      simpl; intros Hp Hd; congruence.
  - intros Hp Hd. apply andb_false_iff in Et as [E | E]; unfold js_truthy_string in E;
      apply negb_false_iff, String.eqb_eq in E; rewrite E, find_station_empty in *; discriminate.
Qed.

Lemma form_input_current (i : FormInput) (f : CreateForm) :
  estimate_current f -> estimate_current (form_input i f).
Proof. destruct i; simpl; intros Hf; auto using createFareEffect_current. Qed.

Lemma run_form_current (inputs : list FormInput) (f : CreateForm) :
  estimate_current f -> estimate_current (run_form inputs f).
Proof.
  unfold run_form. revert f. induction inputs as [| i l IH]; intros f Hf; [done |].
  simpl. apply IH. by apply form_input_current.
Qed.

(** ** Theorems *)

(** (C: the form only offers routes the validator accepts) For either
    direction, any station the pickup select offers and any station the
    dropoff select offers form a route [validateRoute] accepts: the
    validation error of [handleSubmit] cannot be reached through the
    selects. *)
Theorem create_form_offers_valid_routes (f : CreateForm) (loading : bool) (p q : string) :
  In p (cfv_pickupOptions (createForm_view f loading)) ->
  In q (cfv_dropoffOptions (createForm_view f loading)) ->
  validateRoute p q = Ok tt.
Proof.
  simpl. rewrite !in_map_iff. intros (sp & <- & Hp) (sq & <- & Hq).
  pose proof (offered_routes_ok_all (cf_direction f)) as Hall. unfold offered_routes_ok in Hall.
  rewrite forallb_forall in Hall. specialize (Hall sp Hp). rewrite forallb_forall in Hall.
  by apply is_ok_unit, Hall.
Qed.

(** (C: the estimate shown is the fare of the selected stations) After
    any sequence of inputs from the initial form, whenever both
    selections are catalog stations the estimate box shows
    [calculateFare] of those station objects, the fare [useCreateTrip]
    stores; switching direction clears both selections but keeps the
    previous estimate on screen. *)
Theorem create_form_estimate (inputs : list FormInput) :
  estimate_current (run_form inputs initialCreateForm) /\
  forall d f, cf_pickup (form_input (IDirection d) f) = "" /\
              cf_dropoff (form_input (IDirection d) f) = "" /\
              createEstimate (form_input (IDirection d) f) = createEstimate f.
Proof.
  split.
  - apply run_form_current. intros p d Hp. simpl in Hp. by rewrite find_station_empty in Hp.
  - intros d f. simpl. unfold createFareEffect. simpl. done.
Qed.

(** ** Witnesses *)

Lemma create_form_offers_valid_routes_witness :
  In "gare-de-lyon" (cfv_pickupOptions (createForm_view initialCreateForm false)) /\
  In "cdg" (cfv_dropoffOptions (createForm_view initialCreateForm false)) /\
  validateRoute "gare-de-lyon" "cdg" = Ok tt.
Proof.
  assert (Hp : In "gare-de-lyon" (cfv_pickupOptions (createForm_view initialCreateForm false)))
    by (left; reflexivity).
  assert (Hq : In "cdg" (cfv_dropoffOptions (createForm_view initialCreateForm false)))
    by (left; reflexivity).
  split; [exact Hp |]. split; [exact Hq |].
  exact (create_form_offers_valid_routes _ _ _ _ Hp Hq).
Defined.

(** Choosing a route, then the other direction: both selects are empty
    and the old estimate is still shown. *)
Example create_form_stale_estimate :
  let f := run_form [IPickup "saint-antoine"; IDropoff "orly"; IDirection fromAirport] initialCreateForm in
  cf_pickup f = "" /\ cf_dropoff f = "" /\ createEstimate f = Some (44, 11).
Proof. vm_compute. repeat split. Qed.
