(* ===== verification/BookingScreens.v ===== *)
(** * The booking screens as they render

    What [components/booking/steps/BookingStep.tsx],
    [steps/PaymentStep.tsx], [steps/ConfirmationStep.tsx],
    [BookingConfirmation.tsx] and [PaymentForm.tsx] show, from the
    booking store of [Booking.v] and their own state, through the
    formatters of [Format.v]: amounts with [toFixed(2)], dates with
    date-fns' [format], which throws on a missing or invalid date (a
    render that throws is [Err]).  [PaymentStep] is also a page: its
    fetch, its three inputs and its submit as a step relation. *)

From S2P Require Import Prelude Stations Fare Validation JsDate Booking Format.
Set Warnings "-clear-no-such-hyp".

(** ** [BookingStep] *)

(** The details card, the two buttons and whether they are disabled.
    [{pickup?.name}] renders nothing when the name is missing. *)
Record BookingStepView := mkBookingStepView {
  bsv_pickupName : string;
  bsv_dropoffName : string;
  bsv_date : string;
  bsv_passengers : string;
  bsv_ride : option RideView;
  bsv_confirmLabel : string;
  bsv_disabled : bool
}.

(** [{passengers} {passengers > 1 ? 'personnes' : 'personne'}] *)
Definition passengers_text (n : Z) : string :=
  Fmt.string_of_Z n +:+ " " +:+ (if 1 <? n then "personnes" else "personne").

Definition location_name (l : option Location.t) : string :=
  default "" (l ≫= Location.name).

(** The render: [format(date!, 'PPp', { locale: fr })] is evaluated
    before the [RideSelection] child renders. *)
Definition bookingStep_view (tz : Z) (s : BookingStore) (isProcessing : bool)
    : result BookingStepView string :=
  let? dt := Fmt.format_PPp_fr tz (bs_date s) in
  Ok (mkBookingStepView (location_name (bs_pickup s)) (location_name (bs_dropoff s)) dt
        (passengers_text (bs_passengers s)) (rideSelectionView s)
        (if isProcessing then "Traitement en cours..." else "Continuer vers le paiement")
        isProcessing).

(** "Modifier la réservation" *)
Definition bookingStep_modify : Effects := mkEffects [] (Some "/booking").

(** ** [PaymentStep] *)

(** [{booking?.fare.toFixed(2)}]: the optional chain short-circuits to
    [undefined], which renders nothing. *)
Definition booking_fare_text (b : option Booking) : string :=
  match b with Some b => Fmt.toFixed2 (b_fare b) | None => "" end.

Inductive PaymentStepView :=
  | PSVSpinner
  | PSVForm (amount cardNumber expiryDate cvc buttonLabel : string) (disabled : bool).

Definition paymentStep_view (ps : PaymentStepState) (processing : bool) : PaymentStepView :=
  if ps_loading ps then PSVSpinner else
  let amount := booking_fare_text (ps_booking ps) +:+ "€" in
  PSVForm amount (ps_cardNumber ps) (ps_expiryDate ps) (ps_cvc ps)
    (if processing then "Traitement en cours..." else "Payer " +:+ amount) processing.

(** The three [onChange] handlers. *)
Inductive PaymentInput :=
  | PCard (raw : string)
  | PExpiry (raw : string)
  | PCvc (raw : string).

Definition paymentStep_input (i : PaymentInput) (ps : PaymentStepState) : PaymentStepState :=
  match i with
  | PCard raw => mkPaymentStep (ps_loading ps) (ps_booking ps) (sanitizeInput 16 raw) (ps_expiryDate ps) (ps_cvc ps)
  | PExpiry raw => mkPaymentStep (ps_loading ps) (ps_booking ps) (ps_cardNumber ps) (sanitizeInput 4 raw) (ps_cvc ps)
  | PCvc raw => mkPaymentStep (ps_loading ps) (ps_booking ps) (ps_cardNumber ps) (ps_expiryDate ps) (sanitizeInput 3 raw)
  end.

(** [fetchBooking]'s [catch]: the read of [bookings/<id>] failed; after
    the early return, so only with a booking id and a user. *)
Definition fetchBookingFailed (bookingId user : option string) (ps : PaymentStepState)
    : PaymentStepState * Effects :=
  match bookingId, user with
  | Some _, Some _ =>
      (mkPaymentStep false (ps_booking ps) (ps_cardNumber ps) (ps_expiryDate ps) (ps_cvc ps),
       mkEffects [ToastError "Impossible de charger la réservation"] (Some "/booking"))
  | _, _ => (ps, no_effects)
  end.

(** The page at [/booking/payment/:bookingId] for a signed-in [user]:
    its fetch (run whenever [bookingId] or [user] change), the inputs,
    the submit, and the writes of other pages to [bookings]. *)
Inductive payment_page_step (bookingId user : option string)
    : PaymentStepState * Bookings -> PaymentStepState * Bookings -> Prop :=
  | pp_fetch ps coll ps' eff :
      fetchBooking bookingId user coll ps = (ps', eff) ->
      payment_page_step bookingId user (ps, coll) (ps', coll)
  | pp_fetch_failed ps coll ps' eff :
      fetchBookingFailed bookingId user ps = (ps', eff) ->
      payment_page_step bookingId user (ps, coll) (ps', coll)
  | pp_input i ps coll :
      payment_page_step bookingId user (ps, coll) (paymentStep_input i ps, coll)
  | pp_pay ps coll writeOk updatedAt coll' eff :
      handlePayment bookingId ps coll writeOk updatedAt = (coll', eff) ->
      payment_page_step bookingId user (ps, coll) (ps, coll')
  | pp_other ps coll coll' :
      booking_step coll coll' ->
      payment_page_step bookingId user (ps, coll) (ps, coll').

(** ** [ConfirmationStep] and [BookingConfirmation] *)

Record ConfirmationView := mkConfirmationView {
  cv_pickup : string;
  cv_dropoff : string;
  cv_date : string;
  cv_passengers : string;
  cv_total : string
}.

(** [ConfirmationStep]: nothing without a route and a date (the effect
    then redirects); the addresses, the date, the passenger count and
    "Total payé" [{fare.toFixed(2)}€]. *)
Definition confirmationStep_view (tz : Z) (s : BookingStore) : result (option ConfirmationView) string :=
  match bs_pickup s, bs_dropoff s, bs_date s with
  | Some p, Some d, Some _ =>
      let? dt := Fmt.format_PPp_fr tz (bs_date s) in
      Ok (Some (mkConfirmationView (Location.address p) (Location.address d) dt
                  (Fmt.string_of_Z (bs_passengers s)) (Fmt.toFixed2 (bs_fare s) +:+ "€")))
  | _, _, _ => Ok None
  end.

(** [BookingConfirmation]: no guard; [{pickup?.address}] renders
    nothing without a pickup, [format(date!, ...)] throws without a date. *)
Definition bookingConfirmation_view (tz : Z) (s : BookingStore) : result ConfirmationView string :=
  let? dt := Fmt.format_PPp_fr tz (bs_date s) in
  Ok (mkConfirmationView (default "" (Location.address <$> bs_pickup s))
        (default "" (Location.address <$> bs_dropoff s)) dt
        (Fmt.string_of_Z (bs_passengers s)) (Fmt.toFixed2 (bs_fare s) +:+ "€")).

(** ** [PaymentForm] *)

(** "Total Amount" [€{fare.toFixed(2)}] and the button; the three card
    inputs are uncontrolled and never read. *)
Record PaymentFormView := mkPaymentFormView {
  pfv_amount : string;
  pfv_buttonLabel : string;
  pfv_disabled : bool
}.

Definition paymentForm_view (s : BookingStore) (loading : bool) : PaymentFormView :=
  mkPaymentFormView ("€" +:+ Fmt.toFixed2 (bs_fare s))
    (if loading then "Processing..." else "Pay Now") loading.

(** ** Lemmas *)

Lemma sanitizeInput_length (n : nat) (raw : string) : (String.length (sanitizeInput n raw) <= n)%nat.
Proof.
  unfold sanitizeInput. generalize (keep_digits raw) as s. intros s. revert n.
  induction s as [| c s IH]; intros [| k]; simpl; try lia. specialize (IH k). lia.
Qed.

(** The three fields as the inputs leave them: digits only, at most 16,
    4 and 3 of them. *)
Definition card_fields_ok (ps : PaymentStepState) : Prop :=
  forallb Js.is_digit (String.list_ascii_of_string (ps_cardNumber ps)) = true /\
  forallb Js.is_digit (String.list_ascii_of_string (ps_expiryDate ps)) = true /\
  forallb Js.is_digit (String.list_ascii_of_string (ps_cvc ps)) = true /\
  (String.length (ps_cardNumber ps) <= 16 /\ String.length (ps_expiryDate ps) <= 4 /\
   String.length (ps_cvc ps) <= 3)%nat.

(** [fetchBooking] changes only [loading] and [booking]. *)
Lemma fetchBooking_fields bookingId user coll ps :
  let ps' := fst (fetchBooking bookingId user coll ps) in
  ps_cardNumber ps' = ps_cardNumber ps /\ ps_expiryDate ps' = ps_expiryDate ps /\ ps_cvc ps' = ps_cvc ps.
Proof.
  unfold fetchBooking. destruct bookingId, user; try done.
  destruct (coll !! _) as [b |]; [destruct (String.eqb _ _) |]; done.
Qed.

Lemma card_fields_ok_input (i : PaymentInput) (ps : PaymentStepState) :
  card_fields_ok ps -> card_fields_ok (paymentStep_input i ps).
Proof.
  intros (? & ? & ? & ? & ? & ?).
  destruct i; repeat split; simpl; auto using sanitizeInput_digits, sanitizeInput_length.
Qed.

Lemma payment_page_step_fields bookingId user x y :
  payment_page_step bookingId user x y -> card_fields_ok (fst x) -> card_fields_ok (fst y).
Proof.
  destruct 1 as [ps coll ps' eff Hf | ps coll ps' eff Hf | i ps coll | | ]; simpl; try done.
  - pose proof (fetchBooking_fields bookingId user coll ps) as Hk. rewrite Hf in Hk. simpl in Hk.
    unfold card_fields_ok. destruct Hk as (-> & -> & ->). done.
  - unfold fetchBookingFailed in Hf. destruct bookingId, user; by injection Hf as <- _.
  - apply card_fields_ok_input.
Qed.

(** Without a booking id or a user nothing clears [loading]. *)
Lemma payment_page_step_loading bookingId user x y :
  (bookingId = None \/ user = None) ->
  payment_page_step bookingId user x y -> ps_loading (fst x) = true -> ps_loading (fst y) = true.
Proof.
  intros Hn. destruct 1 as [ps coll ps' eff Hf | ps coll ps' eff Hf | i ps coll | | ]; simpl; try done.
  - unfold fetchBooking in Hf. destruct Hn as [-> | ->]; [| destruct bookingId]; by injection Hf as <-.
  - unfold fetchBookingFailed in Hf. destruct Hn as [-> | ->]; [| destruct bookingId]; by injection Hf as <-.
  - by destruct i.
Qed.

Lemma format_PPp_fr_ok (tz : Z) (d : option JsDateObj) :
  is_ok (Fmt.format_PPp_fr tz d) = true <-> exists t, d = Some (ValidDate t).
Proof.
  destruct d as [[t |] |]; simpl.
  - destruct (civil_from_days (Day (LocalTime tz t))) as [[??]?]. split; eauto.
  - split; [done | by intros [? ?]].
  - split; [done | by intros [? ?]].
Qed.

Lemma calculateFare_nonneg (p d : Location.t) : 0 <= calculateFare p d.
Proof. pose proof (calculateFare_range p d) as H. repeat destruct H as [<- | H]; lia || done. Qed.

Lemma confirmationStep_throws (tz : Z) (s : BookingStore) :
  is_ok (confirmationStep_view tz s) = false <->
  is_Some (bs_pickup s) /\ is_Some (bs_dropoff s) /\ bs_date s = Some InvalidDate.
Proof.
  unfold confirmationStep_view.
  destruct (bs_pickup s) as [p |], (bs_dropoff s) as [d |]; [destruct (bs_date s) as [[ms |] |] | ..]; simpl;
    try destruct (civil_from_days (Day (LocalTime tz ms))) as [[??]?]; simpl;
    split; intros H; try done; naive_solver.
Qed.

(** ** Theorems *)

(** (C16: the card fields stay short digit strings) On the payment page,
    whatever is typed, fetched, submitted or written meanwhile, the card
    number, the expiry date and the CVC hold only digits, at most 16, 4
    and 3 of them. *)
Theorem payment_card_fields_bounded (bookingId user : option string) (coll coll' : Bookings)
    (ps : PaymentStepState) :
  rtc (payment_page_step bookingId user) (initialPaymentStep, coll) (ps, coll') -> card_fields_ok ps.
Proof.
  intros Hr. apply (rtc_preserves _ (fun x => card_fields_ok (fst x))
                      (payment_page_step_fields bookingId user) _ _ Hr).
  repeat split; simpl; lia.
Qed.

(** (C: the payment page spins for ever without a booking id or a user)
    When the route gives no booking id, or no user is signed in, every
    state the payment page reaches renders the spinner: [fetchBooking]
    returns before the [finally] that clears [loading]. *)
Theorem payment_page_spins (bookingId user : option string) (coll : Bookings)
    (x : PaymentStepState * Bookings) (processing : bool) :
  bookingId = None \/ user = None ->
  rtc (payment_page_step bookingId user) (initialPaymentStep, coll) x ->
  paymentStep_view (fst x) processing = PSVSpinner.
Proof.
  intros Hn Hr. unfold paymentStep_view.
  rewrite (rtc_preserves (payment_page_step bookingId user) (fun x => ps_loading (fst x) = true)
             (fun x y => payment_page_step_loading bookingId user x y Hn) _ _ Hr); done.
Qed.

(** (C29: the payment page charges the fare [BookingStep] recorded) A
    confirmed booking leads to [/booking/payment/<id>]; there the page,
    once it has fetched the booking for the same user, shows the total
    fare of the route, and the amount printed reads back as exactly that
    many euros: no rounding on the way. *)
Theorem payment_page_shows_total_fare (tz now ts : Z) (uid newId : string) (s s' : BookingStore)
    (coll coll' : Bookings) (eff : Effects) (p d : Location.t) (date : JsDateObj) :
  bs_pickup s = Some p -> bs_dropoff s = Some d -> bs_date s = Some date ->
  validateDateTimeObj tz now date = Ok tt ->
  handleConfirm tz now (Some uid) s coll newId true ts = (s', coll', eff) ->
  navigateTo eff = Some ("/booking/payment/" +:+ newId) /\
  paymentStep_view (fst (fetchBooking (Some newId) (Some uid) coll' initialPaymentStep)) false =
    PSVForm (Fmt.toFixed2 (inject_Z (calculateFare p d)) +:+ "€") "" "" ""
      ("Payer " +:+ (Fmt.toFixed2 (inject_Z (calculateFare p d)) +:+ "€")) false /\
  Fmt.read_fixed2 (Fmt.toFixed2 (inject_Z (calculateFare p d))) = 100 * calculateFare p d.
Proof.
  intros Hp Hd Hdt Hv Hc. unfold handleConfirm in Hc. rewrite Hp, Hd, Hdt, Hv in Hc.
  injection Hc as <- <- <-. split; [done | split].
  - unfold fetchBooking. rewrite lookup_insert_eq. simpl. by rewrite String.eqb_refl.
  - pose proof (calculateFare_nonneg p d) as H0.
    assert (Hq : (0 <= inject_Z (calculateFare p d))%Q) by (change 0%Q with (inject_Z 0); by rewrite <- Zle_Qle).
    by rewrite Fmt.toFixed2_read, Fmt.toFixed2_cents_int.
Qed.

(** (C: the booking screens throw without a valid date) [BookingStep]
    and [BookingConfirmation] render exactly when the store holds a
    valid date; [ConfirmationStep] throws exactly when the store has a
    route and an Invalid Date ([new Date] of a malformed string, which
    [BookingFlow]'s guard lets through as a truthy object). *)
Theorem booking_screens_throw (tz : Z) (s : BookingStore) (proc : bool) :
  (is_ok (bookingStep_view tz s proc) = true <-> exists t, bs_date s = Some (ValidDate t)) /\
  (is_ok (bookingConfirmation_view tz s) = true <-> exists t, bs_date s = Some (ValidDate t)) /\
  (is_ok (confirmationStep_view tz s) = false <->
     is_Some (bs_pickup s) /\ is_Some (bs_dropoff s) /\ bs_date s = Some InvalidDate).
Proof.
  pose proof (format_PPp_fr_ok tz (bs_date s)) as Hf.
  unfold bookingStep_view, bookingConfirmation_view.
  destruct (Fmt.format_PPp_fr tz (bs_date s)); simpl in Hf; (split; [exact Hf | split; [exact Hf |]]);
    apply confirmationStep_throws.
Qed.

(** ** Witnesses *)

Definition screens_pickup : Location.t :=
  Location.mk (Some 48%Q) (Some 2%Q) "Place Louis-Armand, 75012 Paris" (Some "gare-de-lyon") (Some "Gare de Lyon").
Definition screens_dropoff : Location.t :=
  Location.mk (Some 49%Q) (Some 2%Q) "95700 Roissy-en-France" (Some "cdg") (Some "Aéroport CDG").

(** 10 January 2026, 10:00 UTC. *)
Definition screens_date : JsDateObj := ValidDate (days_from_civil 2026 1 10 * msPerDay + 10 * 3600000).

Definition screens_store : BookingStore :=
  mkBookingStore (Some screens_pickup) (Some screens_dropoff) (Some screens_date) 3 0.

Definition screens_typed : PaymentStepState :=
  paymentStep_input (PCvc "12a34") (paymentStep_input (PCard "4242 4242 4242 4242 77") initialPaymentStep).

Lemma payment_card_fields_bounded_witness :
  rtc (payment_page_step (Some "b1") (Some "alice")) (initialPaymentStep, ∅) (screens_typed, ∅) /\
  card_fields_ok screens_typed.
Proof.
  assert (Hr : rtc (payment_page_step (Some "b1") (Some "alice")) (initialPaymentStep, ∅) (screens_typed, ∅)).
  { eapply rtc_l; [apply (pp_input _ _ (PCard "4242 4242 4242 4242 77")) |].
    apply rtc_once, pp_input. }
  split; [exact Hr | exact (payment_card_fields_bounded _ _ _ _ _ Hr)].
Defined.

Lemma payment_page_spins_witness :
  (@None string = None \/ Some "alice" = None) /\
  rtc (payment_page_step None (Some "alice")) (initialPaymentStep, ∅) (screens_typed, ∅) /\
  paymentStep_view screens_typed false = PSVSpinner.
Proof.
  assert (Hn : @None string = None \/ Some "alice" = None) by (left; reflexivity).
  assert (Hr : rtc (payment_page_step None (Some "alice")) (initialPaymentStep, ∅) (screens_typed, ∅)).
  { eapply rtc_l; [apply (pp_fetch None (Some "alice") initialPaymentStep ∅ initialPaymentStep no_effects); reflexivity |].
    eapply rtc_l; [apply (pp_input _ _ (PCard "4242 4242 4242 4242 77")) |].
    apply rtc_once, pp_input. }
  split; [exact Hn | split; [exact Hr |]].
  exact (payment_page_spins None (Some "alice") ∅ (screens_typed, ∅) false Hn Hr).
Defined.

Lemma payment_page_shows_total_fare_witness :
  bs_pickup screens_store = Some screens_pickup /\ bs_dropoff screens_store = Some screens_dropoff /\
  bs_date screens_store = Some screens_date /\ validateDateTimeObj 0 sample_now screens_date = Ok tt /\
  let r := handleConfirm 0 sample_now (Some "alice") screens_store ∅ "b1" true sample_now in
  navigateTo r.2 = Some ("/booking/payment/" +:+ "b1") /\
  paymentStep_view (fst (fetchBooking (Some "b1") (Some "alice") r.1.2 initialPaymentStep)) false =
    PSVForm (Fmt.toFixed2 (inject_Z (calculateFare screens_pickup screens_dropoff)) +:+ "€") "" "" ""
      ("Payer " +:+ (Fmt.toFixed2 (inject_Z (calculateFare screens_pickup screens_dropoff)) +:+ "€")) false /\
  Fmt.read_fixed2 (Fmt.toFixed2 (inject_Z (calculateFare screens_pickup screens_dropoff))) =
    100 * calculateFare screens_pickup screens_dropoff.
Proof.
  assert (Hv : validateDateTimeObj 0 sample_now screens_date = Ok tt) by (vm_compute; reflexivity).
  split; [reflexivity | split; [reflexivity | split; [reflexivity | split; [exact Hv |]]]].
  exact (payment_page_shows_total_fare 0 sample_now sample_now "alice" "b1" screens_store _ ∅ _ _
           screens_pickup screens_dropoff screens_date eq_refl eq_refl eq_refl Hv (triple_eta _)).
Defined.

(** What the screens print for a three-passenger booking from the Gare
    de Lyon to Roissy: the date in French, the total fare on the payment
    page, the per-person share [RideSelection] stores on [PaymentForm]. *)
Example booking_screens_text :
  match bookingStep_view 0 screens_store false with
  | Ok v => Some (bsv_date v, bsv_passengers v, bsv_pickupName v) | Err _ => None end =
    Some ("10 janv. 2026, 10:00", "3 personnes", "Gare de Lyon") /\
  paymentStep_view (fst (fetchBooking (Some "b1") (Some "alice")
    (snd (fst (handleConfirm 0 sample_now (Some "alice") screens_store ∅ "b1" true sample_now)))
    initialPaymentStep)) false = PSVForm "65.00€" "" "" "" "Payer 65.00€" false /\
  pfv_amount (paymentForm_view (rideSelectionEffect screens_store) false) = "€21.67".
Proof. vm_compute. repeat split. Qed.

(** After [useBooking().createBooking] resets the store, an unguarded
    [BookingConfirmation] throws on [format(date!)]. *)
Example bookingConfirmation_after_reset (tz : Z) :
  bookingConfirmation_view tz (reset screens_store) = Err "Invalid time value".
Proof. reflexivity. Qed.
