(* ===== verification/TripScreens.v ===== *)
(** * The trip screens as they print

    The text [components/trip/TripDetails.tsx], [TripCard.tsx] and
    [UserTripList.tsx] print for a trip document: names or addresses,
    the date (date-fns' ['PPp'], in French on the first two and in the
    default [en-US] locale on the third), the passengers and the
    per-person price.  [TripViews.v] holds the same components' loading,
    error and button logic; this file adds what they print, through the
    formatters of [Format.v]. *)

From Stdlib Require Import Qabs.
From S2P Require Import Prelude Stations Fare Validation JsDate Trip Booking TripViews Format.

(** ** [TripDetails] *)

Record TripDetailsText := mkTripDetailsText {
  tdt_pickup : string;
  tdt_dropoff : string;
  tdt_date : string;
  tdt_passengers : string;
  tdt_perPerson : string;
  tdt_total : string
}.

(** The card of the trip page once it has a trip: [{trip.pickup.name}],
    [{trip.dropoff.name}], the date, ["{current} / {max} inscrits"],
    ["{perPersonFare}€"] and ["Total : {trip.fare}€"]. *)
Definition tripDetails_text (tz : Z) (t : Trip.t) : result TripDetailsText string :=
  let? dt := Fmt.format_PPp_fr tz (Some (ValidDate (Trip.scheduledFor t))) in
  Ok (mkTripDetailsText (default "" (Location.name (Trip.pickup t))) (default "" (Location.name (Trip.dropoff t))) dt
        (Fmt.string_of_Z (Trip.currentPassengers t) +:+ " / " +:+ Fmt.string_of_Z (Trip.maxPassengers t) +:+ " inscrits")
        (Fmt.string_of_Z (calculatePerPersonFare (Trip.fare t) (Trip.currentPassengers t)) +:+ "€")
        ("Total : " +:+ Fmt.string_of_Z (Trip.fare t) +:+ "€")).

(** ** [TripCard] *)

Record TripCardText := mkTripCardText {
  tct_pickup : string;
  tct_dropoff : string;
  tct_perPerson : string;
  tct_date : string;
  tct_seats : string
}.

(** ["{availableSeats} place(s) disponible(s)"], singular only for 1. *)
Definition seats_text (n : Z) : string :=
  Fmt.string_of_Z n +:+ (if n =? 1 then " place disponible" else " places disponibles").

Definition tripCard_text (tz : Z) (t : Trip.t) : result TripCardText string :=
  let? dt := Fmt.format_PPp_fr tz (Some (ValidDate (Trip.scheduledFor t))) in
  Ok (mkTripCardText (default "" (Location.name (Trip.pickup t))) (default "" (Location.name (Trip.dropoff t)))
        (Fmt.string_of_Z (calculatePerPersonFare (Trip.fare t) (Trip.currentPassengers t)) +:+ "€") dt
        (seats_text (Trip.maxPassengers t - Trip.currentPassengers t))).

(** ** [UserTripList] *)

(** [x.toFixed(2)] of [trip.fare / trip.currentPassengers]: a division
    by zero gives [Infinity] or [NaN], which [toFixed] prints by name. *)
Definition js_div_toFixed2 (a : Z) (q : option Q) : string :=
  match q with
  | Some x => Fmt.toFixed2 x
  | None => if a =? 0 then "NaN" else if 0 <? a then "Infinity" else "-Infinity"
  end.

Record UserTripText := mkUserTripText {
  utt_from : string;
  utt_to : string;
  utt_perPerson : string;
  utt_date : string;
  utt_passengers : string;
  utt_status : string
}.

(** A row of [UserTripList], printed from [TripViews.userTripRow]. *)
Definition userTrip_text (tz : Z) (t : Trip.t) : result UserTripText string :=
  let r := userTripRow t in
  let? dt := Fmt.format_PPp_en tz (Some (ValidDate (Trip.scheduledFor t))) in
  Ok (mkUserTripText (row_from r) (row_to r) ("€" +:+ js_div_toFixed2 (Trip.fare t) (row_perPerson r)) dt
        (Fmt.string_of_Z (row_current r) +:+ " / " +:+ Fmt.string_of_Z (row_max r) +:+ " passengers")
        (row_status r)).

(** ** Lemmas *)

Lemma Qdiv_inject_pos (f : Z) (p : positive) : (inject_Z f / inject_Z (Zpos p) == f # p)%Q.
Proof. unfold Qeq, Qdiv, Qmult, Qinv. simpl. lia. Qed.

(** The cents [toFixed(2)] prints for [f / c] and the euros
    [calculatePerPersonFare] gives, as integer divisions. *)
Lemma cents_div (f : Z) (p : positive) :
  0 <= f -> Fmt.toFixed2_cents (inject_Z f / inject_Z (Zpos p)) = (200 * f + Zpos p) / (2 * Zpos p).
Proof.
  intros Hf. unfold Fmt.toFixed2_cents. rewrite Qdiv_inject_pos, Qabs_pos.
  - rewrite (Qfloor_comp _ ((200 * f + Zpos p) # (2 * p))); [reflexivity |].
    unfold Qeq. simpl. lia.
  - unfold Qle. simpl. lia.
Qed.

Lemma perPerson_div (f : Z) (p : positive) :
  calculatePerPersonFare f (Zpos p) = - (- f / Zpos p).
Proof.
  unfold calculatePerPersonFare. rewrite Z.max_r by lia.
  rewrite (Qceiling_comp _ (f # p) (Qdiv_inject_pos f p)). reflexivity.
Qed.

(** Rounding [f / c] to the cent and rounding it up to the euro agree
    exactly when [c] divides [f] (for [c] up to 100: a share of
    [1 / c] euro is then more than half a cent). *)
Lemma cents_ceiling (f c : Z) :
  0 <= f -> 1 <= c <= 100 -> (200 * f + c) / (2 * c) = 100 * - (- f / c) <-> (c | f).
Proof.
  intros Hf Hc. pose proof (Z.div_mod f c ltac:(lia)) as Hd. pose proof (Z.mod_pos_bound f c ltac:(lia)) as Hb.
  rewrite <- Z.mod_divide by lia. set (q := f / c) in *. set (r := f mod c) in *.
  destruct (Z.eq_dec r 0) as [Hr | Hr].
  - replace (- f / c) with (- q) by (apply Z.div_unique with 0; nia).
    replace ((200 * f + c) / (2 * c)) with (100 * q) by (apply Z.div_unique with c; nia).
    split; intros; lia.
  - replace (- f / c) with (- q - 1) by (apply Z.div_unique with (c - r); nia).
    assert ((200 * f + c) / (2 * c) < 100 * (q + 1)) by (apply Z.div_lt_upper_bound; nia).
    split; intros; lia.
Qed.

Lemma format_fr_valid (tz t : Z) : exists s, Fmt.format_PPp_fr tz (Some (ValidDate t)) = Ok s.
Proof. simpl. destruct (civil_from_days (Day (LocalTime tz t))) as [[??]?]. by eexists. Qed.

Lemma format_en_valid (tz t : Z) : exists s, Fmt.format_PPp_en tz (Some (ValidDate t)) = Ok s.
Proof. simpl. destruct (civil_from_days (Day (LocalTime tz t))) as [[??]?]. by eexists. Qed.

(** ** Theorems *)

(** (C31: "My trips" prints another per-person price than the trip page)
    For a trip with a non-negative fare and 1 to 100 passengers, the
    trip page and the trip card print [calculatePerPersonFare], the fare
    divided by the passengers rounded up to the euro, as the
    specification requires of every per-person display; the row of
    [UserTripList] prints [fare / currentPassengers] rounded to the cent
    instead, and the two read as the same amount exactly when the
    passenger count divides the fare. *)
Theorem per_person_prices_differ (tz : Z) (t : Trip.t) :
  0 <= Trip.fare t -> 1 <= Trip.currentPassengers t <= 100 ->
  exists td tc ut,
    tripDetails_text tz t = Ok td /\ tripCard_text tz t = Ok tc /\ userTrip_text tz t = Ok ut /\
    tdt_perPerson td = Fmt.string_of_Z (calculatePerPersonFare (Trip.fare t) (Trip.currentPassengers t)) +:+ "€" /\
    tct_perPerson tc = tdt_perPerson td /\
    utt_perPerson ut = "€" +:+ Fmt.toFixed2 (inject_Z (Trip.fare t) / inject_Z (Trip.currentPassengers t)) /\
    (Fmt.read_fixed2 (Fmt.toFixed2 (inject_Z (Trip.fare t) / inject_Z (Trip.currentPassengers t))) =
       100 * calculatePerPersonFare (Trip.fare t) (Trip.currentPassengers t) <->
     (Trip.currentPassengers t | Trip.fare t)).
Proof.
  intros Hf Hc. destruct (Trip.currentPassengers t) as [| p | p] eqn:Ec; try lia.
  destruct (format_fr_valid tz (Trip.scheduledFor t)) as [dt Hdt].
  destruct (format_en_valid tz (Trip.scheduledFor t)) as [de Hde].
  unfold tripDetails_text, tripCard_text, userTrip_text, userTripRow, js_div.
  rewrite Hdt, Hde, Ec. simpl. do 3 eexists. do 6 (split; [reflexivity |]).
  rewrite Fmt.toFixed2_read.
  - rewrite cents_div, perPerson_div by done. by apply cents_ceiling.
  - rewrite Qdiv_inject_pos. unfold Qle. simpl. lia.
Qed.

(** ** Witnesses *)

(** Three passengers sharing the 65 € ride from the Gare de Lyon to
    Roissy, on 10 January 2026 at 10:00 UTC. *)
Definition screens_trip : Trip.t :=
  Trip.mk "t1" "alice" ["alice"; "bob"; "carol"]
    (Location.mk (Some 48%Q) (Some 2%Q) "Place Louis-Armand, 75012 Paris" (Some "gare-de-lyon") (Some "Gare de Lyon"))
    (Location.mk (Some 49%Q) (Some 2%Q) "95700 Roissy-en-France" (Some "cdg") (Some "Aéroport CDG"))
    (days_from_civil 2026 1 10 * msPerDay + 10 * 3600000) 4 3 1 open 65 None 0 0.

Lemma per_person_prices_differ_witness :
  0 <= Trip.fare screens_trip /\ 1 <= Trip.currentPassengers screens_trip <= 100 /\
  exists td tc ut,
    tripDetails_text 0 screens_trip = Ok td /\ tripCard_text 0 screens_trip = Ok tc /\
    userTrip_text 0 screens_trip = Ok ut /\
    tdt_perPerson td = Fmt.string_of_Z (calculatePerPersonFare (Trip.fare screens_trip)
                                          (Trip.currentPassengers screens_trip)) +:+ "€" /\
    tct_perPerson tc = tdt_perPerson td /\
    utt_perPerson ut = "€" +:+ Fmt.toFixed2 (inject_Z (Trip.fare screens_trip) /
                                             inject_Z (Trip.currentPassengers screens_trip)) /\
    (Fmt.read_fixed2 (Fmt.toFixed2 (inject_Z (Trip.fare screens_trip) /
                                    inject_Z (Trip.currentPassengers screens_trip))) =
       100 * calculatePerPersonFare (Trip.fare screens_trip) (Trip.currentPassengers screens_trip) <->
     (Trip.currentPassengers screens_trip | Trip.fare screens_trip)).
Proof.
  assert (Hf : 0 <= Trip.fare screens_trip) by (simpl; lia).
  assert (Hc : 1 <= Trip.currentPassengers screens_trip <= 100) by (simpl; lia).
  split; [exact Hf | split; [exact Hc |]].
  exact (per_person_prices_differ 0 screens_trip Hf Hc).
Defined.

(** What the three screens print for that trip: 22 € a head on the trip
    page and the card, 21.67 € in "My trips", and the date in French and
    in English. *)
Example trip_screens_text :
  match tripDetails_text 0 screens_trip, tripCard_text 0 screens_trip, userTrip_text 0 screens_trip with
  | Ok td, Ok tc, Ok ut =>
      Some (tdt_perPerson td, tdt_passengers td, tdt_date td, tct_perPerson tc, tct_seats tc,
            utt_perPerson ut, utt_date ut)
  | _, _, _ => None
  end =
  Some ("22€", "3 / 4 inscrits", "10 janv. 2026, 10:00", "22€", "1 place disponible",
        "€21.67", "Jan 10, 2026, 10:00 AM").
Proof. vm_compute. reflexivity. Qed.
