(* ===== verification/Maps.v ===== *)
(** * Stations on the map and in the store

    [hooks/useStations.ts] (the active stations of the [stations]
    collection, optionally of one district) and the map components of
    [components/map/] and [components/booking/BookingMap.tsx]:
    [InteractiveMap] (a marker per catalog station, a popup, a camera
    held inside [PARIS_BOUNDS]), [StationMarker], [MapView] and
    [TripMap].  The map library is not modelled; what the code relies
    on is its [maxBounds] contract: the visible area stays inside the
    bounds, so only a marker inside them can be clicked. *)

From stdpp Require Import sorting.
From S2P Require Import Prelude Stations Fare Validation Trip Auth Booking Admin.

(** ** [useStations] *)

Record StationsState := mkStationsState {
  ss_stations : list (string * StationDoc);
  ss_loading : bool;
  ss_error : option string
}.

Definition initialStationsState : StationsState := mkStationsState [] true None.

(** Query results come in document-id order. *)
Definition id_le (a b : string * StationDoc) : Prop := String.compare (fst a) (fst b) <> Gt.

#[export] Instance id_le_dec : RelDecision id_le.
Proof. intros a b. unfold id_le. apply _. Defined.

#[export] Instance id_le_total : Total id_le.
Proof.
  intros a b. unfold id_le. rewrite (String.compare_antisym (fst b) (fst a)).
  destruct (String.compare (fst a) (fst b)); simpl; [left | left | right]; discriminate.
Qed.

(** [where('district', '==', district)] (only for a truthy district)
    and [where('isActive', '==', true)]; a document without a
    [district] field never equals a string. *)
Definition station_matches (district : option string) (d : StationDoc) : bool :=
  match district with
  | Some dist => if String.eqb dist "" then true
                 else bool_decide (Station.district (sd_station d) = Some dist)
  | None => true
  end && sd_isActive d.

Definition stations_query (district : option string) (coll : gmap string StationDoc) : list (string * StationDoc) :=
  merge_sort id_le (List.filter (fun kv => station_matches district (snd kv)) (map_to_list coll)).

(** [fetchStations], on the answer of [getDocs]: the stations and no
    error, or the error message; [finally] ends the loading state. *)
Definition fetchStations (district : option string) (read : result (gmap string StationDoc) string)
    (s : StationsState) : StationsState :=
  match read with
  | Ok coll => mkStationsState (stations_query district coll) false None
  | Err _ => mkStationsState (ss_stations s) false (Some "Failed to load stations")
  end.

(** ** [initializeTaxiStations] ([utils/collections.ts])

    [interface TaxiStation], and the helper that would write a list of
    them in one batch.  [db] is the modular SDK's [Firestore] object (the
    code passes it to [collection] and [doc]), which has no [batch]
    method: [db.batch()] throws a [TypeError] before anything is
    written.  No code calls the helper. *)
Record TaxiStation := mkTaxiStation {
  ts_id : string;
  ts_name : string;
  ts_address : string;
  ts_location : Station.Coord;
  ts_capacity : Z;
  ts_isActive : bool;
  ts_district : string;
  ts_operatingHours : string * string
}.

Definition initializeTaxiStations (stations : list TaxiStation) : M unit :=
  throw "TypeError: db.batch is not a function".

(** ** [InteractiveMap] *)

Record Bounds := mkBounds { north : Q; south : Q; east : Q; west : Q }.

Definition PARIS_BOUNDS : Bounds := mkBounds 48.9021449 48.8155755 2.4699208 2.2241989.

Record ViewState := mkViewState { vs_longitude : Q; vs_latitude : Q; vs_zoom : Z }.

Definition INITIAL_VIEW_STATE : ViewState := mkViewState 2.3522 48.8566 11.

Definition in_bounds (b : Bounds) (c : Station.Coord) : bool :=
  Qle_bool (south b) (Station.lat c) && Qle_bool (Station.lat c) (north b) &&
  Qle_bool (west b) (Station.lng c) && Qle_bool (Station.lng c) (east b).

(** A marker: the station, its position and its colour class. *)
Record MarkerView := mkMarkerView {
  mv_id : string;
  mv_lng : Q;
  mv_lat : Q;
  mv_color : string
}.

Definition marker_color (ty : Station.StationType) : string :=
  match ty with
  | Station.airport => "bg-blue-500"
  | Station.train => "bg-green-500"
  | Station.taxi => "bg-yellow-500"
  end.

Definition interactiveMap_markers (showAllStations : bool) : list MarkerView :=
  if showAllStations then
    map (fun s => mkMarkerView (Station.id s) (Station.lng (Station.location s))
                    (Station.lat (Station.location s)) (marker_color (Station.type s))) ALL_STATIONS
  else [].

(** The component's state, [popupInfo], with the station ids it has
    passed to [onStationSelect] (most recent first). *)
Record MapState := mkMapState {
  map_popup : option Station.t;
  map_selected : list string
}.

Definition initialMapState : MapState := mkMapState None [].

(** A marker's [onClick]: [setPopupInfo(station)] and
    [onStationSelect?.(station.id)]. *)
Definition marker_click (s : Station.t) (m : MapState) : MapState :=
  mkMapState (Some s) (Station.id s :: map_selected m).

(** The popup's [onClose]. *)
Definition popup_close (m : MapState) : MapState := mkMapState None (map_selected m).

(** What the user can do: click a marker the camera shows, which under
    [maxBounds] is one inside [PARIS_BOUNDS], or close the popup. *)
Inductive map_step (showAllStations : bool) : MapState -> MapState -> Prop :=
  | ms_click s m :
      In s ALL_STATIONS -> showAllStations = true ->
      in_bounds PARIS_BOUNDS (Station.location s) = true ->
      map_step showAllStations m (marker_click s m)
  | ms_close m : map_step showAllStations m (popup_close m).

(** The popup: the station's name and address. *)
Definition popup_view (m : MapState) : option (string * string) :=
  (fun s => (Station.name s, Station.address s)) <$> map_popup m.

(** [BookingMap]: its [onStationSelect] only logs, so a selection leaves
    the booking store as it is ([handleLocationSelect] is never called). *)
Definition bookingMap_select (stationId : string) (s : BookingStore) : BookingStore := s.

(** ** [StationMarker], [MapView] and [TripMap] *)

Inductive StationIcon := IconTrain | IconPlane | IconCar.

Definition stationMarker_icon (ty : Station.StationType) : StationIcon :=
  match ty with Station.train => IconTrain | Station.airport => IconPlane | Station.taxi => IconCar end.

Definition stationMarker_color (ty : Station.StationType) : string :=
  match ty with Station.train => "bg-green-500" | Station.airport => "bg-blue-500" | Station.taxi => "bg-yellow-500" end.

(** [StationMarker]'s popup flag: set by a click on the marker, cleared
    by the popup's close button. *)
Inductive MarkerEvent := MarkerClick | PopupClose.

Definition stationMarker_step (e : MarkerEvent) (showPopup : bool) : bool :=
  match e with MarkerClick => true | PopupClose => false end.

(** [MapView]: a marker at [(location.lng, location.lat)] for each of
    pickup and dropoff; a field missing at runtime is [undefined]. *)
Definition mapView_markers (pickup dropoff : option Location.t)
    : list (option Q * option Q * string) :=
  match pickup with Some p => [(Location.lng p, Location.lat p, "text-blue-600")] | None => [] end ++
  match dropoff with Some d => [(Location.lng d, Location.lat d, "text-red-600")] | None => [] end.

(** [TripMap]: no map yet, the two addresses. *)
Definition tripMap_view (pickup dropoff : Location.t) : string * string * string :=
  ("Map view coming soon", Location.address pickup, Location.address dropoff).

(** ** Lemmas *)

(** Inside [PARIS_BOUNDS] are exactly the stations that are not
    airports, by evaluation over the catalog. *)
Definition bounds_check (s : Station.t) : bool :=
  Bool.eqb (in_bounds PARIS_BOUNDS (Station.location s)) (negb (has_type s Station.airport)).

Lemma bounds_check_all : forallb bounds_check ALL_STATIONS = true.
Proof. vm_compute. reflexivity. Qed.

Lemma in_bounds_not_airport (s : Station.t) :
  In s ALL_STATIONS -> in_bounds PARIS_BOUNDS (Station.location s) = true -> has_type s Station.airport = false.
Proof.
  intros Hin Hb. pose proof (proj1 (forallb_forall _ _) bounds_check_all s Hin) as Hc.
  unfold bounds_check in Hc. rewrite Hb in Hc. by destruct (has_type s Station.airport).
Qed.

(** What the map has selected: catalog stations inside the bounds. *)
Definition map_inv (m : MapState) : Prop :=
  (forall sid, In sid (map_selected m) ->
     exists s, In s ALL_STATIONS /\ Station.id s = sid /\ in_bounds PARIS_BOUNDS (Station.location s) = true) /\
  (forall s, map_popup m = Some s -> In s ALL_STATIONS /\ in_bounds PARIS_BOUNDS (Station.location s) = true).

Lemma map_step_inv (b : bool) (m m' : MapState) : map_step b m m' -> map_inv m -> map_inv m'.
Proof.
  destruct 1 as [s m Hin _ Hb | m]; intros [Hsel Hpop]; split; simpl.
  - intros sid [<- | H]; [exists s; auto | auto].
  - by intros ? [= <-].
  - exact Hsel.
  - done.
Qed.

Lemma selected_not_airport (m : MapState) (sid : string) (s : Station.t) :
  map_inv m -> In sid (map_selected m) -> find_station sid = Some s -> has_type s Station.airport = false.
Proof.
  intros [Hsel _] Hin Hf. destruct (Hsel sid Hin) as (s' & Hs' & <- & Hb).
  rewrite find_station_of_catalog in Hf by done. injection Hf as <-. by apply in_bounds_not_airport.
Qed.

(** Only the taxi ranks carry a district. *)
Definition district_check (s : Station.t) : bool :=
  match Station.district s with Some _ => has_type s Station.taxi | None => true end.

Lemma district_taxi (s : Station.t) (dist : string) :
  In s ALL_STATIONS -> Station.district s = Some dist -> Station.type s = Station.taxi.
Proof.
  intros Hin Hd. assert (Hc : forallb district_check ALL_STATIONS = true) by (vm_compute; reflexivity).
  pose proof (proj1 (forallb_forall _ _) Hc s Hin) as H. unfold district_check, has_type in H.
  rewrite Hd in H. by apply bool_decide_eq_true in H.
Qed.

(** ** Theorems *)

(** (C34: the map can never select an airport) Through any sequence of
    marker clicks and popup closes, [InteractiveMap] passes to
    [onStationSelect] only stations inside [PARIS_BOUNDS] and opens
    popups only for them; both airports lie outside, so no two stations
    selected on the map form a route [validateRoute] accepts. *)
Theorem map_never_selects_airport (b : bool) (m : MapState) :
  rtc (map_step b) initialMapState m ->
  (forall s, map_popup m = Some s -> Station.type s <> Station.airport) /\
  (forall p q, In p (map_selected m) -> In q (map_selected m) -> is_ok (validateRoute p q) = false).
Proof.
  intros Hr. assert (Hi : map_inv m).
  { apply (rtc_preserves _ _ (map_step_inv b) _ _ Hr). split; simpl; done. }
  split.
  - intros s Hs. destruct (proj2 Hi s Hs) as [Hin Hb]. pose proof (in_bounds_not_airport s Hin Hb) as Ha.
    unfold has_type in Ha. intros E. by rewrite bool_decide_eq_false in Ha.
  - intros p q Hp Hq. destruct (proj1 Hi p Hp) as (sp & Hsp & <- & _), (proj1 Hi q Hq) as (sq & Hsq & <- & _).
    unfold validateRoute. rewrite !find_station_of_catalog by done.
    rewrite (selected_not_airport m _ sp Hi Hp), (selected_not_airport m _ sq Hi Hq)
      by (apply find_station_of_catalog; done). simpl. by rewrite !andb_false_r.
Qed.

(** (C: the seeded stations [useStations] lists) After
    [initializeFirestore] has seeded an empty database, [useStations]
    for a district lists, in id order, exactly the catalog stations of
    that district, as the seed wrote them: the taxi ranks of that bank;
    the train stations and airports, which have no district, are never
    listed. *)
Theorem seeded_stations_listed (uid dist : string) (a : Answers) :
  ans_users a = None -> ans_system a = None -> ans_batch a = None -> dist <> "" ->
  let l := ss_stations (fetchStations (Some dist)
                          (Ok (aw_stations (run_world (initializeFirestore uid a) emptyWorld)))
                          initialStationsState) in
  Sorted id_le l /\
  forall sid d, In (sid, d) l <->
    exists s, find_station sid = Some s /\ Station.district s = Some dist /\
              Station.type s = Station.taxi /\ d = mkStationDoc s true None None (ans_srv a) (ans_srv a).
Proof.
  intros Hu Hs Hb Hd l. split; [apply Sorted_merge_sort, _ |].
  intros sid d. unfold l. cbn [fetchStations ss_stations]. unfold stations_query. rewrite In_sorted_query. cbn [fst snd].
  destruct (initializeFirestore_stations uid a emptyWorld sid Hu Hs Hb) as [-> _].
  unfold station_matches. rewrite (proj2 (String.eqb_neq _ _) Hd).
  destruct (find_station sid) as [s |] eqn:Ef.
  - destruct (find_station_Some sid s Ef) as [Hin _].
    split; [intros [[= <-] H]; simpl in H | intros (s' & [= <-] & H1 & H2 & ->)]; simpl.
    + rewrite andb_true_r in H. apply bool_decide_eq_true in H.
      exists s. eauto using district_taxi.
    + rewrite andb_true_r. split; [done | by apply bool_decide_eq_true].
  - split; [intros [[=] _] | intros (? & [=] & _)].
Qed.

(** [initializeTaxiStations] writes nothing and rejects, whatever the
    stations and the database. *)
Example initializeTaxiStations_rejects (stations : list TaxiStation) (w : AdminWorld) :
  run_world (initializeTaxiStations stations) w = w /\
  run_result (initializeTaxiStations stations) w = Err "TypeError: db.batch is not a function".
Proof. split; reflexivity. Qed.

(** ** Witnesses *)

Definition opera : Station.t := nth 6 ALL_STATIONS (Station.mk "" "" Station.taxi (Station.mkCoord 0 0) "" [] None).

Lemma map_never_selects_airport_witness :
  rtc (map_step true) initialMapState (popup_close (marker_click opera initialMapState)) /\
  (forall s, map_popup (popup_close (marker_click opera initialMapState)) = Some s ->
     Station.type s <> Station.airport) /\
  (forall p q, In p (map_selected (popup_close (marker_click opera initialMapState))) ->
     In q (map_selected (popup_close (marker_click opera initialMapState))) ->
     is_ok (validateRoute p q) = false).
Proof.
  assert (Hr : rtc (map_step true) initialMapState (popup_close (marker_click opera initialMapState))).
  { eapply rtc_l; [apply (ms_click true opera initialMapState); [simpl; tauto | reflexivity | vm_compute; reflexivity] |].
    apply rtc_once, ms_close. }
  split; [exact Hr | exact (map_never_selects_airport true _ Hr)].
Defined.

Lemma seeded_stations_listed_witness :
  ans_users ok_answers = None /\ ans_system ok_answers = None /\ ans_batch ok_answers = None /\
  "right-bank" <> "" /\
  let l := ss_stations (fetchStations (Some "right-bank")
                          (Ok (aw_stations (run_world (initializeFirestore "admin" ok_answers) emptyWorld)))
                          initialStationsState) in
  Sorted id_le l /\
  forall sid d, In (sid, d) l <->
    exists s, find_station sid = Some s /\ Station.district s = Some "right-bank" /\
              Station.type s = Station.taxi /\
              d = mkStationDoc s true None None (ans_srv ok_answers) (ans_srv ok_answers).
Proof.
  assert (H1 : ans_users ok_answers = None) by reflexivity.
  assert (H2 : ans_system ok_answers = None) by reflexivity.
  assert (H3 : ans_batch ok_answers = None) by reflexivity.
  assert (H4 : "right-bank" <> "") by discriminate.
  do 4 (split; [assumption |]).
  exact (seeded_stations_listed "admin" "right-bank" ok_answers H1 H2 H3 H4).
Defined.

(** The right bank's two ranks, in id order, and the camera's bounds:
    the initial centre is inside, the two airports are not. *)
Example seeded_right_bank :
  map fst (ss_stations (fetchStations (Some "right-bank")
             (Ok (aw_stations (run_world (initializeFirestore "admin" ok_answers) emptyWorld)))
             initialStationsState)) = ["haussmann-chaussee-antin"; "opera"] /\
  in_bounds PARIS_BOUNDS (Station.mkCoord (vs_latitude INITIAL_VIEW_STATE) (vs_longitude INITIAL_VIEW_STATE)) = true /\
  map (fun s => in_bounds PARIS_BOUNDS (Station.location s)) AIRPORTS = [false; false].
Proof. vm_compute. repeat split. Qed.
