(* ===== verification/Pages.v ===== *)
(** * The page components

    [pages/HomePage.tsx] (its "Créer un trajet" button),
    [pages/CreateTripPage.tsx] (whose render toasts and navigates when no
    user is signed in) and [pages/TripDetailsPage.tsx] (its check of the
    route parameter).  The other pages and [Layout] only lay out
    components modelled elsewhere.  The parameter check is proved
    redundant against [App]'s route table of [Routing.v]. *)

From S2P Require Import Prelude Auth Routing.

(** [HomePage.handleCreateTrip] *)
Definition homePage_handleCreateTrip (user : option User) : Effects :=
  match user with
  | None => mkEffects [] (Some "/login")
  | Some _ => mkEffects [] (Some "/create-trip")
  end.

Inductive CreateTripPageView := CTPNothing | CTPForm.

(** [CreateTripPage]: without a user the render itself raises the toast
    and calls [navigate('/login')] (again on every render), then renders
    nothing.  React Router ignores a [navigate] called before the
    component's first effects have run: on the first render ([mounted]
    false) only the toast happens. *)
Definition createTripPage_render (mounted : bool) (user : option User) : CreateTripPageView * Effects :=
  match user with
  | None => (CTPNothing, mkEffects [ToastError "Please sign in to create a trip"]
                           (if mounted then Some "/login" else None))
  | Some _ => (CTPForm, no_effects)
  end.

(** [useParams()[k]]: the value bound to [k], [undefined] when none. *)
Definition useParams_get (ps : Params) (k : string) : option string :=
  snd <$> List.find (fun kv => String.eqb (fst kv) k) ps.

Inductive TripDetailsPageView := TDPMissingId | TDPDetails (tripId : string).

(** [if (!tripId)]: an absent or empty parameter shows the error. *)
Definition tripDetailsPage_view (ps : Params) : TripDetailsPageView :=
  match useParams_get ps "tripId" with
  | Some id => if String.eqb id "" then TDPMissingId else TDPDetails id
  | None => TDPMissingId
  end.

(** ** Lemmas *)

Lemma trip_route_of (r : Route) :
  In r app_routes -> route_page r = TripDetailsPage -> route_path r = [Static "trip"; Param "tripId"].
Proof. simpl. intros H Hp. repeat destruct H as [<- | H]; done. Qed.

Lemma match_trip_segs (segs : list string) (ps : Params) (rest : list string) :
  match_segs [Static "trip"; Param "tripId"] segs = Some (ps, rest) ->
  exists id, ps = [("tripId", id)] /\ id <> "".
Proof.
  destruct segs as [| x [| y segs]]; simpl; [done | by destruct (String.eqb _ _) |].
  destruct (String.eqb _ _); [| done]. destruct (String.eqb_spec y "") as [_ | Hy]; [done |].
  destruct segs; [| done]. intros [= <- _]. exists (param_value y). split; [done |].
  apply param_value_nonempty, Hy.
Qed.

(** ** Theorems *)

(** (C: the trip page always has its id) Whatever the guard decides,
    every path [App] renders as the trip page binds a non-empty
    [tripId], so [TripDetailsPage] always shows [TripDetails] for it and
    its "Trip ID is required" branch is dead. *)
Theorem trip_page_has_id (g : AuthState -> GuardView) (s : AuthState) (p : string) (ps : Params)
    (rest : list string) :
  render g s p = RPage TripDetailsPage ps rest ->
  exists id, id <> "" /\ tripDetailsPage_view ps = TDPDetails id.
Proof.
  intros Hr. destruct (render_page g s p TripDetailsPage ps rest Hr) as (r & Hm & Hpg & _).
  unfold app_match in Hm. destruct (path_segments (location_path p)) as [segs |]; [| done].
  change (first_match app_routes segs = Some (r, ps, rest)) in Hm.
  apply first_match_In in Hm as [Hin Hseg]. rewrite (trip_route_of r Hin Hpg) in Hseg.
  destruct (match_trip_segs segs ps rest Hseg) as (id & -> & Hid). exists id. split; [done |].
  unfold tripDetailsPage_view. simpl. by rewrite (proj2 (String.eqb_neq _ _) Hid).
Qed.

(** ** Witnesses *)

Lemma trip_page_has_id_witness :
  render (fun _ => GuardChildren) (mkAuthState (Some (mkUser "alice" None None None)) false) "/trip/t1" =
    RPage TripDetailsPage [("tripId", "t1")] [] /\
  exists id, id <> "" /\ tripDetailsPage_view [("tripId", "t1")] = TDPDetails id.
Proof.
  assert (Hr : render (fun _ => GuardChildren) (mkAuthState (Some (mkUser "alice" None None None)) false) "/trip/t1" =
                 RPage TripDetailsPage [("tripId", "t1")] []) by (vm_compute; reflexivity).
  split; [exact Hr | exact (trip_page_has_id _ _ _ _ _ Hr)].
Defined.

Example home_and_create_pages :
  navigateTo (homePage_handleCreateTrip None) = Some "/login" /\
  createTripPage_render false None = (CTPNothing, mkEffects [ToastError "Please sign in to create a trip"] None).
Proof. split; reflexivity. Qed.
