(* ===== verification/Forms.v ===== *)
(** * The booking and account forms as they render

    [components/booking/BookingForm.tsx] (the passenger select, the
    date-time input and the fare estimate), and the renders of
    [components/SearchForm.tsx], [components/LoginForm.tsx] and
    [components/RegisterForm.tsx], whose handlers are in [Booking.v] and
    [Auth.v].  The date-time input of [BookingForm] shows
    [date.toISOString()] (UTC) and reads its value back with
    [new Date(value)] (local time). *)

From S2P Require Import Prelude Stations Fare Validation JsDate Format Booking.

(** ** [BookingForm] *)

(** [date?.toISOString().slice(0, 16) || '']: throws on an Invalid
    Date. *)
Definition dateInput_value (date : option JsDateObj) : result string string :=
  match date with
  | None => Ok ""
  | Some d => let? s := Fmt.toISOString d in Ok (Js.substring s 0 16)
  end.

(** The input's [onChange]: [setDate(new Date(e.target.value))]. *)
Definition dateInput_change (tz : Z) (value : string) (s : BookingStore) : BookingStore :=
  setDate (Some (parse_datetime_local tz value)) s.

(** The passenger select: [1 passenger], [2 passengers], ... *)
Definition passenger_options : list (Z * string) :=
  map (fun n => (n, Fmt.string_of_Z n +:+ " passenger" +:+ (if n =? 1 then "" else "s"))) [1; 2; 3; 4].

Record BookingFormView := mkBookingFormView {
  bfv_passengerOptions : list (Z * string);
  bfv_passengers : Z;
  bfv_date : string;
  bfv_min : string;
  bfv_estimate : option string
}.

(** The render at time [now]: the select, the date input with its [min]
    ([new Date().toISOString().slice(0, 16)]), and the estimate, whose
    euro sign is the source's double-encoded ["â‚¬"]. *)
Definition bookingForm_view (now : Z) (s : BookingStore) : result BookingFormView string :=
  let? dv := dateInput_value (bs_date s) in
  let? mn := dateInput_value (Some (ValidDate now)) in
  Ok (mkBookingFormView passenger_options (bs_passengers s) dv mn
        match bs_pickup s, bs_dropoff s with
        | Some p, Some d => Some ("â‚¬" +:+ Fmt.toFixed2 (inject_Z (calculateFare p d)))
        | _, _ => None
        end).

(** ** Lemmas *)

Lemma substring_prefix (l r : list Ascii.ascii) :
  String.substring 0 (length l) (String.string_of_list_ascii (l ++ r)) = String.string_of_list_ascii l.
Proof.
  rewrite <- (String.string_of_list_ascii_of_string (String.substring _ _ _)), Fmt.list_ascii_substring,
    String.list_ascii_of_string_of_list_ascii, drop_0, take_app_length. reflexivity.
Qed.

Lemma days_from_civil_date (y m d : Z) : days_from_civil y m d = days_from_civil y m 1 + d - 1.
Proof. unfold days_from_civil. lia. Qed.

(** [valid_date] bounds the day of the month. *)
Lemma valid_date_bounds (y m d : Z) : valid_date y m d = true -> 1 <= m <= 12 /\ 1 <= d <= 31.
Proof.
  unfold valid_date, days_in_month. intros H. repeat rewrite andb_true_iff in H. rewrite !Z.leb_le in H.
  destruct (m =? 2); [destruct (leap_year y) |]; [| | destruct (_ || _)]; lia.
Qed.

(** ** Theorems *)

(** (C22: the date input drifts by the time-zone offset) [BookingForm]'s
    date input shows its date as [toISOString] prints it, in UTC, and its
    [onChange] reads the value back with [new Date], in local time: for
    any date on a whole minute in the years 0 to 9999, reading back the
    value the input shows gives the date moved by the offset [tz], so
    each edit of the field shifts the booking by the zone offset unless
    the browser runs in UTC. *)
Theorem booking_date_input_drifts (tz t : Z) :
  t mod msPerMinute = 0 -> 0 <= YearFromTime t <= 9999 ->
  exists s, dateInput_value (Some (ValidDate t)) = Ok s /\ parse_datetime_local tz s = ValidDate (t - tz).
Proof.
  intros Hmin Hy. unfold YearFromTime in Hy.
  pose proof (calendar_facts (Day t)) as Hc.
  destruct (civil_from_days (Day t)) as [[y m] d] eqn:Ec. simpl in Hy. destruct Hc as (Hdays & Hvalid & _).
  destruct (valid_date_bounds y m d Hvalid) as [Hm Hd].
  assert (Hms : 0 <= TimeWithinDay t < 86400000) by (apply Z.mod_pos_bound; reflexivity).
  assert (Hh : 0 <= TimeWithinDay t / 3600000 < 24) by (split; [apply Z.div_pos | apply Z.div_lt_upper_bound]; lia).
  set (ms := TimeWithinDay t) in *.
  destruct (Fmt.padZ_spec 4 y ltac:(lia) ltac:(simpl; lia)) as (LY & DY & RY).
  destruct (Fmt.padZ_spec 2 m ltac:(lia) ltac:(simpl; lia)) as (LM & DM & RM).
  destruct (Fmt.padZ_spec 2 d ltac:(lia) ltac:(simpl; lia)) as (LD & DD & RD).
  destruct (Fmt.padZ_spec 2 (ms / 3600000) ltac:(lia) ltac:(simpl; lia)) as (LH & DH & RH).
  assert (Hi : 0 <= ms / msPerMinute mod 60 < 60) by (apply Z.mod_pos_bound; lia).
  destruct (Fmt.padZ_spec 2 (ms / msPerMinute mod 60) ltac:(lia) ltac:(simpl; lia)) as (LI & DI & RI).
  unfold dateInput_value, Fmt.toISOString, Fmt.iso_minutes. rewrite Ec. fold ms.
  unfold Fmt.iso_year. replace ((0 <=? y) && (y <=? 9999)) with true by (symmetry; apply andb_true_iff; lia).
  unfold Fmt.read_digits in *.
  destruct (Fmt.padZ 4 y) as [| y0 [| y1 [| y2 [| y3 [|]]]]]; simpl in LY; try lia.
  destruct (Fmt.padZ 2 m) as [| m0 [| m1 [|]]]; simpl in LM; try lia.
  destruct (Fmt.padZ 2 d) as [| d0 [| d1 [|]]]; simpl in LD; try lia.
  destruct (Fmt.padZ 2 (ms / 3600000)) as [| h0 [| h1 [|]]]; simpl in LH; try lia.
  destruct (Fmt.padZ 2 (ms / msPerMinute mod 60)) as [| i0 [| i1 [|]]]; simpl in LI; try lia.
  repeat match goal with H : Forall _ (_ :: _) |- _ => apply Forall_cons in H as [? H] end.
  eexists. split; [reflexivity |].
  unfold parse_datetime_local, digits_at, Js.test_digits. simpl.
  repeat match goal with H : Js.is_digit _ = true |- _ => rewrite H; clear H end. simpl in *.
  rewrite RY, RM, RD, RH, RI, Hvalid. simpl.
  replace (ms / 3600000 <=? 23) with true by (symmetry; apply Z.leb_le; lia).
  replace (ms / msPerMinute mod 60 <=? 59) with true by (symmetry; apply Z.leb_le; lia).
  f_equal. unfold UTC, MakeDate, MakeDay. rewrite Z.div_small, Z.mod_small by lia.
  rewrite Z.add_0_r, Z.sub_add, <- days_from_civil_date, Hdays.
  unfold ms, TimeWithinDay, Day, msPerMinute, msPerDay in *.
  set (r := t mod 86400000).
  assert (Hdiv : (60000 | 86400000)) by (exists 1440; reflexivity).
  assert (Hr : r mod 60000 = 0) by (unfold r; rewrite (Z.mod_mod_divide t 86400000 60000 Hdiv); exact Hmin).
  assert (Hq : r / 3600000 = r / 60000 / 60) by (rewrite Z.div_div by lia; reflexivity).
  pose proof (Z.div_mod t 86400000 ltac:(lia)). pose proof (Z.div_mod r 60000 ltac:(lia)).
  pose proof (Z.div_mod (r / 60000) 60 ltac:(lia)). lia.
Qed.

(** ** Witnesses *)

(** 10 January 2026, 09:00 UTC. *)
Definition form_date : Z := days_from_civil 2026 1 10 * msPerDay + 9 * 3600000.

Lemma booking_date_input_drifts_witness :
  form_date mod msPerMinute = 0 /\ 0 <= YearFromTime form_date <= 9999 /\
  exists s, dateInput_value (Some (ValidDate form_date)) = Ok s /\
            parse_datetime_local 3600000 s = ValidDate (form_date - 3600000).
Proof.
  assert (H1 : form_date mod msPerMinute = 0) by reflexivity.
  assert (H2 : 0 <= YearFromTime form_date <= 9999) by (vm_compute; split; discriminate).
  split; [exact H1 | split; [exact H2 |]].
  exact (booking_date_input_drifts 3600000 form_date H1 H2).
Defined.

(** In Paris in winter (UTC+1), typing 10:00 stores 09:00 UTC, which the
    input then shows as 09:00; one more edit stores 08:00 UTC.  Clearing
    the field stores an Invalid Date, and the next render throws. *)
Example booking_form_date_edits :
  let s1 := dateInput_change 3600000 "2026-01-10T10:00" initialBookingStore in
  dateInput_value (bs_date s1) = Ok "2026-01-10T09:00" /\
  dateInput_value (bs_date (dateInput_change 3600000 "2026-01-10T09:00" s1)) = Ok "2026-01-10T08:00" /\
  bookingForm_view 0 (dateInput_change 3600000 "" s1) = Err "Invalid time value".
Proof. vm_compute. repeat split. Qed.

Definition form_store : BookingStore :=
  mkBookingStore (Some (Location.mk (Some 48%Q) (Some 2%Q) "20 Boulevard Diderot, 75012 Paris" (Some "gare-de-lyon") (Some "Gare de Lyon")))
    (Some (Location.mk (Some 49%Q) (Some 2%Q) "95700 Roissy-en-France" (Some "cdg") (Some "Charles de Gaulle Airport")))
    None 1 0.

(** The estimate of a Gare de Lyon to Roissy booking, with the
    double-encoded euro sign. *)
Example booking_form_estimate :
  match bookingForm_view 0 form_store with Ok v => bfv_estimate v | Err _ => None end = Some "â‚¬65.00".
Proof. vm_compute. reflexivity. Qed.
