(* ===== verification/Share.v ===== *)
(** * Social sharing ([src/src/utils/social-share.ts])

    [shareTrip(trip)] builds the share data of a trip (a title, a text
    naming its endpoints and its local date, and the trip's URL) and hands
    it to the Web Share API when the browser has one, or opens Twitter's
    intent URL in a new window otherwise.  It answers whether the trip
    counts as shared, and [useJoinTrip] refuses to join when it does not.

    The browser is an input: whether [navigator.share] exists and how
    the share sheet ends.  [encodeURIComponent] and the
    [application/x-www-form-urlencoded] parser that reads the intent
    URL's query back (the URL standard's, which Twitter's [URLSearchParams]
    follows) are given their semantics here, on the UTF-8 bytes of a
    string. *)

From Stdlib Require Import Ascii.
From S2P Require Import Prelude Stations Fare JsDate Trip Format.

Set Warnings "-clear-no-such-hyp".

Module Share.

(** ** [encodeURIComponent]

    A string is held as its UTF-8 bytes; every byte that is not an
    unreserved ASCII character becomes [%XY] in upper-case hexadecimal,
    which is what the ECMAScript algorithm does to the UTF-8 encoding of
    each code point.  (A lone surrogate, which throws [URIError], has no
    UTF-8 encoding and is not representable.) *)
Definition uri_unreserved (c : ascii) : bool :=
  Js.is_alnum c || existsb (Ascii.eqb c) (String.list_ascii_of_string "-_.!~*'()").

Definition encode_byte (c : ascii) : list ascii :=
  if uri_unreserved c then [c]
  else Js.percent_encode c.

Definition encodeURIComponent (s : string) : string :=
  String.string_of_list_ascii (flat_map encode_byte (String.list_ascii_of_string s)).

(** ** [shareTrip] *)

(** A template literal prints a missing field as ["undefined"]. *)
Definition template_str (o : option string) : string := default "undefined" o.

Record ShareData := mkShareData {
  share_title : string;
  share_text : string;
  share_url : string
}.

(** [shareData]: [origin] is [window.location.origin]. *)
Definition shareData (loc : Fmt.Locale) (tz : Z) (origin : string) (trip : Trip.t) : ShareData :=
  mkShareData "Share a taxi ride with CoTaxiage"
    ("Join my taxi ride from " +:+ template_str (Location.name (Trip.pickup trip)) +:+
     " to " +:+ template_str (Location.name (Trip.dropoff trip)) +:+
     " on " +:+ Fmt.toLocaleDateString loc tz (Trip.scheduledFor trip))
    (origin +:+ "/trip/" +:+ Trip.id trip).

(** The fallback's [shareUrl]. *)
Definition twitter_url (d : ShareData) : string :=
  "https://twitter.com/intent/tweet?text=" +:+ encodeURIComponent (share_text d) +:+
  "&url=" +:+ encodeURIComponent (share_url d).

(** The browser: whether [navigator.share] is defined, and how the
    promise it returns settles (resolved, or rejected with an error whose
    [name] is given). *)
Record Browser := mkBrowser {
  has_share : bool;
  share_answer : result unit string
}.

Inductive ShareEffect :=
  | NativeShare (d : ShareData)
  | WindowOpen (url target : string)
  | ConsoleError (msg : string).

(** [shareTrip(trip)]: the effects in order and the boolean it resolves
    to.  A rejection named [AbortError] (the user closed the sheet) is
    answered [false] silently; any other is logged, then [false]. *)
Definition shareTrip (b : Browser) (loc : Fmt.Locale) (tz : Z) (origin : string) (trip : Trip.t)
    : list ShareEffect * bool :=
  let d := shareData loc tz origin trip in
  if has_share b then
    match share_answer b with
    | Ok _ => ([NativeShare d], true)
    | Err name =>
        if String.eqb name "AbortError" then ([NativeShare d], false)
        else ([NativeShare d; ConsoleError "Error sharing:"], false)
    end
  else ([WindowOpen (twitter_url d) "_blank"], true).

(** [TripDetails.handleShare]: nothing without a trip; the success
    toast when [shareTrip] answers [true], nothing when it answers
    [false].  Its [catch] ("Échec du partage du trajet") would only see
    an exception raised while building the share data, before
    [shareTrip]'s own [try], on a trip without [pickup] or [dropoff],
    which [Trip.t] excludes. *)
Definition handleShare (b : Browser) (loc : Fmt.Locale) (tz : Z) (origin : string)
    (trip : option Trip.t) : list ShareEffect * Effects :=
  match trip with
  | None => ([], no_effects)
  | Some t =>
      let '(eff, shared) := shareTrip b loc tz origin t in
      (eff, if shared then mkEffects [ToastSuccess "Trajet partagé avec succès !"] None else no_effects)
  end.

(** ** Reading a URL's query back

    The URL standard: the query is what follows the first [?] up to a
    [#]; the [application/x-www-form-urlencoded] parser splits it on [&],
    drops empty pieces, splits each at its first [=] (no [=]: the value
    is empty), replaces [+] by a space and percent-decodes, keeping a [%]
    that no two hexadecimal digits follow. *)
Fixpoint form_decode (l : list ascii) : list ascii :=
  match l with
  | [] => []
  | c :: l' =>
      if Ascii.eqb c "%" then
        match l' with
        | h1 :: h2 :: l'' =>
            match Js.hex_value h1, Js.hex_value h2 with
            | Some a, Some b => ascii_of_N (16 * a + b) :: form_decode l''
            | _, _ => c :: form_decode l'
            end
        | _ => c :: form_decode l'
        end
      else (if Ascii.eqb c "+" then " "%char else c) :: form_decode l'
  end.

Definition parse_pair (l : list ascii) : string * string :=
  let '(k, v) := break_at "=" l in
  (String.string_of_list_ascii (form_decode k), String.string_of_list_ascii (form_decode v)).

Definition parse_query (q : list ascii) : list (string * string) :=
  map parse_pair (List.filter (fun s => match s with [] => false | _ => true end) (split_on "&" q)).

Definition url_query (u : string) : list ascii :=
  fst (break_at "#" (snd (break_at "?" (String.list_ascii_of_string u)))).

(** ** Lemmas *)

(** The characters that delimit a URL's parts and its query's pairs. *)
Definition delimiter (x : ascii) : bool := existsb (Ascii.eqb x) ["&"; "="; "#"; "?"]%char.

(** Each encoded byte decodes back, whatever follows it. *)
Lemma encode_byte_decode (c : ascii) (rest : list ascii) :
  form_decode (encode_byte c ++ rest) = c :: form_decode rest.
Proof. destruct c as [[] [] [] [] [] [] [] []]; reflexivity. Qed.

Lemma encode_byte_no_delimiter (c : ascii) :
  forallb (fun x => negb (delimiter x)) (encode_byte c) = true.
Proof. destruct c as [[] [] [] [] [] [] [] []]; reflexivity. Qed.

Lemma form_decode_encode (l : list ascii) : form_decode (flat_map encode_byte l) = l.
Proof. induction l as [|c l IH]; [done |]. cbn. by rewrite encode_byte_decode, IH. Qed.

Lemma encode_free (sep : ascii) (l : list ascii) :
  delimiter sep = true -> ~ In sep (flat_map encode_byte l).
Proof.
  intros Hs (c & _ & Hc)%in_flat_map.
  pose proof (encode_byte_no_delimiter c) as F. rewrite forallb_forall in F.
  specialize (F _ Hc). by rewrite Hs in F.
Qed.

(** A delimiter is absent from literal text and from encoded text. *)
Ltac no_delimiter :=
  repeat first [ apply not_in_app | apply not_in_cons; [discriminate |]
               | apply encode_free; reflexivity | apply in_nil ].

(** The query of the intent URL, piece by piece. *)
Lemma twitter_url_query (d : ShareData) :
  url_query (twitter_url d) =
  (String.list_ascii_of_string "text=" ++ flat_map encode_byte (String.list_ascii_of_string (share_text d))) ++
  "&"%char :: (String.list_ascii_of_string "url=" ++ flat_map encode_byte (String.list_ascii_of_string (share_url d))).
Proof.
  unfold url_query, twitter_url, encodeURIComponent.
  rewrite !list_ascii_of_string_app, !String.list_ascii_of_string_of_list_ascii. cbn - [flat_map].
  rewrite break_at_free by no_delimiter. reflexivity.
Qed.

(** (C36: sharing without the Web Share API) On a browser without
    [navigator.share], [shareTrip] opens one window on Twitter's intent URL
    and answers [true]; the query of that URL reads back as exactly two
    parameters, [text] and [url], holding the share text and the trip's
    URL unchanged, whatever characters the station names hold. *)
Theorem share_fallback_query (b : Browser) (loc : Fmt.Locale) (tz : Z) (origin : string)
    (trip : Trip.t) :
  has_share b = false ->
  let d := shareData loc tz origin trip in
  shareTrip b loc tz origin trip = ([WindowOpen (twitter_url d) "_blank"], true) /\
  parse_query (url_query (twitter_url d)) = [("text", share_text d); ("url", share_url d)].
Proof.
  intros Hb d. split; [by unfold shareTrip; rewrite Hb |].
  unfold parse_query. rewrite twitter_url_query, split_on_app_sep, split_on_free by no_delimiter.
  cbn - [flat_map]. unfold parse_pair. cbn - [flat_map].
  by rewrite !form_decode_encode, !String.string_of_list_ascii_of_string.
Qed.

(** ** Sharing as the gate of [useJoinTrip] *)

(** What [shareTrip] resolves to: [true] without the Web Share API, the
    share sheet's success otherwise. *)
Lemma shareTrip_answer (b : Browser) (loc : Fmt.Locale) (tz : Z) (origin : string) (trip : Trip.t) :
  snd (shareTrip b loc tz origin trip) = negb (has_share b) || is_ok (share_answer b).
Proof.
  unfold shareTrip. destruct (has_share b), (share_answer b); try reflexivity.
  cbn. by destruct String.eqb.
Qed.

Lemma joinTrip_NotShared (user : option string) (shared : bool) (trip : Trip.t) :
  joinTrip user shared trip = Err NotShared <->
  shared = false /\ is_ok (joinTrip user true trip) = true.
Proof.
  unfold joinTrip. destruct user as [uid|]; cbn; [| split; [discriminate | intros [_ ?]; discriminate]].
  destruct shared; repeat case_match; naive_solver.
Qed.

Lemma useJoinTrip_NotShared `{DocStore Db} (db : Db) (tripId : string) (user : option string)
    (shared : bool) (trip : Trip.t) (now : Z) :
  useJoinTrip db tripId user shared trip now = Err NotShared <->
  joinTrip user shared trip = Err NotShared.
Proof.
  unfold useJoinTrip. destruct (joinTrip user shared trip) as [u|e]; cbn.
  - case_match; split; discriminate.
  - split; congruence.
Qed.

(** (C23: the share gate of joining) Composed with [shareTrip], the join
    handler refuses with [NotShared] exactly when the browser has the Web
    Share API, its share sheet was rejected (cancelled or failed), and
    every earlier check of the join passed.  Without the API the gate
    never refuses: opening the intent window counts as sharing, whether
    or not anything is posted. *)
Theorem join_share_gate `{DocStore Db} (db : Db) (tripId : string) (user : option string)
    (b : Browser) (loc : Fmt.Locale) (tz : Z) (origin : string) (trip : Trip.t) (now : Z) :
  useJoinTrip db tripId user (snd (shareTrip b loc tz origin trip)) trip now = Err NotShared <->
  has_share b = true /\ is_ok (share_answer b) = false /\ is_ok (joinTrip user true trip) = true.
Proof.
  rewrite useJoinTrip_NotShared, joinTrip_NotShared, shareTrip_answer.
  destruct (has_share b), (is_ok (share_answer b)); naive_solver.
Qed.

(** ** Witnesses *)

(** A desktop browser, without [navigator.share], and a phone whose user
    closes the share sheet. *)
Definition desktop : Browser := mkBrowser false (Ok tt).
Definition phone_cancelled : Browser := mkBrowser true (Err "AbortError").

Definition share_origin : string := "https://cotaxiage.web.app".

Lemma share_fallback_query_witness :
  has_share desktop = false /\
  let d := shareData Fmt.fr_FR 3600000 share_origin (sample_trip open 1 ["alice"]) in
  shareTrip desktop Fmt.fr_FR 3600000 share_origin (sample_trip open 1 ["alice"]) =
    ([WindowOpen (twitter_url d) "_blank"], true) /\
  parse_query (url_query (twitter_url d)) = [("text", share_text d); ("url", share_url d)].
Proof.
  split; [reflexivity |].
  exact (share_fallback_query desktop Fmt.fr_FR 3600000 share_origin (sample_trip open 1 ["alice"]) eq_refl).
Defined.

(** The text and the intent URL of the sample trip (Gare de Lyon to
    Charles de Gaulle, at the epoch, seen from Paris in winter). *)
Example share_sample_trip :
  let d := shareData Fmt.fr_FR 3600000 share_origin (sample_trip open 1 ["alice"]) in
  share_text d = "Join my taxi ride from Gare de Lyon to Charles de Gaulle Airport on 01/01/1970" /\
  twitter_url d = "https://twitter.com/intent/tweet?text=Join%20my%20taxi%20ride%20from%20Gare%20de%20Lyon%20to%20Charles%20de%20Gaulle%20Airport%20on%2001%2F01%2F1970&url=https%3A%2F%2Fcotaxiage.web.app%2Ftrip%2Ftrip-1" /\
  shareTrip phone_cancelled Fmt.en_US 0 share_origin (sample_trip open 1 ["alice"]) =
    ([NativeShare (shareData Fmt.en_US 0 share_origin (sample_trip open 1 ["alice"]))], false) /\
  snd (handleShare phone_cancelled Fmt.en_US 0 share_origin (Some (sample_trip open 1 ["alice"]))) = no_effects /\
  snd (handleShare desktop Fmt.en_US 0 share_origin (Some (sample_trip open 1 ["alice"]))) =
    mkEffects [ToastSuccess "Trajet partagé avec succès !"] None.
Proof. vm_compute. repeat split. Qed.

End Share.
