(* ===== verification/FirebaseUtils.v ===== *)
(** * Firestore timestamps ([src/src/utils/firebase.ts])

    Every hook reads its dates with [Timestamp.prototype.toDate()], and
    [convertTimestampToDate] wraps that call with a [null] guard;
    [formatFirestoreDate] prints a [Date] with [toISOString()] or answers
    ["Unknown date"].  The SDK's [toDate()] is [new Date(this.seconds *
    1000 + this.nanoseconds / 1e6)]: two operations on binary64 numbers,
    each rounded to the nearest double ([Binary64.round_double]), then
    the [Date] constructor's [TimeClip], which truncates toward zero.
    [toDate], [toMillis] and [fromMillis] model the SDK; the functions
    of the repository are [convertTimestampToDate] and
    [formatFirestoreDate]. *)

From Stdlib Require Import Qabs Lqa.
From S2P Require Import Prelude Binary64 JsDate Format.

Module FirebaseUtils.

(** ** [Timestamp] and [Date] *)

(** A Firestore [Timestamp]: whole seconds and nanoseconds since the
    epoch.  Its constructor accepts [0 <= nanoseconds < 1e9] and seconds
    from 0001-01-01 to 9999-12-31 only. *)
Record Timestamp := mkTimestamp { seconds : Z; nanoseconds : Z }.

Definition ts_valid (ts : Timestamp) : Prop :=
  -62135596800 <= seconds ts < 253402300800 /\ 0 <= nanoseconds ts < 1000000000.

(** [toMillis()]: [this.seconds * 1000 + this.nanoseconds / 1e6] in
    binary64. *)
Definition toMillis (ts : Timestamp) : Q :=
  round_double (round_double (inject_Z (seconds ts) * inject_Z 1000) +
                round_double (inject_Z (nanoseconds ts) / inject_Z 1000000))%Q.

(** [ToIntegerOrInfinity] on a finite number: truncation toward zero. *)
Definition Qtrunc (v : Q) : Z := if Qle_bool 0%Q v then Qfloor v else Qceiling v.

(** [new Date(v)]: [TimeClip] keeps [|v| <= 8.64e15], truncated. *)
Definition time_clip (v : Q) : JsDateObj :=
  if Qle_bool (Qabs v) (inject_Z 8640000000000000) then ValidDate (Qtrunc v) else InvalidDate.

(** [toDate()]. *)
Definition toDate (ts : Timestamp) : JsDateObj := time_clip (toMillis ts).

(** What [convertTimestampToDate] may be given: [null], [undefined], a
    [Timestamp], or any other value (which fails [instanceof]). *)
Inductive TimestampArg := TsNull | TsUndefined | TsTimestamp (ts : Timestamp) | TsOther.

(** [convertTimestampToDate]: [None] is [null]. *)
Definition convertTimestampToDate (v : TimestampArg) : option JsDateObj :=
  match v with
  | TsTimestamp ts => Some (toDate ts)
  | _ => None
  end.

(** [formatFirestoreDate]: a missing or invalid date prints
    ["Unknown date"]; a valid one its ISO string. *)
Definition formatFirestoreDate (date : option JsDateObj) : result string string :=
  match date with
  | Some (ValidDate t) => Fmt.toISOString (ValidDate t)
  | _ => Ok "Unknown date"
  end.

(** [Timestamp.fromMillis(ms)] on a whole number of milliseconds, as
    the SDK stores a [Date]: the constructor throws out of range. *)
Definition fromMillis (ms : Z) : result Timestamp string :=
  let s := ms / 1000 in
  let ts := mkTimestamp s ((ms - s * 1000) * 1000000) in
  if (-62135596800 <=? s) && (s <? 253402300800) then Ok ts
  else Err "Timestamp seconds out of range".

(** ** Lemmas *)

Lemma Qtrunc_between (y : Q) (c : Z) :
  (inject_Z c <= y <= inject_Z c + 1)%Q -> Qtrunc y = c \/ Qtrunc y = (c + 1)%Z.
Proof.
  intros [H1 H2]. change 1%Q with (inject_Z 1) in H2. rewrite <- inject_Z_plus in H2.
  unfold Qtrunc. destruct (Qle_bool 0 y).
  - apply Qfloor_resp_le in H1, H2. rewrite Qfloor_Z in H1, H2. lia.
  - apply Qceiling_resp_le in H1, H2. rewrite Qceiling_Z in H1, H2. lia.
Qed.

Lemma Qtrunc_Z (y : Q) (c : Z) : (y == inject_Z c)%Q -> Qtrunc y = c.
Proof.
  intros E. unfold Qtrunc. destruct (Qle_bool 0 y).
  - by rewrite E, Qfloor_Z.
  - by rewrite E, Qceiling_Z.
Qed.

(** A sum of an integer and a value that rounds between two integers. *)
Lemma round_sum_between (A B : Q) (k f : Z) :
  (A == inject_Z k)%Q -> (inject_Z f <= B <= inject_Z f + 1)%Q ->
  (- 2 ^ 52 < k + f < 2 ^ 52)%Z ->
  (inject_Z (k + f) <= round_double (A + B) <= inject_Z (k + f) + 1)%Q.
Proof.
  intros HA HB Hk. rewrite inject_Z_plus.
  assert (Hb : (Qabs (A + B) < inject_Z (2 ^ 53))%Q).
  { apply Qabs_Qlt_condition. assert (- 2 ^ 53 < k + f /\ k + f + 1 < 2 ^ 53)%Z as H by lia.
    rewrite !Zlt_Qlt, !inject_Z_plus, inject_Z_opp in H. change (inject_Z 1) with 1%Q in H. lra. }
  destruct (round_double_between (A + B) Hb) as [H1 H2].
  assert (F : (k + f <= Qfloor (A + B))%Z).
  { rewrite <- (Qfloor_Z (k + f)). apply Qfloor_resp_le. rewrite inject_Z_plus. lra. }
  assert (C : (Qceiling (A + B) <= k + f + 1)%Z).
  { rewrite <- (Qceiling_Z (k + f + 1)). apply Qceiling_resp_le. rewrite !inject_Z_plus.
    change (inject_Z 1) with 1%Q. lra. }
  rewrite Zle_Qle, !inject_Z_plus in F, C. rewrite inject_Z_plus in C.
  change (inject_Z 1) with 1%Q in C. lra.
Qed.

(** [nanoseconds / 1e6] rounds within the millisecond it starts, and is
    exact on a whole number of milliseconds. *)
Lemma nanos_between (n : Z) : (0 <= n < 1000000000)%Z ->
  let B := round_double (inject_Z n / inject_Z 1000000) in
  (inject_Z (n / 1000000) <= B <= inject_Z (n / 1000000) + 1)%Q /\
  ((n mod 1000000 = 0)%Z -> (B == inject_Z (n / 1000000))%Q).
Proof.
  intros Hn B; unfold B. set (x := (inject_Z n / inject_Z 1000000)%Q) in *.
  assert (Hfl : Qfloor x = (n / 1000000)%Z) by (unfold x; by rewrite <- Zdiv_Qdiv).
  pose proof (Z.div_mod n 1000000). pose proof (Z.mod_pos_bound n 1000000).
  assert (Hq : (0 <= n / 1000000 <= 999)%Z) by lia.
  pose proof (Qlt_floor x) as Hlt. pose proof (Qfloor_le x) as Hle.
  pose proof (Qceiling_lt x) as Hcl. rewrite Hfl, inject_Z_plus in Hlt. rewrite Hfl in Hle.
  split.
  - destruct (round_double_between x) as [H1 H2].
    + apply Qabs_Qlt_condition. rewrite !Zle_Qle in Hq. change (inject_Z 1) with 1%Q in Hlt.
      assert (inject_Z (999 + 1) < inject_Z (2 ^ 53))%Q as Hb by (rewrite <- Zlt_Qlt; lia).
      rewrite inject_Z_plus in Hb. change (inject_Z 1) with 1%Q in Hb.
      assert (inject_Z 0 == 0)%Q by reflexivity. lra.
    + rewrite Hfl in H1. split; [exact H1 |].
      assert (Qceiling x <= n / 1000000 + 1)%Z as Hc.
      { cut (Qceiling x < n / 1000000 + 2)%Z; [lia |].
        rewrite Zlt_Qlt, inject_Z_plus. unfold Z.sub in Hcl. rewrite inject_Z_plus, inject_Z_opp in Hcl.
        change (inject_Z 1) with 1%Q in *. change (inject_Z 2) with 2%Q. lra. }
      rewrite Zle_Qle, inject_Z_plus in Hc. change (inject_Z 1) with 1%Q in Hc. lra.
  - intros Hm. apply round_double_exact; [| lia].
    unfold x. rewrite Hm, Z.add_0_r in H. rewrite H at 1.
    rewrite inject_Z_mult. field. discriminate.
Qed.

(** The whole milliseconds of a valid timestamp lie in the years 1 to
    9999. *)
Lemma millis_range (ts : Timestamp) : ts_valid ts ->
  (-62135596800000 <= seconds ts * 1000 + nanoseconds ts / 1000000 <= 253402300799999)%Z.
Proof.
  intros [Hs Hn]. pose proof (Z.div_mod (nanoseconds ts) 1000000).
  pose proof (Z.mod_pos_bound (nanoseconds ts) 1000000). lia.
Qed.

(** [toMillis()] is the exact value's whole milliseconds, or one more
    after rounding, and exactly them on a whole millisecond. *)
Lemma toMillis_bounds (ts : Timestamp) : ts_valid ts ->
  let c := (seconds ts * 1000 + nanoseconds ts / 1000000)%Z in
  (inject_Z c <= toMillis ts <= inject_Z c + 1)%Q /\
  ((nanoseconds ts mod 1000000 = 0)%Z -> (toMillis ts == inject_Z c)%Q).
Proof.
  intros Hv c. pose proof (millis_range ts Hv) as Hr. destruct Hv as [Hs Hn].
  destruct (nanos_between _ Hn) as [HB HE]. unfold toMillis.
  assert (HA : (round_double (inject_Z (seconds ts) * inject_Z 1000) == inject_Z (seconds ts * 1000))%Q)
    by (apply round_double_exact; [by rewrite inject_Z_mult | lia]).
  split.
  - apply round_sum_between; [exact HA | exact HB | unfold c in Hr; lia].
  - intros Hm. apply round_double_exact; [| unfold c in Hr; lia].
    rewrite HA, (HE Hm). unfold c. by rewrite inject_Z_plus.
Qed.

Lemma time_clip_valid (v : Q) (c : Z) :
  (-8640000000000000 <= c /\ c + 1 <= 8640000000000000)%Z ->
  (inject_Z c <= v <= inject_Z c + 1)%Q -> time_clip v = ValidDate (Qtrunc v).
Proof.
  intros Hc Hv. unfold time_clip.
  replace (Qle_bool _ _) with true; [reflexivity |]. symmetry.
  apply Qle_bool_iff, Qabs_Qle_condition.
  rewrite !Zle_Qle, inject_Z_plus in Hc. change (inject_Z 1) with 1%Q in Hc.
  assert (- inject_Z 8640000000000000 == inject_Z (-8640000000000000))%Q by reflexivity. lra.
Qed.

Lemma toDate_valid (ts : Timestamp) : ts_valid ts -> toDate ts = ValidDate (Qtrunc (toMillis ts)).
Proof.
  intros Hv. pose proof (millis_range ts Hv). destruct (toMillis_bounds ts Hv) as [Hb _].
  unfold toDate. eapply time_clip_valid; [| exact Hb]. lia.
Qed.

(** (C: reading a Firestore timestamp) [toDate()] of a valid timestamp is
    a valid [Date] at the timestamp's whole milliseconds, or, when the
    nanoseconds are not a whole number of milliseconds, possibly one
    millisecond later: the binary64 sum may round up to the next integer
    before [new Date] truncates.  It never lands further away. *)
Theorem toDate_spec (ts : Timestamp) : ts_valid ts ->
  let c := (seconds ts * 1000 + nanoseconds ts / 1000000)%Z in
  toDate ts = ValidDate c \/
  ((nanoseconds ts mod 1000000 <> 0)%Z /\ toDate ts = ValidDate (c + 1)).
Proof.
  intros Hv c. rewrite (toDate_valid ts Hv).
  destruct (toMillis_bounds ts Hv) as [Hb HE].
  destruct (Z.eq_dec (nanoseconds ts mod 1000000) 0) as [Hm|Hm].
  - left. by rewrite (Qtrunc_Z _ _ (HE Hm)).
  - destruct (Qtrunc_between _ c Hb) as [-> | ->]; [by left | by right].
Qed.

(** (C40: a stored [Date] reads back) Every whole-millisecond instant of
    the years 1 to 9999 is stored as a valid timestamp
    ([Timestamp.fromMillis]) that [convertTimestampToDate] turns back
    into the same instant. *)
Theorem fromMillis_roundtrip (ms : Z) :
  (-62135596800000 <= ms <= 253402300799999)%Z ->
  exists ts, fromMillis ms = Ok ts /\ ts_valid ts /\
    convertTimestampToDate (TsTimestamp ts) = Some (ValidDate ms).
Proof.
  intros Hms. pose proof (Z.div_mod ms 1000 ltac:(lia)). pose proof (Z.mod_pos_bound ms 1000 ltac:(lia)).
  set (ts := mkTimestamp (ms / 1000) ((ms - ms / 1000 * 1000) * 1000000)).
  assert (Hv : ts_valid ts) by (unfold ts_valid, ts; cbn; lia).
  exists ts. unfold fromMillis. fold ts.
  replace (_ && _) with true by (symmetry; apply andb_true_iff; split; [apply Z.leb_le | apply Z.ltb_lt]; lia).
  do 2 (split; [done |]). cbn [convertTimestampToDate]. f_equal.
  rewrite (toDate_valid ts Hv). destruct (toMillis_bounds ts Hv) as [_ HE].
  cbn [seconds nanoseconds ts] in HE. rewrite Z.mod_mul, Z.div_mul in HE by lia.
  f_equal. apply Qtrunc_Z. rewrite (HE eq_refl). apply inject_Z_injective. lia.
Qed.

(** ** Witnesses *)

Lemma toDate_spec_witness :
  ts_valid (mkTimestamp 1767000000 999999999) /\
  let c := (1767000000 * 1000 + 999999999 / 1000000)%Z in
  toDate (mkTimestamp 1767000000 999999999) = ValidDate c \/
  ((999999999 mod 1000000 <> 0)%Z /\ toDate (mkTimestamp 1767000000 999999999) = ValidDate (c + 1)).
Proof.
  assert (Hv : ts_valid (mkTimestamp 1767000000 999999999)) by (unfold ts_valid; cbn; lia).
  split; [exact Hv | exact (toDate_spec _ Hv)].
Defined.

Lemma fromMillis_roundtrip_witness :
  (-62135596800000 <= 1767225600000 <= 253402300799999)%Z /\
  exists ts, fromMillis 1767225600000 = Ok ts /\ ts_valid ts /\
    convertTimestampToDate (TsTimestamp ts) = Some (ValidDate 1767225600000).
Proof.
  split; [lia | apply (fromMillis_roundtrip 1767225600000); lia].
Defined.

(** The rounding at work: a timestamp at the last nanosecond of a
    second reads as the next second; at the last nanosecond of 9999 the
    [Date] is in the year 10000 and prints with an extended year; one
    second before the epoch plus half a millisecond truncates toward
    zero; and [convertTimestampToDate] answers [null] on a non-timestamp. *)
Example toDate_rounding :
  toDate (mkTimestamp 1767000000 999999999) = ValidDate 1767000001000 /\
  toDate (mkTimestamp 1767000000 999999000) = ValidDate 1767000000999 /\
  formatFirestoreDate (convertTimestampToDate (TsTimestamp (mkTimestamp 253402300799 999999999))) =
    Ok "+010000-01-01T00:00:00.000Z" /\
  toDate (mkTimestamp (-1) 500000) = ValidDate (-999) /\
  formatFirestoreDate (convertTimestampToDate TsOther) = Ok "Unknown date".
Proof. vm_compute. repeat split. Qed.

End FirebaseUtils.
