(* ===== verification/AuthForms.v ===== *)
(** * The login and registration forms ([components/LoginForm.tsx],
    [components/RegisterForm.tsx])

    Each form keeps its fields in state, lets the browser's constraint
    validation guard the submission ([required] inputs, [type="email"]),
    and runs an asynchronous [handleSubmit]: [setLoading(true)], the zod
    schema, [await signIn] (or [signUp]), the toasts and navigation that
    [Auth.loginSubmit] ([Auth.registerSubmit]) computes, and
    [setLoading(false)] in [finally].  While the request is in flight the
    submit button is disabled, and a form whose submit button is
    disabled is not submitted.

    Both forms have that one shape, modelled once in [Section
    SubmitForm] over the form's fields and instantiated per form: a
    state (fields, [loading], the request in flight), the events (an
    input's [onChange], a submission, the provider's answer), and the
    render of the button.  The schema and the handler's continuation
    are those of [Auth.v]; zod's e-mail check stays a parameter. *)

From Stdlib Require Import Ascii.
From S2P Require Import Prelude Auth.

Module AuthForms.

(** ** The browser's side of an [<input>] *)

(** ASCII whitespace in the HTML standard: tab, line feed, form feed,
    carriage return and space. *)
Definition ascii_whitespace (c : Ascii.ascii) : bool :=
  let n := Ascii.nat_of_ascii c in
  ((n =? 9) || (n =? 10) || (n =? 12) || (n =? 13) || (n =? 32))%nat.

Definition is_newline (c : Ascii.ascii) : bool :=
  let n := Ascii.nat_of_ascii c in ((n =? 10) || (n =? 13))%nat.

Fixpoint strip_leading (l : list Ascii.ascii) : list Ascii.ascii :=
  match l with
  | c :: l' => if ascii_whitespace c then strip_leading l' else l
  | [] => []
  end.

Definition strip_newlines (l : list Ascii.ascii) : list Ascii.ascii :=
  List.filter (fun c => negb (is_newline c)) l.

(** The value sanitization of [<input type="email">]: newlines removed,
    then leading and trailing whitespace; [e.target.value] is the
    sanitized value. *)
Definition sanitize_email (v : string) : string :=
  String.string_of_list_ascii
    (rev (strip_leading (rev (strip_leading (strip_newlines (String.list_ascii_of_string v)))))).

(** [<input type="password">] only removes newlines. *)
Definition sanitize_password (v : string) : string :=
  String.string_of_list_ascii (strip_newlines (String.list_ascii_of_string v)).

(** A valid e-mail address of the HTML standard:
    [1*( atext / "." ) "@" label *( "." label )], a label being 1 to 63
    letters, digits or hyphens that starts and ends with a letter or a
    digit. *)
Definition email_atext (c : Ascii.ascii) : bool :=
  Js.is_alnum c || existsb (Ascii.eqb c) (String.list_ascii_of_string ".!#$%&'*+/=?^_`{|}~-").

Definition label_ok (l : list Ascii.ascii) : bool :=
  match l with
  | [] => false
  | c :: _ =>
      Js.is_alnum c && Js.is_alnum (List.last l c) && (length l <=? 63)%nat &&
      forallb (fun x => Js.is_alnum x || Ascii.eqb x "-"%char) l
  end.

Definition valid_email_address (s : string) : bool :=
  let '(local, domain) := break_at "@"%char (String.list_ascii_of_string s) in
  match local with [] => false | _ => true end && forallb email_atext local &&
  forallb label_ok (split_on "."%char domain).

(** ** One asynchronous submit form *)

Section SubmitForm.
Context {F : Type}.
(** The browser's constraint validation of the form's inputs. *)
Variable browser_valid : F -> bool.
(** The schema's first issue. *)
Variable schema : F -> result unit string.
(** What [handleSubmit] does once the provider answers. *)
Variable finish : F -> result unit FormError -> Effects.

(** The component's state: its fields, [loading], and the fields the
    request in flight was sent with (captured by the handler's
    closure). *)
Record FormState := mkFormState {
  fields : F;
  loading : bool;
  in_flight : option F
}.

Definition idle (f : F) : FormState := mkFormState f false None.

Inductive FormEvent :=
  | Edit (set : F -> F)
  | Submit
  | Settle (answer : result unit FormError).

(** What a step does besides changing the state: its toasts and
    navigation, and the provider call it starts. *)
Record FormOutput := mkFormOutput {
  out_effects : Effects;
  out_call : option F
}.

Definition quiet : FormOutput := mkFormOutput no_effects None.

(** A submission is dropped by the browser while the button is
    disabled or an input is invalid; a schema issue is raised and the
    handler ends before its first [await] (so [loading] is back to
    [false] in the same render); otherwise the request starts. *)
Definition form_step (s : FormState) (ev : FormEvent) : FormState * FormOutput :=
  match ev with
  | Edit set => (mkFormState (set (fields s)) (loading s) (in_flight s), quiet)
  | Submit =>
      if loading s || negb (browser_valid (fields s)) then (s, quiet)
      else match schema (fields s) with
           | Err m => (s, mkFormOutput (toast_error m) None)
           | Ok _ => (mkFormState (fields s) true (Some (fields s)), mkFormOutput no_effects (Some (fields s)))
           end
  | Settle r =>
      match in_flight s with
      | None => (s, quiet)
      | Some x => (mkFormState (fields s) false None, mkFormOutput (finish x r) None)
      end
  end.

Fixpoint form_run (s : FormState) (evs : list FormEvent) : FormState * Effects * list F :=
  match evs with
  | [] => (s, no_effects, [])
  | ev :: evs' =>
      let '(s1, o) := form_step s ev in
      let '(s2, e, calls) := form_run s1 evs' in
      (s2, effects_app (out_effects o) e, option_list (out_call o) ++ calls)
  end.

Definition form_reachable (s0 s : FormState) : Prop :=
  rtc (fun a b => exists ev, fst (form_step a ev) = b) s0 s.

(** [loading] is set exactly while a request is in flight. *)
Definition form_inv (s : FormState) : Prop := loading s = bool_decide (is_Some (in_flight s)).

(** *** Lemmas *)

Lemma form_step_inv (s : FormState) (ev : FormEvent) : form_inv s -> form_inv (fst (form_step s ev)).
Proof.
  unfold form_inv. intros Hs. destruct ev as [set| |r]; cbn; [done | |].
  - destruct (_ || _); [done |]. by destruct (schema (fields s)).
  - destruct (in_flight s) eqn:E; cbn; [done | by rewrite E].
Qed.

Lemma form_reachable_inv (s0 s : FormState) : form_inv s0 -> form_reachable s0 s -> form_inv s.
Proof.
  intros H0 Hr. refine (rtc_preserves _ form_inv _ _ _ Hr H0).
  intros a b [ev <-]. apply form_step_inv.
Qed.

(** Only a submission starts a request, from a state with none in
    flight, on fields the browser and the schema accept. *)
Lemma form_call (s : FormState) (ev : FormEvent) (x : F) :
  form_inv s -> out_call (snd (form_step s ev)) = Some x ->
  in_flight s = None /\ fields s = x /\ browser_valid x = true /\ is_ok (schema x) = true.
Proof.
  unfold form_inv. intros Hinv. destruct ev as [set| |r]; cbn; [discriminate | | by destruct (in_flight s)].
  destruct (loading s) eqn:El, (browser_valid (fields s)) eqn:Eb; cbn; try discriminate.
  destruct (schema (fields s)) eqn:Es; cbn; [| discriminate]. intros [= <-].
  rewrite Es. split; [| done]. by destruct (in_flight s).
Qed.

Lemma effects_app_no_effects_l (e : Effects) : effects_app no_effects e = e.
Proof. destruct e as [t [p|]]; reflexivity. Qed.

Lemma effects_app_no_effects_r (e : Effects) : effects_app e no_effects = e.
Proof. destruct e as [t [p|]]; unfold effects_app; cbn; by rewrite app_nil_r. Qed.

(** Edits change the fields only. *)
Lemma form_run_edits (s : FormState) (sets : list (F -> F)) (evs : list FormEvent) :
  form_run s (map Edit sets ++ evs) =
  form_run (mkFormState (fold_left (fun f set => set f) sets (fields s)) (loading s) (in_flight s)) evs.
Proof.
  revert s. induction sets as [|set sets IH]; intros s; [by destruct s |].
  cbn [map app form_run form_step]. rewrite IH. cbn.
  destruct (form_run _ evs) as [[s2 e] calls]. by rewrite effects_app_no_effects_l.
Qed.

(** A submission, any edits while the request is in flight, and the
    provider's answer: the effects of the whole handler on the fields
    as they were submitted, and the form idle again. *)
Lemma form_submit_settle (f : F) (sets : list (F -> F)) (r : result unit FormError) :
  browser_valid f = true ->
  let '(s', e, calls) := form_run (idle f) (Submit :: map Edit sets ++ [Settle r]) in
  e = match schema f with Err m => toast_error m | Ok _ => finish f r end /\
  calls = (if is_ok (schema f) then [f] else []) /\ loading s' = false /\ in_flight s' = None.
Proof.
  intros Hb. cbn [form_run form_step idle fields loading]. rewrite Hb. cbn.
  destruct (schema f) as [[]|m]; cbn; rewrite form_run_edits; cbn;
    rewrite ?effects_app_no_effects_r, ?effects_app_no_effects_l; auto.
Qed.

End SubmitForm.

Arguments FormState : clear implicits.
Arguments FormEvent : clear implicits.

(** ** [LoginForm] *)

Record LoginFields := mkLoginFields { email : string; password : string }.

Definition initialLoginForm : FormState LoginFields := idle (mkLoginFields "" "").

(** [onChange={(e) => setEmail(e.target.value)}] and the password's. *)
Definition setEmail (v : string) (f : LoginFields) : LoginFields :=
  mkLoginFields (sanitize_email v) (password f).
Definition setPassword (v : string) (f : LoginFields) : LoginFields :=
  mkLoginFields (email f) (sanitize_password v).

(** Both inputs are [required]; the first is [type="email"]. *)
Definition login_browser_valid (f : LoginFields) : bool :=
  valid_email_address (email f) && negb (String.eqb (password f) "").

Definition login_schema (isEmail : string -> bool) (f : LoginFields) : result unit string :=
  loginSchema isEmail (email f) (password f).

(** After [await signIn(email, password)]: the success toast and the
    navigation, or the toast of the caught error. *)
Definition login_finish (f : LoginFields) (r : result unit FormError) : Effects :=
  match r with
  | Ok _ => mkEffects [ToastSuccess "Connexion réussie !"]
              (Some (if String.eqb (email f) "admin@cotaxiage.com" then "/admin" else "/"))
  | Err e => toast_error (login_error_message e)
  end.

Definition loginForm_step (isEmail : string -> bool) :
    FormState LoginFields -> FormEvent LoginFields -> FormState LoginFields * FormOutput :=
  form_step login_browser_valid (login_schema isEmail) login_finish.

(** What the form renders: the two values and the submit button. *)
Record SubmitFormView := mkSubmitFormView {
  view_values : list string;
  button_label : string;
  button_disabled : bool
}.

Definition loginForm_run (isEmail : string -> bool) :
    FormState LoginFields -> list (FormEvent LoginFields) -> FormState LoginFields * Effects * list LoginFields :=
  form_run login_browser_valid (login_schema isEmail) login_finish.

Definition loginForm_view (s : FormState LoginFields) : SubmitFormView :=
  mkSubmitFormView [email (fields s); password (fields s)]
    (if loading s then "Connexion en cours..." else "Se connecter") (loading s).

(** ** [RegisterForm] *)

Record RegisterFields := mkRegisterFields {
  r_email : string;
  r_password : string;
  r_confirmPassword : string
}.

Definition initialRegisterForm : FormState RegisterFields := idle (mkRegisterFields "" "" "").

Definition setRegisterEmail (v : string) (f : RegisterFields) : RegisterFields :=
  mkRegisterFields (sanitize_email v) (r_password f) (r_confirmPassword f).
Definition setRegisterPassword (v : string) (f : RegisterFields) : RegisterFields :=
  mkRegisterFields (r_email f) (sanitize_password v) (r_confirmPassword f).
Definition setConfirmPassword (v : string) (f : RegisterFields) : RegisterFields :=
  mkRegisterFields (r_email f) (r_password f) (sanitize_password v).

Definition register_browser_valid (f : RegisterFields) : bool :=
  valid_email_address (r_email f) && negb (String.eqb (r_password f) "") &&
  negb (String.eqb (r_confirmPassword f) "").

Definition register_schema (isEmail : string -> bool) (f : RegisterFields) : result unit string :=
  registerSchema isEmail (r_email f) (r_password f) (r_confirmPassword f).

Definition register_finish (f : RegisterFields) (r : result unit FormError) : Effects :=
  match r with
  | Ok _ => mkEffects [ToastSuccess "Compte créé avec succès !"] (Some "/dashboard")
  | Err e => toast_error (register_error_message e)
  end.

Definition registerForm_step (isEmail : string -> bool) :
    FormState RegisterFields -> FormEvent RegisterFields -> FormState RegisterFields * FormOutput :=
  form_step register_browser_valid (register_schema isEmail) register_finish.

Definition registerForm_run (isEmail : string -> bool) :
    FormState RegisterFields -> list (FormEvent RegisterFields) ->
    FormState RegisterFields * Effects * list RegisterFields :=
  form_run register_browser_valid (register_schema isEmail) register_finish.

Definition registerForm_view (s : FormState RegisterFields) : SubmitFormView :=
  mkSubmitFormView [r_email (fields s); r_password (fields s); r_confirmPassword (fields s)]
    (if loading s then "Création en cours..." else "Créer un compte") (loading s).

(** ** The forms against their handlers *)

(** Split at its [await], the component's handler is [Auth.loginSubmit]. *)
Lemma login_refines (isEmail : string -> bool) (f : LoginFields) (r : result unit FormError) :
  match login_schema isEmail f with Err m => toast_error m | Ok _ => login_finish f r end =
  loginSubmit isEmail (email f) (password f) r.
Proof. unfold login_schema, loginSubmit, login_finish. by destruct (loginSchema _ _ _) as [[]|]. Qed.

Lemma register_refines (isEmail : string -> bool) (f : RegisterFields) (r : result unit FormError) :
  match register_schema isEmail f with Err m => toast_error m | Ok _ => register_finish f r end =
  registerSubmit isEmail (r_email f) (r_password f) (r_confirmPassword f) r.
Proof. unfold register_schema, registerSubmit, register_finish. by destruct (registerSchema _ _ _ _) as [[]|]. Qed.

Lemma loginSchema_ok (isEmail : string -> bool) (em pw : string) :
  is_ok (loginSchema isEmail em pw) = true -> isEmail em = true /\ (6 <= String.length pw)%nat.
Proof.
  unfold loginSchema. intros H.
  destruct (isEmail em), (String.length pw <? 6)%nat eqn:E; cbn in H; try discriminate.
  apply Nat.ltb_ge in E. auto.
Qed.

(** (C28: the login form runs its handler) Submitting browser-valid
    fields, editing them while the sign-in is in flight, and receiving
    the provider's answer has exactly the toasts and navigation of
    [Auth.loginSubmit] on the fields as submitted; [signIn] is called
    once when the schema passes and never otherwise, and the button is
    enabled again at the end. *)
Theorem loginForm_refines_loginSubmit (isEmail : string -> bool) (f : LoginFields)
    (sets : list (LoginFields -> LoginFields)) (r : result unit FormError) :
  login_browser_valid f = true ->
  let '(s', e, calls) := loginForm_run isEmail (idle f) (Submit :: map Edit sets ++ [Settle r]) in
  e = loginSubmit isEmail (email f) (password f) r /\
  calls = (if is_ok (loginSchema isEmail (email f) (password f)) then [f] else []) /\
  loginForm_view s' = mkSubmitFormView [email (fields s'); password (fields s')] "Se connecter" false.
Proof.
  intros Hb. pose proof (form_submit_settle login_browser_valid (login_schema isEmail) login_finish f sets r Hb) as H.
  unfold loginForm_run. destruct (form_run _ _ _ _ _) as [[s' e] calls].
  destruct H as (-> & -> & Hl & _). rewrite login_refines. unfold loginForm_view. by rewrite Hl.
Qed.

(** (C: one sign-in at a time, on checked fields) In every state the
    login form reaches, a [signIn] call starts only when no other is in
    flight (the button is disabled meanwhile), on an address that both
    the browser's [type="email"] check and the schema's e-mail check
    accept and a password of at least six characters. *)
Theorem loginForm_calls_checked (isEmail : string -> bool) (s : FormState LoginFields)
    (ev : FormEvent LoginFields) (x : LoginFields) :
  form_reachable login_browser_valid (login_schema isEmail) login_finish initialLoginForm s ->
  out_call (snd (loginForm_step isEmail s ev)) = Some x ->
  in_flight s = None /\ valid_email_address (email x) = true /\
  isEmail (email x) = true /\ (6 <= String.length (password x))%nat.
Proof.
  intros Hr Hc. assert (Hi : form_inv s) by (apply (form_reachable_inv login_browser_valid (login_schema isEmail) login_finish initialLoginForm); [reflexivity | exact Hr]).
  destruct (form_call _ _ _ s ev x Hi Hc) as (Hn & _ & Hb & Hs).
  apply andb_prop in Hb as [He _]. apply loginSchema_ok in Hs as [? ?]. auto.
Qed.

(** ** Witnesses *)

Definition alice_login : FormState LoginFields :=
  mkFormState (mkLoginFields "alice@example.com" "secret1") false None.

Lemma loginForm_calls_checked_witness :
  form_reachable login_browser_valid (login_schema (fun _ => true)) login_finish initialLoginForm alice_login /\
  out_call (snd (loginForm_step (fun _ => true) alice_login Submit)) = Some (fields alice_login) /\
  (in_flight alice_login = None /\ valid_email_address (email (fields alice_login)) = true /\
   (fun _ => true) (email (fields alice_login)) = true /\ (6 <= String.length (password (fields alice_login)))%nat).
Proof.
  assert (Hr : form_reachable login_browser_valid (login_schema (fun _ => true)) login_finish
                 initialLoginForm alice_login).
  { apply rtc_l with (mkFormState (mkLoginFields "alice@example.com" "") false None);
      [exists (Edit (setEmail "  alice@example.com ")); vm_compute; reflexivity |].
    apply rtc_once. exists (Edit (setPassword "secret1")). vm_compute. reflexivity. }
  split; [exact Hr |]. split; [reflexivity |].
  exact (loginForm_calls_checked (fun _ => true) alice_login Submit (fields alice_login) Hr eq_refl).
Defined.

Lemma loginForm_refines_loginSubmit_witness :
  login_browser_valid (fields alice_login) = true /\
  let '(s', e, calls) := loginForm_run (fun _ => true) (idle (fields alice_login))
      (Submit :: map Edit [setPassword "oops"] ++ [Settle (Ok tt)]) in
  e = loginSubmit (fun _ => true) (email (fields alice_login)) (password (fields alice_login)) (Ok tt) /\
  calls = (if is_ok (loginSchema (fun _ => true) (email (fields alice_login)) (password (fields alice_login)))
           then [fields alice_login] else []) /\
  loginForm_view s' = mkSubmitFormView [email (fields s'); password (fields s')] "Se connecter" false.
Proof.
  split; [reflexivity |].
  exact (loginForm_refines_loginSubmit (fun _ => true) (fields alice_login) [setPassword "oops"] (Ok tt) eq_refl).
Defined.

(** A run of the login form: the pasted address is trimmed, a second
    click while signing in does nothing, the button reads "Connexion en
    cours..." meanwhile, and the answer navigates home; the browser
    blocks an address without "@" before the handler runs. *)
Example loginForm_session :
  let st := fst (loginForm_step (fun _ => true) alice_login Submit) in
  loginForm_view st = mkSubmitFormView ["alice@example.com"; "secret1"] "Connexion en cours..." true /\
  loginForm_step (fun _ => true) st Submit = (st, quiet) /\
  snd (loginForm_step (fun _ => true) st (Settle (Ok tt))) =
    mkFormOutput (mkEffects [ToastSuccess "Connexion réussie !"] (Some "/")) None /\
  login_browser_valid (mkLoginFields "alice" "secret1") = false /\
  valid_email_address "user@localhost" = true.
Proof. vm_compute. repeat split. Qed.

End AuthForms.
