(* ===== verification/Layout.v ===== *)
(** * The page layout ([components/layout/Layout.tsx], [App.tsx])

    [App] renders [Layout] around a [Suspense] boundary around its
    routes: [Layout] puts the [Navbar] above the page and mounts the one
    [Toaster] that shows every toast of the handlers; [Suspense] shows
    the spinner while the code of a lazily loaded page is fetched.
    [LoginPage] and [RegisterPage] only centre their form, and
    [NoTripsFound] is a fixed message that no component renders. *)

From S2P Require Import Prelude Auth Routing AuthForms.

Module Layout.

(** [<Toaster position="top-right" toastOptions={{ duration: 3000,
    style: { background: '#363636', color: '#fff' } }} />] *)
Record ToasterOptions := mkToasterOptions {
  position : string;
  duration : Z;
  background : string;
  color : string
}.

Definition layout_toaster : ToasterOptions := mkToasterOptions "top-right" 3000 "#363636" "#fff".

(** The pages [App] imports with [lazy(() => import(...))]; the others
    are in the main bundle. *)
Definition lazy_page (p : Page) : bool :=
  match p with
  | LoginPage | RegisterPage | ProfilePage | CreateTripPage | TripDetailsPage => true
  | HomePage | BookingPage | TripsPage | AdminPage => false
  end.

(** [<Suspense fallback={<LoadingSpinner />}>]: a lazy page whose code
    has not arrived yet ([loaded p = false]) shows the spinner. *)
Definition suspense (loaded : Page -> bool) (r : Rendered) : Rendered :=
  match r with
  | RPage p _ _ => if lazy_page p && negb (loaded p) then RSpinner else r
  | _ => r
  end.

(** What [Layout] shows: the bar's links, the page, the toaster. *)
Record LayoutView := mkLayoutView {
  navbar : list NavLink;
  main : Rendered;
  toaster : ToasterOptions
}.

(** [App] at [location.pathname]; [authGuard] is [AuthGuard]'s decision. *)
Definition app_view (authGuard : AuthState -> GuardView) (loaded : Page -> bool) (s : AuthState)
    (pathname : string) : LayoutView :=
  mkLayoutView (navbar_links (auth_user s) pathname)
    (suspense loaded (render authGuard s pathname)) layout_toaster.

(** [LoginPage] and [RegisterPage]: their form, centred on the page. *)
Definition loginPage_view (s : AuthForms.FormState AuthForms.LoginFields) : AuthForms.SubmitFormView :=
  AuthForms.loginForm_view s.

Definition registerPage_view (s : AuthForms.FormState AuthForms.RegisterFields) : AuthForms.SubmitFormView :=
  AuthForms.registerForm_view s.

(** [NoTripsFound]: its heading and its hint. *)
Definition noTripsFound_text : string * string :=
  ("Aucun trajet trouvé", "Ajustez vos critères de recherche ou créez un nouveau trajet").

(** The spinner replaces exactly the lazy pages whose code is missing. *)
Lemma suspense_page (loaded : Page -> bool) (p : Page) (ps : Params) (rest : list string) :
  suspense loaded (RPage p ps rest) = RSpinner <-> lazy_page p = true /\ loaded p = false.
Proof. cbn. destruct (lazy_page p), (loaded p); cbn; intuition congruence. Qed.

(** A first visit to [/login]: the spinner under the bar until the
    page's code arrives, then the login page; the bundled home page
    shows at once. *)
Example app_first_visits :
  main (app_view (fun _ => GuardChildren) (fun _ => false) initialAuth "/login") = RSpinner /\
  main (app_view (fun _ => GuardChildren) (fun _ => true) initialAuth "/login") = RPage LoginPage [] [] /\
  main (app_view (fun _ => GuardChildren) (fun _ => false) initialAuth "/") = RPage HomePage [] [] /\
  navbar (app_view (fun _ => GuardChildren) (fun _ => false) initialAuth "/login") =
    [mkNavLink "/login" "Connexion" true; mkNavLink "/register" "S'inscrire" false].
Proof. vm_compute. repeat split. Qed.

End Layout.
