(* ===== verification/SearchPages.v ===== *)
(** * The trips page over its subscription ([pages/TripsPage.tsx],
    [hooks/useTrips.ts], [components/trip/TripSearch.tsx])

    [TripsPage] reads the search from the booking store, subscribes to
    the open trips through [useTrips] and renders the spinner, the
    error, or a subtitle and the list.  [useTrips]' effect registers an
    [onSnapshot] listener whose callbacks set the trips, the error and
    [loading]; a listener that reports an error receives no further
    snapshot.  [TripSearch] is a location select and a date picker; like
    [AdvancedTripSearch], [TripFilters], [TripSorting] and
    [NoTripsFound], no page renders it. *)

From S2P Require Import Prelude Stations Fare Validation JsDate Format Trip Booking TripViews TripWidgets Share.

Module SearchPages.

(** ** [useTrips] *)

(** Its three [useState]s, and whether its listener is still live. *)
Record UseTripsState := mkUseTripsState {
  ut_trips : list Trip.t;
  ut_loading : bool;
  ut_error : option string;
  ut_listening : bool
}.

Definition initialUseTrips : UseTripsState := mkUseTripsState [] true None false.

Inductive UseTripsEvent :=
  | UTSubscribe                  (** the effect registers [onSnapshot] *)
  | UTInitFailed                 (** building the query threw *)
  | UTSnapshot (coll : Trips)    (** the listener receives the collection *)
  | UTError.                     (** the listener fails *)

(** The effect and the listener's callbacks, with the toasts they raise. *)
Definition useTrips_step (f : TripFilters) (s : UseTripsState) (ev : UseTripsEvent)
    : UseTripsState * list Toast :=
  match ev with
  | UTSubscribe => (mkUseTripsState (ut_trips s) (ut_loading s) (ut_error s) true, [])
  | UTInitFailed =>
      (mkUseTripsState (ut_trips s) false (Some "Échec de l'initialisation des trajets") false, [])
  | UTSnapshot coll =>
      if ut_listening s then (mkUseTripsState (useTrips_result f coll) false None true, [])
      else (s, [])
  | UTError =>
      if ut_listening s then
        (mkUseTripsState (ut_trips s) false (Some "Échec du chargement des trajets") false,
         [ToastError "Impossible de charger les trajets"])
      else (s, [])
  end.

(** The state after a sequence of events, with every toast raised. *)
Fixpoint useTrips_run (f : TripFilters) (s : UseTripsState) (evs : list UseTripsEvent)
    : UseTripsState * list Toast :=
  match evs with
  | [] => (s, [])
  | ev :: evs' =>
      let '(s1, t1) := useTrips_step f s ev in
      let '(s2, t2) := useTrips_run f s1 evs' in (s2, t1 ++ t2)
  end.

(** ** [TripsPage]'s render *)

(** [date.toLocaleDateString('fr-FR')] on the store's date: [null]
    throws a [TypeError]; an Invalid Date prints ["Invalid Date"]. *)
Definition store_date_fr (tz : Z) (d : option JsDateObj) : result string string :=
  match d with
  | None => Err "TypeError: Cannot read properties of null (reading 'toLocaleDateString')"
  | Some InvalidDate => Ok "Invalid Date"
  | Some (ValidDate t) => Ok (Fmt.toLocaleDateString Fmt.fr_FR tz t)
  end.

(** [{pickup?.name}] in JSX: nothing for a missing name. *)
Definition jsx_name (l : option Location.t) : string :=
  match l with Some l => default "" (Location.name l) | None => "" end.

Inductive TripsPageView :=
  | TPSpinner
  | TPError (msg : string)                          (** with "Réessayer" *)
  | TPNoTrips (subtitle : string)                   (** with "Essayer une autre recherche" *)
  | TPList (subtitle : string) (list : TripListView).

(** What follows the spinner and the error: the subtitle and the list,
    or the empty-result message. *)
Definition tripsPage_results (tz : Z) (store : BookingStore) (u : UseTripsState)
    : result TripsPageView string :=
  let? day := store_date_fr tz (bs_date store) in
  let subtitle := "De " +:+ jsx_name (bs_pickup store) +:+ " à " +:+ jsx_name (bs_dropoff store) +:+
                  " le " +:+ day in
  match ut_trips u with
  | [] => Ok (TPNoTrips subtitle)
  | trips => Ok (TPList subtitle (tripList_view trips false None))
  end.

(** [if (loading)], then [if (error)] (an empty message is falsy). *)
Definition tripsPage_view (tz : Z) (store : BookingStore) (u : UseTripsState)
    : result TripsPageView string :=
  if ut_loading u then Ok TPSpinner else
  match ut_error u with
  | Some e => if String.eqb e "" then tripsPage_results tz store u else Ok (TPError e)
  | None => tripsPage_results tz store u
  end.

(** ** [TripSearch]'s render and inputs *)

(** The select's options: "All locations", then every catalog station
    by id and name. *)
Definition tripSearch_options : list (string * string) :=
  ("", "All locations") :: map (fun st => (Station.id st, Station.name st)) ALL_STATIONS.

(** [onChange={(e) => setLocation(e.target.value)}] *)
Definition tripSearch_setLocation (v : string) (s : TripSearchForm) : TripSearchForm :=
  mkTripSearchForm v (tsf_date s).

(** [DatePicker]'s [onChange={(date) => setDate(date)}]; a cleared
    picker passes [null]. *)
Definition tripSearch_setDate (d : option Z) (s : TripSearchForm) : TripSearchForm :=
  mkTripSearchForm (tsf_location s) d.

(** date-fns' ["MMMM d, yyyy"] in the default [en-US] locale. *)
Definition en_month_wide : list string :=
  ["January"; "February"; "March"; "April"; "May"; "June"; "July"; "August"; "September";
   "October"; "November"; "December"].

Definition format_MMMM_d_yyyy (tz t : Z) : string :=
  let '(y, m, d) := civil_from_days (Day (LocalTime tz t)) in
  default "" (en_month_wide !! Z.to_nat (m - 1)) +:+ " " +:+ Fmt.decimal_Z d +:+ ", " +:+
  String.string_of_list_ascii (Fmt.padStart 4 (Fmt.decimal (Z.to_N (if 0 <? y then y else 1 - y)))).

Record TripSearchView := mkTripSearchView {
  tsv_options : list (string * string);
  tsv_location : string;
  tsv_date_text : string;       (** the picker's text, or its placeholder *)
  tsv_minDate : Z;
  tsv_button : string
}.

Definition tripSearch_view (tz now : Z) (s : TripSearchForm) : TripSearchView :=
  mkTripSearchView tripSearch_options (tsf_location s)
    (match tsf_date s with Some t => format_MMMM_d_yyyy tz t | None => "Select date" end)
    now "Search Trips".

(** ** A failed listener *)

(** The events a registered listener can deliver. *)
Definition listener_event (ev : UseTripsEvent) : bool :=
  match ev with UTSnapshot _ | UTError => true | _ => false end.

Lemma useTrips_run_dead (f : TripFilters) (s : UseTripsState) (evs : list UseTripsEvent) :
  ut_listening s = false -> forallb listener_event evs = true -> useTrips_run f s evs = (s, []).
Proof.
  intros Hl. induction evs as [|ev evs IH]; intros Hevs; [done |].
  cbn in Hevs |- *. apply andb_prop in Hevs as [Hev Hevs].
  destruct ev; try discriminate; cbn; rewrite Hl, IH by done; reflexivity.
Qed.

(** (C: the trips page after a failed subscription) Once [useTrips]'
    listener reports an error, the trips page shows "Échec du chargement
    des trajets" after exactly one toast, whatever the store holds and
    whatever the dead listener is later sent: [onSnapshot] delivers
    nothing after an error and nothing resubscribes until the filters
    change. *)
Theorem trips_page_error_sticks (tz : Z) (store : BookingStore) (f : TripFilters)
    (s : UseTripsState) (evs : list UseTripsEvent) :
  ut_listening s = true -> forallb listener_event evs = true ->
  let '(s', toasts) := useTrips_run f s (UTError :: evs) in
  tripsPage_view tz store s' = Ok (TPError "Échec du chargement des trajets") /\
  toasts = [ToastError "Impossible de charger les trajets"].
Proof.
  intros Hl Hevs. cbn [useTrips_run useTrips_step]. rewrite Hl.
  rewrite useTrips_run_dead by done. split; reflexivity.
Qed.

(** ** Witnesses *)

Lemma trips_page_error_sticks_witness :
  ut_listening (mkUseTripsState [] true None true) = true /\
  forallb listener_event [UTSnapshot ∅; UTError] = true /\
  let '(s', toasts) := useTrips_run (mkTripFilters None None None None)
                         (mkUseTripsState [] true None true) [UTError; UTSnapshot ∅; UTError] in
  tripsPage_view 3600000 initialBookingStore s' = Ok (TPError "Échec du chargement des trajets") /\
  toasts = [ToastError "Impossible de charger les trajets"].
Proof.
  split; [reflexivity |]. split; [reflexivity |].
  exact (trips_page_error_sticks 3600000 initialBookingStore (mkTripFilters None None None None)
           (mkUseTripsState [] true None true) [UTSnapshot ∅; UTError] eq_refl eq_refl).
Defined.

(** The search box: its first options, a picked day and the placeholder. *)
Example trip_search_render :
  take 2 tripSearch_options = [("", "All locations"); ("gare-de-lyon", "Gare de Lyon")] /\
  tsv_date_text (tripSearch_view 3600000 0 (tripSearch_setDate (Some 1768035600000) initialTripSearch)) =
    "January 10, 2026" /\
  tsv_date_text (tripSearch_view 3600000 0 initialTripSearch) = "Select date".
Proof. vm_compute. repeat split. Qed.

End SearchPages.
